(* ===== verification/_CoqProject ===== *)
-Q . S2P
Prelude.v
PyRuntime.v
UDPMessages.v
UDPTranslator.v
Args.v
Kernel.v
Regex.v
Client.v
ClientSpec.v
TcpClient.v
UdpClient.v
Executable.v
Process.v
KernelSpec.v
ProcessSpec.v
Reachable.v
TcpSpec.v
TcpGrammar.v
Tester.v
TestCasesUdp.v
TestCasesTcp.v
Runner.v
UdpSpec.v
UserInput.v
UdpStates.v
UdpReplies.v
Session.v
UdpEof.v
Interrupt.v
ReadAhead.v
Typing.v
TesterSpec.v
RunnerSpec.v
EndToEnd.v
Suite.v
ArgsSpec.v
HobzaCodec.v
Pty.v
HobzaTester.v
HobzaTests.v
HobzaRunner.v
HobzaSpec.v
TesterTime.v
HobzaSuite.v
StreamScript.v
StreamSuite.v
