(* ===== verification/Prelude.v ===== *)
(** * IPK25-CHAT client and its test harness: a verification development

    The repository is a chat client for the IPK25-CHAT protocol (C++, [src/src] and
    [src/include]), the Python harness that tests it as a process ([src/malashchuk-hobza-tests]), the
    earlier harness that one was made from ([src/hobza-tests]) and a script that serves one TCP
    client ([src/python-scripts]).  All are modelled, and they meet in an interface: the harnesses
    and the script are written against any program that is started, fed and observed, and the
    client's model is such a program, so that the suites and the script can be run inside the
    kernel on the client's model.

    ** Files, and the code they model

    - [Prelude]: results and a state-and-error monad, with three ways to reason about it,
      [respects] (a relation between the state before and after), [wp] (weakest preconditions) and
      [produces] (a type of states and results, kept by every operation); the tests on integers.
      [PyRuntime]: what the source uses of Python's strings, bytes and UTF-8.
    - [UDPMessages], [UDPTranslator]: the modules of the same names.  A message is one constructor
      of [UDPMessages.message] per builder; [UDPTranslator.render] is the line expected for it.
    - [Args]: args.cpp.  The constructor gives the object, an exception, or undefined behaviour
      (a flag without its value).
    - [Kernel]: the process's own resources, as far as the client uses them: one-shot timer, mask
      and buffer of standard input, standard output, what was sent.  [Regex]: the regular
      expressions of the source, with a specification by matching.
    - [Client], [TcpClient], [UdpClient]: the classes of client.cpp, tcp-client.cpp and
      udp-client.cpp.  [Client.client D] is the object with the members [D] of a derived class;
      the virtual functions are the class [Client.Virtual].  A handler returns, throws, or blocks
      in a read of a line.
    - [Process]: main.cpp and [Client::run]; one turn of the loop is one event.  [Executable]: the
      interface of a program under test and its laws.
    - [Tester]: class [ExecutableTester] over a simulated machine; [Pty]: its thread
      [buffer_stdout_fd], which reads a pseudo-terminal on darwin; [TestCasesUdp], [TestCasesTcp]:
      all test cases of testo.py; [Runner]: the decorator, [run_tests] and the command line, over
      the class [Runner.Suite] of a script's test cases and its [dump].
    - [HobzaCodec], [HobzaTester], [HobzaTests], [HobzaRunner]: hobza-tests/, as far as it differs;
      the rest of its text is that of the later harness, and its model is that of [Tester] and
      [Runner] under the names of the earlier file ([HobzaTester.ExecutableTester],
      [HobzaRunner]).  [StreamScript]: test-tcp-stream.py.

    ** What the theorems show

    - Codec ([UDPMessages], [UDPTranslator]): round trip, no ambiguity, the message id, the errors
      of the builders and of cut datagrams, totality of the translator.
    - Arguments ([ArgsSpec]): what the constructor makes of any list of options, and how it fails.
    - User input ([ClientSpec], [UserInput]): the parser decides the grammar of the commands in each
      state; a command has the protocol's effect through the whole handler, over TCP and UDP.
    - TCP ([TcpSpec], [TcpGrammar]): segmentation is invisible; what each line of the server does;
      invariant of the reachable states; the timer means a missing reply.
    - UDP ([UdpSpec], [UdpStates], [UdpReplies]): datagrams agree with the harness's builders;
      retransmissions; duplicates; a request and its answer; invariant; what the timer means; and
      three flaws, each a theorem.  [UdpEof]: a client whose input is a closed pipe never ends.
      [Interrupt]: how long an interrupted client lives, and when it lives for ever.
    - Types ([Typing]): a semantic typing of the client; all it sends and prints are octets, and
      every address it sends to is one.
    - Session ([Session]): both clients refine one automaton of the protocol's states and the causes
      of their changes, and say nothing before it is open.
    - Standard input ([ReadAhead]): of lines that arrive together only the first is handled before
      more arrives, and half a line stops the client.
    - Process ([KernelSpec], [ProcessSpec], [Reachable]): a handler keeps every relation that the
      kernel's few operations keep; the client keeps the interface's laws; the event loop is
      one schedule of a step relation whose reachable states the invariants are about.
    - Harness ([TesterSpec], [RunnerSpec]): delivery, receiving, output, setup and teardown for any
      program; verdicts, summary, registration, command line; and the flaws found.  On darwin
      ([Pty]), by induction on the steps of the threads: the output is handed on in order, and
      what is lost of it at the end.
    - Time ([TesterTime]): what each UDP test case takes at most, by a logic of costs, and so a whole
      run of either suite, on any program.
    - End to end ([EndToEnd]): harness, machine, client and codec composed; what a user types is what
      the server reads, and what the server says is what the user sees, for all texts.
    - Suites compared ([HobzaSpec]): for every program, the tests kept from hobza.py were only made
      stricter, by a relation between harness programs, [HobzaSpec.follows].
    - [Suite], [HobzaSuite], [StreamSuite]: the client passes the 76 tests of testo.py and the 39 of
      hobza.py, and does what the README reports of the stream script.

    ** Bounds and fuel

    [Process.turns] handles at most [BURST] events in one instant of the simulated machine: the
    loop never ends by itself, and an instant in which more happens is continued in the next.
    [TcpClient.process_messages] has fuel for one message per byte of the buffer and one more turn,
    and each turn removes two bytes at least, so it always ends by itself; [TcpSpec] proves the
    fuel irrelevant.  [UDPTranslator.read_loop] has fuel for every byte of the datagram;
    [translate_total] shows it never runs out.  [Kernel.getline_loop] reads at least one byte per
    turn.  In the harness time moves in quanta of 10 ms, [recvfrom] has the quanta of its timeout
    as fuel, and a call that blocks without a timeout is said to hang after [PATIENCE] quanta.
    Python's integers and the message ids of the harness are unbounded; the C++ integers wrap at
    their widths ([uint8], [uint16], [uint32]).

    ** Not modelled

    The failures of the epoll, timerfd, socket and memory calls; signal delivery inside a handler (a
    SIGINT is taken between two events); the test cases on darwin (their outcome depends on how the
    thread of [Pty] is scheduled, and on the terminal), the harness's debug output, and on Linux
    the threads that read the outputs (a read sees all that was written so far); the limit the
    system puts on a datagram's size, other than as a failing send; datagrams lost,
    reordered or repeated by the network (the theorems about UDP take any sequence of datagrams;
    the simulated machine delivers as the loopback interface does).  Parameters of the model are
    the C library's [inet_pton] and [getaddrinfo], the status of a process that dereferences a null
    pointer, and in the runner [termcolor.colored], the messages of library exceptions and
    [get_terminal_size].  In the stream script, what happens while it waits is a parameter.  The
    servers under [src/pseudo-servers], the README and the build files are not modelled. *)
From Stdlib Require Export ZArith Lia String Ascii.
From stdpp Require Export base tactics decidable option list numbers gmap.
From stdpp Require Export prelude.



(** * Notations and literals *)

Declare Scope ipk_scope.
Delimit Scope ipk_scope with ipk.

Open Scope Z_scope.
Open Scope ipk_scope.

(** A sequence of characters.  A C++ [std::string] and a Python [bytes] object hold bytes
    (integers from 0 to 255), a Python [str] holds Unicode code points. *)
Abbreviation chars := (list Z).

(** The characters of an ASCII literal. *)
Fixpoint lit (s : string) : chars :=
  match s with
  | EmptyString => []
  | String a s' => Z.of_N (N_of_ascii a) :: lit s'
  end.

Lemma lit_cons a s : lit (String a s) = Z.of_N (N_of_ascii a) :: lit s.
Proof. reflexivity. Qed.

(** Literals are compared by conversion, never displayed as numbers. *)
Arguments lit : simpl never.

Definition CR : Z := 13.
Definition LF : Z := 10.
Definition SP : Z := 32.
Definition NUL : Z := 0.
Definition CRLF : chars := [CR; LF].

(** Boolean equality of character sequences. *)
Definition chars_eqb (a b : chars) : bool := bool_decide (a = b).
Infix "=s?" := chars_eqb (at level 70, no associativity) : ipk_scope.

Lemma chars_eqb_true (a b : chars) : (a =s? b) = true <-> a = b.
Proof. apply bool_decide_eq_true. Qed.

Lemma chars_eqb_refl (a : chars) : (a =s? a) = true.
Proof. by apply chars_eqb_true. Qed.

Lemma chars_eqb_false (a b : chars) : (a =s? b) = false <-> a <> b.
Proof. apply bool_decide_eq_false. Qed.

(** * Results: a value or an error *)

Inductive result (E A : Type) : Type :=
| Ok (a : A)
| Err (e : E).
Arguments Ok {E A} a.
Arguments Err {E A} e.

#[export] Instance result_ret {E} : MRet (result E) := fun A => Ok.
#[export] Instance result_bind {E} : MBind (result E) := fun A B k m =>
  match m with
  | Ok a => k a
  | Err e => Err e
  end.

Definition is_ok {E A} (r : result E A) : bool :=
  match r with Ok _ => true | Err _ => false end.

Lemma result_bind_ok {E A B} (m : result E A) (k : A -> result E B) (b : B) :
  (m ≫= k) = Ok b <-> exists a, m = Ok a /\ k a = Ok b.
Proof.
  destruct m as [a|e]; cbn; split; intros H.
  - by exists a.
  - destruct H as (a' & [= ->] & H). exact H.
  - discriminate.
  - by destruct H as (a' & H & _).
Qed.

(** * State with errors

    A computation over a state [S] that either returns a value or stops with an error; the
    state reached is kept in both cases, as it is when a C++ or a Python function throws. *)

Definition M (S E A : Type) : Type := S -> S * result E A.

#[export] Instance M_ret {S E} : MRet (M S E) := fun A a s => (s, Ok a).
#[export] Instance M_bind {S E} : MBind (M S E) := fun A B k m s =>
  match m s with
  | (s', Ok a) => k a s'
  | (s', Err e) => (s', Err e)
  end.

Definition get {S E} : M S E S := fun s => (s, Ok s).
Definition gets {S E A} (f : S -> A) : M S E A := fun s => (s, Ok (f s)).
Definition modify {S E} (f : S -> S) : M S E unit := fun s => (f s, Ok tt).
Definition throw {S E A} (e : E) : M S E A := fun s => (s, Err e).
Definition lift {S E A} (r : result E A) : M S E A := fun s => (s, r).
Definition when {S E} (b : bool) (m : M S E unit) : M S E unit :=
  if b then m else mret tt.

Lemma bind_ok {S E A B} (m : M S E A) (k : A -> M S E B) s s' a :
  m s = (s', Ok a) -> (m ≫= k) s = k a s'.
Proof. unfold mbind, M_bind. by intros ->. Qed.

Lemma bind_err {S E A B} (m : M S E A) (k : A -> M S E B) s s' e :
  m s = (s', Err e) -> (m ≫= k) s = (s', Err e).
Proof. unfold mbind, M_bind. by intros ->. Qed.

Lemma bind_assoc {S E A B C} (m : M S E A) (f : A -> M S E B) (g : B -> M S E C) s :
  ((m ≫= f) ≫= g) s = (m ≫= fun a => f a ≫= g) s.
Proof. unfold mbind, M_bind. by destruct (m s) as [s' [a|e]]. Qed.

Lemma bind_get {S E A} (k : S -> M S E A) s : (get ≫= k) s = k s s.
Proof. done. Qed.

Lemma bind_ret {S E A B} (a : A) (k : A -> M S E B) s : (mret a ≫= k) s = k a s.
Proof. done. Qed.

(** * Closed and generic facts on lists *)

Lemma take_drop_split {A} n (l : list A) : l = take n l ++ drop n l.
Proof. by rewrite take_drop. Qed.

Lemma app_cons_assoc {A} (l : list A) x k : (l ++ [x]) ++ k = l ++ x :: k.
Proof. by rewrite <- app_assoc. Qed.

(** * Preservation

    [respects R m]: whatever [m] returns or raises, the states before and after are related.
    With [R] a preorder the property is compositional; [tac_respects] applies the rules. *)

Definition respects {S E A} (R : S -> S -> Prop) (m : M S E A) : Prop :=
  forall s, R s (fst (m s)).

Section RESPECTS.

Context {S E : Type} (R : S -> S -> Prop) `{!PreOrder R}.

Lemma respects_ret {A} (a : A) : respects R (mret a : M S E A).
Proof. intros s. apply PreOrder_Reflexive. Qed.

Lemma respects_throw {A} (e : E) : respects R (throw e : M S E A).
Proof. intros s. apply PreOrder_Reflexive. Qed.

Lemma respects_get : respects R (get : M S E S).
Proof. intros s. apply PreOrder_Reflexive. Qed.

Lemma respects_gets {A} (f : S -> A) : respects R (gets f : M S E A).
Proof. intros s. apply PreOrder_Reflexive. Qed.

Lemma respects_modify (f : S -> S) : (forall s, R s (f s)) -> respects R (modify f : M S E unit).
Proof. intros Hf s. apply Hf. Qed.

Lemma respects_bind {A B} (m : M S E A) (k : A -> M S E B) :
  respects R m -> (forall a, respects R (k a)) -> respects R (m ≫= k).
Proof.
  intros Hm Hk s. unfold mbind, M_bind. specialize (Hm s). destruct (m s) as [s' [a|e]]; cbn in *.
  - transitivity s'; [done|apply Hk].
  - done.
Qed.

Lemma respects_when (b : bool) (m : M S E unit) : respects R m -> respects R (when b m).
Proof. intros Hm. destruct b; [done|apply respects_ret]. Qed.

End RESPECTS.

Create HintDb respects.

Ltac tac_respects :=
  repeat match goal with
  | |- PreOrder _ => typeclasses eauto
  | |- forall _, _ => intro
  | |- respects _ (mbind _ _) => apply respects_bind
  | |- respects _ (mret _) => apply respects_ret
  | |- respects _ (throw _) => apply respects_throw
  | |- respects _ get => apply respects_get
  | |- respects _ (gets _) => apply respects_gets
  | |- respects _ (when _ _) => apply respects_when
  | |- respects _ (match ?x with _ => _ end) => destruct x
  | |- respects _ _ => solve [eauto 3 with respects]
  | |- respects _ (modify _) => apply respects_modify
  end.

(** * Typing

    [produces I P F m]: from a state that satisfies [I], the computation [m] keeps to states that do,
    what it returns satisfies [P] and what it raises [F].  [tac_produces] applies the rules. *)

Definition produces {S E A} (I : S -> Prop) (P : A -> Prop) (F : E -> Prop) (m : M S E A) : Prop :=
  forall s, I s -> I (fst (m s)) /\ match snd (m s) with Ok a => P a | Err e => F e end.

Section PRODUCES.

Context {S E : Type} (I : S -> Prop) (F : E -> Prop).

Lemma produces_ret {A} (P : A -> Prop) a : P a -> produces I P F (mret a : M S E A).
Proof. intros Ha s Hs. by split. Qed.

Lemma produces_throw {A} (P : A -> Prop) (e : E) : F e -> produces I P F (throw e : M S E A).
Proof. intros He s Hs. by split. Qed.

Lemma produces_modify (P : unit -> Prop) (f : S -> S) :
  (forall s, I s -> I (f s)) -> P tt -> produces I P F (modify f : M S E unit).
Proof. intros Hf HP s Hs. split; [by apply Hf|done]. Qed.

Lemma produces_bind {A B} (P : A -> Prop) (Q : B -> Prop) (m : M S E A) (k : A -> M S E B) :
  produces I P F m -> (forall a, P a -> produces I Q F (k a)) -> produces I Q F (m ≫= k).
Proof.
  intros Hm Hk s Hs. unfold mbind, M_bind. destruct (Hm s Hs) as [H1 H2].
  destruct (m s) as [s' [a|e]]; cbn in *; [by apply Hk|done].
Qed.

(** Nothing is asked of a value that carries nothing. *)
Lemma produces_then {A} (Q : A -> Prop) (m : M S E unit) (k : unit -> M S E A) :
  produces I (fun _ => True) F m -> (forall u, produces I Q F (k u)) -> produces I Q F (m ≫= k).
Proof. intros Hm Hk. eapply produces_bind; [exact Hm|]. intros u _. apply Hk. Qed.

Lemma produces_get {A} (Q : A -> Prop) (k : S -> M S E A) :
  (forall s, I s -> produces I Q F (k s)) -> produces I Q F (get ≫= k).
Proof. intros Hk s Hs. by apply Hk. Qed.

Lemma produces_when (b : bool) (m : M S E unit) :
  produces I (fun _ => True) F m -> produces I (fun _ => True) F (when b m).
Proof. intros Hm. destruct b; [done|by apply produces_ret]. Qed.

End PRODUCES.

Create HintDb typed.

Ltac tac_produces :=
  repeat match goal with
  | |- forall _, _ => intro
  | |- produces _ _ _ (get ≫= _) => apply produces_get
  | |- produces _ _ _ (mbind (A := unit) _ _) => apply produces_then
  | |- produces _ _ _ (mbind _ _) => eapply produces_bind; [solve [eauto 8 with typed]|]
  | |- produces _ _ _ (mret _) => apply produces_ret
  | |- produces _ _ _ (throw _) => apply produces_throw
  | |- produces _ _ _ (when _ _) => apply produces_when
  | |- produces _ _ _ (match ?x with _ => _ end) => destruct x eqn:?
  | |- produces _ _ _ _ => solve [eauto 10 with typed]
  | |- produces _ _ _ (modify _) => apply produces_modify; [|exact Logic.I]
  end.

(** * Weakest preconditions

    [wp m Q F s]: run from [s], the computation [m] returns with [Q] or raises with [F]. *)

Definition wp {S E A} (m : M S E A) (Q : A -> S -> Prop) (F : E -> S -> Prop) (s : S) : Prop :=
  match m s with
  | (s', Ok a) => Q a s'
  | (s', Err e) => F e s'
  end.

Section WP.

Context {S E : Type}.

Lemma wp_bind {A B} (m : M S E A) (k : A -> M S E B) Q F s :
  wp m (fun a => wp (k a) Q F) F s -> wp (m ≫= k) Q F s.
Proof. unfold wp, mbind, M_bind. by destruct (m s) as [s' [a|e]]. Qed.

Lemma wp_ret {A} (a : A) Q F s : Q a s -> wp (mret a : M S E A) Q F s.
Proof. done. Qed.

Lemma wp_throw {A} (e : E) Q F s : F e s -> wp (throw e : M S E A) Q F s.
Proof. done. Qed.

Lemma wp_get Q F s : Q s s -> wp (get : M S E S) Q F s.
Proof. done. Qed.

Lemma wp_gets {A} (f : S -> A) Q F s : Q (f s) s -> wp (gets f : M S E A) Q F s.
Proof. done. Qed.

Lemma wp_modify (f : S -> S) Q F s : Q tt (f s) -> wp (modify f : M S E unit) Q F s.
Proof. done. Qed.

Lemma wp_when (b : bool) (m : M S E unit) (Q : unit -> S -> Prop) F s :
  (b = true -> wp m Q F s) -> (b = false -> Q tt s) -> wp (when b m) Q F s.
Proof. intros H1 H0. destruct b; [by apply H1|by apply H0]. Qed.

Lemma wp_conseq {A} (m : M S E A) (Q Q' : A -> S -> Prop) (F F' : E -> S -> Prop) s :
  wp m Q F s -> (forall a s', Q a s' -> Q' a s') -> (forall e s', F e s' -> F' e s') ->
  wp m Q' F' s.
Proof. unfold wp. destruct (m s) as [s' [a|e]]; auto. Qed.

End WP.

Create HintDb wp.

(** One step of a symbolic execution; the branches are kept as equations. *)
Ltac wp_step :=
  match goal with
  | |- wp (mbind _ _) _ _ _ => apply wp_bind
  | |- wp (mret _) _ _ _ => apply wp_ret
  | |- wp (throw _) _ _ _ => apply wp_throw
  | |- wp get _ _ _ => apply wp_get
  | |- wp (gets _) _ _ _ => apply wp_gets
  | |- wp (modify _) _ _ _ => apply wp_modify
  | |- wp (when _ _) _ _ _ => apply wp_when; intro
  | |- wp (match ?x with _ => _ end) _ _ _ => destruct x eqn:?
  | |- wp (let x := _ in _) _ _ _ => cbv zeta
  end.

(** * Automation *)

#[export] Hint Resolve Forall_nil_2 Forall_cons_2 Forall_app_2 : core.

(** Linear arithmetic knows division and remainder by constants. *)
Ltac Zify.zify_post_hook ::= Z.to_euclidean_division_equations.

(** Split the boolean tests of hypotheses and goal into linear arithmetic facts. *)
Ltac bool_to_prop :=
  repeat match goal with
  | H : (_ && _)%bool = true |- _ => apply andb_true_iff in H as [? ?]
  | H : (_ && _)%bool = false |- _ => apply andb_false_iff in H as [?|?]
  | H : (_ || _)%bool = true |- _ => apply orb_true_iff in H as [?|?]
  | H : (_ || _)%bool = false |- _ => apply orb_false_iff in H as [? ?]
  | H : negb _ = true |- _ => apply negb_true_iff in H
  | H : negb _ = false |- _ => apply negb_false_iff in H
  | H : (_ <=? _) = true |- _ => apply Z.leb_le in H
  | H : (_ <=? _) = false |- _ => apply Z.leb_gt in H
  | H : (_ <? _) = true |- _ => apply Z.ltb_lt in H
  | H : (_ <? _) = false |- _ => apply Z.ltb_ge in H
  | H : (_ =? _) = true |- _ => apply Z.eqb_eq in H
  | H : (_ =? _) = false |- _ => apply Z.eqb_neq in H
  end.

(** Case analysis on the first boolean comparison of the goal. *)
Ltac case_test :=
  match goal with
  | |- context [(?a <=? ?b)] => destruct (Z.leb_spec a b)
  | |- context [(?a <? ?b)] => destruct (Z.ltb_spec a b)
  | |- context [(?a =? ?b)] => destruct (Z.eqb_spec a b)
  end.

(** Decide the comparisons of the goal that linear arithmetic settles. *)
Ltac solve_test :=
  match goal with
  | |- context [(?a <=? ?b)] =>
      first [ rewrite (proj2 (Z.leb_le a b)) by lia | rewrite (proj2 (Z.leb_gt a b)) by lia ]
  | |- context [(?a <? ?b)] =>
      first [ rewrite (proj2 (Z.ltb_lt a b)) by lia | rewrite (proj2 (Z.ltb_ge a b)) by lia ]
  | |- context [(?a =? ?b)] =>
      first [ rewrite (proj2 (Z.eqb_eq a b)) by lia | rewrite (proj2 (Z.eqb_neq a b)) by lia ]
  end.
Ltac solve_tests := repeat (solve_test; cbn [andb orb negb]).
