(* ===== verification/PyRuntime.v ===== *)
(** The part of the Python language and standard library the harness uses: exceptions, [str]
    and [bytes], UTF-8, integer conversions and string methods. *)
From Stdlib Require Import DecimalString DecimalZ.
From S2P Require Import Prelude.

(** * Exceptions *)

Inductive py_exn : Type :=
| IndexError
| OverflowError
| ValueError
| TypeError
| AttributeError
| UnicodeEncodeError
| UnicodeDecodeError
| BrokenPipeError
| OSError
| AssertionError (msg : chars)
| TimeoutError (msg : chars).

#[export] Instance py_exn_eq_dec : EqDecision py_exn.
Proof. solve_decision. Defined.

Abbreviation py := (result py_exn).

(** * Indexing and slicing (non-negative positions, the only ones the code uses) *)

Definition py_index (data : chars) (i : nat) : py Z :=
  match data !! i with
  | Some b => Ok b
  | None => Err IndexError
  end.

(** [data[i:j]]: a slice is cut at the ends, it never raises. *)
Definition py_slice (data : chars) (i j : nat) : chars := take (j - i) (drop i data).

(** * Integers and bytes *)

Definition is_byte (b : Z) : Prop := 0 <= b < 256.

(** [bytes([x])] *)
Definition py_bytes1 (x : Z) : py chars :=
  if (0 <=? x) && (x <? 256) then Ok [x] else Err ValueError.

(** [n.to_bytes(2, 'big')] *)
Definition py_to_bytes2 (n : Z) : py chars :=
  if (0 <=? n) && (n <? 65536) then Ok [n / 256; n mod 256] else Err OverflowError.

(** [int.from_bytes(bs, byteorder="big")] *)
Definition py_from_bytes (bs : chars) : Z := fold_left (fun acc b => acc * 256 + b) bs 0.

(** [str(n)], as an f-string writes an integer. *)
Definition py_str_of_int (n : Z) : chars := lit (NilZero.string_of_int (Z.to_int n)).

(** * UTF-8 *)

Definition is_scalar (c : Z) : bool :=
  ((0 <=? c) && (c <? 55296)) || ((57344 <=? c) && (c <? 1114112)).

Definition utf8_char (c : Z) : chars :=
  if c <? 128 then [c]
  else if c <? 2048 then [192 + c / 64; 128 + c mod 64]
  else if c <? 65536 then [224 + c / 4096; 128 + c / 64 mod 64; 128 + c mod 64]
  else [240 + c / 262144; 128 + c / 4096 mod 64; 128 + c / 64 mod 64; 128 + c mod 64].

(** [s.encode()]: surrogates are refused. *)
Fixpoint py_encode (s : chars) : py chars :=
  match s with
  | [] => Ok []
  | c :: s' =>
      if is_scalar c then
        bs ← py_encode s'; mret (utf8_char c ++ bs)
      else Err UnicodeEncodeError
  end.

Definition is_cont (b : Z) : bool := (128 <=? b) && (b <? 192).

(** The length of a sequence by its first byte, the code point of a sequence, and whether the
    sequence is the shortest form of a scalar value. *)
Definition utf8_2 (a b : Z) : Z := (a - 192) * 64 + (b - 128).
Definition utf8_3 (a b c : Z) : Z := (a - 224) * 4096 + (b - 128) * 64 + (c - 128).
Definition utf8_4 (a b c d : Z) : Z :=
  (a - 240) * 262144 + (b - 128) * 4096 + (c - 128) * 64 + (d - 128).

(** [b.decode()], strict. *)
Fixpoint py_decode (bs : chars) : py chars :=
  match bs with
  | [] => Ok []
  | b0 :: r0 =>
      if (0 <=? b0) && (b0 <? 128) then s ← py_decode r0; mret (b0 :: s)
      else match r0 with
      | [] => Err UnicodeDecodeError
      | b1 :: r1 =>
          if (192 <=? b0) && (b0 <? 224) then
            if is_cont b1 && (128 <=? utf8_2 b0 b1)
            then s ← py_decode r1; mret (utf8_2 b0 b1 :: s)
            else Err UnicodeDecodeError
          else match r1 with
          | [] => Err UnicodeDecodeError
          | b2 :: r2 =>
              if (224 <=? b0) && (b0 <? 240) then
                if is_cont b1 && is_cont b2 && (2048 <=? utf8_3 b0 b1 b2)
                   && is_scalar (utf8_3 b0 b1 b2)
                then s ← py_decode r2; mret (utf8_3 b0 b1 b2 :: s)
                else Err UnicodeDecodeError
              else match r2 with
              | [] => Err UnicodeDecodeError
              | b3 :: r3 =>
                  if (240 <=? b0) && (b0 <? 248) && is_cont b1 && is_cont b2 && is_cont b3
                     && (65536 <=? utf8_4 b0 b1 b2 b3) && is_scalar (utf8_4 b0 b1 b2 b3)
                  then s ← py_decode r3; mret (utf8_4 b0 b1 b2 b3 :: s)
                  else Err UnicodeDecodeError
              end
          end
      end
  end.


(** * String methods *)

Fixpoint py_startswith (s p : chars) : bool :=
  match p, s with
  | [], _ => true
  | x :: p', y :: s' => (x =? y) && py_startswith s' p'
  | _ :: _, [] => false
  end.

(** [needle in hay] *)
Fixpoint py_in (needle hay : chars) : bool :=
  py_startswith hay needle || match hay with [] => false | _ :: hay' => py_in needle hay' end.

(** [hay.count(needle)] for a non-empty needle: occurrences that do not overlap. *)
Fixpoint py_count_loop (skip : nat) (needle hay : chars) : Z :=
  match hay with
  | [] => 0
  | _ :: hay' =>
      match skip with
      | S skip' => py_count_loop skip' needle hay'
      | O => if py_startswith hay needle
             then 1 + py_count_loop (length needle - 1) needle hay'
             else py_count_loop 0 needle hay'
      end
  end.
Definition py_count (hay needle : chars) : Z := py_count_loop 0 needle hay.

(** [s.split("\n")] *)
Fixpoint py_split_lf (s : chars) : list chars :=
  match s with
  | [] => [[]]
  | c :: s' =>
      if c =? LF then [] :: py_split_lf s'
      else match py_split_lf s' with
           | l :: ls => (c :: l) :: ls
           | [] => [[c]]
           end
  end.

(** [sep.join(ls)] *)
Fixpoint py_join (sep : chars) (ls : list chars) : chars :=
  match ls with
  | [] => []
  | [l] => l
  | l :: ls' => l ++ sep ++ py_join sep ls'
  end.

(** The characters [str.strip] removes. *)
Definition is_py_space (c : Z) : bool :=
  ((9 <=? c) && (c <=? 13)) || ((28 <=? c) && (c <=? 32)) || (c =? 133) || (c =? 160)
  || (c =? 5760) || ((8192 <=? c) && (c <=? 8202)) || (c =? 8232) || (c =? 8233) || (c =? 8239)
  || (c =? 8287) || (c =? 12288).

Fixpoint py_lstrip (s : chars) : chars :=
  match s with
  | c :: s' => if is_py_space c then py_lstrip s' else s
  | [] => []
  end.
Definition py_strip (s : chars) : chars := rev (py_lstrip (rev (py_lstrip s))).

(** [s.lower()] on the letters of ASCII; no other character has one of them as its lower case
    but the Kelvin sign, whose lower case is k. *)
Definition py_lower (s : chars) : chars :=
  map (fun c => if (65 <=? c) && (c <=? 90) then c + 32 else c) s.

(** [textwrap.dedent(s)]: blank lines lose their blanks, the others their common margin. *)
Definition is_blank (c : Z) : bool := (c =? 32) || (c =? 9).
Fixpoint margin_of (l : chars) : chars :=
  match l with c :: l' => if is_blank c then c :: margin_of l' else [] | [] => [] end.
Fixpoint common_prefix (a b : chars) : chars :=
  match a, b with
  | x :: a', y :: b' => if x =? y then x :: common_prefix a' b' else []
  | _, _ => []
  end.
Definition py_dedent (s : chars) : chars :=
  let ls := map (fun l => if forallb is_blank l then [] else l) (py_split_lf s) in
  let margins := map margin_of (filter (fun l => l <> []) ls) in
  let margin := match margins with [] => [] | m :: ms => fold_left common_prefix ms m end in
  py_join [LF] (map (fun l => match l with [] => [] | _ => drop (length margin) l end) ls).

(** Text read from a pipe: UTF-8, with universal newlines.  The lines [readline] returns, and
    the bytes it has not returned yet; a last unfinished line is returned at the end of the
    stream, and nothing more after a line that is not UTF-8. *)
Fixpoint raw_lines (s : chars) (line : chars) : list chars * chars :=
  match s with
  | [] => ([], line)
  | c :: s' =>
      if c =? LF then let (ls, r) := raw_lines s' [] in ((line ++ [LF]) :: ls, r)
      else if c =? CR then
        match s' with
        | [] => ([], line ++ [CR])
        | c' :: s'' =>
            if c' =? LF then let (ls, r) := raw_lines s'' [] in ((line ++ [LF]) :: ls, r)
            else let (ls, r) := raw_lines s' [] in ((line ++ [LF]) :: ls, r)
        end
      else raw_lines s' (line ++ [c])
  end.

Fixpoint decode_lines (ls : list chars) : list chars :=
  match ls with
  | [] => []
  | l :: ls' => match py_decode l with Ok s => s :: decode_lines ls' | Err _ => [] end
  end.

Definition text_lines (eof : bool) (s : chars) : list chars :=
  let (ls, r) := raw_lines s [] in
  decode_lines (if eof then match r with
                            | [] => ls
                            | _ => ls ++ [map (fun c => if c =? CR then LF else c) r]
                            end
                else ls).

(** A string Python can encode. *)
Definition encodable (s : chars) : Prop := Forall (fun c => is_scalar c = true) s.
(** A string with no NUL character. *)
Definition no_nul (s : chars) : Prop := Forall (fun c => c <> NUL) s.

(** * Facts *)

Lemma lit_app (a b : string) : lit (String.append a b) = lit a ++ lit b.
Proof.
  induction a as [|c a IH]; [done|]. change (lit (String c (String.append a b)) = lit (String c a) ++ lit b).
  by rewrite !lit_cons, IH.
Qed.

Lemma lit_scalar (s : string) : encodable (lit s).
Proof.
  induction s as [|a s IH]; constructor; [|done].
  pose proof (N_ascii_bounded a). unfold is_scalar.
  apply orb_true_iff; left. apply andb_true_iff. split; [apply Z.leb_le|apply Z.ltb_lt]; lia.
Qed.

Lemma py_encode_app (s t : chars) :
  py_encode (s ++ t) = (a ← py_encode s; b ← py_encode t; mret (a ++ b)).
Proof.
  induction s as [|c s IH]; cbn.
  - by destruct (py_encode t).
  - destruct (is_scalar c); [|done]. rewrite IH.
    destruct (py_encode s); cbn; [|done]. destruct (py_encode t); cbn; [|done].
    by rewrite app_assoc.
Qed.

Lemma py_encode_total (s : chars) : encodable s <-> exists bs, py_encode s = Ok bs.
Proof.
  induction s as [|c s IH]; cbn.
  - split; [by exists []|constructor].
  - unfold encodable in *. rewrite Forall_cons, IH. destruct (is_scalar c); cbn.
    + split; [intros [_ [bs ->]]; by eexists|]. intros [bs H].
      destruct (py_encode s); [by eauto|done].
    + split; [intros [? _]; done|intros [? ?]; done].
Qed.

Lemma is_scalar_true c :
  is_scalar c = true <-> 0 <= c < 55296 \/ 57344 <= c < 1114112.
Proof. unfold is_scalar. rewrite orb_true_iff, !andb_true_iff, !Z.leb_le, !Z.ltb_lt. lia. Qed.

(** Every byte of an encoded character is a byte, and none is NUL unless the character is. *)
Lemma utf8_char_bytes c : is_scalar c = true -> Forall is_byte (utf8_char c).
Proof.
  rewrite is_scalar_true. intros Hc. unfold utf8_char, is_byte.
  repeat case_test; repeat constructor; lia.
Qed.

Lemma utf8_char_no_nul c : is_scalar c = true -> c <> NUL -> no_nul (utf8_char c).
Proof.
  rewrite is_scalar_true. intros Hc Hn. unfold utf8_char, no_nul, NUL in *.
  repeat case_test; repeat constructor; lia.
Qed.

Lemma utf8_char_length c : (1 <= length (utf8_char c))%nat.
Proof. unfold utf8_char. repeat case_test; simpl; lia. Qed.

Lemma py_encode_bytes s bs : py_encode s = Ok bs -> Forall is_byte bs.
Proof.
  revert bs. induction s as [|c s IH]; cbn; intros bs H; [by simplify_eq|].
  destruct (is_scalar c) eqn:Hc; [|done].
  apply result_bind_ok in H as (b & Hb & [= <-]).
  apply Forall_app; eauto using utf8_char_bytes.
Qed.

Lemma py_encode_no_nul s bs : no_nul s -> py_encode s = Ok bs -> no_nul bs.
Proof.
  unfold no_nul. revert bs. induction s as [|c s IH]; cbn; intros bs Hn H; [by simplify_eq|].
  apply Forall_cons in Hn as [Hc Hs]. destruct (is_scalar c) eqn:Hsc; [|done].
  apply result_bind_ok in H as (b & Hb & [= <-]).
  apply Forall_app; split; [by apply utf8_char_no_nul|eauto].
Qed.

(** Decoding reads back one encoded character. *)
Lemma py_decode_char c rest s :
  is_scalar c = true -> py_decode rest = Ok s -> py_decode (utf8_char c ++ rest) = Ok (c :: s).
Proof.
  intros Hsc Hrest. pose proof Hsc as Hc. apply is_scalar_true in Hc. unfold utf8_char.
  case_test; [|case_test; [|case_test]]; cbn [app py_decode].
  - solve_tests. by rewrite Hrest.
  - unfold is_cont. replace (utf8_2 _ _) with c by (unfold utf8_2; lia).
    solve_tests. by rewrite Hrest.
  - unfold is_cont. replace (utf8_3 _ _ _) with c by (unfold utf8_3; lia).
    rewrite Hsc. solve_tests. by rewrite Hrest.
  - unfold is_cont. replace (utf8_4 _ _ _ _) with c by (unfold utf8_4; lia).
    rewrite Hsc. solve_tests. by rewrite Hrest.
Qed.

(** UTF-8 round trip: decoding an encoded string gives it back. *)
Lemma py_decode_encode s bs : py_encode s = Ok bs -> py_decode bs = Ok s.
Proof.
  revert bs. induction s as [|c s IH]; cbn; intros bs H; [by simplify_eq|].
  destruct (is_scalar c) eqn:Hc; [|done].
  apply result_bind_ok in H as (b & Hb & [= <-]).
  apply py_decode_char; auto.
Qed.

Lemma py_encode_inj s t bs : py_encode s = Ok bs -> py_encode t = Ok bs -> s = t.
Proof. intros ?%py_decode_encode ?%py_decode_encode. congruence. Qed.

Lemma py_bytes1_ok n : 0 <= n < 256 -> py_bytes1 n = Ok [n].
Proof. intros H. unfold py_bytes1. by solve_tests. Qed.

Lemma py_to_bytes2_ok n : 0 <= n < 65536 -> py_to_bytes2 n = Ok [n / 256; n mod 256].
Proof. intros H. unfold py_to_bytes2. by solve_tests. Qed.

Lemma py_to_bytes2_overflow n : ~ (0 <= n < 65536) -> py_to_bytes2 n = Err OverflowError.
Proof. intros H. unfold py_to_bytes2. repeat case_test; simpl; try done; lia. Qed.

Lemma py_from_to_bytes2 n bs : py_to_bytes2 n = Ok bs -> py_from_bytes bs = n.
Proof.
  unfold py_to_bytes2. destruct (_ && _)%bool; [|done]. intros [= <-].
  unfold py_from_bytes. cbn [fold_left]. lia.
Qed.

(** * ASCII text *)

Definition ascii_text (s : chars) : Prop := Forall (fun c => 0 <= c < 128) s.

Lemma ascii_encodable s : ascii_text s -> encodable s.
Proof. intros H. eapply Forall_impl; [exact H|]. cbn. intros c Hc. apply is_scalar_true. lia. Qed.

Lemma py_encode_ascii s : ascii_text s -> py_encode s = Ok s.
Proof.
  induction 1 as [|c s Hc _ IH]; [done|]. cbn.
  assert (is_scalar c = true) as -> by (apply is_scalar_true; lia).
  rewrite IH. unfold utf8_char. by solve_tests.
Qed.
