(* ===== verification/UDPMessages.v ===== *)
(** The UDP message builders of [malashchuk-hobza-tests/UDPMessages.py].

    A builder returns the bytes of one datagram, or the exception Python raises for a value
    that does not fit: [OverflowError] for a message id outside 16 bits, [ValueError] for a
    result outside 8 bits, [UnicodeEncodeError] for a surrogate in a string. *)
From S2P Require Import Prelude PyRuntime.

(** [s.encode() + b'\x00'] *)
Definition encode_z (s : chars) : py chars := bs ← py_encode s; mret (bs ++ [NUL]).

Definition confirm (ref_message_id : chars) : py chars :=
  t ← py_bytes1 0; mret (t ++ ref_message_id).

Definition reply (message_id result : Z) (ref_message_id message_contents : chars) : py chars :=
  message_id_bytes ← py_to_bytes2 message_id;
  result_byte ← py_bytes1 result;
  message_contents_bytes ← encode_z message_contents;
  t ← py_bytes1 1;
  mret (t ++ message_id_bytes ++ result_byte ++ ref_message_id ++ message_contents_bytes).

Definition auth (message_id : Z) (username display_name secret : chars) : py chars :=
  message_id_bytes ← py_to_bytes2 message_id;
  username_bytes ← encode_z username;
  display_name_bytes ← encode_z display_name;
  secret_bytes ← encode_z secret;
  t ← py_bytes1 2;
  mret (t ++ message_id_bytes ++ username_bytes ++ display_name_bytes ++ secret_bytes).

Definition join (message_id : Z) (channel_id display_name : chars) : py chars :=
  message_id_bytes ← py_to_bytes2 message_id;
  channel_id_bytes ← encode_z channel_id;
  display_name_bytes ← encode_z display_name;
  t ← py_bytes1 3;
  mret (t ++ message_id_bytes ++ channel_id_bytes ++ display_name_bytes).

Definition msg (message_id : Z) (display_name message_contents : chars) : py chars :=
  message_id_bytes ← py_to_bytes2 message_id;
  display_name_bytes ← encode_z display_name;
  message_contents_bytes ← encode_z message_contents;
  t ← py_bytes1 4;
  mret (t ++ message_id_bytes ++ display_name_bytes ++ message_contents_bytes).

Definition err (message_id : Z) (display_name message_contents : chars) : py chars :=
  message_id_bytes ← py_to_bytes2 message_id;
  display_name_bytes ← encode_z display_name;
  message_contents_bytes ← encode_z message_contents;
  t ← py_bytes1 254;
  mret (t ++ message_id_bytes ++ display_name_bytes ++ message_contents_bytes).

Definition bye (message_id : Z) (display_name : chars) : py chars :=
  display_name_bytes ← encode_z display_name;
  t ← py_bytes1 255;
  message_id_bytes ← py_to_bytes2 message_id;
  mret (t ++ message_id_bytes ++ display_name_bytes).

Definition ping (message_id : Z) : py chars :=
  t ← py_bytes1 253;
  message_id_bytes ← py_to_bytes2 message_id;
  mret (t ++ message_id_bytes).

(** * Specification: the messages of the protocol

    One constructor per builder, with the builder's arguments. *)

Inductive message : Type :=
| MConfirm (ref_message_id : chars)
| MReply (message_id result : Z) (ref_message_id message_contents : chars)
| MAuth (message_id : Z) (username display_name secret : chars)
| MJoin (message_id : Z) (channel_id display_name : chars)
| MMsg (message_id : Z) (display_name message_contents : chars)
| MErr (message_id : Z) (display_name message_contents : chars)
| MBye (message_id : Z) (display_name : chars)
| MPing (message_id : Z).

Definition build (m : message) : py chars :=
  match m with
  | MConfirm ref => confirm ref
  | MReply i r ref c => reply i r ref c
  | MAuth i u d s => auth i u d s
  | MJoin i ch d => join i ch d
  | MMsg i d c => msg i d c
  | MErr i d c => err i d c
  | MBye i d => bye i d
  | MPing i => ping i
  end.

(** The type byte, the message id field and the strings of a message. *)
Definition type_byte (m : message) : Z :=
  match m with
  | MConfirm _ => 0 | MReply _ _ _ _ => 1 | MAuth _ _ _ _ => 2 | MJoin _ _ _ => 3
  | MMsg _ _ _ => 4 | MPing _ => 253 | MErr _ _ _ => 254 | MBye _ _ => 255
  end.

Definition id_field (m : message) : option Z :=
  match m with
  | MConfirm _ => None
  | MReply i _ _ _ | MAuth i _ _ _ | MJoin i _ _ | MMsg i _ _ | MErr i _ _ | MBye i _
  | MPing i => Some i
  end.

Definition strings (m : message) : list chars :=
  match m with
  | MConfirm _ | MPing _ => []
  | MReply _ _ _ c => [c]
  | MAuth _ u d s => [u; d; s]
  | MJoin _ ch d => [ch; d]
  | MMsg _ d c | MErr _ d c => [d; c]
  | MBye _ d => [d]
  end.

(** The bytes between the message id and the strings, and the field they come from. *)
Definition reply_fields (m : message) : chars :=
  match m with MReply _ r ref _ => r :: ref | _ => [] end.

Definition id_ok (m : message) : Prop :=
  match id_field m with Some i => 0 <= i < 65536 | None => True end.

Definition result_ok (m : message) : Prop :=
  match m with MReply _ r _ _ => 0 <= r < 256 | _ => True end.

Definition ref_of (m : message) : chars :=
  match m with MConfirm ref | MReply _ _ ref _ => ref | _ => [] end.

(** A message whose reference id is the two bytes the callers pass. *)
Definition ref_ok (m : message) : Prop :=
  match m with
  | MConfirm ref | MReply _ _ ref _ => length ref = 2%nat /\ Forall is_byte ref
  | _ => True
  end.

(** The messages a builder accepts, and those that keep their fields apart on the wire. *)
Definition buildable (m : message) : Prop :=
  id_ok m /\ result_ok m /\ Forall encodable (strings m).

Definition well_formed (m : message) : Prop :=
  buildable m /\ ref_ok m /\ Forall no_nul (strings m).

(** The layout of every datagram: type, id, fixed fields, then NUL-terminated strings. *)
Definition id_bytes (m : message) : chars :=
  match id_field m with Some i => [i / 256; i mod 256] | None => ref_of m end.

Fixpoint encode_all (ss : list chars) : py chars :=
  match ss with
  | [] => Ok []
  | s :: ss' => b ← encode_z s; bs ← encode_all ss'; mret (b ++ bs)
  end.

(** * The builders against the layout *)

Lemma encode_z_ok s bs : py_encode s = Ok bs -> encode_z s = Ok (bs ++ [NUL]).
Proof. unfold encode_z. by intros ->. Qed.

Lemma encode_z_inv s z :
  encode_z s = Ok z <-> exists bs, py_encode s = Ok bs /\ z = bs ++ [NUL].
Proof.
  unfold encode_z. rewrite result_bind_ok.
  split; [intros (b & ? & [= <-])|intros (b & ? & ->)]; by exists b.
Qed.

Lemma encode_all_total ss : Forall encodable ss <-> exists bs, encode_all ss = Ok bs.
Proof.
  induction ss as [|s ss IH]; cbn; [split; [by eexists|constructor]|].
  rewrite Forall_cons, IH, py_encode_total. unfold encode_z.
  destruct (py_encode s) as [b|e]; cbn.
  - destruct (encode_all ss); cbn; naive_solver.
  - naive_solver.
Qed.

Lemma build_layout m tail :
  id_ok m -> result_ok m -> encode_all (strings m) = Ok tail ->
  build m = Ok (type_byte m :: id_bytes m ++ reply_fields m ++ tail).
Proof.
  destruct m; cbn; intros Hid Hr Ht;
    unfold confirm, reply, auth, join, msg, err, bye, ping;
    rewrite ?py_to_bytes2_ok by done; cbn in *;
    repeat match goal with
    | H : context [encode_z ?s] |- _ => destruct (encode_z s); cbn in *; [|done]
    end; injection Ht as <-; rewrite ?app_nil_r; try done.
  rewrite py_bytes1_ok by done. done.
Qed.

Lemma build_inv m bs :
  build m = Ok bs -> id_ok m /\ result_ok m /\ exists tail, encode_all (strings m) = Ok tail.
Proof.
  assert (Hto : forall n b, py_to_bytes2 n = Ok b -> 0 <= n < 65536).
  { unfold py_to_bytes2. intros n b. destruct (_ && _)%bool eqn:E; [|done]. by bool_to_prop. }
  assert (Hb : forall n b, py_bytes1 n = Ok b -> 0 <= n < 256).
  { unfold py_bytes1. intros n b. destruct (_ && _)%bool eqn:E; [|done]. by bool_to_prop. }
  destruct m; cbn; intros H;
    unfold confirm, reply, auth, join, msg, err, bye, ping in H;
    repeat (apply result_bind_ok in H as (? & ? & H)); unfold id_ok, result_ok; cbn;
    repeat match goal with H : encode_z _ = Ok _ |- _ => rewrite H end; cbn;
    refine (conj _ (conj _ _)); first [exact I | eapply Hto; eassumption
      | eapply Hb; eassumption | by eexists].
Qed.

(** A builder succeeds exactly on the values that fit their fields. *)
Lemma build_total m : buildable m <-> exists bs, build m = Ok bs.
Proof.
  unfold buildable. rewrite encode_all_total. split.
  - intros (? & ? & [tail ?]). eexists. by apply build_layout.
  - intros [bs H]. by apply build_inv in H.
Qed.

Lemma encode_all_bytes ss bs : encode_all ss = Ok bs -> Forall is_byte bs.
Proof.
  revert bs. induction ss as [|s ss IH]; cbn; intros bs H; [by simplify_eq|].
  apply result_bind_ok in H as (z & (b & Hb & ->)%encode_z_inv & H).
  apply result_bind_ok in H as (r & Hr & [= <-]).
  apply Forall_app; split; [|by apply IH].
  apply Forall_app; split; [by eapply py_encode_bytes|].
  repeat constructor; unfold NUL; lia.
Qed.

(** Every datagram is made of bytes. *)
Lemma build_bytes m bs : ref_ok m -> build m = Ok bs -> Forall is_byte bs.
Proof.
  intros Href H. pose proof H as (Hid & Hr & [tail Ht])%build_inv.
  rewrite (build_layout m tail) in H by done. injection H as <-.
  apply encode_all_bytes in Ht. unfold id_bytes, id_ok, is_byte in *.
  destruct m; cbn in *; repeat constructor; destruct_and?; try done; try lia;
    repeat apply Forall_app_2; try done; repeat constructor; try done; try lia.
Qed.

(** * The format is unambiguous *)

(** A string field: its encoding and the reader's step over it. *)
Lemma encode_all_cons s ss bs :
  encode_all (s :: ss) = Ok bs ->
  exists b r, py_encode s = Ok b /\ encode_all ss = Ok r /\ bs = b ++ NUL :: r.
Proof.
  cbn. intros H. apply result_bind_ok in H as (z & (b & Hb & ->)%encode_z_inv & H).
  apply result_bind_ok in H as (r & Hr & [= <-]). exists b, r. by rewrite <- app_assoc.
Qed.

Lemma bytes2_inv {P : Z -> Prop} (ref : chars) :
  length ref = 2%nat /\ Forall P ref -> exists a b, ref = [a; b] /\ P a /\ P b.
Proof.
  intros [Hl Hf]. destruct ref as [|a [|b [|]]]; try discriminate.
  exists a, b. by apply Forall_cons in Hf as [? [? ?]%Forall_cons].
Qed.

Lemma build_well_formed m :
  well_formed m -> exists tail, encode_all (strings m) = Ok tail
    /\ build m = Ok (type_byte m :: id_bytes m ++ reply_fields m ++ tail).
Proof.
  intros ((Hid & Hr & [tail Ht]%encode_all_total) & _). exists tail.
  split; [done|by apply build_layout].
Qed.

(** Two NUL-terminated fields at the head of the same bytes are the same field. *)
Lemma no_nul_split (b1 b2 r1 r2 : chars) :
  no_nul b1 -> no_nul b2 -> b1 ++ NUL :: r1 = b2 ++ NUL :: r2 -> b1 = b2 /\ r1 = r2.
Proof.
  revert b2. induction b1 as [|x b1 IH]; intros [|y b2] H1 H2 H; cbn in H.
  - by injection H.
  - injection H as <- _. by apply Forall_cons in H2 as [? _].
  - injection H as -> _. by apply Forall_cons in H1 as [? _].
  - injection H as -> H. apply Forall_cons in H1 as [_ H1], H2 as [_ H2].
    by destruct (IH b2 H1 H2 H) as [-> ->].
Qed.

Lemma encode_all_inj ss ts bs :
  Forall no_nul ss -> Forall no_nul ts -> length ss = length ts ->
  encode_all ss = Ok bs -> encode_all ts = Ok bs -> ss = ts.
Proof.
  revert ts bs. induction ss as [|s ss IH]; intros [|t ts] bs Hs Ht Hl H1 H2;
    try discriminate; [done|].
  apply encode_all_cons in H1 as (b1 & r1 & E1 & H1 & ->).
  apply encode_all_cons in H2 as (b2 & r2 & E2 & H2 & H).
  apply Forall_cons in Hs as [Hs Hss], Ht as [Ht Hts].
  pose proof (py_encode_no_nul _ _ Hs E1) as Hb1. pose proof (py_encode_no_nul _ _ Ht E2) as Hb2.
  destruct (no_nul_split b1 b2 r1 r2 Hb1 Hb2 H) as [-> ->].
  f_equal; [by eapply py_encode_inj|]. eapply IH; eauto.
Qed.

(** The wire format is unambiguous: two well-formed messages with the same bytes are the
    same message. *)
Theorem build_inj m1 m2 bs :
  well_formed m1 -> well_formed m2 -> build m1 = Ok bs -> build m2 = Ok bs -> m1 = m2.
Proof.
  intros H1 H2 B1 B2. destruct (build_well_formed m1 H1) as (t1 & E1 & B1').
  destruct (build_well_formed m2 H2) as (t2 & E2 & B2').
  rewrite B1 in B1'. rewrite B2 in B2'. injection B1' as ->. injection B2' as Ht H.
  destruct H1 as ((Hid1 & _) & Href1 & N1), H2 as ((Hid2 & _) & Href2 & N2).
  unfold id_ok in *.
  destruct m1, m2; try discriminate Ht; cbn in *;
    try (apply bytes2_inv in Href1 as (? & ? & -> & _));
    try (apply bytes2_inv in Href2 as (? & ? & -> & _)); cbn in *; injection H as; subst;
    try (pose proof (encode_all_inj _ _ _ N1 N2 eq_refl E1 E2) as Hs; injection Hs as; subst);
    f_equal; lia.
Qed.

Example build_inj_witness : MJoin 7 (lit "ch") (lit "d") = MJoin 7 (lit "ch") (lit "d").
Proof.
  apply (build_inj _ _ [3; 0; 7; 99; 104; 0; 100; 0]); try reflexivity;
    repeat split; try (cbn; lia); repeat constructor; try (vm_compute; congruence).
Defined.

(** * Errors *)

Lemma encode_all_error ss :
  ~ Forall encodable ss -> encode_all ss = Err UnicodeEncodeError.
Proof.
  assert (He : forall s e, py_encode s = Err e -> e = UnicodeEncodeError).
  { induction s as [|c s IH]; cbn; intros e H; [done|].
    destruct (is_scalar c); [|by injection H]. destruct (py_encode s); [done|].
    injection H as ->. by apply IH. }
  induction ss as [|s ss IH]; cbn; intros H; [by destruct H|]. unfold encode_z.
  destruct (py_encode s) as [b|e] eqn:E; cbn; [|by rewrite (He s e)].
  rewrite IH; [done|]. intros H'. apply H. constructor; [|done].
  apply py_encode_total. by exists b.
Qed.

(** A builder's string fields, one after the other, are [encode_all] of them. *)
Lemma encode_z_all s ss :
  encode_all (s :: ss) = Err UnicodeEncodeError ->
  encode_z s = Err UnicodeEncodeError
  \/ exists b, encode_z s = Ok b /\ encode_all ss = Err UnicodeEncodeError.
Proof.
  cbn. destruct (encode_z s) as [b|e]; cbn; [|intros [= ->]; by left].
  intros H. right. exists b. split; [done|]. by destruct (encode_all ss).
Qed.

(** C35. The builders' errors: a message id outside 16 bits raises [OverflowError], a result
    outside 8 bits [ValueError], a string with a surrogate [UnicodeEncodeError], in that order
    ([bye] encodes its string before the id). *)
Theorem build_errors m :
  (~ id_ok m -> (forall i d, m = MBye i d -> encodable d) -> build m = Err OverflowError) /\
  (id_ok m -> ~ result_ok m -> build m = Err ValueError) /\
  (id_ok m -> result_ok m -> ~ Forall encodable (strings m) ->
     build m = Err UnicodeEncodeError).
Proof.
  split; [|split].
  - intros Hid Hbye. destruct m as [| | | | | |i d|]; unfold id_ok in Hid; cbn in Hid |- *;
      unfold reply, auth, join, msg, err, bye, ping; try done;
      try by rewrite py_to_bytes2_overflow.
    destruct (proj1 (py_encode_total d) (Hbye i d eq_refl)) as [b Hb].
    rewrite (encode_z_ok d b Hb). cbn. by rewrite py_to_bytes2_overflow.
  - intros Hid Hr. destruct m; unfold result_ok, id_ok in *; cbn in Hid, Hr |- *; try done.
    unfold reply. rewrite py_to_bytes2_ok by done. cbn. unfold py_bytes1.
    repeat case_test; cbn; try done. lia.
  - intros Hid Hr He%encode_all_error.
    destruct m; unfold result_ok, id_ok in *; cbn in Hid, Hr; cbn [strings] in He; try done;
      cbn [build]; unfold reply, auth, join, msg, err, bye, ping;
      rewrite ?py_to_bytes2_ok, ?py_bytes1_ok by done; cbn [mbind result_bind];
      repeat (apply encode_z_all in He as [Hz|(? & Hz & He)]; rewrite Hz; clear Hz; cbn [mbind result_bind];
        try done).
Qed.

Example build_errors_witness :
  build (MPing 65536) = Err OverflowError /\
  build (MReply 0 256 [0; 0] []) = Err ValueError /\
  build (MBye 1 [55296]) = Err UnicodeEncodeError.
Proof.
  split; [|split].
  - apply (build_errors (MPing 65536)); [cbn; lia|discriminate].
  - apply (build_errors (MReply 0 256 [0; 0] [])); [cbn; lia|cbn; lia].
  - apply (build_errors (MBye 1 [55296])); [cbn; lia|done|].
    intros [H _]%Forall_cons. by apply Forall_cons in H as [H _].
Defined.
