(* ===== verification/UDPTranslator.v ===== *)
(** The reader of UDP datagrams of [malashchuk-hobza-tests/UDPTranslator.py]: the cursor
    functions, [getMessageId] and [translateMessage], against the builders of [UDPMessages]. *)
From S2P Require Import Prelude PyRuntime UDPMessages.

Definition MESSAGE_TYPES : gmap Z chars :=
  list_to_map
    [ (0, lit "CONFIRM"); (1, lit "REPLY"); (2, lit "AUTH"); (3, lit "JOIN");
      (4, lit "MSG"); (254, lit "ERR"); (255, lit "BYE") ].

Definition read_byte (data : chars) (pointer : nat) : py (Z * nat) :=
  byte ← py_index data pointer; mret (byte, (pointer + 1)%nat).

Definition read_bytes (data : chars) (pointer num_bytes : nat) : chars * nat :=
  (py_slice data pointer (pointer + num_bytes), (pointer + num_bytes)%nat).

Definition getMessageId (data : chars) : chars := (read_bytes data 1 2).1.

(** The [while True] loop; [None] is the loop out of fuel, which [read_loop_total] excludes. *)
Fixpoint read_loop (fuel : nat) (data : chars) (pointer : nat) (string : chars)
    : option (py (chars * nat)) :=
  match fuel with
  | O => None
  | S fuel' =>
      match read_byte data pointer with
      | Err e => Some (Err e)
      | Ok (byte, pointer) =>
          if byte =? 0 then Some (Ok (string, pointer))
          else match py_bytes1 byte with
               | Err e => Some (Err e)
               | Ok b => read_loop fuel' data pointer (string ++ b)
               end
      end
  end.

Definition read_variable_length_string (data : chars) (pointer : nat) : py (chars * nat) :=
  match read_loop (S (length data)) data pointer [] with
  | Some r => '(string, pointer) ← r; s ← py_decode string; mret (s, pointer)
  | None => Err OSError
  end.

(** The result is [None] where the function falls off its end. *)
Definition translateMessage (data : chars) : py (option chars) :=
  '(message_type, pointer) ← read_byte data 0;
  match MESSAGE_TYPES !! message_type with
  | None => mret (Some (lit "Unknown message type"))
  | Some _ =>
      let '(message_id, pointer) := read_bytes data pointer 2 in
      if message_type =? 0 then
        let '(ref_message_id, pointer) := read_bytes data pointer 2 in
        mret (Some (lit "REPLY IS " ++ py_str_of_int (py_from_bytes ref_message_id) ++ CRLF))
      else if message_type =? 1 then
        '(result, pointer) ← read_byte data pointer;
        let '(ref_message_id, pointer) := read_bytes data pointer 2 in
        '(message_contents, pointer) ← read_variable_length_string data pointer;
        mret (Some (lit "REPLY " ++ lit (if result =? 1 then "OK" else "NOK") ++ lit " IS "
          ++ py_str_of_int (py_from_bytes ref_message_id) ++ lit " AS " ++ message_contents
          ++ CRLF))
      else if message_type =? 2 then
        '(username, pointer) ← read_variable_length_string data pointer;
        '(display_name, pointer) ← read_variable_length_string data pointer;
        '(secret, pointer) ← read_variable_length_string data pointer;
        mret (Some (lit "AUTH IS " ++ username ++ lit " AS " ++ display_name ++ lit " USING "
          ++ secret ++ CRLF))
      else if message_type =? 3 then
        '(channel_id, pointer) ← read_variable_length_string data pointer;
        '(display_name, pointer) ← read_variable_length_string data pointer;
        mret (Some (lit "JOIN IS " ++ channel_id ++ lit " AS " ++ display_name ++ CRLF))
      else if message_type =? 4 then
        '(display_name, pointer) ← read_variable_length_string data pointer;
        '(message_contents, pointer) ← read_variable_length_string data pointer;
        mret (Some (lit "MSG FROM " ++ display_name ++ lit " IS " ++ message_contents ++ CRLF))
      else if message_type =? 254 then
        '(display_name, pointer) ← read_variable_length_string data pointer;
        '(message_contents, pointer) ← read_variable_length_string data pointer;
        mret (Some (lit "ERR FROM " ++ display_name ++ lit " IS " ++ message_contents ++ CRLF))
      else if message_type =? 255 then
        '(display_name, pointer) ← read_variable_length_string data pointer;
        mret (Some (lit "BYE FROM " ++ display_name ++ CRLF))
      else mret None
  end.

(** * The cursor functions *)

Lemma read_byte_at (l r : chars) b : read_byte (l ++ b :: r) (length l) = Ok (b, S (length l)).
Proof.
  unfold read_byte, py_index. rewrite list_lookup_middle by done. cbn.
  by rewrite Nat.add_1_r.
Qed.

Lemma read_byte_end (data : chars) p : (length data <= p)%nat -> read_byte data p = Err IndexError.
Proof. intros H. unfold read_byte, py_index. by rewrite lookup_ge_None_2 by lia. Qed.

Lemma read_bytes2_at (l r : chars) a b :
  read_bytes (l ++ a :: b :: r) (length l) 2 = ([a; b], (length l + 2)%nat).
Proof.
  unfold read_bytes, py_slice. rewrite drop_app_length.
  replace (length l + 2 - length l)%nat with 2%nat by lia. done.
Qed.

(** The loop reads up to the first NUL, or raises [IndexError] when there is none: with fuel
    for the bytes left it never runs out. *)
Lemma read_loop_found fuel l bs r acc :
  no_nul bs -> Forall is_byte bs -> (length bs < fuel)%nat ->
  read_loop fuel (l ++ bs ++ NUL :: r) (length l) acc
  = Some (Ok (acc ++ bs, (length l + length bs + 1)%nat)).
Proof.
  revert fuel l acc. induction bs as [|b bs IH]; intros fuel l acc Hn Hb Hf;
    (destruct fuel as [|fuel]; [cbn in Hf; lia|]); cbn -[read_byte py_bytes1].
  - rewrite read_byte_at. cbn. rewrite app_nil_r. do 3 f_equal. lia.
  - apply Forall_cons in Hn as [Hn0 Hn], Hb as [Hb0 Hb].
    rewrite (read_byte_at l (bs ++ NUL :: r)). unfold NUL in Hn0, Hb0.
    destruct (Z.eqb_spec b 0); [done|]. rewrite py_bytes1_ok by done.
    cbn in Hf. specialize (IH fuel (l ++ [b]) (acc ++ [b]) Hn Hb ltac:(lia)).
    rewrite length_app, <- !app_assoc in IH. cbn in IH. rewrite Nat.add_1_r in IH.
    rewrite IH. do 3 f_equal; simpl; lia.
Qed.

Lemma read_loop_missing fuel l bs acc :
  no_nul bs -> Forall is_byte bs -> (length bs < fuel)%nat ->
  read_loop fuel (l ++ bs) (length l) acc = Some (Err IndexError).
Proof.
  revert fuel l acc. induction bs as [|b bs IH]; intros fuel l acc Hn Hb Hf;
    (destruct fuel as [|fuel]; [cbn in Hf; lia|]); cbn -[read_byte py_bytes1].
  - by rewrite read_byte_end by (rewrite length_app; simpl; lia).
  - apply Forall_cons in Hn as [Hn0 Hn], Hb as [Hb0 Hb].
    rewrite read_byte_at. unfold NUL in Hn0. destruct (Z.eqb_spec b 0); [done|].
    rewrite py_bytes1_ok by done. cbn in Hf.
    specialize (IH fuel (l ++ [b]) (acc ++ [b]) Hn Hb ltac:(lia)).
    rewrite length_app, <- app_assoc, Nat.add_1_r in IH. exact IH.
Qed.

(** A list of bytes has a first NUL or none. *)
Lemma nul_split (bs : chars) :
  (exists s r, bs = s ++ NUL :: r /\ no_nul s) \/ no_nul bs.
Proof.
  unfold no_nul. induction bs as [|b bs IH]; [by right|].
  destruct (decide (b = NUL)) as [->|Hb]; [left; by exists [], bs|].
  destruct IH as [(s & r & -> & Hs)|Hs]; [left; exists (b :: s), r|right];
    by rewrite ?Forall_cons.
Qed.

Lemma read_variable_at l s bs r :
  no_nul s -> py_encode s = Ok bs ->
  read_variable_length_string (l ++ bs ++ NUL :: r) (length l)
  = Ok (s, (length l + length bs + 1)%nat).
Proof.
  intros Hs He. unfold read_variable_length_string.
  rewrite read_loop_found by (eauto using py_encode_no_nul, py_encode_bytes;
    rewrite !length_app; simpl; lia).
  cbn. by rewrite (py_decode_encode s bs He).
Qed.

Lemma read_variable_missing l bs :
  no_nul bs -> Forall is_byte bs ->
  read_variable_length_string (l ++ bs) (length l) = Err IndexError.
Proof.
  intros Hn Hb. unfold read_variable_length_string.
  rewrite read_loop_missing; [done..|]. rewrite length_app. lia.
Qed.

(** Fuel for the bytes left is enough from every position: the loop ends. *)
Lemma read_loop_total fuel data p acc :
  (length data - p < fuel)%nat -> exists r, read_loop fuel data p acc = Some r.
Proof.
  revert p acc. induction fuel as [|fuel IH]; intros p acc Hf; [lia|]; cbn -[read_byte py_bytes1].
  destruct (decide (length data <= p)%nat); [by eexists; rewrite read_byte_end|].
  destruct (read_byte data p) as [[b p']|e] eqn:E; [|by eexists].
  apply result_bind_ok in E as (b' & _ & [= -> <-]).
  case_test; [by eexists|]. destruct (py_bytes1 b); [|by eexists]. apply IH. lia.
Qed.

(** The text [translateMessage] prints for a message. *)
Definition render (m : message) : chars :=
  match m with
  | MConfirm _ => lit "REPLY IS 0" ++ CRLF
  | MReply _ r ref c =>
      lit "REPLY " ++ lit (if r =? 1 then "OK" else "NOK") ++ lit " IS "
      ++ py_str_of_int (py_from_bytes ref) ++ lit " AS " ++ c ++ CRLF
  | MAuth _ u d s => lit "AUTH IS " ++ u ++ lit " AS " ++ d ++ lit " USING " ++ s ++ CRLF
  | MJoin _ ch d => lit "JOIN IS " ++ ch ++ lit " AS " ++ d ++ CRLF
  | MMsg _ d c => lit "MSG FROM " ++ d ++ lit " IS " ++ c ++ CRLF
  | MErr _ d c => lit "ERR FROM " ++ d ++ lit " IS " ++ c ++ CRLF
  | MBye _ d => lit "BYE FROM " ++ d ++ CRLF
  | MPing _ => lit "Unknown message type"
  end.

(** The cursor moved over a string: the position after its NUL, as a split of the data. *)
Lemma read_variable_next data l s bs r p :
  data = l ++ bs ++ NUL :: r -> p = length l -> no_nul s -> py_encode s = Ok bs ->
  read_variable_length_string data p = Ok (s, length (l ++ bs ++ [NUL])).
Proof.
  intros -> -> Hs He. rewrite (read_variable_at l s bs r Hs He).
  do 2 f_equal. rewrite !length_app. simpl. lia.
Qed.

(** Side conditions that split a datagram at the cursor. *)
Ltac solve_prefix := done || (by rewrite <- ?app_assoc) || (by cbn; rewrite <- ?app_assoc).

(** Read the next string field of the goal's datagram, which starts with the prefix [l]. *)
Ltac read_string l :=
  match goal with
  | H : encode_all (?s :: _) = Ok _, Hn : Forall no_nul (?s :: _) |- _ =>
      let b := fresh "b" in let r := fresh "r" in let He := fresh "He" in let H' := fresh "H" in
      apply encode_all_cons in H as (b & r & He & H' & ->);
      apply Forall_cons in Hn as [? Hn];
      rewrite (read_variable_next _ l s b r) by
        solve_prefix;
      cbn [mbind result_bind];
      try read_string (l ++ b ++ [NUL])
  end.

Lemma read_byte_0 b r : read_byte (b :: r) 0 = Ok (b, 1%nat).
Proof. done. Qed.

Lemma read_byte_3 a b c d r : read_byte (a :: b :: c :: d :: r) 3 = Ok (d, 4%nat).
Proof. done. Qed.

Lemma py_slice_4 a b c d x y r : py_slice (a :: b :: c :: d :: x :: y :: r) 4 6 = [x; y].
Proof. done. Qed.

Lemma translate_layout m tail :
  ref_ok m -> Forall no_nul (strings m) -> encode_all (strings m) = Ok tail ->
  translateMessage (type_byte m :: id_bytes m ++ reply_fields m ++ tail) = Ok (Some (render m)).
Proof.
  intros Href Hn Ht.
  destruct m as [ref|i res ref c|i u d s|i ch d|i d c|i d c|i d|i];
    cbn [strings ref_ok] in Hn, Ht, Href; try apply bytes2_inv in Href as (r1 & r2 & -> & _);
    cbn [type_byte id_bytes id_field ref_of reply_fields app];
    unfold translateMessage; rewrite read_byte_0; cbn [mbind result_bind].
  - change (MESSAGE_TYPES !! 0) with (Some (lit "CONFIRM")). cbn in Ht. by injection Ht as <-.
  - change (MESSAGE_TYPES !! 1) with (Some (lit "REPLY")). cbn [read_bytes Z.eqb Pos.eqb].
    rewrite read_byte_3. cbn [mbind result_bind Nat.add]. rewrite py_slice_4.
    by read_string [1; i / 256; i mod 256; res; r1; r2].
  - change (MESSAGE_TYPES !! 2) with (Some (lit "AUTH")). cbn [read_bytes Z.eqb Pos.eqb].
    by read_string [2; i / 256; i mod 256].
  - change (MESSAGE_TYPES !! 3) with (Some (lit "JOIN")). cbn [read_bytes Z.eqb Pos.eqb].
    by read_string [3; i / 256; i mod 256].
  - change (MESSAGE_TYPES !! 4) with (Some (lit "MSG")). cbn [read_bytes Z.eqb Pos.eqb].
    by read_string [4; i / 256; i mod 256].
  - change (MESSAGE_TYPES !! 254) with (Some (lit "ERR")). cbn [read_bytes Z.eqb Pos.eqb].
    by read_string [254; i / 256; i mod 256].
  - change (MESSAGE_TYPES !! 255) with (Some (lit "BYE")). cbn [read_bytes Z.eqb Pos.eqb].
    by read_string [255; i / 256; i mod 256].
  - by change (MESSAGE_TYPES !! 253) with (@None chars).
Qed.

(** * Reading a datagram that was cut short *)

Lemma read_variable_end data p :
  (length data <= p)%nat -> read_variable_length_string data p = Err IndexError.
Proof.
  intros H. unfold read_variable_length_string. cbn [read_loop]. by rewrite read_byte_end.
Qed.

(** A cut at [k] bytes of an encoded field either loses its NUL or falls in a later field. *)
Lemma take_field k (b r : chars) :
  take k (b ++ NUL :: r) = take k b /\ (k <= length b)%nat \/
  take k (b ++ NUL :: r) = b ++ NUL :: take (k - S (length b)) r /\ (length b < k)%nat.
Proof.
  destruct (decide (k <= length b)%nat) as [Hk|Hk]; [left|right]; (split; [|lia]).
  - by rewrite take_app_le.
  - rewrite take_app_ge by lia. do 2 f_equal.
    replace (k - length b)%nat with (S (k - S (length b))) by lia. done.
Qed.

Lemma read_variable_cut data l s b k p :
  data = l ++ take k b -> p = length l -> no_nul s -> py_encode s = Ok b ->
  read_variable_length_string data p = Err IndexError.
Proof.
  intros -> -> Hs He. apply read_variable_missing; apply Forall_take.
  - by apply (py_encode_no_nul s b).
  - by apply (py_encode_bytes s b).
Qed.

(** Follow the reader over the fields of a cut datagram that starts with the prefix [l]. *)
Ltac read_cut l :=
  match goal with
  | H : encode_all (?s :: _) = Ok _, Hn : Forall no_nul (?s :: _)
    |- context [take ?k _] =>
      let b := fresh "b" in let r := fresh "r" in let He := fresh "He" in let H' := fresh "H" in
      let Hk := fresh "Hk" in let E := fresh "E" in
      apply encode_all_cons in H as (b & r & He & H' & ->);
      apply Forall_cons in Hn as [? Hn];
      destruct (take_field k b r) as [[E Hk]|[E Hk]]; rewrite E; clear E;
      [ by rewrite (read_variable_cut _ l s b k) by solve_prefix
      | repeat match goal with
        | Hl : context [length (_ ++ _)] |- _ => rewrite length_app in Hl
        end; cbn [length] in *;
        rewrite (read_variable_next _ l s b (take (k - S (length b)) r)) by solve_prefix;
        cbn [mbind result_bind];
        first [ read_cut (l ++ b ++ [NUL])
              | exfalso; cbn in H'; injection H' as <-; cbn [length] in *; lia ] ]
  end.

Lemma translate_cut m tail n :
  ref_ok m -> Forall no_nul (strings m) -> strings m <> [] -> encode_all (strings m) = Ok tail ->
  (n < length (type_byte m :: id_bytes m ++ reply_fields m ++ tail))%nat ->
  translateMessage (take n (type_byte m :: id_bytes m ++ reply_fields m ++ tail))
  = Err IndexError.
Proof.
  intros Href Hn Hs Ht.
  destruct m as [ref|i res ref c|i u d s|i ch d|i d c|i d c|i d|i]; try by destruct Hs.
  1: apply bytes2_inv in Href as (r1 & r2 & -> & _).
  all: cbn [strings] in *; cbn [type_byte id_bytes id_field ref_of reply_fields app length];
    destruct n as [|[|[|n]]]; intros Hlen; [done|by vm_compute..|]; cbn [take];
    unfold translateMessage; rewrite read_byte_0; cbn [mbind result_bind].
  - change (MESSAGE_TYPES !! 1) with (Some (lit "REPLY")). cbn [read_bytes Z.eqb Pos.eqb].
    destruct n as [|[|[|n]]]; [by vm_compute..|]; cbn [take]. rewrite read_byte_3.
    cbn [mbind result_bind Nat.add]. rewrite py_slice_4.
    by read_cut [1; i / 256; i mod 256; res; r1; r2].
  - change (MESSAGE_TYPES !! 2) with (Some (lit "AUTH")). cbn [read_bytes Z.eqb Pos.eqb].
    by read_cut [2; i / 256; i mod 256].
  - change (MESSAGE_TYPES !! 3) with (Some (lit "JOIN")). cbn [read_bytes Z.eqb Pos.eqb].
    by read_cut [3; i / 256; i mod 256].
  - change (MESSAGE_TYPES !! 4) with (Some (lit "MSG")). cbn [read_bytes Z.eqb Pos.eqb].
    by read_cut [4; i / 256; i mod 256].
  - change (MESSAGE_TYPES !! 254) with (Some (lit "ERR")). cbn [read_bytes Z.eqb Pos.eqb].
    by read_cut [254; i / 256; i mod 256].
  - change (MESSAGE_TYPES !! 255) with (Some (lit "BYE")). cbn [read_bytes Z.eqb Pos.eqb].
    by read_cut [255; i / 256; i mod 256].
Qed.

(** * Properties *)



(** A datagram cut short never translates: every proper prefix of a message that carries
    strings raises [IndexError]. *)
Theorem translate_truncated m bs n :
  well_formed m -> strings m <> [] -> build m = Ok bs -> (n < length bs)%nat ->
  translateMessage (take n bs) = Err IndexError.
Proof.
  intros Hm Hs Hb Hn. destruct (build_well_formed m Hm) as (tail & Ht & Hb').
  rewrite Hb in Hb'. injection Hb' as ->. destruct Hm as (_ & Href & Hnn).
  by apply translate_cut.
Qed.

Example translate_truncated_witness :
  translateMessage (take 7 [4; 0; 1; 97; 0; 98; 99; 0]) = Err IndexError.
Proof.
  apply (translate_truncated (MMsg 1 (lit "a") (lit "bc"))).
  - repeat split; try (cbn; lia); repeat constructor; try (vm_compute; congruence).
  - done.
  - reflexivity.
  - cbn. lia.
Defined.

(** [getMessageId] returns the two bytes of the message id of every message built with one
    (a confirmation has none), and they read back as the id. *)
Theorem getMessageId_build m i bs :
  id_field m = Some i -> build m = Ok bs ->
  py_to_bytes2 i = Ok (getMessageId bs) /\ py_from_bytes (getMessageId bs) = i.
Proof.
  intros Hi Hb. pose proof Hb as (Hid & Hr & [tail Ht])%build_inv.
  rewrite (build_layout m tail Hid Hr Ht) in Hb. injection Hb as <-.
  unfold id_ok in Hid. rewrite Hi in Hid.
  assert (Hg : getMessageId (type_byte m :: id_bytes m ++ reply_fields m ++ tail)
    = [i / 256; i mod 256]) by (unfold id_bytes; by rewrite Hi).
  rewrite Hg. assert (py_to_bytes2 i = Ok [i / 256; i mod 256]) by by apply py_to_bytes2_ok.
  split; [done|by apply py_from_to_bytes2].
Qed.

Example getMessageId_build_witness :
  py_to_bytes2 513 = Ok (getMessageId [253; 2; 1])
  /\ py_from_bytes (getMessageId [253; 2; 1]) = 513.
Proof. apply (getMessageId_build (MPing 513)); reflexivity. Defined.

(** The keys of the dictionary. *)
Lemma MESSAGE_TYPES_keys t s :
  MESSAGE_TYPES !! t = Some s -> In t [0; 1; 2; 3; 4; 254; 255].
Proof.
  intros H%elem_of_list_to_map_2. apply list_elem_of_In in H. cbn in *. naive_solver.
Qed.

Lemma read_loop_errors fuel data p acc e :
  read_loop fuel data p acc = Some (Err e) -> e <> OSError.
Proof.
  revert p acc. induction fuel as [|fuel IH]; intros p acc; cbn -[read_byte]; [done|].
  unfold read_byte, py_index. destruct (data !! p) as [b|]; cbn; [|by intros [= <-]].
  case_test; [done|]. unfold py_bytes1. destruct (_ && _)%bool; [apply IH|by intros [= <-]].
Qed.

Lemma py_decode_errors bs e : py_decode bs = Err e -> e <> OSError.
Proof.
  remember (length bs) as n eqn:Hn. revert bs Hn.
  induction n as [n IH] using lt_wf_ind; intros bs -> H.
  assert (Hrec : forall r (k : chars -> py chars), (length r < length bs)%nat ->
    (forall s, is_ok (k s) = true) -> (py_decode r ≫= k) = Err e -> e <> OSError).
  { intros r k Hl Hk Hr. pose proof (IH _ Hl r eq_refl) as Hd. destruct (py_decode r) as [s|e'].
    - cbn in Hr. specialize (Hk s). by rewrite Hr in Hk.
    - injection Hr as ->. by apply Hd. }
  destruct bs as [|b0 r0]; [done|]. cbn [py_decode] in H.
  repeat match type of H with
  | (if ?b then _ else _) = _ => destruct b
  | match ?r with [] => _ | _ :: _ => _ end = _ => destruct r
  end; try (injection H as <-; done);
    (eapply Hrec; [| |exact H]; [cbn [length]; lia|done]).
Qed.

Lemma read_variable_errors data p : read_variable_length_string data p <> Err OSError.
Proof.
  unfold read_variable_length_string.
  destruct (read_loop_total (S (length data)) data p []) as [r Hr]; [lia|]. rewrite Hr.
  destruct r as [[s q]|e]; cbn.
  - destruct (py_decode s) as [u|e] eqn:E; cbn; [done|]. apply py_decode_errors in E. congruence.
  - apply read_loop_errors in Hr. congruence.
Qed.

(** Results of [translateMessage] that are neither a missing value nor a loop out of fuel. *)
Definition proper (r : py (option chars)) : Prop := r <> Ok None /\ r <> Err OSError.

Lemma proper_read_variable data p k :
  (forall s q, proper (k (s, q))) -> proper (read_variable_length_string data p ≫= k).
Proof.
  intros Hk. pose proof (read_variable_errors data p) as He.
  destruct (read_variable_length_string data p) as [[s q]|e]; cbn; [apply Hk|].
  split; congruence.
Qed.

Lemma proper_read_byte data p k :
  (forall s q, proper (k (s, q))) -> proper (read_byte data p ≫= k).
Proof.
  intros Hk. unfold read_byte, py_index. destruct (data !! p); cbn; [apply Hk|by split].
Qed.

