(* ===== verification/Args.v ===== *)
(** The command-line arguments of the client ([args.cpp], class [Args]). *)
From S2P Require Import Prelude.

(** An IPv4 socket address, [struct sockaddr_in]. *)
Record sockaddr_in : Type := MkAddr { sin_addr : Z; sin_port : Z }.

#[export] Instance sockaddr_in_eq_dec : EqDecision sockaddr_in.
Proof. solve_decision. Defined.

Record Args : Type := MkArgs {
  m_server_port : Z;
  m_udp_confirm_timeout : Z;
  m_udp_max_retrans_count : Z;
  m_is_help_used : bool;
  m_is_tcp : bool;
  m_server_addr : sockaddr_in
}.

(** Conversion to [uint8_t], [uint16_t] and [unsigned]. *)
Definition uint8 (z : Z) : Z := z mod 256.
Definition uint16 (z : Z) : Z := z mod 65536.
Definition uint32 (z : Z) : Z := z mod 4294967296.

Definition Args_default : Args :=
  MkArgs 4567 250 3 false false (MkAddr 0 0).

Definition set_server_port (v : Z) (a : Args) : Args :=
  MkArgs (uint16 v) (m_udp_confirm_timeout a) (m_udp_max_retrans_count a) (m_is_help_used a)
    (m_is_tcp a) (m_server_addr a).
Definition set_udp_confirm_timeout (v : Z) (a : Args) : Args :=
  MkArgs (m_server_port a) (uint16 v) (m_udp_max_retrans_count a) (m_is_help_used a)
    (m_is_tcp a) (m_server_addr a).
Definition set_udp_max_retrans_count (v : Z) (a : Args) : Args :=
  MkArgs (m_server_port a) (m_udp_confirm_timeout a) (uint8 v) (m_is_help_used a)
    (m_is_tcp a) (m_server_addr a).
Definition set_is_help_used (v : bool) (a : Args) : Args :=
  MkArgs (m_server_port a) (m_udp_confirm_timeout a) (m_udp_max_retrans_count a) v
    (m_is_tcp a) (m_server_addr a).
Definition set_is_tcp (v : bool) (a : Args) : Args :=
  MkArgs (m_server_port a) (m_udp_confirm_timeout a) (m_udp_max_retrans_count a)
    (m_is_help_used a) v (m_server_addr a).
Definition set_server_addr (v : sockaddr_in) (a : Args) : Args :=
  MkArgs (m_server_port a) (m_udp_confirm_timeout a) (m_udp_max_retrans_count a)
    (m_is_help_used a) (m_is_tcp a) v.

(** How the constructor ends: an object, an exception with its [what()], or undefined
    behaviour (a null [argv] element or a null host passed to the C library). *)
Inductive ctor (A : Type) : Type :=
| Constructed (a : A)
| Threw (what : chars)
| Undefined.
Arguments Constructed {A} a.
Arguments Threw {A} what.
Arguments Undefined {A}.

#[export] Instance ctor_ret : MRet ctor := fun A => Constructed.
#[export] Instance ctor_bind : MBind ctor := fun A B k m =>
  match m with
  | Constructed a => k a
  | Threw w => Threw w
  | Undefined => Undefined
  end.

(** [std::stoi(s, nullptr, 10)]: blanks, a sign, digits, and anything after them. *)
Definition is_space (c : Z) : bool := (c =? 32) || ((9 <=? c) && (c <=? 13)).
Definition is_digit (c : Z) : bool := (48 <=? c) && (c <=? 57).

Fixpoint skip_space (s : chars) : chars :=
  match s with
  | c :: s' => if is_space c then skip_space s' else s
  | [] => []
  end.

Fixpoint digits (acc : Z) (s : chars) : Z :=
  match s with
  | c :: s' => if is_digit c then digits (acc * 10 + (c - 48)) s' else acc
  | [] => acc
  end.

Definition stoi_digits (negative : bool) (s : chars) : ctor Z :=
  match s with
  | c :: _ =>
      if is_digit c then
        let v := if negative then - digits 0 s else digits 0 s in
        if (-2147483648 <=? v) && (v <=? 2147483647) then Constructed v
        else Threw (lit "stoi")
      else Threw (lit "stoi")
  | [] => Threw (lit "stoi")
  end.

Definition stoi (s : option chars) : ctor Z :=
  match s with
  | None => Undefined
  | Some s =>
      match skip_space s with
      | 45 :: s' => stoi_digits true s'
      | 43 :: s' => stoi_digits false s'
      | s' => stoi_digits false s'
      end
  end.

Section ARGS.

(** The C library's address conversion: [inet_pton] gives the address of a dotted quad,
    [getaddrinfo] the first IPv4 address of a host name. *)
Context (inet_pton getaddrinfo : chars -> option Z).

Definition hostnameToIpAddress (hostname : chars) : ctor Z :=
  match getaddrinfo hostname with
  | Some ip => Constructed ip
  | None => Threw (lit "couldn't convert a hostname to IP address.")
  end.

Definition processServerAddress (server_addr : option chars) (a : Args) : ctor Args :=
  match server_addr with
  | None => Undefined
  | Some host =>
      ip ← match inet_pton host with
           | Some ip => Constructed ip
           | None => hostnameToIpAddress host
           end;
      mret (set_server_addr (MkAddr ip (m_server_port a)) a)
  end.

(** The loop over [argv[1..]], two elements at a time; [value] is [argv[i + 1]], null past the
    end. It returns early, with no server address, on [-h]. *)
Fixpoint args_loop (argv : list chars) (server_addr : option chars) (a : Args) : ctor Args :=
  match argv with
  | [] => processServerAddress server_addr a
  | flag :: rest =>
      let value := head rest in
      let next server_addr a :=
        match rest with
        | [] => processServerAddress server_addr a
        | _ :: rest' => args_loop rest' server_addr a
        end in
      match flag with
      | [45; f] =>
          if f =? 116 (* t *) then
            match value with
            | None => Undefined
            | Some v =>
                if v =s? lit "tcp" then next server_addr (set_is_tcp true a)
                else if v =s? lit "udp" then next server_addr (set_is_tcp false a)
                else Threw (lit "invalid value for -t flag: expected tcp or udp.")
            end
          else if f =? 115 (* s *) then next value a
          else if f =? 112 (* p *) then v ← stoi value; next server_addr (set_server_port v a)
          else if f =? 100 (* d *) then
            v ← stoi value; next server_addr (set_udp_confirm_timeout v a)
          else if f =? 114 (* r *) then
            v ← stoi value; next server_addr (set_udp_max_retrans_count v a)
          else if f =? 104 (* h *) then mret (set_is_help_used true a)
          else next server_addr a
      | _ => next server_addr a
      end
  end.

(** [Args::Args(argc, argv)]; [argv] is without the program's name. *)
Definition Args_ctor (argv : list chars) : ctor Args := args_loop argv None Args_default.

End ARGS.
