(* ===== verification/Kernel.v ===== *)
(** What the client's process owns outside its object: its standard streams, its socket and its
    timer, with the calls of the C library the client makes on them.

    Times are in milliseconds.  [console] is everything written to standard output, [sent]
    everything sent through the socket with its destination, oldest first.  Standard input is a
    pipe: [pipe] holds the bytes not yet read by the process, [pipe_closed] says its other end
    was closed, [filebuf] holds the bytes the C library has read ahead.  [send_fails] makes the
    next calls of [send] fail. *)
From S2P Require Import Prelude Args.

Record os : Type := MkOs {
  stdin_events : bool;
  clock : Z;
  timer : option Z;
  pipe : chars;
  pipe_closed : bool;
  filebuf : chars;
  console : chars;
  sent : list (sockaddr_in * chars);
  send_fails : bool
}.

Definition set_stdin_events (v : bool) (k : os) : os :=
  MkOs v (clock k) (timer k) (pipe k) (pipe_closed k) (filebuf k) (console k) (sent k)
    (send_fails k).
Definition set_clock (v : Z) (k : os) : os :=
  MkOs (stdin_events k) v (timer k) (pipe k) (pipe_closed k) (filebuf k) (console k) (sent
    k) (send_fails k).
Definition set_timer (v : option Z) (k : os) : os :=
  MkOs (stdin_events k) (clock k) v (pipe k) (pipe_closed k) (filebuf k) (console k) (sent
    k) (send_fails k).
Definition set_pipe (v : chars) (k : os) : os :=
  MkOs (stdin_events k) (clock k) (timer k) v (pipe_closed k) (filebuf k) (console k) (sent
    k) (send_fails k).
Definition set_pipe_closed (v : bool) (k : os) : os :=
  MkOs (stdin_events k) (clock k) (timer k) (pipe k) v (filebuf k) (console k) (sent k)
    (send_fails k).
Definition set_filebuf (v : chars) (k : os) : os :=
  MkOs (stdin_events k) (clock k) (timer k) (pipe k) (pipe_closed k) v (console k) (sent k)
    (send_fails k).
Definition set_console (v : chars) (k : os) : os :=
  MkOs (stdin_events k) (clock k) (timer k) (pipe k) (pipe_closed k) (filebuf k) v (sent k)
    (send_fails k).
Definition set_sent (v : list (sockaddr_in * chars)) (k : os) : os :=
  MkOs (stdin_events k) (clock k) (timer k) (pipe k) (pipe_closed k) (filebuf k) (console k)
    v (send_fails k).
Definition set_send_fails (v : bool) (k : os) : os :=
  MkOs (stdin_events k) (clock k) (timer k) (pipe k) (pipe_closed k) (filebuf k) (console k)
    (sent k) v.

(** An error that ends a handler: an exception of the class [Exception] or of the standard
    library, with its [what()], or a blocking read of standard input. *)
Inductive stop : Type :=
| Thrown (what : chars)
| Blocked.

#[export] Instance stop_eq_dec : EqDecision stop.
Proof. solve_decision. Defined.

(** A process starts with nothing read, written, sent or armed. *)
Definition os_start (now : Z) : os := MkOs true now None [] false [] [] [] false.

(** Appending to standard output. *)
Definition write_console (text : chars) (k : os) : os := set_console (console k ++ text) k.

(** [send] and [sendto]; the flag says whether the call succeeded. *)
Definition send_packet (to : sockaddr_in) (data : chars) (k : os) : os * bool :=
  if send_fails k then (k, false) else (set_sent (sent k ++ [(to, data)]) k, true).

(** [timerfd_settime] with a one-shot value: a zero value disarms the timer. *)
Definition timerfd_settime (ms : Z) (k : os) : os :=
  set_timer (if ms =? 0 then None else Some (clock k + ms)) k.

(** The timer's descriptor is readable once it expired, and until it is read. *)
Definition timer_ready (k : os) : bool :=
  match timer k with Some t => t <=? clock k | None => false end.

Definition read_timer (k : os) : os := if timer_ready k then set_timer None k else k.

(** * Standard input *)

Inductive getline_result : Type :=
| Line (l : chars)
| Eof.

(** The first line of a buffer and what follows its newline. *)
Fixpoint split_line (s : chars) : option (chars * chars) :=
  match s with
  | [] => None
  | c :: s' =>
      if c =? LF then Some ([], s')
      else '(l, r) ← split_line s'; Some (c :: l, r)
  end.

(** One [read] of the C library fills at most this many bytes. *)
Definition BUFSIZE : nat := 4096.

(** [std::getline(std::cin, s)]: a line is taken from the bytes read ahead; without a newline
    there, more are read from the pipe.  At the end of input a last unfinished line is returned,
    and then end of file.  [None]: the call blocks. *)
Fixpoint getline_loop (fuel : nat) (k : os) : option (getline_result * os) :=
  match split_line (filebuf k) with
  | Some (l, r) => Some (Line l, set_filebuf r k)
  | None =>
      match fuel, pipe k with
      | S fuel', _ :: _ =>
          getline_loop fuel'
            (set_filebuf (filebuf k ++ take BUFSIZE (pipe k)) (set_pipe (drop BUFSIZE (pipe k)) k))
      | _, _ =>
          if pipe_closed k then
            match filebuf k with
            | [] => Some (Eof, k)
            | l => Some (Line l, set_filebuf [] k)
            end
          else None
      end
  end.

Definition getline (k : os) : option (getline_result * os) :=
  getline_loop (S (length (pipe k))) k.
