(* ===== verification/Regex.v ===== *)
(** The regular expressions of the client (the [std::regex] objects of [client.cpp],
    [tcp-client.cpp] and [udp-client.cpp]): sequences of literal characters, of captured
    literals and of captured character classes repeated one or more times, matched against a
    whole string.  [regex_match] is ECMAScript's backtracking search; [matches] is the
    declarative meaning; the two are related here. *)
From S2P Require Import Prelude.

Inductive item : Type :=
| IChar (c : Z)                      (* a literal character *)
| IAlt (alts : list chars)           (* [(abc|def)] *)
| IPlus (p : Z -> bool).             (* [([...]+)] *)

Definition regex : Type := list item.

(** A string literal of a regular expression. *)
Definition rlit (s : chars) : regex := map IChar s.

(** [std::tolower] in the "C" locale. *)
Definition tolower (c : Z) : Z := if (65 <=? c) && (c <=? 90) then c + 32 else c.
Definition toupper (c : Z) : Z := if (97 <=? c) && (c <=? 122) then c - 32 else c.

Definition char_eq (icase : bool) (a b : Z) : bool :=
  if icase then tolower a =? tolower b else a =? b.

Fixpoint prefix_eq (icase : bool) (a s : chars) : bool :=
  match a, s with
  | [], _ => true
  | x :: a', y :: s' => char_eq icase x y && prefix_eq icase a' s'
  | _ :: _, [] => false
  end.

Fixpoint span_length (p : Z -> bool) (s : chars) : nat :=
  match s with
  | x :: s' => if p x then S (span_length p s') else O
  | [] => O
  end.

(** The longest repetition first, down to a single character. *)
Fixpoint try_down {A} (k : nat) (f : nat -> option A) : option A :=
  match k with
  | O => None
  | S k' => match f k with Some x => Some x | None => try_down k' f end
  end.

Fixpoint try_each {A} (alts : list chars) (f : chars -> option A) : option A :=
  match alts with
  | [] => None
  | a :: alts' => match f a with Some x => Some x | None => try_each alts' f end
  end.

(** [std::regex_match]: the captured groups of a match of the whole string. *)
Fixpoint regex_match (icase : bool) (r : regex) (s : chars) : option (list chars) :=
  match r with
  | [] => match s with [] => Some [] | _ :: _ => None end
  | IChar c :: r' =>
      match s with
      | x :: s' => if char_eq icase c x then regex_match icase r' s' else None
      | [] => None
      end
  | IAlt alts :: r' =>
      try_each alts (fun a =>
        if prefix_eq icase a s
        then cons (take (length a) s) <$> regex_match icase r' (drop (length a) s)
        else None)
  | IPlus p :: r' =>
      try_down (span_length p s) (fun k =>
        cons (take k s) <$> regex_match icase r' (drop k s))
  end.

(** [re.match] and [re.search] of Python's module, for the same expressions: some prefix of the
    string matches, some part of it does. *)
Definition re_match (r : regex) (s : chars) : bool :=
  existsb (fun n => match regex_match false r (take n s) with Some _ => true | None => false end)
    (seq 0 (S (length s))).

Fixpoint suffixes (s : chars) : list chars :=
  s :: match s with [] => [] | _ :: s' => suffixes s' end.

Definition re_search (r : regex) (s : chars) : bool := existsb (re_match r) (suffixes s).

(** * Character classes *)

Definition is_alpha_numeric_underline_dash (c : Z) : bool :=
  ((97 <=? c) && (c <=? 122)) || ((65 <=? c) && (c <=? 90)) || ((48 <=? c) && (c <=? 57))
  || (c =? 95) || (c =? 45).
Definition is_printable (c : Z) : bool := (33 <=? c) && (c <=? 126).
Definition is_printable_space_lf (c : Z) : bool := ((32 <=? c) && (c <=? 126)) || (c =? 10).

Definition all_chars (p : Z -> bool) (s : chars) : Prop := Forall (fun c => p c = true) s.

(** * The declarative meaning *)

Inductive matches (icase : bool) : regex -> chars -> list chars -> Prop :=
| m_nil : matches icase [] [] []
| m_char c x r s caps :
    char_eq icase c x = true -> matches icase r s caps ->
    matches icase (IChar c :: r) (x :: s) caps
| m_alt alts a w r s caps :
    a ∈ alts -> Forall2 (fun x y => char_eq icase x y = true) a w -> matches icase r s caps ->
    matches icase (IAlt alts :: r) (w ++ s) (w :: caps)
| m_plus p w r s caps :
    w <> [] -> all_chars p w -> matches icase r s caps ->
    matches icase (IPlus p :: r) (w ++ s) (w :: caps).

Lemma prefix_eq_spec icase a s :
  prefix_eq icase a s = true <->
  Forall2 (fun x y => char_eq icase x y = true) a (take (length a) s).
Proof.
  revert s. induction a as [|x a IH]; intros s; cbn; [split; [constructor|done]|].
  destruct s as [|y s]; cbn; [split; [done|inversion 1]|].
  rewrite andb_true_iff, IH. split; [intros [? ?]; by constructor|by inversion 1].
Qed.

Lemma span_length_take p s k : (k <= span_length p s)%nat -> all_chars p (take k s).
Proof.
  revert k. induction s as [|x s IH]; intros k Hk; cbn in Hk.
  - rewrite take_nil. constructor.
  - destruct (p x) eqn:E; destruct k as [|k]; cbn; try constructor; try done; try lia.
    apply IH. lia.
Qed.

Lemma span_length_app p w s : all_chars p w -> (length w <= span_length p (w ++ s))%nat.
Proof.
  induction w as [|x w IH]; intros Hw; cbn; [lia|]. apply Forall_cons in Hw as [Hx Hw].
  rewrite Hx. specialize (IH Hw). lia.
Qed.

Lemma span_length_le p s : (span_length p s <= length s)%nat.
Proof. induction s as [|x s IH]; cbn; [lia|]. destruct (p x); lia. Qed.

Lemma try_down_some {A} k (f : nat -> option A) x :
  try_down k f = Some x -> exists j, (1 <= j <= k)%nat /\ f j = Some x.
Proof.
  induction k as [|k IH]; cbn; [done|]. destruct (f (S k)) eqn:E.
  - intros [= ->]. exists (S k). split; [lia|done].
  - intros (j & ? & ?)%IH. exists j. split; [lia|done].
Qed.

Lemma try_down_found {A} k (f : nat -> option A) j :
  (1 <= j <= k)%nat -> is_Some (f j) -> is_Some (try_down k f).
Proof.
  induction k as [|k IH]; intros Hj Hf; cbn; [lia|].
  destruct (f (S k)) eqn:E; [by eexists|]. destruct (decide (j = S k)) as [->|].
  - rewrite E in Hf. by destruct Hf.
  - apply IH; [lia|done].
Qed.

Lemma try_each_some {A} alts (f : chars -> option A) x :
  try_each alts f = Some x -> exists a, a ∈ alts /\ f a = Some x.
Proof.
  induction alts as [|a alts IH]; cbn; [done|]. destruct (f a) eqn:E.
  - intros [= ->]. exists a. split; [apply list_elem_of_here|done].
  - intros (b & ? & ?)%IH. exists b. split; [by apply list_elem_of_further|done].
Qed.

Lemma try_each_found {A} alts (f : chars -> option A) a :
  a ∈ alts -> is_Some (f a) -> is_Some (try_each alts f).
Proof.
  induction alts as [|b alts IH]; intros Ha Hf; cbn; [by apply elem_of_nil in Ha|].
  destruct (f b) eqn:E; [by eexists|]. apply elem_of_cons in Ha as [->|Ha]; [|by apply IH].
  rewrite E in Hf. by destruct Hf.
Qed.

(** The search returns only real matches. *)
Lemma regex_match_sound icase r s caps :
  regex_match icase r s = Some caps -> matches icase r s caps.
Proof.
  revert s caps. induction r as [|[c|alts|p] r IH]; intros s caps H; cbn in H.
  - destruct s; [injection H as <-; constructor|done].
  - destruct s as [|x s]; [done|]. destruct (char_eq icase c x) eqn:E; [|done].
    constructor; auto.
  - apply try_each_some in H as (a & Ha & H). destruct (prefix_eq icase a s) eqn:E; [|done].
    apply fmap_Some in H as (caps' & H & ->). apply prefix_eq_spec in E.
    rewrite <- (take_drop (length a) s) at 1. econstructor; eauto.
  - apply try_down_some in H as (k & Hk & H). apply fmap_Some in H as (caps' & H & ->).
    rewrite <- (take_drop k s) at 1. pose proof (span_length_le p s).
    constructor; [|apply span_length_take; lia|by apply IH].
    intros E%(f_equal length). rewrite length_take in E. cbn in E. lia.
Qed.

(** The search finds a match whenever there is one. *)
Lemma regex_match_complete icase r s caps :
  matches icase r s caps -> is_Some (regex_match icase r s).
Proof.
  induction 1 as [|c x r s caps Hc _ IH|alts a w r s caps Ha Hw _ IH|p w r s caps Hw Hp _ IH];
    cbn.
  - by eexists.
  - by rewrite Hc.
  - apply Forall2_length in Hw as Hl. eapply try_each_found; [exact Ha|].
    assert (prefix_eq icase a (w ++ s) = true) as ->.
    { apply prefix_eq_spec. rewrite Hl, take_app_length. done. }
    rewrite Hl, drop_app_length. destruct IH as [? ->]. by eexists.
  - pose proof (span_length_app p w s Hp). apply (try_down_found _ _ (length w)).
    + destruct w; [done|]. cbn in *. lia.
    + rewrite drop_app_length. destruct IH as [? ->]. by eexists.
Qed.

(** * Unambiguous expressions

    Where a repeated class is followed by a character outside it, and no alternative is a
    prefix of another, a string has at most one list of captures. *)

Fixpoint compatible (icase : bool) (a b : chars) : bool :=
  match a, b with
  | x :: a', y :: b' => char_eq icase x y && compatible icase a' b'
  | _, _ => true
  end.

Fixpoint unambiguous (icase : bool) (r : regex) : Prop :=
  match r with
  | [] => True
  | IChar _ :: r' => unambiguous icase r'
  | IAlt alts :: r' =>
      (forall a b, a ∈ alts -> b ∈ alts -> a = b \/ compatible icase a b = false)
      /\ unambiguous icase r'
  | IPlus p :: r' =>
      match r' with
      | [] => True
      | IChar c :: _ => forall x, char_eq icase c x = true -> p x = false
      | _ => False
      end /\ unambiguous icase r'
  end.

Lemma char_eq_common icase x y z :
  char_eq icase x z = true -> char_eq icase y z = true -> char_eq icase x y = true.
Proof. unfold char_eq. destruct icase; rewrite !Z.eqb_eq; congruence. Qed.

Lemma compatible_common icase a b w1 w2 s1 s2 :
  Forall2 (fun x y => char_eq icase x y = true) a w1 ->
  Forall2 (fun x y => char_eq icase x y = true) b w2 ->
  w1 ++ s1 = w2 ++ s2 -> compatible icase a b = true.
Proof.
  intros Ha. revert b w2. induction Ha as [|x y a w1 Hx _ IH]; intros b w2 Hb H; [done|].
  destruct Hb as [|x' y' b w2 Hx' Hb]; [done|]. injection H as -> H. cbn.
  rewrite (char_eq_common icase x x' y' Hx Hx'). cbn. by eapply IH.
Qed.

Lemma all_chars_split p w1 w2 s1 s2 :
  all_chars p w1 -> all_chars p w2 ->
  (forall x l, s1 = x :: l -> p x = false) -> (forall x l, s2 = x :: l -> p x = false) ->
  w1 ++ s1 = w2 ++ s2 -> w1 = w2 /\ s1 = s2.
Proof.
  revert w2. induction w1 as [|x w1 IH]; intros [|y w2] H1 H2 E1 E2 H; cbn in H; [done|..].
  - apply Forall_cons in H2 as [Hy _]. by rewrite (E1 y (w2 ++ s2)) in Hy.
  - apply Forall_cons in H1 as [Hx _]. by rewrite (E2 x (w1 ++ s1)) in Hx.
  - injection H as -> H. apply Forall_cons in H1 as [_ H1], H2 as [_ H2].
    by destruct (IH w2 H1 H2 E1 E2 H) as [-> ->].
Qed.

Lemma matches_unique icase r s c1 c2 :
  unambiguous icase r -> matches icase r s c1 -> matches icase r s c2 -> c1 = c2.
Proof.
  revert s c1 c2. induction r as [|[c|alts|p] r IH]; intros s c1 c2 Hu H1 H2; cbn in Hu.
  - by inversion H1; inversion H2; subst.
  - inversion H1; inversion H2; subst. simplify_eq. by eapply IH.
  - destruct Hu as [Hp Hu].
    inversion H1 as [| |? a w1 ? s1 k1 Ha Hw1 M1|]; subst.
    inversion H2 as [| |? b w2 ? s2 k2 Hb Hw2 M2 E1 E|]; subst.
    symmetry in E. pose proof (compatible_common _ _ _ _ _ _ _ Hw1 Hw2 E) as Hc.
    destruct (Hp a b Ha Hb) as [<-|Hc']; [|congruence].
    apply Forall2_length in Hw1, Hw2. apply app_inj_1 in E as [-> ->]; [|congruence].
    f_equal. by eapply IH.
  - destruct Hu as [Hp Hu].
    inversion H1 as [| | |? w1 ? s1 k1 Hn1 Hw1 M1]; subst.
    inversion H2 as [| | |? w2 ? s2 k2 Hn2 Hw2 M2 E1 E]; subst.
    symmetry in E.
    assert (Hnext : forall s k, matches icase r s k -> forall x l, s = x :: l -> p x = false).
    { intros s k M x l ->. destruct r as [|[c| |] r]; try done; inversion M; subst. by apply Hp. }
    destruct (all_chars_split p w1 w2 s1 s2) as [-> ->]; eauto.
    f_equal. by eapply IH.
Qed.

Lemma regex_match_iff icase r s caps :
  unambiguous icase r -> (regex_match icase r s = Some caps <-> matches icase r s caps).
Proof.
  intros Hu. split; [apply regex_match_sound|]. intros H.
  destruct (regex_match_complete _ _ _ _ H) as [caps' H'].
  rewrite H'. f_equal. eapply matches_unique; eauto using regex_match_sound.
Qed.

(** * Inverting a match of a composed expression *)

Lemma matches_rlit icase a r s caps :
  matches icase (rlit a ++ r) s caps <->
  exists w s', s = w ++ s' /\ Forall2 (fun x y => char_eq icase x y = true) a w
    /\ matches icase r s' caps.
Proof.
  revert s. induction a as [|x a IH]; intros s; cbn.
  - split; [intros; by exists [], s|]. intros (w & s' & -> & Hw & H). by inversion Hw; subst.
  - split.
    + inversion 1 as [|? y ? s0 ? Hy M| |]; subst. apply IH in M as (w & s' & -> & Hw & M).
      exists (y :: w), s'. split; [done|]. split; [by constructor|done].
    + intros (w & s' & -> & Hw & M). inversion Hw as [|? y ? w' Hy Hw']; subst. cbn.
      constructor; [done|]. apply IH. by exists w', s'.
Qed.

Lemma matches_plus icase p r s caps :
  matches icase (IPlus p :: r) s caps <->
  exists w s' caps', s = w ++ s' /\ caps = w :: caps' /\ w <> [] /\ all_chars p w
    /\ matches icase r s' caps'.
Proof.
  split.
  - inversion 1; subst. by eauto 10.
  - intros (w & s' & caps' & -> & -> & ? & ? & ?). by constructor.
Qed.

Lemma matches_alt icase alts r s caps :
  matches icase (IAlt alts :: r) s caps <->
  exists a w s' caps', s = w ++ s' /\ caps = w :: caps' /\ a ∈ alts
    /\ Forall2 (fun x y => char_eq icase x y = true) a w /\ matches icase r s' caps'.
Proof.
  split.
  - inversion 1; subst. by eauto 10.
  - intros (a & w & s' & caps' & -> & -> & ? & ? & ?). by econstructor.
Qed.

Lemma matches_end icase s caps : matches icase [] s caps <-> s = [] /\ caps = [].
Proof. split; [by inversion 1|]. intros [-> ->]. constructor. Qed.

(** Without case folding a literal matches itself only. *)
Lemma char_eq_exact a w :
  Forall2 (fun x y => char_eq false x y = true) a w <-> w = a.
Proof.
  split.
  - induction 1 as [|x y a w H _ ->]; [done|]. by apply Z.eqb_eq in H as ->.
  - intros ->. induction a as [|x a IH]; constructor; [apply Z.eqb_refl|done].
Qed.

(** A literal matches itself, with or without case folding. *)
Lemma char_eq_self icase a : Forall2 (fun x y => char_eq icase x y = true) a a.
Proof. induction a as [|x a IH]; constructor; [destruct icase; apply Z.eqb_refl|done]. Qed.
