(* ===== verification/Client.v ===== *)
(** The base class of the client: [client.cpp] with [fsm.h] and [protocol-msg-type.h].

    The object is the record [client D]: the members of [Client], the process's side of the
    system ([kernel]) and the members [D] of the derived class.  The pure virtual functions the
    base class calls are the class [Virtual]. *)
From S2P Require Import Prelude Args Kernel Regex.

Inductive FSM_state : Type := S_START | S_AUTH | S_OPEN | S_JOIN.

#[export] Instance FSM_state_eq_dec : EqDecision FSM_state.
Proof. solve_decision. Defined.

Definition FSM_eqb (a b : FSM_state) : bool := bool_decide (a = b).
Infix "=fsm" := FSM_eqb (at level 70, no associativity) : ipk_scope.

Inductive Protocol_msg_type : Type :=
| M_CONFIRM | M_REPLY | M_AUTH | M_JOIN | M_MSG | M_PING | M_ERR | M_BYE | M_UNKNOWN.

#[export] Instance Protocol_msg_type_eq_dec : EqDecision Protocol_msg_type.
Proof. solve_decision. Defined.

(** The enumerators' values. *)
Definition msg_type_value (t : Protocol_msg_type) : Z :=
  match t with
  | M_CONFIRM => 0 | M_REPLY => 1 | M_AUTH => 2 | M_JOIN => 3 | M_MSG => 4
  | M_PING => 253 | M_ERR => 254 | M_BYE => 255 | M_UNKNOWN => 256
  end.

Record client (D : Type) : Type := MkClient {
  m_args : Args;
  m_current_state : FSM_state;
  m_user_display_name : chars;
  m_is_waiting_for_reply : bool;
  m_msg_to_server : chars;
  kernel : os;
  ext : D
}.
Arguments m_args {D} _.
Arguments m_current_state {D} _.
Arguments m_user_display_name {D} _.
Arguments m_is_waiting_for_reply {D} _.
Arguments m_msg_to_server {D} _.
Arguments kernel {D} _.
Arguments ext {D} _.
Arguments MkClient {D}.

Definition set_m_args {D} (v : Args) (c : client D) : client D :=
  MkClient v (m_current_state c) (m_user_display_name c) (m_is_waiting_for_reply c)
    (m_msg_to_server c) (kernel c) (ext c).
Definition set_m_current_state {D} (v : FSM_state) (c : client D) : client D :=
  MkClient (m_args c) v (m_user_display_name c) (m_is_waiting_for_reply c) (m_msg_to_server
    c) (kernel c) (ext c).
Definition set_m_user_display_name {D} (v : chars) (c : client D) : client D :=
  MkClient (m_args c) (m_current_state c) v (m_is_waiting_for_reply c) (m_msg_to_server c)
    (kernel c) (ext c).
Definition set_m_is_waiting_for_reply {D} (v : bool) (c : client D) : client D :=
  MkClient (m_args c) (m_current_state c) (m_user_display_name c) v (m_msg_to_server c)
    (kernel c) (ext c).
Definition set_m_msg_to_server {D} (v : chars) (c : client D) : client D :=
  MkClient (m_args c) (m_current_state c) (m_user_display_name c) (m_is_waiting_for_reply c)
    v (kernel c) (ext c).
Definition set_kernel {D} (v : os) (c : client D) : client D :=
  MkClient (m_args c) (m_current_state c) (m_user_display_name c) (m_is_waiting_for_reply c)
    (m_msg_to_server c) v (ext c).
Definition set_ext {D} (v : D) (c : client D) : client D :=
  MkClient (m_args c) (m_current_state c) (m_user_display_name c) (m_is_waiting_for_reply c)
    (m_msg_to_server c) (kernel c) v.

Definition s_MAX_REPLY_WAIT_TIME : Z := 5.
Definition s_MSG_CONTENT_MAX_LENGTH : Z := 60000.
Definition s_DISPLAY_NAME_MAX_LENGTH : Z := 20.
Definition s_USERNAME_MAX_LENGTH : Z := 20.
Definition s_CHANEL_ID_MAX_LENGTH : Z := 20.
Definition s_USER_SECRET_MAX_LENGTH : Z := 128.

Definition cmd_auth : chars := lit "/auth".
Definition cmd_help : chars := lit "/help".
Definition cmd_join : chars := lit "/join".
Definition cmd_rename : chars := lit "/rename".

(** Handlers: the object, and an exception or a blocked read. *)
Abbreviation CM D := (M (client D) stop).

Definition strlen (s : chars) : Z := Z.of_nat (length s).

(** * Calls on the process's resources *)

Section BASE.

Context {D : Type}.

Definition on_kernel (f : os -> os) (c : client D) : client D := set_kernel (f (kernel c)) c.

Definition cout (text : chars) : CM D unit := modify (on_kernel (write_console text)).

(** [printErrMsg] of error.cpp. *)
Definition printErrMsg (err_msg : chars) : CM D unit := cout (lit "ERROR: " ++ err_msg ++ [LF]).

(** Both derived classes send to the server of the arguments. *)
Definition send_to_server (data : chars) : CM D unit := fun c =>
  let (k, ok) := send_packet (m_server_addr (m_args c)) data (kernel c) in
  (set_kernel k c,
   if ok then Ok tt
   else Err (Thrown (lit "couldn't send a message to the server: send() has failed."))).

Definition startTimer (time : Z) : CM D unit := modify (on_kernel (timerfd_settime (uint16 time))).
Definition stopTimer : CM D unit := modify (on_kernel (timerfd_settime 0)).
Definition disableStdinEvents : CM D unit := modify (on_kernel (set_stdin_events false)).
Definition enableStdinEvents : CM D unit := modify (on_kernel (set_stdin_events true)).

Definition read_line : CM D getline_result := fun c =>
  match getline (kernel c) with
  | Some (r, k) => (set_kernel k c, Ok r)
  | None => (c, Err Blocked)
  end.

(** * Lengths *)

(** [display_name_length >= 1 && display_name_length << 20], on 32-bit unsigned values. *)
Definition isValidDisplayNameLength (length : Z) : bool :=
  let display_name_length := uint32 length in
  (1 <=? display_name_length)
  && negb (uint32 (Z.shiftl display_name_length s_DISPLAY_NAME_MAX_LENGTH) =? 0).

Definition isValidMsgContentLength (length : Z) : bool :=
  let msg_content_length := uint32 length in
  (1 <=? msg_content_length) && (msg_content_length <=? s_MSG_CONTENT_MAX_LENGTH).

(** * Output *)

Definition outputIncomingMsg (display_name content : chars) : CM D unit :=
  cout (display_name ++ lit ": " ++ content ++ [LF]).

Definition outputIncomingReply (is_positive : bool) (content : chars) : CM D unit :=
  cout (lit "Action " ++ lit (if is_positive then "Success" else "Failure") ++ lit ": "
    ++ content ++ [LF]).

Definition printErrFromServer (display_name message_content : chars) : CM D unit :=
  cout (lit "ERROR FROM " ++ display_name ++ lit ": " ++ message_content ++ [LF]).

Definition printSupportedCommands : CM D unit :=
  cout (lit "Supported commands:" ++ [LF]
    ++ lit "/auth {Username} {Secret} {DisplayName} - client authentication (signing in)"
    ++ lit " using user-provided username, display name and a password" ++ [LF]
    ++ lit "/join {ChannelID} - client's request to join a chat channel by its identifier" ++ [LF]
    ++ lit "/rename {DisplayName} - locally changes the display name of"
    ++ lit " the user to be sent with new messages/selected commands" ++ [LF]
    ++ lit "/help - prints out supported local commands"
    ++ lit " with their parameters and a description" ++ [LF]).

(** * Regular expressions of the user's input *)

Definition getAuthCommandRegex : regex :=
  IAlt [cmd_auth] :: rlit (lit " ") ++ IPlus is_alpha_numeric_underline_dash
  :: rlit (lit " ") ++ IPlus is_alpha_numeric_underline_dash
  :: rlit (lit " ") ++ [IPlus is_printable].
Definition getJoinCommandRegex : regex :=
  IAlt [cmd_join] :: rlit (lit " ") ++ [IPlus is_alpha_numeric_underline_dash].
Definition getRenameCommandRegex : regex :=
  IAlt [cmd_rename] :: rlit (lit " ") ++ [IPlus is_printable].
Definition getHelpCommandRegex : regex := [IAlt [cmd_help]].
Definition getUserMsgRegex : regex := [IPlus is_printable_space_lf].

(** * Commands *)

Definition getUserMsgType (command : chars) : Protocol_msg_type :=
  if command =s? cmd_auth then M_AUTH
  else if command =s? cmd_join then M_JOIN
  else M_MSG.

Definition canSendMessageType (st : FSM_state) (t : Protocol_msg_type) : bool :=
  if bool_decide (t = M_AUTH) then (st =fsm S_START) || (st =fsm S_AUTH)
  else st =fsm S_OPEN.

Definition processNonMsgToServer (user_input : list chars) : CM D bool :=
  if nth 0 user_input [] =s? cmd_rename then
    _ ← modify (set_m_user_display_name (nth 1 user_input [])); mret true
  else if nth 0 user_input [] =s? cmd_help then
    _ ← printSupportedCommands; mret true
  else mret false.

End BASE.

(** * Virtual functions *)

(** What the base class calls of a derived class. *)
Class Virtual (D : Type) : Type := {
  buildErrMsg : chars -> CM D unit;
  buildAuthMsg : chars -> chars -> CM D unit;
  buildJoinMsg : chars -> CM D unit;
  buildMsgMsg : chars -> CM D unit;
  buildByeMsg : CM D unit;
  sendMsgToServer : CM D unit;
  sendByeMsgToServer : CM D unit
}.

Section DERIVED.

Context {D : Type} `{Virtual D}.

Definition buildUserMsgToServer (user_input : list chars) : CM D unit :=
  match getUserMsgType (nth 0 user_input []) with
  | M_AUTH => buildAuthMsg (nth 1 user_input []) (nth 2 user_input [])
  | M_JOIN => buildJoinMsg (nth 1 user_input [])
  | M_MSG => buildMsgMsg (nth 0 user_input [])
  | _ => throw (Thrown (lit "function buildUserMsgToServer() is expected to be called when user enters an auth command or join command or a message."))
  end.

Definition wrong_state : CM D (list chars) :=
  _ ← printErrMsg (lit "you can't send this type of message in the current client state.");
  mret [].
Definition wrong_length : CM D (list chars) :=
  _ ← printErrMsg (lit "invalid length of the message parameter.");
  mret [].

(** The tests of [parseUserInput] on a line that was read: the tokens, or none. *)
Definition parseLine (user_input : chars) : CM D (list chars) :=
  c ← get;
  let st := m_current_state c in
  match regex_match false getAuthCommandRegex user_input with
  | Some m =>
      if negb (canSendMessageType st M_AUTH) then wrong_state
      else if (s_USERNAME_MAX_LENGTH <? strlen (nth 1 m []))
           || (s_USER_SECRET_MAX_LENGTH <? strlen (nth 2 m []))
           || negb (isValidDisplayNameLength (strlen (nth 3 m []))) then wrong_length
      else mret m
  | None =>
  match regex_match false getJoinCommandRegex user_input with
  | Some m =>
      if negb (canSendMessageType st M_JOIN) then wrong_state
      else if s_CHANEL_ID_MAX_LENGTH <? strlen (nth 1 m []) then wrong_length
      else mret m
  | None =>
  match regex_match false getRenameCommandRegex user_input with
  | Some m =>
      if st =fsm S_JOIN then
        _ ← printErrMsg (lit "you can't rename yourself in the current application state.");
        mret []
      else if negb (isValidDisplayNameLength (strlen (nth 1 m []))) then wrong_length
      else mret m
  | None =>
  match regex_match false getHelpCommandRegex user_input with
  | Some _ => mret [user_input]
  | None =>
  match (if negb (user_input =s? []) && negb (nth 0 user_input 0 =? 47)
         then regex_match false getUserMsgRegex user_input else None) with
  | Some m =>
      if negb (canSendMessageType st M_MSG) then wrong_state
      else if negb (isValidMsgContentLength (strlen (nth 0 m []))) then wrong_length
      else mret m
  | None => _ ← printErrMsg (lit "invalid user input."); mret []
  end end end end end.

Definition parseUserInput : CM D (list chars) :=
  r ← read_line;
  match r with
  | Eof =>
      _ ← sendByeMsgToServer;
      c ← get;
      if m_is_tcp (m_args c) then throw (Thrown []) else mret []
  | Line user_input => parseLine user_input
  end.

End DERIVED.
