(* ===== verification/ClientSpec.v ===== *)
(** What the base class promises about the user's input: which lines are commands, in which
    state, and what is printed for the others. *)
From S2P Require Import Prelude Args Kernel Regex Client.

(** Evaluate the tests of the client's state where it is known. *)
Ltac fsm_tests :=
  repeat match goal with
  | |- context [(?a =fsm ?b)] =>
      let v := eval vm_compute in (a =fsm b) in
      match v with true => idtac | false => idtac end; change (a =fsm b) with v
  end.

(** * The grammar of the user's input *)

Definition name_chars (s : chars) : Prop :=
  s <> [] /\ all_chars is_alpha_numeric_underline_dash s.
Definition printable_chars (s : chars) : Prop := s <> [] /\ all_chars is_printable s.
Definition text_chars (s : chars) : Prop := s <> [] /\ all_chars is_printable_space_lf s.

(** [user_command st line tokens]: in the state [st] the line is a command, with its tokens. *)
Inductive user_command (st : FSM_state) : chars -> list chars -> Prop :=
| uc_auth username secret name :
    st = S_START \/ st = S_AUTH ->
    name_chars username -> name_chars secret -> printable_chars name ->
    strlen username <= 20 -> strlen secret <= 128 ->
    isValidDisplayNameLength (strlen name) = true ->
    user_command st
      (lit "/auth " ++ username ++ lit " " ++ secret ++ lit " " ++ name)
      [cmd_auth; username; secret; name]
| uc_join channel :
    st = S_OPEN -> name_chars channel -> strlen channel <= 20 ->
    user_command st (lit "/join " ++ channel) [cmd_join; channel]
| uc_rename name :
    st <> S_JOIN -> printable_chars name -> isValidDisplayNameLength (strlen name) = true ->
    user_command st (lit "/rename " ++ name) [cmd_rename; name]
| uc_help : user_command st cmd_help [cmd_help]
| uc_message text :
    st = S_OPEN -> text_chars text -> head text <> Some 47 -> isValidMsgContentLength (strlen text) = true ->
    user_command st text [text].

(** * The regular expressions mean the grammar *)

Lemma space_not_name x : char_eq false 32 x = true -> is_alpha_numeric_underline_dash x = false.
Proof. intros <-%Z.eqb_eq. reflexivity. Qed.

#[local] Arguments lit !s / : simpl nomatch.

Lemma auth_unambiguous : unambiguous false getAuthCommandRegex.
Proof.
  cbn. repeat split; auto using space_not_name.
  intros a b Ha Hb. left. apply list_elem_of_singleton in Ha as ->.
  by apply list_elem_of_singleton in Hb as ->.
Qed.

Lemma command_unambiguous cmd p : unambiguous false (IAlt [cmd] :: rlit (lit " ") ++ [IPlus p]).
Proof.
  cbn. repeat split; auto.
  intros a b Ha Hb. left. apply list_elem_of_singleton in Ha as ->.
  by apply list_elem_of_singleton in Hb as ->.
Qed.

#[local] Arguments lit : simpl never.

Lemma matches_keyword cmd r l m :
  matches false (IAlt [cmd] :: r) l m <->
  exists l' m', l = cmd ++ l' /\ m = cmd :: m' /\ matches false r l' m'.
Proof.
  rewrite matches_alt. split.
  - intros (a & w & s & caps & -> & -> & Ha & Hw & H). apply list_elem_of_singleton in Ha as ->.
    apply char_eq_exact in Hw as ->. by eauto.
  - intros (l' & m' & -> & -> & H). exists cmd, cmd, l', m'. repeat split; auto.
    + by apply list_elem_of_singleton.
    + apply char_eq_self.
Qed.

Lemma matches_literal a r l m :
  matches false (rlit a ++ r) l m <-> exists l', l = a ++ l' /\ matches false r l' m.
Proof.
  rewrite matches_rlit. split.
  - intros (w & l' & -> & Hw & H). apply char_eq_exact in Hw as ->. by eauto.
  - intros (l' & -> & H). exists a, l'. split; [done|]. split; [apply char_eq_self|done].
Qed.

Lemma matches_last p l m :
  matches false [IPlus p] l m <-> m = [l] /\ l <> [] /\ all_chars p l.
Proof.
  rewrite matches_plus. split.
  - intros (w & s' & caps & -> & -> & ? & ? & [-> ->]%matches_end). by rewrite app_nil_r.
  - intros (-> & ? & ?). exists l, [], []. rewrite app_nil_r.
    repeat split; auto using m_nil.
Qed.

Lemma command_regex cmd p l m :
  regex_match false (IAlt [cmd] :: rlit (lit " ") ++ [IPlus p]) l = Some m <->
  exists a, l = cmd ++ lit " " ++ a /\ m = [cmd; a] /\ a <> [] /\ all_chars p a.
Proof.
  rewrite regex_match_iff by apply command_unambiguous. rewrite matches_keyword. split.
  - intros (l' & m' & -> & -> & (a & -> & (-> & ? & ?)%matches_last)%matches_literal). by eauto.
  - intros (a & -> & -> & ? & ?). exists (lit " " ++ a), [a]. repeat split.
    apply matches_literal. exists a. split; [done|]. by apply matches_last.
Qed.

Lemma auth_regex l m :
  regex_match false getAuthCommandRegex l = Some m <->
  exists u s d, l = lit "/auth " ++ u ++ lit " " ++ s ++ lit " " ++ d /\ m = [cmd_auth; u; s; d]
    /\ name_chars u /\ name_chars s /\ printable_chars d.
Proof.
  rewrite regex_match_iff by apply auth_unambiguous. unfold getAuthCommandRegex.
  rewrite matches_keyword. split.
  - intros (l' & m' & -> & -> & (l1 & -> & H)%matches_literal).
    apply matches_plus in H as (u & l2 & m1 & -> & -> & ? & ? & (l3 & -> & H)%matches_literal).
    apply matches_plus in H as (s & l4 & m2 & -> & -> & ? & ? & (l5 & -> & H)%matches_literal).
    apply matches_last in H as (-> & ? & ?). exists u, s, l5. by repeat split.
  - intros (u & s & d & -> & -> & [] & [] & []).
    exists (lit " " ++ u ++ lit " " ++ s ++ lit " " ++ d), [u; s; d]. repeat split.
    apply matches_literal. eexists. split; [done|].
    apply matches_plus. exists u, (lit " " ++ s ++ lit " " ++ d), [s; d]. repeat split; auto.
    apply matches_literal. eexists. split; [done|].
    apply matches_plus. exists s, (lit " " ++ d), [d]. repeat split; auto.
    apply matches_literal. eexists. split; [done|]. by apply matches_last.
Qed.

Lemma help_regex l m :
  regex_match false getHelpCommandRegex l = Some m <-> l = cmd_help /\ m = [cmd_help].
Proof.
  split.
  - intros (l' & m' & -> & -> & [-> ->]%matches_end)%regex_match_sound%matches_keyword.
    by rewrite app_nil_r.
  - intros [-> ->]. reflexivity.
Qed.

Lemma message_regex l m :
  regex_match false getUserMsgRegex l = Some m <-> m = [l] /\ text_chars l.
Proof. rewrite regex_match_iff by done. apply matches_last. Qed.

(** * Parsing *)

Section PARSE.

Context {D : Type} `{Virtual D}.

(** The client after an error line was printed. *)
Definition complained (text : chars) (c : client D) : client D :=
  on_kernel (write_console (lit "ERROR: " ++ text ++ [LF])) c.

(** How the parser ends: with the tokens of a command, or with one error line. *)
Inductive parsed (line : chars) (c : client D) : client D * result stop (list chars) -> Prop :=
| parsed_command tokens :
    user_command (m_current_state c) line tokens -> parsed line c (c, Ok tokens)
| parsed_error text :
    (forall tokens, ~ user_command (m_current_state c) line tokens) ->
    parsed line c (complained text c, Ok []).

Lemma FSM_eqb_true a b : FSM_eqb a b = true <-> a = b.
Proof. apply bool_decide_eq_true. Qed.

Lemma can_send_auth st : canSendMessageType st M_AUTH = true <-> st = S_START \/ st = S_AUTH.
Proof.
  unfold canSendMessageType. rewrite bool_decide_true by done.
  by rewrite orb_true_iff, !FSM_eqb_true.
Qed.

Lemma can_send_open st t : t <> M_AUTH -> canSendMessageType st t = true <-> st = S_OPEN.
Proof. intros Ht. unfold canSendMessageType. rewrite bool_decide_false by done. apply FSM_eqb_true. Qed.

Ltac no_match :=
  match goal with
  | |- regex_match false ?r ?l = None =>
      let m := fresh "m" in let E := fresh "E" in
      destruct (regex_match false r l) as [m|] eqn:E; [exfalso|reflexivity];
      first [ apply auth_regex in E as (? & ? & ? & E & _)
            | apply command_regex in E as (? & E & _)
            | apply help_regex in E as [E _] ];
      try done; subst; cbn in *; try done; congruence
  end.

(** Which expression matches decides which command the line can be. *)
Lemma user_command_regex st l t :
  user_command st l t <->
  match regex_match false getAuthCommandRegex l with
  | Some m => t = m /\ canSendMessageType st M_AUTH = true /\ strlen (nth 1 m []) <= 20
      /\ strlen (nth 2 m []) <= 128 /\ isValidDisplayNameLength (strlen (nth 3 m [])) = true
  | None =>
  match regex_match false getJoinCommandRegex l with
  | Some m => t = m /\ canSendMessageType st M_JOIN = true /\ strlen (nth 1 m []) <= 20
  | None =>
  match regex_match false getRenameCommandRegex l with
  | Some m => t = m /\ st <> S_JOIN /\ isValidDisplayNameLength (strlen (nth 1 m [])) = true
  | None =>
  match regex_match false getHelpCommandRegex l with
  | Some m => t = m
  | None =>
  match regex_match false getUserMsgRegex l with
  | Some m => t = m /\ head l <> Some 47 /\ canSendMessageType st M_MSG = true
      /\ isValidMsgContentLength (strlen (nth 0 m [])) = true
  | None => False
  end end end end end.
Proof.
  split.
  - intros [u s d Hst Hu Hs Hd L1 L2 L3|ch Hst [] L|d Hst [] L| |text Hst Ht Hh L].
    + rewrite (proj2 (auth_regex _ [cmd_auth; u; s; d])) by (exists u, s, d; done).
      rewrite can_send_auth. done.
    + assert (regex_match false getAuthCommandRegex (lit "/join " ++ ch) = None) as -> by no_match.
      unfold getJoinCommandRegex. rewrite (proj2 (command_regex _ _ _ [cmd_join; ch])) by naive_solver.
      by rewrite can_send_open.
    + assert (regex_match false getAuthCommandRegex (lit "/rename " ++ d) = None) as -> by no_match.
      assert (regex_match false getJoinCommandRegex (lit "/rename " ++ d) = None) as -> by no_match.
      unfold getRenameCommandRegex.
      by rewrite (proj2 (command_regex _ _ _ [cmd_rename; d])) by naive_solver.
    + reflexivity.
    + assert (regex_match false getAuthCommandRegex text = None) as -> by no_match.
      assert (regex_match false getJoinCommandRegex text = None) as -> by no_match.
      assert (regex_match false getRenameCommandRegex text = None) as -> by no_match.
      assert (regex_match false getHelpCommandRegex text = None) as -> by no_match.
      rewrite (proj2 (message_regex text [text])) by done. by rewrite can_send_open.
  - destruct (regex_match false getAuthCommandRegex l) as [m|] eqn:E1.
    { apply auth_regex in E1 as (u & s & d & -> & -> & Hu & Hs & Hd). rewrite can_send_auth.
      intros (-> & ? & ? & ? & ?). by constructor. }
    destruct (regex_match false getJoinCommandRegex l) as [m|] eqn:E2.
    { apply command_regex in E2 as (a & -> & -> & ? & ?). rewrite can_send_open by done.
      intros (-> & ? & ?). by apply (uc_join st a). }
    destruct (regex_match false getRenameCommandRegex l) as [m|] eqn:E3.
    { apply command_regex in E3 as (a & -> & -> & ? & ?).
      intros (-> & ? & ?). by apply (uc_rename st a). }
    destruct (regex_match false getHelpCommandRegex l) as [m|] eqn:E4.
    { apply help_regex in E4 as [-> ->]. intros ->. constructor. }
    destruct (regex_match false getUserMsgRegex l) as [m|] eqn:E5; [|done].
    apply message_regex in E5 as [-> ?]. rewrite can_send_open by done.
    intros (-> & ? & ? & ?). by constructor.
Qed.

Lemma parsed_wrong_state line c :
  (forall tokens, ~ user_command (m_current_state c) line tokens) ->
  parsed line c (wrong_state c).
Proof. apply parsed_error. Qed.

Lemma parsed_wrong_length line c :
  (forall tokens, ~ user_command (m_current_state c) line tokens) ->
  parsed line c (wrong_length c).
Proof. apply parsed_error. Qed.

Lemma parseLine_parsed line c : parsed line c (parseLine line c).
Proof.
  pose proof (user_command_regex (m_current_state c) line) as Hc.
  unfold parseLine. rewrite (bind_ok _ _ c c c) by done. cbv zeta.
  destruct (regex_match false getAuthCommandRegex line) as [m|].
  { destruct (canSendMessageType _ M_AUTH); cbn [negb];
      [|apply parsed_wrong_state; intros t Ht%Hc; by destruct Ht as (_ & ? & _)].
    destruct (_ || _ || _)%bool eqn:E;
      [apply parsed_wrong_length|apply parsed_command, Hc; bool_to_prop; done].
    intros t Ht%Hc. unfold s_USERNAME_MAX_LENGTH, s_USER_SECRET_MAX_LENGTH in E.
    destruct Ht as (_ & _ & ? & ? & Hn). rewrite Hn in E. bool_to_prop; try done; lia. }
  destruct (regex_match false getJoinCommandRegex line) as [m|].
  { destruct (canSendMessageType _ M_JOIN); cbn [negb];
      [|apply parsed_wrong_state; intros t Ht%Hc; by destruct Ht as (_ & ? & _)].
    unfold s_CHANEL_ID_MAX_LENGTH. destruct (_ <? _) eqn:E; bool_to_prop.
    - apply parsed_wrong_length. intros t Ht%Hc. lia.
    - by apply parsed_command, Hc. }
  destruct (regex_match false getRenameCommandRegex line) as [m|].
  { destruct (FSM_eqb _ _) eqn:E.
    - apply FSM_eqb_true in E. apply parsed_error. intros t Ht%Hc. by destruct Ht as (_ & ? & _).
    - destruct (isValidDisplayNameLength _); cbn [negb].
      + apply parsed_command, Hc. split; [done|]. split; [|done].
        intros E'%FSM_eqb_true. congruence.
      + apply parsed_wrong_length. intros t Ht%Hc. destruct Ht as (_ & _ & ?). done. }
  destruct (regex_match false getHelpCommandRegex line) as [m|] eqn:E4.
  { apply help_regex in E4 as [-> ->]. by apply parsed_command, Hc. }
  destruct (negb _ && negb _)%bool eqn:E.
  - assert (head line <> Some 47) as Hh.
    { destruct line; [done|]. cbn in *. intros [= ->]. cbn in E. by rewrite andb_false_r in E. }
    destruct (regex_match false getUserMsgRegex line) as [m|];
      [|apply parsed_error; by intros t Ht%Hc].
    destruct (canSendMessageType _ M_MSG); cbn [negb];
      [|apply parsed_wrong_state; intros t Ht%Hc; by destruct Ht as (_ & _ & ? & _)].
    destruct (isValidMsgContentLength _); cbn [negb].
    + by apply parsed_command, Hc.
    + apply parsed_wrong_length. intros t Ht%Hc. by destruct Ht as (_ & _ & _ & ?).
  - apply parsed_error. intros t Ht%Hc.
    destruct (regex_match false getUserMsgRegex line) as [m|] eqn:E5; [|done].
    apply message_regex in E5 as [-> [Hne _]]. destruct Ht as (_ & Hh & _).
    destruct line as [|x line]; [done|]. apply andb_false_iff in E as [E|E];
      [by apply negb_false_iff, chars_eqb_true in E|].
    cbn [nth head] in *. bool_to_prop. by subst.
Qed.

Lemma user_command_unique st l t1 t2 :
  user_command st l t1 -> user_command st l t2 -> t1 = t2.
Proof.
  rewrite !user_command_regex.
  repeat match goal with |- context [regex_match false ?r l] => destruct (regex_match false r l) end;
    intuition congruence.
Qed.

(** C23. The parser of the user's input decides the grammar of the commands: on a command allowed
    in the current state it returns the command's tokens and changes nothing; on any other line
    it prints exactly one line starting with "ERROR: " and returns no tokens. *)
Theorem parseLine_spec line c :
  parsed line c (parseLine line c)
  /\ (forall tokens, user_command (m_current_state c) line tokens ->
        parseLine line c = (c, Ok tokens)).
Proof.
  pose proof (parseLine_parsed line c) as Hp. split; [done|]. intros tokens Ht.
  destruct Hp as [t Ht'|text Hno]; [|by apply Hno in Ht]. by rewrite (user_command_unique _ _ _ _ Ht Ht').
Qed.

(** The parser in a symbolic execution. *)
Lemma wp_parseLine line (Q : list chars -> client D -> Prop) F c :
  (forall t, user_command (m_current_state c) line t -> Q t c) ->
  (forall text, Q [] (complained text c)) ->
  wp (parseLine line) Q F c.
Proof. intros H1 H2. unfold wp. destruct (parseLine_parsed line c); auto. Qed.

Lemma wp_send data (Q : unit -> client D -> Prop) F c :
  Q tt (set_kernel (set_sent (sent (kernel c) ++ [(m_server_addr (m_args c), data)]) (kernel c)) c) ->
  (forall what, F (Thrown what) c) ->
  wp (send_to_server data) Q F c.
Proof.
  intros HQ HF. unfold wp, send_to_server, send_packet. destruct (send_fails _); [|done].
  destruct c; apply HF.
Qed.

(** Reading a line only moves bytes of standard input. *)
Definition same_output (k k' : os) : Prop :=
  stdin_events k' = stdin_events k /\ clock k' = clock k /\ timer k' = timer k
  /\ console k' = console k /\ sent k' = sent k /\ send_fails k' = send_fails k
  /\ pipe_closed k' = pipe_closed k.

Lemma getline_same k r k' : getline k = Some (r, k') -> same_output k k'.
Proof.
  unfold getline. generalize (S (length (pipe k))) as fuel. intros fuel. revert k.
  induction fuel as [|fuel IH]; intros k; cbn;
    (destruct (split_line (filebuf k)) as [[l q]|]; [by intros [= <- <-]|]).
  - destruct (pipe_closed k) eqn:E; [|done]. by destruct (filebuf k); intros [= <- <-].
  - destruct (pipe k).
    + destruct (pipe_closed k) eqn:E; [|done]. by destruct (filebuf k); intros [= <- <-].
    + intros H1%IH. exact H1.
Qed.

Lemma wp_read_line (Q : getline_result -> client D -> Prop) (F : stop -> client D -> Prop) c :
  (forall r k, same_output (kernel c) k -> Q r (set_kernel k c)) -> F Blocked c ->
  wp read_line Q F c.
Proof.
  intros HQ HF. unfold wp, read_line. destruct (getline (kernel c)) as [[r k]|] eqn:E; [|done].
  by apply HQ, (getline_same _ r).
Qed.

End PARSE.

Lemma parseLine_spec_witness :
  user_command S_START (lit "/auth a b c") [lit "/auth"; lit "a"; lit "b"; lit "c"]
  /\ forall (c : client unit) (V : Virtual unit), m_current_state c = S_START ->
       parseLine (lit "/auth a b c") c = (c, Ok [lit "/auth"; lit "a"; lit "b"; lit "c"]).
Proof.
  assert (user_command S_START (lit "/auth a b c") [lit "/auth"; lit "a"; lit "b"; lit "c"]) as Hc.
  { apply (uc_auth S_START (lit "a") (lit "b") (lit "c")); auto; repeat constructor; done. }
  split; [exact Hc|]. intros c V Hs. apply (parseLine_spec (lit "/auth a b c") c). by rewrite Hs.
Defined.

(** * The length of a display name *)

(** The test the constant's name and the protocol call for. *)
Definition intended_name_length (n : Z) : bool := (1 <=? n) && (n <=? s_DISPLAY_NAME_MAX_LENGTH).

(** What [isValidDisplayNameLength] accepts: a length in 32 bits is refused exactly when it is a
    multiple of 4096; so it agrees with the intended test, from 1 to 20, on the lengths up to 20
    and the multiples of 4096, and on no other: longer names pass. *)
Theorem isValidDisplayNameLength_spec n :
  0 <= n < 2 ^ 32 ->
  (isValidDisplayNameLength n = true <-> n mod 4096 <> 0)
  /\ (isValidDisplayNameLength n = intended_name_length n <-> n <= 20 \/ n mod 4096 = 0).
Proof.
  intros Hn.
  assert (isValidDisplayNameLength n = true <-> n mod 4096 <> 0) as Hv.
  2: { split; [done|]. unfold intended_name_length, s_DISPLAY_NAME_MAX_LENGTH.
       destruct (isValidDisplayNameLength n), (1 <=? n) eqn:E1, (n <=? 20) eqn:E2; cbn;
         bool_to_prop; intuition (congruence || lia). }
  unfold isValidDisplayNameLength, uint32, s_DISPLAY_NAME_MAX_LENGTH.
  rewrite Z.shiftl_mul_pow2 by lia. rewrite andb_true_iff, negb_true_iff, Z.leb_le, Z.eqb_neq.
  change (2 ^ 20) with 1048576. rewrite Z.mod_small by lia. lia.
Qed.

Lemma isValidDisplayNameLength_spec_witness :
  isValidDisplayNameLength 21 = true /\ isValidDisplayNameLength 4096 = false.
Proof.
  split.
  - apply (proj2 (proj1 (isValidDisplayNameLength_spec 21 ltac:(lia)))). done.
  - destruct (isValidDisplayNameLength 4096) eqn:E; [|done].
    by apply (proj1 (proj1 (isValidDisplayNameLength_spec 4096 ltac:(lia)))) in E.
Defined.
