(* ===== verification/TcpClient.v ===== *)
(** The TCP client ([tcp-client.cpp], class [Tcp_client]). *)
From S2P Require Import Prelude Args Kernel Regex Client.

(** * State *)

(** [m_msg_from_server]: the bytes received and not yet processed. *)
Definition tcp_client : Type := client chars.
Abbreviation TM := (CM chars).

Definition m_msg_from_server (c : client chars) : chars := ext c.
Definition set_m_msg_from_server (v : chars) (c : client chars) : client chars := set_ext v c.

Definition s_END_OF_MESSAGE : chars := CRLF.
Definition s_BYTES_IN_END_OF_MESSAGE : nat := 2.
Definition tcp_MAX_MSG_SIZE : Z :=
  strlen (lit "MSG FROM") + strlen (lit " ") + s_DISPLAY_NAME_MAX_LENGTH + strlen (lit " IS ")
  + s_MSG_CONTENT_MAX_LENGTH + Z.of_nat s_BYTES_IN_END_OF_MESSAGE.

(** * Messages to the server *)

Definition tcp_buildJoinMsg (channel_id : chars) : TM unit :=
  c ← get;
  modify (set_m_msg_to_server
    (lit "JOIN " ++ channel_id ++ lit " AS " ++ m_user_display_name c ++ s_END_OF_MESSAGE)).

Definition tcp_buildMsgMsg (user_msg : chars) : TM unit :=
  c ← get;
  modify (set_m_msg_to_server
    (lit "MSG FROM " ++ m_user_display_name c ++ lit " IS " ++ user_msg ++ s_END_OF_MESSAGE)).

Definition tcp_buildAuthMsg (username secret : chars) : TM unit :=
  c ← get;
  modify (set_m_msg_to_server
    (lit "AUTH " ++ username ++ lit " AS " ++ m_user_display_name c ++ lit " USING " ++ secret
      ++ s_END_OF_MESSAGE)).

Definition tcp_buildErrMsg (content : chars) : TM unit :=
  c ← get;
  modify (set_m_msg_to_server
    (lit "ERR FROM " ++ m_user_display_name c ++ lit " IS " ++ content ++ s_END_OF_MESSAGE)).

Definition tcp_buildByeMsg : TM unit :=
  c ← get;
  modify (set_m_msg_to_server (lit "BYE FROM " ++ m_user_display_name c ++ s_END_OF_MESSAGE)).

Definition tcp_sendMsgToServer : TM unit := c ← get; send_to_server (m_msg_to_server c).

Definition tcp_sendByeMsgToServer : TM unit := _ ← tcp_buildByeMsg; tcp_sendMsgToServer.

#[export] Instance tcp_virtual : Virtual chars := {
  buildErrMsg := tcp_buildErrMsg;
  buildAuthMsg := tcp_buildAuthMsg;
  buildJoinMsg := tcp_buildJoinMsg;
  buildMsgMsg := tcp_buildMsgMsg;
  buildByeMsg := tcp_buildByeMsg;
  sendMsgToServer := tcp_sendMsgToServer;
  sendByeMsgToServer := tcp_sendByeMsgToServer
}.

Definition sendErrMsgAndTerminate {A} (err_msg : chars) : TM A :=
  _ ← tcp_buildErrMsg err_msg;
  _ ← tcp_sendMsgToServer;
  throw (Thrown err_msg).

(** * Messages from the server *)

Definition getReplyMsgRegex : regex :=
  rlit (lit "REPLY ") ++ IAlt [lit "OK"; lit "NOK"] :: rlit (lit " IS ")
  ++ IPlus is_printable_space_lf :: rlit s_END_OF_MESSAGE.
Definition getMsgMsgRegex : regex :=
  rlit (lit "MSG FROM ") ++ IPlus is_printable :: rlit (lit " IS ")
  ++ IPlus is_printable_space_lf :: rlit s_END_OF_MESSAGE.
Definition getErrMsgRegex : regex :=
  rlit (lit "ERR FROM ") ++ IPlus is_printable :: rlit (lit " IS ")
  ++ IPlus is_printable_space_lf :: rlit s_END_OF_MESSAGE.
Definition getByeMsgRegex : regex :=
  rlit (lit "BYE FROM ") ++ IPlus is_printable :: rlit s_END_OF_MESSAGE.

Definition starts_with (p s : chars) : bool := take (length p) s =s? p.

Definition getServerMsgType (msg_from_server : chars) : Protocol_msg_type :=
  if 3 <=? strlen msg_from_server then
    let prefix := map toupper (take 5 msg_from_server) in
    if starts_with (lit "MSG") prefix then M_MSG
    else if starts_with (lit "ERR") prefix then M_ERR
    else if starts_with (lit "BYE") prefix then M_BYE
    else if starts_with (lit "REPLY") prefix then M_REPLY
    else M_UNKNOWN
  else M_UNKNOWN.

(** [strcasecmp(a, b) == 0] *)
Definition equal_icase (a b : chars) : bool := map tolower a =s? map tolower b.

Definition tcp_processServerReplyMsg (reply_msg_from_server : chars) : TM unit :=
  c ← get;
  if negb (m_current_state c =fsm S_AUTH) && negb (m_current_state c =fsm S_JOIN) then
    sendErrMsgAndTerminate (lit "received a REPLY message in unexpected state.")
  else
    _ ← when (m_is_waiting_for_reply c)
      (match regex_match true getReplyMsgRegex reply_msg_from_server with
       | Some matches =>
           if isValidMsgContentLength (strlen (nth 1 matches [])) then
             _ ← stopTimer;
             let is_positive_reply := equal_icase (nth 0 matches []) (lit "OK") in
             _ ← outputIncomingReply is_positive_reply (nth 1 matches []);
             _ ← when ((m_current_state c =fsm S_JOIN) || is_positive_reply)
                   (modify (set_m_current_state S_OPEN));
             _ ← modify (set_m_is_waiting_for_reply false);
             enableStdinEvents
           else sendErrMsgAndTerminate (lit "received a malformed REPLY message from the server.")
       | None =>
           sendErrMsgAndTerminate (lit "received a malformed REPLY message from the server.")
       end);
    if m_is_waiting_for_reply c then mret tt
    else sendErrMsgAndTerminate (lit "didn't expect any reply message from the server.").

Definition tcp_processServerMsgMsg (msg_msg_from_server : chars) : TM unit :=
  match regex_match true getMsgMsgRegex msg_msg_from_server with
  | Some matches =>
      if isValidDisplayNameLength (strlen (nth 0 matches []))
         && isValidMsgContentLength (strlen (nth 1 matches []))
      then outputIncomingMsg (nth 0 matches []) (nth 1 matches [])
      else sendErrMsgAndTerminate (lit "received a malformed MSG message from the server.")
  | None => sendErrMsgAndTerminate (lit "received a malformed MSG message from the server.")
  end.

Definition tcp_processServerErrMsg (err_msg_from_server : chars) : TM unit :=
  match regex_match true getErrMsgRegex err_msg_from_server with
  | Some matches =>
      if isValidDisplayNameLength (strlen (nth 0 matches []))
         && isValidMsgContentLength (strlen (nth 1 matches []))
      then printErrFromServer (nth 0 matches []) (nth 1 matches [])
      else sendErrMsgAndTerminate (lit "received a malformed ERR message from the server.")
  | None => sendErrMsgAndTerminate (lit "received a malformed ERR message from the server.")
  end.

Definition tcp_processServerByeMsg (bye_msg_from_server : chars) : TM unit :=
  match regex_match true getByeMsgRegex bye_msg_from_server with
  | Some matches =>
      if isValidDisplayNameLength (strlen (nth 0 matches [])) then mret tt
      else sendErrMsgAndTerminate (lit "received a malformed BYE message from the server.")
  | None => sendErrMsgAndTerminate (lit "received a malformed BYE message from the server.")
  end.

(** The result is 0 (exit with success), 1 (exit with failure) or 2 (go on). *)
Definition tcp_processMessageOfType (type_of_msg_from_server : Protocol_msg_type)
    (msg_from_server : chars) : TM Z :=
  c ← get;
  match type_of_msg_from_server with
  | M_UNKNOWN =>
      sendErrMsgAndTerminate
        (lit "only messages of types BYE, ERR, MSG and REPLY are expected to be received from the server.")
  | M_BYE => _ ← tcp_processServerByeMsg msg_from_server; mret 0
  | M_ERR => _ ← tcp_processServerErrMsg msg_from_server; mret 1
  | _ =>
      _ ← match m_current_state c with
          | S_START =>
              sendErrMsgAndTerminate
                (lit "only messages of types BYE and ERR are expected to be received from the server in the client's START state.")
          | S_AUTH =>
              if bool_decide (type_of_msg_from_server = M_REPLY)
              then tcp_processServerReplyMsg msg_from_server
              else sendErrMsgAndTerminate
                (lit "only messages of types BYE, ERR and REPLY are expected to be received from the server in the client's AUTH state.")
          | S_OPEN =>
              if bool_decide (type_of_msg_from_server = M_MSG)
              then tcp_processServerMsgMsg msg_from_server
              else sendErrMsgAndTerminate
                (lit "only messages of types BYE, ERR and MSG are expected to be received from the server in the client's OPEN state.")
          | S_JOIN =>
              match type_of_msg_from_server with
              | M_REPLY => tcp_processServerReplyMsg msg_from_server
              | M_MSG => tcp_processServerMsgMsg msg_from_server
              | _ => sendErrMsgAndTerminate
                  (lit "only messages of types BYE, ERR, MSG and REPLY are expected to be received from the server in the client's JOIN state.")
              end
          end;
      mret 2
  end.

(** The type is read from the whole buffer, whose first message [msg_from_server] is. *)
Definition tcp_processMessageFromServer (msg_from_server : chars) : TM Z :=
  c ← get;
  tcp_processMessageOfType (getServerMsgType (m_msg_from_server c)) msg_from_server.

(** * Events *)

(** [m_msg_from_server.find("\r\n")] *)
Fixpoint find_end (s : chars) : option nat :=
  match s with
  | [] => None
  | x :: s' =>
      if (x =? CR) && bool_decide (head s' = Some LF) then Some O else S <$> find_end s'
  end.

Definition too_long {A} : TM A := sendErrMsgAndTerminate (lit "too long message from server.").

(** The loop over the complete messages of the buffer; each turn removes one. *)
Fixpoint process_messages (fuel : nat) : TM Z :=
  match fuel with
  | O => mret 2
  | S fuel' =>
      c ← get;
      match find_end (m_msg_from_server c) with
      | None => mret 2
      | Some end_of_msg_position =>
          let single_msg :=
            take (end_of_msg_position + s_BYTES_IN_END_OF_MESSAGE) (m_msg_from_server c) in
          if tcp_MAX_MSG_SIZE <? strlen single_msg then too_long
          else
            result ← tcp_processMessageFromServer single_msg;
            if (result =? 0) || (result =? 1) then mret result
            else
              _ ← modify (fun c => set_m_msg_from_server
                (drop (end_of_msg_position + s_BYTES_IN_END_OF_MESSAGE) (m_msg_from_server c)) c);
              process_messages fuel'
      end
  end.

(** [recv] gives bytes, none when the server closed the connection, or fails. *)
Definition tcp_processSocketEvent (received : option chars) : TM Z :=
  match received with
  | None =>
      sendErrMsgAndTerminate (lit "couldn't receive a message from the server: recv() has failed.")
  | Some [] => mret 0
  | Some server_msg =>
      _ ← modify (fun c => set_m_msg_from_server (m_msg_from_server c ++ server_msg) c);
      c ← get;
      result ← process_messages (S (length (m_msg_from_server c)));
      if (result =? 0) || (result =? 1) then mret result
      else
        c ← get;
        if tcp_MAX_MSG_SIZE <=? strlen (m_msg_from_server c) then too_long
        else mret 2
  end.

Definition tcp_sigintHandler : TM unit := _ ← tcp_sendByeMsgToServer; throw (Thrown []).

Definition tcp_processTimerEvent : TM unit :=
  c ← get;
  if m_is_waiting_for_reply c
  then sendErrMsgAndTerminate (lit "waited too long for the server's reply.")
  else throw (Thrown (lit "timer event, but waiting_for_reply is false.")).

(** [hup] and [err] are the flags [EPOLLHUP] and [EPOLLERR] of the event. *)
Definition tcp_processStdinEvent (hup err : bool) : TM unit :=
  if hup then _ ← tcp_sendByeMsgToServer; throw (Thrown [])
  else if err then throw (Thrown (lit "stdin error occurred."))
  else
    user_input ← parseUserInput;
    match user_input with
    | [] => mret tt
    | command :: _ =>
        done ← processNonMsgToServer user_input;
        if done : bool then mret tt
        else
          _ ← when (command =s? cmd_auth) (modify (set_m_user_display_name (nth 3 user_input [])));
          _ ← when (command =s? cmd_join) (modify (set_m_current_state S_JOIN));
          _ ← buildUserMsgToServer user_input;
          _ ← tcp_sendMsgToServer;
          c ← get;
          _ ← when ((command =s? cmd_auth) && (m_current_state c =fsm S_START))
                (modify (set_m_current_state S_AUTH));
          when ((command =s? cmd_auth) || (command =s? cmd_join))
            (_ ← disableStdinEvents;
             _ ← startTimer (s_MAX_REPLY_WAIT_TIME * 1000);
             modify (set_m_is_waiting_for_reply true))
    end.

(** The object after the constructors of [Client] and [Tcp_client]. *)
Definition Tcp_client_init (a : Args) (k : os) : tcp_client :=
  MkClient a S_START (lit "unknown") false [] k [].
