(* ===== verification/UdpClient.v ===== *)
(** The UDP client ([udp-client.cpp], class [Udp_client]). *)
From S2P Require Import Prelude Args Kernel Regex Client.

(** * State *)

(** The members [Udp_client] adds.  [m_confirmed_server_messages] is the set of the bits that
    are set; [m_allowed_retransmissions] is 8 bits wide and [m_msg_to_server_id] 16. *)
Record udp : Type := MkUdp {
  m_confirmed_server_messages : gset Z;
  m_allowed_retransmissions : Z;
  m_msg_to_server_id : Z;
  m_is_waiting_for_confirm : bool;
  m_is_waiting_for_bye_confirm : bool
}.

Definition udp_client : Type := client udp.
Abbreviation UM := (CM udp).

Definition set_confirmed_server_messages (v : gset Z) (u : udp) : udp :=
  MkUdp v (m_allowed_retransmissions u) (m_msg_to_server_id u) (m_is_waiting_for_confirm u)
    (m_is_waiting_for_bye_confirm u).
Definition set_allowed_retransmissions (v : Z) (u : udp) : udp :=
  MkUdp (m_confirmed_server_messages u) (uint8 v) (m_msg_to_server_id u)
    (m_is_waiting_for_confirm u) (m_is_waiting_for_bye_confirm u).
Definition set_msg_to_server_id (v : Z) (u : udp) : udp :=
  MkUdp (m_confirmed_server_messages u) (m_allowed_retransmissions u) (uint16 v)
    (m_is_waiting_for_confirm u) (m_is_waiting_for_bye_confirm u).
Definition set_is_waiting_for_confirm (v : bool) (u : udp) : udp :=
  MkUdp (m_confirmed_server_messages u) (m_allowed_retransmissions u) (m_msg_to_server_id u) v
    (m_is_waiting_for_bye_confirm u).
Definition set_is_waiting_for_bye_confirm (v : bool) (u : udp) : udp :=
  MkUdp (m_confirmed_server_messages u) (m_allowed_retransmissions u) (m_msg_to_server_id u)
    (m_is_waiting_for_confirm u) v.

Definition on_ext (f : udp -> udp) (c : udp_client) : udp_client := set_ext (f (ext c)) c.

Definition s_BYTES_IN_MSG_ID : nat := 2.
Definition s_BYTES_IN_PROTOCOL_MSG_TYPE : nat := 1.
Definition s_BYTES_IN_REPLY_RESULT : nat := 1.
Definition s_BYTES_IN_MSG_HEADER : nat := s_BYTES_IN_PROTOCOL_MSG_TYPE + s_BYTES_IN_MSG_ID.
Definition s_MIN_VARIABLE_DATA_LENGTH : Z := 1.
Definition s_VARIABLE_LENGTH_DATA_TERMINATOR : Z := NUL.

(** [s_BYTES_IN_MSG_HEADER] and the terminator's size, in the lengths' arithmetic. *)
Definition header_size : Z := Z.of_nat s_BYTES_IN_MSG_HEADER.
Definition terminator_size : Z := 1.

Definition udp_MAX_MSG_SIZE : Z :=
  header_size + Z.of_nat s_BYTES_IN_REPLY_RESULT + Z.of_nat s_BYTES_IN_MSG_ID
  + s_MSG_CONTENT_MAX_LENGTH + terminator_size.

(** The position of the content in a REPLY. *)
Definition reply_content_pos : nat :=
  s_BYTES_IN_MSG_HEADER + s_BYTES_IN_REPLY_RESULT + s_BYTES_IN_MSG_ID.

(** [msg[i]]: the character after the last one is NUL. *)
Definition char_at (i : nat) (msg : chars) : Z := nth i msg NUL.

(** The byte of a message type. *)
Definition type_byte (t : Protocol_msg_type) : Z := uint8 (msg_type_value t).

Definition htons_bytes (id : Z) : chars := [id / 256; id mod 256].

Definition getMsgId (msg : chars) : Z := char_at 1 msg * 256 + char_at 2 msg.
Definition getRefMsgId (reply_msg : chars) : Z :=
  char_at 4 reply_msg * 256 + char_at 5 reply_msg.

(** * Messages to the server *)

Definition udp_message (t : Protocol_msg_type) (payload : chars) (c : udp_client) : chars :=
  [type_byte t] ++ htons_bytes (m_msg_to_server_id (ext c)) ++ payload.

Definition next_id : udp_client -> udp_client :=
  on_ext (fun u => set_msg_to_server_id (m_msg_to_server_id u + 1) u).

Definition udp_buildErrMsg (content : chars) : UM unit :=
  _ ← modify next_id;
  c ← get;
  modify (set_m_msg_to_server (udp_message M_ERR
    (m_user_display_name c ++ [NUL] ++ content ++ [NUL]) c)).

Definition udp_buildAuthMsg (username secret : chars) : UM unit :=
  c ← get;
  modify (set_m_msg_to_server (udp_message M_AUTH
    (username ++ [NUL] ++ m_user_display_name c ++ [NUL] ++ secret ++ [NUL]) c)).

Definition udp_buildJoinMsg (channel_id : chars) : UM unit :=
  c ← get;
  modify (set_m_msg_to_server (udp_message M_JOIN
    (channel_id ++ [NUL] ++ m_user_display_name c ++ [NUL]) c)).

Definition udp_buildMsgMsg (user_msg : chars) : UM unit :=
  c ← get;
  modify (set_m_msg_to_server (udp_message M_MSG
    (m_user_display_name c ++ [NUL] ++ user_msg ++ [NUL]) c)).

Definition udp_buildByeMsg : UM unit :=
  _ ← modify next_id;
  c ← get;
  modify (set_m_msg_to_server (udp_message M_BYE (m_user_display_name c ++ [NUL]) c)).

Definition udp_sendMsgToServer : UM unit := c ← get; send_to_server (m_msg_to_server c).

Definition start_confirm_timer : UM unit :=
  c ← get; startTimer (m_udp_confirm_timeout (m_args c)).

Definition reset_retransmissions : UM unit :=
  c ← get;
  modify (on_ext (set_allowed_retransmissions (m_udp_max_retrans_count (m_args c)))).

Definition waiting_for_confirm (v : bool) : UM unit :=
  modify (on_ext (set_is_waiting_for_confirm v)).

Definition udp_sendByeMsgToServer : UM unit :=
  _ ← udp_buildByeMsg;
  _ ← udp_sendMsgToServer;
  _ ← disableStdinEvents;
  _ ← start_confirm_timer;
  _ ← waiting_for_confirm false;
  _ ← modify (set_m_is_waiting_for_reply false);
  _ ← modify (on_ext (set_is_waiting_for_bye_confirm true));
  reset_retransmissions.

#[export] Instance udp_virtual : Virtual udp := {
  buildErrMsg := udp_buildErrMsg;
  buildAuthMsg := udp_buildAuthMsg;
  buildJoinMsg := udp_buildJoinMsg;
  buildMsgMsg := udp_buildMsgMsg;
  buildByeMsg := udp_buildByeMsg;
  sendMsgToServer := udp_sendMsgToServer;
  sendByeMsgToServer := udp_sendByeMsgToServer
}.

(** What is printed is the end of the message: the content without its ["ERROR: "], with the
    terminator. *)
Definition sendErrMsg (err_msg : chars) : UM unit :=
  _ ← udp_buildErrMsg err_msg;
  c ← get;
  _ ← printErrMsg (drop (s_BYTES_IN_MSG_HEADER + length (m_user_display_name c) + 1
                         + length (lit "ERROR: ")) (m_msg_to_server c));
  _ ← udp_sendMsgToServer;
  _ ← disableStdinEvents;
  _ ← start_confirm_timer;
  _ ← waiting_for_confirm true;
  modify (set_m_is_waiting_for_reply false).

Definition sendConfirmMsg (ref_msg_id : Z) : UM unit :=
  _ ← send_to_server (type_byte M_CONFIRM :: htons_bytes ref_msg_id);
  modify (on_ext (fun u => set_confirmed_server_messages
    ({[ ref_msg_id ]} ∪ m_confirmed_server_messages u) u)).

(** * Messages from the server *)

Definition udp_getErrMsgRegex : regex :=
  [IPlus is_printable; IChar NUL; IPlus is_printable_space_lf; IChar NUL].
Definition udp_getMsgMsgRegex : regex := udp_getErrMsgRegex.
Definition udp_getByeMsgRegex : regex := [IPlus is_printable; IChar NUL].
Definition getPrintableCharsSpaceLfAndTerminatorRegex : regex :=
  [IPlus is_printable_space_lf; IChar NUL].

Definition isValidConfirmMsgLength (confirm_msg_length : Z) : bool :=
  confirm_msg_length =? header_size.
Definition isValidPingMsgLength (ping_msg_length : Z) : bool := ping_msg_length =? header_size.
Definition isValidMsgMsgLength (n : Z) : bool :=
  (header_size + s_MIN_VARIABLE_DATA_LENGTH + terminator_size + s_MIN_VARIABLE_DATA_LENGTH
   + terminator_size <=? n)
  && (n <=? header_size + s_DISPLAY_NAME_MAX_LENGTH + terminator_size + s_MSG_CONTENT_MAX_LENGTH
      + terminator_size).
Definition isValidErrMsgLength (n : Z) : bool :=
  (header_size + s_MIN_VARIABLE_DATA_LENGTH + terminator_size + s_MIN_VARIABLE_DATA_LENGTH
   + terminator_size <=? n)
  && (n <=? header_size + s_DISPLAY_NAME_MAX_LENGTH + terminator_size + s_MSG_CONTENT_MAX_LENGTH
      + terminator_size).
Definition isValidByeMsgLength (n : Z) : bool :=
  (header_size + s_MIN_VARIABLE_DATA_LENGTH + terminator_size <=? n)
  && (n <=? header_size + s_DISPLAY_NAME_MAX_LENGTH + terminator_size).
Definition isValidReplyMsgLength (n : Z) : bool :=
  (header_size + Z.of_nat s_BYTES_IN_REPLY_RESULT + Z.of_nat s_BYTES_IN_MSG_ID
   + s_MIN_VARIABLE_DATA_LENGTH + terminator_size <=? n)
  && (n <=? Z.of_nat s_BYTES_IN_PROTOCOL_MSG_TYPE + Z.of_nat s_BYTES_IN_MSG_ID
      + Z.of_nat s_BYTES_IN_REPLY_RESULT + Z.of_nat s_BYTES_IN_MSG_ID + s_MSG_CONTENT_MAX_LENGTH
      + terminator_size).
Definition isValidReplyMsgResult (reply_msg_result : Z) : bool :=
  (reply_msg_result =? 0) || (reply_msg_result =? 1).

(** The client's own type test, on the first byte. *)
Definition is_type (t : Protocol_msg_type) (msg : chars) : bool :=
  char_at 0 msg =? msg_type_value t.

Definition isValidConfirmMsg (confirm_msg : chars) : bool :=
  is_type M_CONFIRM confirm_msg && isValidConfirmMsgLength (strlen confirm_msg).

Definition isValidByeMsg (bye_msg : chars) : bool :=
  if negb (isValidByeMsgLength (strlen bye_msg)) || negb (is_type M_BYE bye_msg) then false
  else match regex_match false udp_getByeMsgRegex (drop s_BYTES_IN_MSG_HEADER bye_msg) with
       | Some _ => true
       | None => false
       end.

Definition isValidReplyMsg (reply_msg : chars) : bool :=
  if negb (isValidReplyMsgLength (strlen reply_msg)) || negb (is_type M_REPLY reply_msg)
     || negb (isValidReplyMsgResult (char_at s_BYTES_IN_MSG_HEADER reply_msg)) then false
  else match regex_match false getPrintableCharsSpaceLfAndTerminatorRegex
               (drop reply_content_pos reply_msg) with
       | Some _ => true
       | None => false
       end.

(** The tests of MSG and ERR print what they accept, MSG only if it was not confirmed before. *)
Definition isValidMsgMsg (msg_msg : chars) : UM bool :=
  if negb (isValidMsgMsgLength (strlen msg_msg)) || negb (is_type M_MSG msg_msg) then mret false
  else match regex_match false udp_getMsgMsgRegex (drop s_BYTES_IN_MSG_HEADER msg_msg) with
       | Some m =>
           if isValidDisplayNameLength (strlen (nth 0 m []))
              && isValidMsgContentLength (strlen (nth 1 m [])) then
             c ← get;
             _ ← when (negb (bool_decide (getMsgId msg_msg ∈ m_confirmed_server_messages (ext c))))
                   (outputIncomingMsg (nth 0 m []) (nth 1 m []));
             mret true
           else mret false
       | None => mret false
       end.

Definition isValidErrMsg (err_msg : chars) : UM bool :=
  if negb (isValidErrMsgLength (strlen err_msg)) || negb (is_type M_ERR err_msg) then mret false
  else match regex_match false udp_getErrMsgRegex (drop s_BYTES_IN_MSG_HEADER err_msg) with
       | Some m =>
           if isValidDisplayNameLength (strlen (nth 0 m []))
              && isValidMsgContentLength (strlen (nth 1 m [])) then
             _ ← printErrFromServer (nth 0 m []) (nth 1 m []);
             mret true
           else mret false
       | None => mret false
       end.

Definition udp_processServerMsgMsg (msg_msg : chars) : UM unit :=
  valid ← isValidMsgMsg msg_msg;
  if valid : bool then sendConfirmMsg (getMsgId msg_msg)
  else sendErrMsg (lit "ERROR: received a malformed MSG message from the server.").

Definition udp_processServerPingMsg (ping_msg : chars) : UM unit :=
  if isValidPingMsgLength (strlen ping_msg) then sendConfirmMsg (getMsgId ping_msg)
  else sendErrMsg (lit "ERROR: received a malformed PING message from the server.").

Definition udp_processServerByeMsg (bye_msg : chars) : UM Z :=
  if isValidByeMsg bye_msg then _ ← sendConfirmMsg (getMsgId bye_msg); mret 0
  else
    _ ← sendErrMsg (lit "ERROR: received a malformed BYE message from the server."); mret 2.

Definition udp_processServerErrMsg (err_msg : chars) : UM Z :=
  valid ← isValidErrMsg err_msg;
  if valid : bool then _ ← sendConfirmMsg (getMsgId err_msg); mret 1
  else
    _ ← sendErrMsg (lit "ERROR: received a malformed ERR message from the server."); mret 2.

(** The C string at a position. *)
Fixpoint c_str (s : chars) : chars :=
  match s with
  | [] => []
  | c :: s' => if c =? NUL then [] else c :: c_str s'
  end.

Definition udp_processServerReplyMsg (reply_msg : chars) (server_addr : sockaddr_in) : UM unit :=
  c ← get;
  if negb (m_current_state c =fsm S_AUTH) && negb (m_current_state c =fsm S_JOIN) then
    sendErrMsg (lit "ERROR: received a REPLY message in unexpected state.")
  else if isValidReplyMsg reply_msg then
    _ ← when (m_current_state c =fsm S_AUTH)
          (modify (set_m_args (set_server_addr server_addr (m_args c))));
    when (m_is_waiting_for_reply c && (m_msg_to_server_id (ext c) - 1 =? getRefMsgId reply_msg))
      (_ ← stopTimer;
       let reply_msg_id := getMsgId reply_msg in
       let result := negb (char_at s_BYTES_IN_MSG_HEADER reply_msg =? 0) in
       _ ← when (negb (bool_decide (reply_msg_id ∈ m_confirmed_server_messages (ext c))))
             (outputIncomingReply result (c_str (drop reply_content_pos reply_msg)));
       _ ← sendConfirmMsg reply_msg_id;
       _ ← when ((m_current_state c =fsm S_JOIN) || result) (modify (set_m_current_state S_OPEN));
       _ ← modify (set_m_is_waiting_for_reply false);
       enableStdinEvents)
  else sendErrMsg (lit "ERROR: received a malformed REPLY message from the server.").

(** A CONFIRM of the message last built: the client's part in the state machine. *)
Definition confirmed (t : Z) : UM unit :=
  c ← get;
  match m_current_state c with
  | S_START => mret tt
  | S_AUTH =>
      when (t =? msg_type_value M_AUTH)
        (_ ← waiting_for_confirm false;
         _ ← modify (set_m_is_waiting_for_reply true);
         _ ← reset_retransmissions;
         _ ← modify next_id;
         startTimer (s_MAX_REPLY_WAIT_TIME * 1000))
  | S_OPEN =>
      if t =? msg_type_value M_MSG then
        _ ← stopTimer;
        _ ← waiting_for_confirm false;
        _ ← reset_retransmissions;
        _ ← modify next_id;
        enableStdinEvents
      else when (t =? msg_type_value M_JOIN)
        (_ ← waiting_for_confirm false;
         _ ← modify (set_m_is_waiting_for_reply true);
         _ ← reset_retransmissions;
         _ ← modify next_id;
         _ ← modify (set_m_current_state S_JOIN);
         startTimer (s_MAX_REPLY_WAIT_TIME * 1000))
  | S_JOIN => mret tt
  end.

Definition udp_processServerConfirmMsg (confirm_msg : chars) : UM Z :=
  if isValidConfirmMsg confirm_msg then
    c ← get;
    if getMsgId confirm_msg =? m_msg_to_server_id (ext c) then
      let t := char_at 0 (m_msg_to_server c) in
      if t =? msg_type_value M_BYE then mret 0
      else if t =? msg_type_value M_ERR then mret 1
      else _ ← confirmed t; mret 2
    else mret 2
  else
    _ ← sendErrMsg (lit "ERROR: received a malformed CONFIRM message from the server."); mret 2.

Definition err_and_go_on (text : chars) : UM Z := _ ← sendErrMsg text; mret 2.

Definition udp_processMessageFromServer (msg_from_server : chars) (server_addr : sockaddr_in)
    : UM Z :=
  if is_type M_BYE msg_from_server then udp_processServerByeMsg msg_from_server
  else if is_type M_ERR msg_from_server then udp_processServerErrMsg msg_from_server
  else
    c ← get;
    match m_current_state c with
    | S_START =>
        if is_type M_CONFIRM msg_from_server then udp_processServerConfirmMsg msg_from_server
        else err_and_go_on (lit "ERROR: only messages of types BYE, ERR or CONFIRM are expected to be received from the server in the client's START state.")
    | S_AUTH =>
        if is_type M_CONFIRM msg_from_server then udp_processServerConfirmMsg msg_from_server
        else if is_type M_REPLY msg_from_server then
          _ ← udp_processServerReplyMsg msg_from_server server_addr; mret 2
        else if is_type M_PING msg_from_server then
          _ ← udp_processServerPingMsg msg_from_server; mret 2
        else err_and_go_on (lit "ERROR: only messages of types BYE, ERR, CONFIRM, PING and REPLY are expected to be received from the server in the client's AUTH state.")
    | S_OPEN =>
        if is_type M_CONFIRM msg_from_server then udp_processServerConfirmMsg msg_from_server
        else if is_type M_MSG msg_from_server then
          _ ← udp_processServerMsgMsg msg_from_server; mret 2
        else if is_type M_PING msg_from_server then
          _ ← udp_processServerPingMsg msg_from_server; mret 2
        else err_and_go_on (lit "ERROR: only messages of types BYE, ERR, CONFIRM, PING, JOIN and MSG are expected to be received from the server in the client's OPEN state.")
    | S_JOIN =>
        if is_type M_MSG msg_from_server then
          _ ← udp_processServerMsgMsg msg_from_server; mret 2
        else if is_type M_PING msg_from_server then
          _ ← udp_processServerPingMsg msg_from_server; mret 2
        else if is_type M_REPLY msg_from_server then
          _ ← udp_processServerReplyMsg msg_from_server server_addr; mret 2
        else if is_type M_CONFIRM msg_from_server then udp_processServerConfirmMsg msg_from_server
        else err_and_go_on (lit "ERROR: only messages of types BYE, ERR, CONFIRM, PING, REPLY and MSG are expected to be received from the server in the client's JOIN state.")
    end.

(** * Events *)

(** [recvfrom] gives a datagram cut to [s_MAX_MSG_SIZE + 1] bytes with its sender, or fails. *)
Definition udp_processSocketEvent (received : option (sockaddr_in * chars)) : UM Z :=
  match received with
  | None =>
      err_and_go_on (lit "ERROR: couldn't receive a message from the server: recv() has failed.")
  | Some (server_addr, datagram) =>
      let server_msg := take (Z.to_nat (udp_MAX_MSG_SIZE + 1)) datagram in
      if udp_MAX_MSG_SIZE <? strlen server_msg
      then err_and_go_on (lit "ERROR: too long message from server.")
      else udp_processMessageFromServer server_msg server_addr
  end.

Definition udp_sigintHandler : UM unit := udp_sendByeMsgToServer.

Definition udp_processTimerEvent : UM unit :=
  _ ← modify (on_kernel read_timer);
  c ← get;
  if m_is_waiting_for_confirm (ext c) || m_is_waiting_for_bye_confirm (ext c) then
    if m_allowed_retransmissions (ext c) =? 0
    then throw (Thrown (lit "exceeded udp max retransmission number."))
    else
      _ ← udp_sendMsgToServer;
      _ ← start_confirm_timer;
      modify (on_ext (set_allowed_retransmissions (m_allowed_retransmissions (ext c) - 1)))
  else if m_is_waiting_for_reply c
  then sendErrMsg (lit "ERROR: waited too long for the server's reply.")
  else throw (Thrown (lit "timer event, but m_is_waiting_for_confirm and m_is_waiting_for_reply are false.")).

Definition udp_processStdinEvent (hup err : bool) : UM unit :=
  if hup then udp_sendByeMsgToServer
  else if err then throw (Thrown (lit "stdin error occurred."))
  else
    user_input ← parseUserInput;
    match user_input with
    | [] => mret tt
    | command :: _ =>
        done ← processNonMsgToServer user_input;
        if done : bool then mret tt
        else
          _ ← when (command =s? cmd_auth) (modify (set_m_user_display_name (nth 3 user_input [])));
          _ ← buildUserMsgToServer user_input;
          _ ← udp_sendMsgToServer;
          c ← get;
          _ ← when ((command =s? cmd_auth) && (m_current_state c =fsm S_START))
                (modify (set_m_current_state S_AUTH));
          _ ← disableStdinEvents;
          _ ← waiting_for_confirm true;
          _ ← modify (set_m_is_waiting_for_reply
                ((command =s? cmd_auth) || (command =s? cmd_join)));
          start_confirm_timer
    end.

(** The object after the constructors of [Client] and [Udp_client]. *)
Definition Udp_client_init (a : Args) (k : os) : udp_client :=
  MkClient a S_START (lit "unknown") false [] k
    (MkUdp ∅ (m_udp_max_retrans_count a) 0 false false).
