(* ===== verification/Executable.v ===== *)
(** What the test harness needs of the program it tests: a process that is started with
    arguments, receives input and produces output as time passes, and exits.

    The harness's model is written against this interface; [Process] implements it with the
    client of this repository. *)
From S2P Require Import Prelude Args.

(** What can reach a process from outside. *)
Inductive arrival : Type :=
| Input (text : chars)                                (* bytes written to its standard input *)
| Input_closed
| Interrupt                                           (* SIGINT *)
| Datagram (from : sockaddr_in) (data : chars)
| Connect_result (accepted : bool)
| Segment (data : chars).                             (* bytes on its connection *)

(** The operations.  [elapse t] lets the process do, up to the time [t] in milliseconds, what it
    has to do.  The outputs are everything produced since the start; [connecting] is the address
    a pending TCP connection attempt is made to; [unread] says bytes of its connection are left
    unread; [exited] is the status as [subprocess] gives it. *)
Class Executable (X : Type) : Type := {
  exec : list chars -> Z -> X;
  arrive : arrival -> X -> X;
  elapse : Z -> X -> X;
  out_bytes : X -> chars;
  err_bytes : X -> chars;
  datagrams : X -> list (sockaddr_in * chars);
  connecting : X -> option sockaddr_in;
  stream : X -> chars;
  unread : X -> bool;
  exited : X -> option Z
}.

(** What is promised of any process: it starts alive and silent, what it has produced stays
    produced, and it does nothing once it has exited. *)
Class Executable_laws (X : Type) `{Executable X} : Prop := {
  exec_silent argv t :
    exited (exec argv t) = None /\ out_bytes (exec argv t) = [] /\ err_bytes (exec argv t) = []
    /\ datagrams (exec argv t) = [] /\ stream (exec argv t) = [];
  elapse_out t x : out_bytes x `prefix_of` out_bytes (elapse t x);
  elapse_err t x : err_bytes x `prefix_of` err_bytes (elapse t x);
  elapse_datagrams t x : datagrams x `prefix_of` datagrams (elapse t x);
  elapse_stream t x : stream x `prefix_of` stream (elapse t x);
  elapse_exited t x n : exited x = Some n -> elapse t x = x;
  arrive_outputs a x :
    exited (arrive a x) = exited x /\ out_bytes (arrive a x) = out_bytes x
    /\ err_bytes (arrive a x) = err_bytes x /\ datagrams (arrive a x) = datagrams x
    /\ stream (arrive a x) = stream x
}.
