(* ===== verification/Process.v ===== *)
(** The client as a process: [main] of main.cpp, [Client::create] and [Client::run] of
    client.cpp, the constructors of the derived classes, and the system's side of the events.

    One turn of [turns] is one turn of the event loop: [epoll_wait] reports at most one event
    ([s_MAX_EPOLL_EVENT_NUMBER]), its handler runs to its end or to an exception. *)
From S2P Require Import Prelude Args Kernel Regex Client TcpClient UdpClient Executable.

(** * Pending input of a process *)

(** [blocked] says the process is inside a read of standard input that found no line. *)
Record io : Type := MkIo {
  blocked : bool;
  interrupted : bool;
  inbox : list (sockaddr_in * chars);
  segments : chars
}.

Definition io_start : io := MkIo false false [] [].
Definition set_blocked (v : bool) (i : io) : io := MkIo v (interrupted i) (inbox i) (segments i).
Definition set_interrupted (v : bool) (i : io) : io := MkIo (blocked i) v (inbox i) (segments i).
Definition set_inbox (v : list (sockaddr_in * chars)) (i : io) : io :=
  MkIo (blocked i) (interrupted i) v (segments i).
Definition set_segments (v : chars) (i : io) : io :=
  MkIo (blocked i) (interrupted i) (inbox i) v.

(** What one receiving call gives: none when it fails. *)
Definition packet : Type := option (sockaddr_in * chars).

(** * The event handlers of a derived class *)

Class Handlers (D : Type) : Type := {
  processStdinEvent : bool -> bool -> CM D unit;
  processSocketEvent : packet -> CM D Z;
  processTimerEvent : CM D unit;
  sigintHandler : CM D unit;
  receive : io -> option (packet * io)
}.

Definition tcp_receive (i : io) : option (packet * io) :=
  match segments i with
  | [] => None
  | s => let n := Z.to_nat (tcp_MAX_MSG_SIZE + 1) in
         Some (Some (MkAddr 0 0, take n s), set_segments (drop n s) i)
  end.

Definition udp_receive (i : io) : option (packet * io) :=
  match inbox i with
  | [] => None
  | d :: rest => Some (Some d, set_inbox rest i)
  end.

#[export] Instance tcp_handlers : Handlers chars := {
  processStdinEvent := tcp_processStdinEvent;
  processSocketEvent := fun p => tcp_processSocketEvent (snd <$> p);
  processTimerEvent := tcp_processTimerEvent;
  sigintHandler := tcp_sigintHandler;
  receive := tcp_receive
}.

#[export] Instance udp_handlers : Handlers udp := {
  processStdinEvent := udp_processStdinEvent;
  processSocketEvent := udp_processSocketEvent;
  processTimerEvent := udp_processTimerEvent;
  sigintHandler := udp_sigintHandler;
  receive := udp_receive
}.

(** * The event loop *)

Section LOOP.

Context {D : Type} `{Handlers D}.

Inductive event : Type :=
| Stdin (hup : bool)
| Socket (p : packet)
| Timer
| Sigint.

(** How a turn of the loop ends: the loop goes on, the process waits for a line, or it exits. *)
Inductive turn : Type :=
| Continue (c : client D)
| Wait (c : client D)
| Exit (code : Z) (k : os).

(** The [catch] clauses of [main]. *)
Definition main_catch (k : os) (what : chars) : Z * os :=
  match what with
  | [] => (0, k)
  | _ => (1, write_console (lit "ERROR: " ++ what ++ [LF]) k)
  end.

Definition end_of_handler {A} (r : client D * result stop A) (cont : A -> client D -> turn) : turn :=
  match r with
  | (c, Ok a) => cont a c
  | (c, Err Blocked) => Wait c
  | (c, Err (Thrown what)) => let (code, k) := main_catch (kernel c) what in Exit code k
  end.

Definition go_on (_ : unit) (c : client D) : turn := Continue c.

(** The body of [Client::run]'s loop for one event. *)
Definition dispatch (e : event) (c : client D) : turn :=
  match e with
  | Stdin hup => end_of_handler (processStdinEvent hup false c) go_on
  | Socket p =>
      end_of_handler (processSocketEvent p c)
        (fun result c => if (result =? 0) || (result =? 1) then Exit result (kernel c)
                         else Continue c)
  | Timer => end_of_handler (processTimerEvent c) go_on
  | Sigint => end_of_handler (sigintHandler c) go_on
  end.

(** [epoll] reports the end of a pipe whatever the mask, its bytes when they are asked for. *)
Definition stdin_ready (k : os) : bool :=
  pipe_closed k || (stdin_events k && negb (pipe k =s? [])).

(** The event the process handles next; a read that waits for a line is taken up first. *)
Definition next_event (i : io) (c : client D) : option (event * io) :=
  if interrupted i then Some (Sigint, set_interrupted false i)
  else if blocked i then
    if pipe_closed (kernel c) || negb (pipe (kernel c) =s? []) then Some (Stdin false, set_blocked false i)
    else None
  else match receive i with
       | Some (p, i') => Some (Socket p, i')
       | None =>
           if timer_ready (kernel c) then Some (Timer, i)
           else if stdin_ready (kernel c) then Some (Stdin (pipe_closed (kernel c)), i)
           else None
       end.

(** At most this many events are handled in one [elapse]. *)
Definition BURST : nat := 8.

Fixpoint turns (fuel : nat) (i : io) (c : client D) : io * turn :=
  match fuel with
  | O => (i, Continue c)
  | S fuel' =>
      match next_event i c with
      | None => (i, Continue c)
      | Some (e, i') =>
          match dispatch e c with
          | Continue c' => turns fuel' i' c'
          | Wait c' => (set_blocked true i', Continue c')
          | Exit code k => (i', Exit code k)
          end
      end
  end.

End LOOP.

Arguments turn D : clear implicits.

(** * The process *)

(** [answer] is the system's answer to a connection attempt.  The flag of a process that exited
    says whether it was a TCP client. *)
Inductive life : Type :=
| Launching (argv : list chars) (k : os)
| Connecting (c : tcp_client) (answer : option bool)
| Tcp (c : tcp_client)
| Udp (c : udp_client)
| Exited (tcp : bool) (code : Z) (k : os).

Record process : Type := MkProcess { the_io : io; the_life : life }.

Definition life_kernel (l : life) : os :=
  match l with
  | Launching _ k => k
  | Connecting c _ => kernel c
  | Tcp c => kernel c
  | Udp c => kernel c
  | Exited _ _ k => k
  end.

Definition on_life_kernel (f : os -> os) (l : life) : life :=
  match l with
  | Launching argv k => Launching argv (f k)
  | Connecting c answer => Connecting (on_kernel f c) answer
  | Tcp c => Tcp (on_kernel f c)
  | Udp c => Udp (on_kernel f c)
  | Exited tcp code k => Exited tcp code k
  end.

Definition help_text : chars :=
  lit "Usage: ./ipk25-chat {-t transport_protocol} {-s serverIP/hostname} [-p server_port] [-d udp_timeout]"
  ++ lit " [-r max_udp_retrans] [-h]" ++ [LF].

Definition exit_with (tcp : bool) (r : Z * os) : life := let (code, k) := r in Exited tcp code k.

(** The result of [connect] in the constructor of [Tcp_client]. *)
Definition connected (accepted : bool) (c : tcp_client) : life :=
  if accepted then Tcp c
  else exit_with true (main_catch (kernel c) (lit "couldn't connect to the server.")).

Definition after_turns {D} (tcp : bool) (wrap : client D -> life) (r : io * turn D) : process :=
  match r with
  | (i, Continue c) | (i, Wait c) => MkProcess i (wrap c)
  | (i, Exit code k) => MkProcess i (Exited tcp code k)
  end.

Section MAIN.

(** The C library's address conversion, and the exit status of a process that dereferences a
    null pointer. *)
Context (inet_pton getaddrinfo : chars -> option Z) (undefined_status : Z).

(** [Client::create], up to the connection of a TCP client. *)
Definition create (args : Args) (k : os) : life :=
  if m_is_tcp args then Connecting (Tcp_client_init args k) None
  else Udp (Udp_client_init args k).

(** [main], up to the creation of the client. *)
Definition main (argv : list chars) (k : os) : life :=
  match Args_ctor inet_pton getaddrinfo argv with
  | Constructed args =>
      if m_is_help_used args then Exited false 0 (write_console help_text k) else create args k
  | Threw what => exit_with false (main_catch k what)
  | Undefined => Exited false undefined_status k
  end.

(** What the process does up to the time [t]. *)
Definition live (i : io) (l : life) : process :=
  match l with
  | Launching argv k => MkProcess i (main argv k)
  | Connecting c (Some accepted) => MkProcess i (connected accepted c)
  | Connecting c None => MkProcess i (Connecting c None)
  | Tcp c => after_turns true Tcp (turns BURST i c)
  | Udp c => after_turns false Udp (turns BURST i c)
  | Exited tcp code k => MkProcess i (Exited tcp code k)
  end.

Definition process_elapse (t : Z) (p : process) : process :=
  live (the_io p) (on_life_kernel (set_clock t) (the_life p)).

Definition on_io (f : io -> io) (p : process) : process := MkProcess (f (the_io p)) (the_life p).
Definition on_life (f : life -> life) (p : process) : process :=
  MkProcess (the_io p) (f (the_life p)).

Definition answer_connect (accepted : bool) (l : life) : life :=
  match l with Connecting c _ => Connecting c (Some accepted) | _ => l end.

Definition process_arrive (a : arrival) (p : process) : process :=
  match a with
  | Input text => on_life (on_life_kernel (fun k => set_pipe (pipe k ++ text) k)) p
  | Input_closed => on_life (on_life_kernel (set_pipe_closed true)) p
  | Interrupt => on_io (set_interrupted true) p
  | Datagram from data => on_io (fun i => set_inbox (inbox i ++ [(from, data)]) i) p
  | Segment data => on_io (fun i => set_segments (segments i ++ data) i) p
  | Connect_result accepted => on_life (answer_connect accepted) p
  end.

(** Both clients record what they send in the same place: it is datagrams for UDP, the bytes of
    the stream for TCP. *)
Definition process_datagrams (p : process) : list (sockaddr_in * chars) :=
  match the_life p with
  | Udp c => sent (kernel c)
  | Exited false _ k => sent k
  | _ => []
  end.
Definition process_stream (p : process) : chars :=
  match the_life p with
  | Connecting c _ | Tcp c => concat (snd <$> sent (kernel c))
  | Exited true _ k => concat (snd <$> sent k)
  | _ => []
  end.

#[export] Instance client_executable : Executable process := {
  exec := fun argv t => MkProcess io_start (Launching argv (os_start t));
  arrive := process_arrive;
  elapse := process_elapse;
  out_bytes := fun p => console (life_kernel (the_life p));
  err_bytes := fun p => [];
  datagrams := process_datagrams;
  connecting := fun p =>
    match the_life p with Connecting c None => Some (m_server_addr (m_args c)) | _ => None end;
  stream := process_stream;
  unread := fun p => negb (segments (the_io p) =s? []);
  exited := fun p => match the_life p with Exited _ code _ => Some code | _ => None end
}.

End MAIN.
