(* ===== verification/KernelSpec.v ===== *)
(** What a handler of the client may do to its kernel: it writes to standard output, sends, sets the
    timer and the mask of standard input, and reads standard input in one place only.  Every
    relation that these operations keep, [Kernel_order], holds between the kernels before and after
    a handler, and a turn of the event loop. *)
From S2P Require Import Prelude Args Kernel Regex Client TcpClient UdpClient Executable Process.

Class Kernel_order (R : relation os) : Prop := {
  order_preorder :: PreOrder R;
  order_console text k : R k (write_console text k);
  order_send to data k : R k (fst (send_packet to data k));
  order_timer v k : R k (set_timer v k);
  order_events v k : R k (set_stdin_events v k)
}.

Section ALONG.

Context (R : relation os) `{!Kernel_order R}.

(** [R] between the kernels of two clients. *)
Definition along {D} (c c' : client D) : Prop := R (kernel c) (kernel c').

#[local] Instance along_preorder D : PreOrder (@along D).
Proof.
  split; [by intros c; unfold along|]. intros a b c. unfold along. apply transitivity.
Qed.

Lemma along_same {D} (c c' : client D) : kernel c' = kernel c -> along c c'.
Proof. unfold along. by intros ->. Qed.

Lemma along_read_timer {D} (c : client D) : along c (on_kernel read_timer c).
Proof.
  unfold along, on_kernel, read_timer. cbn. destruct (timer_ready _); [apply order_timer|done].
Qed.

Hint Extern 5 (along _ _) => (apply along_same; reflexivity) : respects.
Hint Extern 5 (along _ _) => apply along_read_timer : respects.
Hint Extern 6 (along _ _) => apply order_timer : respects.
Hint Extern 6 (along _ _) => apply order_events : respects.
Hint Extern 6 (along _ _) => apply order_console : respects.

(** What holds after the first step is kept by the rest. *)
Lemma along_after {D A B} (m : CM D A) (f : A -> CM D B) c k :
  R k (kernel (fst (m c))) -> (forall a, respects along (f a)) ->
  R k (kernel (fst ((m ≫= f) c))).
Proof.
  intros Hm Hf. unfold mbind, M_bind. destruct (m c) as [c' [a|e]]; [|done].
  etrans; [exact Hm|apply Hf].
Qed.

(** Through the definitions of a handler. *)
Ltac keep := tac_respects; eauto with respects.

Section BASE.

Context {D : Type}.

Lemma along_cout text : respects along (cout text : CM D unit).
Proof. unfold cout. keep. Qed.

Lemma along_send data : respects along (send_to_server data : CM D unit).
Proof.
  intros c. unfold send_to_server, along.
  pose proof (order_send (m_server_addr (m_args c)) data (kernel c)) as Hs.
  by destruct (send_packet _ _ _).
Qed.

End BASE.

Hint Resolve along_cout along_send : respects.



Section BASE_HANDLERS.

Context {D : Type} `{Virtual D}.

Lemma along_parseLine l : respects (@along D) (parseLine l).
Proof.
  unfold parseLine, wrong_state, wrong_length, printErrMsg. keep.
Qed.

(** After the one line is read. *)
Lemma along_parseUserInput c k :
  respects (@along D) sendByeMsgToServer -> R k (kernel (fst (read_line c))) ->
  R k (kernel (fst (parseUserInput c))).
Proof.
  intros ? Hk. apply along_after; [done|]. pose proof along_parseLine. keep.
Qed.

Lemma along_processNonMsg l : respects (@along D) (processNonMsgToServer  l).
Proof. unfold processNonMsgToServer, printSupportedCommands. keep. Qed.

Lemma along_buildUserMsg l :
  (forall a b, respects (@along D) (buildAuthMsg  a b)) ->
  (forall a, respects (@along D) (buildJoinMsg  a)) ->
  (forall a, respects (@along D) (buildMsgMsg  a)) ->
  respects (@along D) (buildUserMsgToServer l).
Proof. intros. unfold buildUserMsgToServer. keep. Qed.

End BASE_HANDLERS.

Hint Resolve along_parseLine along_processNonMsg along_buildUserMsg : respects.

(** * The TCP client *)

Lemma along_tcp_buildAuthMsg a b : respects along (tcp_buildAuthMsg a b).
Proof. unfold tcp_buildAuthMsg. keep. Qed.
Lemma along_tcp_buildJoinMsg a : respects along (tcp_buildJoinMsg a).
Proof. unfold tcp_buildJoinMsg. keep. Qed.
Lemma along_tcp_buildMsgMsg a : respects along (tcp_buildMsgMsg a).
Proof. unfold tcp_buildMsgMsg. keep. Qed.
Lemma along_tcp_sendBye : respects along tcp_sendByeMsgToServer.
Proof. unfold tcp_sendByeMsgToServer, tcp_buildByeMsg, tcp_sendMsgToServer. keep. Qed.
Lemma along_tcp_terminate {A} text : respects along (sendErrMsgAndTerminate text : TM A).
Proof. unfold sendErrMsgAndTerminate, tcp_buildErrMsg, tcp_sendMsgToServer. keep. Qed.
Hint Resolve along_tcp_buildAuthMsg along_tcp_buildJoinMsg along_tcp_buildMsgMsg
  along_tcp_sendBye along_tcp_terminate : respects.

Lemma along_tcp_message m : respects along (tcp_processMessageFromServer m).
Proof.
  unfold tcp_processMessageFromServer, tcp_processMessageOfType, tcp_processServerByeMsg,
    tcp_processServerErrMsg,
    tcp_processServerReplyMsg, tcp_processServerMsgMsg, stopTimer, enableStdinEvents,
    outputIncomingReply, outputIncomingMsg, printErrFromServer.
  keep.
Qed.
Hint Resolve along_tcp_message : respects.

Lemma along_process_messages fuel : respects along (process_messages fuel).
Proof. induction fuel; cbn [process_messages]; unfold too_long; keep. Qed.
Hint Resolve along_process_messages : respects.

Lemma along_tcp_socket p : respects along (tcp_processSocketEvent p).
Proof. unfold tcp_processSocketEvent, too_long. keep. Qed.

Lemma along_tcp_stdin c k :
  R k (kernel (fst (read_line c))) -> R k (kernel (fst (tcp_processStdinEvent false false c))).
Proof.
  intros Hk. unfold tcp_processStdinEvent.
  apply along_after; [by apply along_parseUserInput; [apply along_tcp_sendBye|]|].
  unfold tcp_sendMsgToServer, startTimer, disableStdinEvents. keep.
Qed.

Lemma along_tcp_timer : respects along tcp_processTimerEvent.
Proof. unfold tcp_processTimerEvent. keep. Qed.

Lemma along_tcp_sigint : respects along tcp_sigintHandler.
Proof. unfold tcp_sigintHandler. keep. Qed.

(** * The UDP client *)

Lemma along_udp_send : respects along udp_sendMsgToServer.
Proof. unfold udp_sendMsgToServer. keep. Qed.
Lemma along_udp_buildAuthMsg a b : respects along (udp_buildAuthMsg a b).
Proof. unfold udp_buildAuthMsg. keep. Qed.
Lemma along_udp_buildJoinMsg a : respects along (udp_buildJoinMsg a).
Proof. unfold udp_buildJoinMsg. keep. Qed.
Lemma along_udp_buildMsgMsg a : respects along (udp_buildMsgMsg a).
Proof. unfold udp_buildMsgMsg. keep. Qed.
Lemma along_start_confirm_timer : respects along start_confirm_timer.
Proof. unfold start_confirm_timer, startTimer. keep. Qed.
Lemma along_reset : respects along reset_retransmissions.
Proof. unfold reset_retransmissions. keep. Qed.
Hint Resolve along_udp_send along_udp_buildAuthMsg along_udp_buildJoinMsg
  along_udp_buildMsgMsg along_start_confirm_timer along_reset : respects.

Lemma along_udp_sendBye : respects along udp_sendByeMsgToServer.
Proof.
  unfold udp_sendByeMsgToServer, udp_buildByeMsg, disableStdinEvents, waiting_for_confirm.
  keep.
Qed.
Lemma along_udp_sendErr text : respects along (sendErrMsg text).
Proof.
  unfold sendErrMsg, udp_buildErrMsg, printErrMsg, disableStdinEvents, waiting_for_confirm.
  keep.
Qed.
Lemma along_sendConfirm id : respects along (sendConfirmMsg id).
Proof. unfold sendConfirmMsg. keep. Qed.
Hint Resolve along_udp_sendBye along_udp_sendErr along_sendConfirm : respects.

Lemma along_confirmed t : respects along (confirmed t).
Proof.
  unfold confirmed, waiting_for_confirm, startTimer, stopTimer, enableStdinEvents. keep.
Qed.
Hint Resolve along_confirmed : respects.

Lemma along_udp_message m from : respects along (udp_processMessageFromServer m from).
Proof.
  unfold udp_processMessageFromServer, err_and_go_on, udp_processServerByeMsg,
    udp_processServerErrMsg, isValidErrMsg, udp_processServerMsgMsg, isValidMsgMsg,
    udp_processServerPingMsg, udp_processServerConfirmMsg, udp_processServerReplyMsg,
    outputIncomingMsg, outputIncomingReply, printErrFromServer, stopTimer, enableStdinEvents.
  keep.
Qed.
Hint Resolve along_udp_message : respects.

Lemma along_udp_socket p : respects along (udp_processSocketEvent p).
Proof. unfold udp_processSocketEvent, err_and_go_on. keep. Qed.

Lemma along_udp_stdin c k :
  R k (kernel (fst (read_line c))) -> R k (kernel (fst (udp_processStdinEvent false false c))).
Proof.
  intros Hk. unfold udp_processStdinEvent.
  apply along_after; [by apply along_parseUserInput; [apply along_udp_sendBye|]|].
  unfold disableStdinEvents, waiting_for_confirm. keep.
Qed.

Lemma along_udp_timer : respects along udp_processTimerEvent.
Proof. unfold udp_processTimerEvent. keep. Qed.

(** * Lines of standard input *)

Lemma split_line_app s t l r : split_line s = Some (l, r) -> split_line (s ++ t) = Some (l, r ++ t).
Proof.
  revert l r. induction s as [|x s IH]; intros l r; [done|]. cbn.
  destruct (x =? LF); [by intros [= <- <-]|].
  destruct (split_line s) as [[l' r']|]; [|done]. intros [= <- <-]. by rewrite (IH l' r').
Qed.

Lemma split_line_one l r : LF ∉ l -> split_line (l ++ LF :: r) = Some (l, r).
Proof.
  induction l as [|x l IH]; intros Hl; [done|]. cbn. apply not_elem_of_cons in Hl as [Hx Hl].
  rewrite (proj2 (Z.eqb_neq x LF)) by congruence. by rewrite IH.
Qed.

Lemma split_line_none l : LF ∉ l -> split_line l = None.
Proof.
  induction l as [|x l IH]; intros Hl; [done|]. cbn. apply not_elem_of_cons in Hl as [Hx Hl].
  rewrite (proj2 (Z.eqb_neq x LF)) by congruence. by rewrite IH.
Qed.

(** A read of a few lines at once takes the first, and keeps the others for the next read. *)
Lemma getline_takes_all k line rest :
  pipe k = line ++ LF :: rest -> filebuf k = [] -> LF ∉ line ->
  (length (line ++ LF :: rest) <= BUFSIZE)%nat ->
  getline k = Some (Line line, set_filebuf rest (set_pipe [] k)).
Proof.
  intros Hp Hf Hl Hn. unfold getline. rewrite Hp.
  assert (exists x s, line ++ LF :: rest = x :: s) as (x & s & E) by (destruct line; eauto).
  rewrite E in *. cbn [length getline_loop]. rewrite Hf, Hp. cbn [split_line].
  rewrite take_ge, drop_ge by done. cbn [app]. rewrite <- E. unfold getline_loop.
  assert (split_line (filebuf (set_filebuf (line ++ LF :: rest) (set_pipe [] k))) = Some (line, rest))
    as Es by (by apply split_line_one).
  destruct (length s); cbn [getline_loop]; by rewrite Es.
Qed.

(** Without a whole line the call blocks. *)
Lemma getline_blocks k :
  LF ∉ filebuf k ++ pipe k -> pipe_closed k = false -> getline k = None.
Proof.
  unfold getline. generalize (S (length (pipe k))). intros fuel. revert k.
  induction fuel as [|fuel IH]; intros k Hl Hc; cbn [getline_loop];
    pose proof Hl as [Hf Hp]%not_elem_of_app; rewrite (split_line_none _ Hf).
  - by rewrite Hc.
  - destruct (pipe k) as [|x p] eqn:E; [by rewrite Hc|]. rewrite <- E in *. apply IH; [|done].
    cbn [filebuf pipe set_filebuf set_pipe]. by rewrite <- app_assoc, take_drop.
Qed.

(** * The event loop *)

(** A client's kernel after a turn. *)
Definition turn_kernel {D} (t : turn D) : os :=
  match t with Continue c | Wait c => kernel c | Exit _ k => k end.

(** All handlers of a derived class. *)
Class Handlers_along (D : Type) `{Handlers D} : Prop := {
  hup_along err : respects (@along D) (processStdinEvent true err);
  stdin_along c k :
    R k (kernel (fst (read_line c))) ->
    R k (kernel (fst (processStdinEvent (D := D) false false c)));
  socket_along p : respects (@along D) (processSocketEvent p);
  timer_along : respects (@along D) processTimerEvent;
  sigint_along : respects (@along D) sigintHandler
}.

#[local] Instance tcp_handlers_along : Handlers_along chars.
Proof.
  split; intros; [|by apply along_tcp_stdin|apply along_tcp_socket|apply along_tcp_timer
                 |apply along_tcp_sigint].
  cbn. unfold tcp_processStdinEvent. keep.
Qed.

#[local] Instance udp_handlers_along : Handlers_along udp.
Proof.
  split; intros; [|by apply along_udp_stdin|apply along_udp_socket|apply along_udp_timer|].
  all: apply along_udp_sendBye.
Qed.

Lemma along_main_catch k what : R k (snd (main_catch k what)).
Proof. destruct what; cbn; [done|apply order_console]. Qed.

Section LOOP.

Context {D : Type} `{Handlers_along D}.

Lemma along_end_of_handler {A} (m : CM D A) cont c k :
  R k (kernel (fst (m c))) -> (forall a c', turn_kernel (cont a c') = kernel c') ->
  R k (turn_kernel (end_of_handler (m c) cont)).
Proof.
  intros Hm Hcont. destruct (m c) as [c' [a|[what|]]]; cbn in *; [by rewrite Hcont| |done].
  pose proof (along_main_catch (kernel c') what) as Hk.
  destruct (main_catch (kernel c') what) as [code k']. cbn in *. by etrans.
Qed.

(** Only an event of standard input reads it. *)
Definition reads (e : event) : bool := match e with Stdin false => true | _ => false end.

Lemma along_dispatch e c k :
  R k (kernel (if reads e then fst (read_line c) else c)) -> R k (turn_kernel (dispatch e c)).
Proof.
  intros Hc. destruct e as [[]|p| |]; cbn; apply along_end_of_handler; intros; cbn; try done.
  - etrans; [exact Hc|apply hup_along].
  - by apply stdin_along.
  - etrans; [exact Hc|apply socket_along].
  - by destruct (_ || _)%bool.
  - etrans; [exact Hc|apply timer_along].
  - etrans; [exact Hc|apply sigint_along].
Qed.

End LOOP.

End ALONG.

#[export] Existing Instance tcp_handlers_along.
#[export] Existing Instance udp_handlers_along.
