(* ===== verification/ProcessSpec.v ===== *)
(** The client's process implements the interface [Executable]: its outputs only grow, and it
    does nothing after its exit.  Also here: how the event loop ends. *)
From S2P Require Import Prelude Args Kernel Regex Client TcpClient UdpClient Executable Process.
From S2P Require Import KernelSpec.

(** * Outputs only grow *)

Definition os_grows (k k' : os) : Prop :=
  console k `prefix_of` console k' /\ sent k `prefix_of` sent k'.

#[export] Instance os_grows_order : Kernel_order os_grows.
Proof.
  split.
  - split; [by intros k; split|]. intros a b c [H1 H2] [H3 H4]. split; by etrans.
  - intros text k. split; [by apply prefix_app_r|done].
  - intros to data k. unfold send_packet. destruct (send_fails k); split; cbn; try done.
    by apply prefix_app_r.
  - by intros.
  - by intros.
Qed.

(** Reading standard input writes nothing. *)
Lemma getline_silent fuel k r k' :
  getline_loop fuel k = Some (r, k') -> console k' = console k /\ sent k' = sent k.
Proof.
  revert k. induction fuel as [|fuel IH]; intros k; cbn; destruct (split_line (filebuf k)) as [[l q]|].
  - by intros [= <- <-].
  - destruct (pipe_closed k); [|done]. by destruct (filebuf k); intros [= <- <-].
  - by intros [= <- <-].
  - destruct (pipe k).
    + destruct (pipe_closed k); [|done]. by destruct (filebuf k); intros [= <- <-].
    + intros H. by apply IH in H.
Qed.

Lemma grows_read_line {D} (c : client D) : os_grows (kernel c) (kernel (fst (read_line c))).
Proof.
  unfold read_line, getline. destruct (getline_loop _ _) as [[r k]|] eqn:E; [|done].
  apply getline_silent in E as [H1 H2]. split; cbn; by rewrite ?H1, ?H2.
Qed.

Section LOOP.

Context {D : Type} `{!Handlers D, !Handlers_along os_grows D}.

Lemma turns_grow fuel i c : os_grows (kernel c) (turn_kernel (snd (turns fuel i c))).
Proof.
  revert i c. induction fuel as [|fuel IH]; intros i c; cbn; [done|].
  destruct (next_event i c) as [[e i']|]; [|done].
  assert (os_grows (kernel c) (turn_kernel (dispatch e c))) as Hd
    by (apply (along_dispatch os_grows); destruct (reads e); [apply grows_read_line|done]).
  destruct (dispatch e c) as [c'|c'|code k]; cbn in *; [by etrans; [|apply IH]|done..].
Qed.

End LOOP.

Section LAWS.

Context (inet_pton getaddrinfo : chars -> option Z) (undefined_status : Z).

Lemma exit_with_grows tcp k what :
  os_grows k (life_kernel (exit_with tcp (main_catch k what))).
Proof.
  pose proof (along_main_catch os_grows k what) as Hk. unfold exit_with.
  by destruct (main_catch k what).
Qed.

Lemma main_grows argv k :
  os_grows k (life_kernel (main inet_pton getaddrinfo undefined_status argv k)).
Proof.
  unfold main. destruct (Args_ctor _ _ _) as [args|what|].
  - destruct (m_is_help_used args).
    + split; cbn; [by apply prefix_app_r|done].
    + unfold create. by destruct (m_is_tcp args).
  - apply exit_with_grows.
  - done.
Qed.

Lemma after_turns_kernel {D} tcp (wrap : client D -> life) r :
  (forall c, life_kernel (wrap c) = kernel c) ->
  life_kernel (the_life (after_turns tcp wrap r)) = turn_kernel (snd r).
Proof. intros Hw. destruct r as [i [c|c|code k]]; cbn; auto. Qed.

Lemma live_grows i l :
  os_grows (life_kernel l)
    (life_kernel (the_life (live inet_pton getaddrinfo undefined_status i l))).
Proof.
  destruct l as [argv k|c [accepted|]|c|c|tcp code k]; cbn [live].
  - apply main_grows.
  - unfold connected. destruct accepted; [done|apply exit_with_grows].
  - done.
  - rewrite after_turns_kernel by done. apply (turns_grow (D := chars)).
  - rewrite after_turns_kernel by done. apply (turns_grow (D := udp)).
  - done.
Qed.

Lemma on_life_kernel_clock t l :
  console (life_kernel (on_life_kernel (set_clock t) l)) = console (life_kernel l)
  /\ sent (life_kernel (on_life_kernel (set_clock t) l)) = sent (life_kernel l).
Proof. by destruct l. Qed.

Lemma prefix_concat {A} (l k : list (list A)) : l `prefix_of` k -> concat l `prefix_of` concat k.
Proof. intros [r ->]. rewrite concat_app. by apply prefix_app_r. Qed.

Lemma fmap_prefix {A B} (f : A -> B) (l k : list A) :
  l `prefix_of` k -> f <$> l `prefix_of` f <$> k.
Proof. intros [r ->]. rewrite fmap_app. by apply prefix_app_r. Qed.

(** The instance of the interface. *)
Definition client_process : Executable process :=
  client_executable inet_pton getaddrinfo undefined_status.

Lemma process_elapse_grows t p :
  console (life_kernel (the_life p)) `prefix_of`
    console (life_kernel (the_life (process_elapse inet_pton getaddrinfo undefined_status t p)))
  /\ process_datagrams p `prefix_of`
       process_datagrams (process_elapse inet_pton getaddrinfo undefined_status t p)
  /\ process_stream p `prefix_of`
       process_stream (process_elapse inet_pton getaddrinfo undefined_status t p).
Proof.
  unfold process_elapse. destruct p as [i l]. cbn [the_io the_life].
  pose proof (live_grows i (on_life_kernel (set_clock t) l)) as [Hc Hs].
  destruct (on_life_kernel_clock t l) as [Ec Es]. rewrite Ec in Hc. rewrite Es in Hs.
  split; [done|]. unfold process_datagrams, process_stream. cbn [the_life].
  destruct l as [argv k|c [accepted|]|c|c|[] code k]; cbn [on_life_kernel live] in *.
  - split; apply prefix_nil.
  - split; [apply prefix_nil|]. unfold connected in *. destruct accepted; cbn in *; [done|].
    by apply prefix_concat, fmap_prefix.
  - split; done.
  - split; [apply prefix_nil|]. rewrite after_turns_kernel in Hs by done.
    destruct (turns _ _ _) as [? []]; by apply prefix_concat, fmap_prefix.
  - split; [|apply prefix_nil]. rewrite after_turns_kernel in Hs by done.
    by destruct (turns _ _ _) as [? []].
  - done.
  - done.
Qed.

Lemma client_laws : @Executable_laws process client_process.
Proof.
  split; cbn.
  - done.
  - intros t p. apply process_elapse_grows.
  - done.
  - intros t p. apply process_elapse_grows.
  - intros t p. apply process_elapse_grows.
  - intros t [i []] n; by cbn.
  - intros a [i l]. destruct a; cbn; try done; destruct l; cbn; try done;
      try (by destruct tcp); by destruct answer.
Qed.


End LAWS.
