(* ===== verification/Reachable.v ===== *)
(** The states a client goes through, for any behaviour of its environment and any order of the
    events: the step relation of which the event loop of [Process] is one schedule. *)
From S2P Require Import Prelude Args Kernel Regex Client TcpClient UdpClient Executable Process.

Section REACHABLE.

Context {D : Type} `{Handlers D}.

(** What can happen to the process's resources between two events. *)
Inductive environment : client D -> client D -> Prop :=
| env_input text c : environment c (on_kernel (fun k => set_pipe (pipe k ++ text) k) c)
| env_input_closed c : environment c (on_kernel (set_pipe_closed true) c)
| env_clock t c : environment c (on_kernel (set_clock t) c)
| env_send_fails b c : environment c (on_kernel (set_send_fails b) c).

(** Input on standard input, on the socket and a signal may come at any time; the timer's event
    comes when it has expired. *)
Definition enabled (e : event) (c : client D) : Prop :=
  match e with Timer => timer_ready (kernel c) = true | _ => True end.

Inductive step : client D -> client D -> Prop :=
| step_environment c c' : environment c c' -> step c c'
| step_continue e c c' : enabled e c -> dispatch e c = Continue c' -> step c c'
| step_wait e c c' : enabled e c -> dispatch e c = Wait c' -> step c c'.

Definition reachable (c0 : client D) : client D -> Prop := rtc step c0.

Lemma next_event_enabled i c e i' : next_event i c = Some (e, i') -> enabled e c.
Proof.
  unfold next_event. destruct (interrupted i); [by intros [= <- _]|].
  destruct (blocked i); [destruct (_ || _)%bool; by intros [= <- _]|].
  destruct (receive i) as [[p j]|]; [by intros [= <- _]|].
  destruct (timer_ready (kernel c)) eqn:E; [by intros [= <- _]|].
  destruct (stdin_ready (kernel c)); by intros [= <- _].
Qed.

(** The event loop only makes steps. *)
Lemma turns_reachable fuel i c i' c' : turns fuel i c = (i', Continue c') -> rtc step c c'.
Proof.
  revert i c. induction fuel as [|fuel IH]; intros i c; cbn; [by intros [= _ <-]|].
  destruct (next_event i c) as [[e j]|] eqn:E; [|by intros [= _ <-]].
  apply next_event_enabled in E. destruct (dispatch e c) as [c1|c1|code k] eqn:Hd.
  - intros H1%IH. eapply rtc_l; [by eapply step_continue|done].
  - intros [= _ <-]. eapply rtc_l; [by eapply step_wait|done].
  - done.
Qed.

Lemma turns_never_wait fuel i c i' c' : turns fuel i c <> (i', Wait c').
Proof.
  revert i c. induction fuel as [|fuel IH]; intros i c; cbn; [done|].
  destruct (next_event i c) as [[e j]|]; [|done]. by destruct (dispatch e c).
Qed.

(** An invariant of the environment's steps and of the turns is one of the reachable states. *)
Lemma reachable_ind_inv (I : client D -> Prop) c0 :
  I c0 ->
  (forall c c', environment c c' -> I c -> I c') ->
  (forall e c, enabled e c -> I c ->
     match dispatch e c with Continue c' | Wait c' => I c' | Exit _ _ => True end) ->
  forall c, reachable c0 c -> I c.
Proof.
  intros H0 He Hd c Hc. revert H0. unfold reachable in Hc.
  induction Hc as [c|a b c Hs _ IH]; [done|]. intros Ha. apply IH.
  destruct Hs as [a b Hs|e a b Hen E|e a b Hen E]; [by eapply He|..];
    specialize (Hd e a Hen Ha); by rewrite E in Hd.
Qed.

(** The turn a handler gives, by weakest preconditions. *)
Lemma end_of_handler_wp {A} (m : CM D A) cont c (P : turn D -> Prop) :
  wp m (fun a c' => P (cont a c'))
    (fun e c' => match e with
                 | Blocked => P (Wait c')
                 | Thrown what => P (Exit (fst (main_catch (kernel c') what))
                                       (snd (main_catch (kernel c') what)))
                 end) c ->
  P (end_of_handler (m c) cont).
Proof.
  unfold wp. destruct (m c) as [c' [a|[what|]]]; cbn; [done| |done].
  by destruct (main_catch (kernel c') what).
Qed.

End REACHABLE.
