(* ===== verification/TcpSpec.v ===== *)
(** What the TCP client promises: the stream's segmentation is invisible, its buffer is bounded,
    its timer only runs while a reply is awaited, and an error is reported to the server before
    the client ends. *)
From S2P Require Import Prelude Args Kernel Regex Client ClientSpec TcpClient UdpClient Process.
From S2P Require Import Reachable.

(** * The buffer *)

Lemma find_end_app s t k : find_end s = Some k -> find_end (s ++ t) = Some k.
Proof.
  revert k. induction s as [|x s IH]; [done|]. intros k. cbn [find_end app].
  destruct (x =? CR) eqn:Hx; cbn [andb].
  - destruct (bool_decide (head s = Some LF)) eqn:Hs.
    + apply bool_decide_eq_true in Hs. destruct s as [|y s]; [done|]. cbn in *.
      by rewrite bool_decide_true.
    + intros (j & Hj & ->)%fmap_Some.
      assert (s <> []) as Hne by (by destruct s).
      assert (bool_decide (head (s ++ t) = Some LF) = false) as -> by
        (destruct s; [done|exact Hs]).
      by rewrite (IH j Hj).
  - intros (j & Hj & ->)%fmap_Some. by rewrite (IH j Hj).
Qed.

(** The end of the first message: its bytes, and the bound on its position. *)
Lemma find_end_some s k :
  find_end s = Some k ->
  exists w r, s = w ++ CRLF ++ r /\ length w = k /\ take (k + 2) s = w ++ CRLF
    /\ drop (k + 2) s = r.
Proof.
  revert k. induction s as [|x s IH]; [done|]. intros k. cbn [find_end].
  destruct (_ && _)%bool eqn:E.
  - intros [= <-]. apply andb_true_iff in E as [->%Z.eqb_eq Hs%bool_decide_eq_true].
    destruct s as [|y s]; [done|]. injection Hs as ->. by exists [], s.
  - intros (j & Hj & ->)%fmap_Some. destruct (IH j Hj) as (w & r & -> & Hl & Ht & Hd).
    exists (x :: w), r. change (S j + 2)%nat with (S (j + 2)).
    cbn [take drop app length]. by rewrite Hl, Ht, Hd.
Qed.

(** A CRLF that appears when bytes are appended ends after the old bytes. *)
Lemma find_end_none_app s t k :
  find_end s = None -> find_end (s ++ t) = Some k -> (length s <= k + 1)%nat.
Proof.
  revert k. induction s as [|x s IH]; intros k; cbn [find_end app length]; [lia|].
  destruct (x =? CR) eqn:Hx; cbn [andb].
  - destruct s as [|y s].
    + intros _ _. cbn. lia.
    + cbn [head app] in *. destruct (bool_decide (Some y = Some LF)); [done|].
      intros Hn%fmap_None (j & Hj & ->)%fmap_Some. specialize (IH j Hn Hj). cbn in *. lia.
  - intros Hn%fmap_None (j & Hj & ->)%fmap_Some. specialize (IH j Hn Hj). lia.
Qed.

(** * The type of a message *)

Lemma starts_with_false p s i x y :
  s !! i = Some x -> p !! i = Some y -> x <> y -> starts_with p s = false.
Proof.
  intros Hs Hp Hne. unfold starts_with. apply chars_eqb_false. intros E. apply Hne.
  assert (take (length p) s !! i = Some x) as H.
  { rewrite lookup_take_lt; [done|]. by eapply lookup_lt_Some. }
  rewrite E in H. congruence.
Qed.

Lemma short_message_unknown w r :
  (length w < 3)%nat -> getServerMsgType (w ++ CRLF ++ r) = M_UNKNOWN.
Proof.
  intros Hw. unfold getServerMsgType. destruct (3 <=? _); [|done].
  assert (map toupper (take 5 (w ++ CRLF ++ r)) !! length w = Some CR) as H.
  { change (map ?f ?l) with (f <$> l). rewrite list_lookup_fmap, lookup_take_lt by lia.
    change (CRLF ++ r) with (CR :: LF :: r). by rewrite list_lookup_middle. }
  assert (forall p y, p !! length w = Some y -> y <> CR ->
            starts_with p (map toupper (take 5 (w ++ CRLF ++ r))) = false) as Hp.
  { intros p y Hp Hy. by eapply starts_with_false. }
  destruct w as [|a [|b [|c w]]]; cbn [length] in *; [..|lia];
    rewrite (Hp (lit "MSG") _ eq_refl) by done; rewrite (Hp (lit "ERR") _ eq_refl) by done;
    rewrite (Hp (lit "BYE") _ eq_refl) by done; by rewrite (Hp (lit "REPLY") _ eq_refl) by done.
Qed.

(** The type is that of the first complete message, whatever follows it in the buffer. *)
Lemma getServerMsgType_first w r :
  getServerMsgType (w ++ CRLF ++ r) = getServerMsgType (w ++ CRLF).
Proof.
  destruct (decide (length w < 3)%nat) as [Hw|Hw].
  - rewrite short_message_unknown by done. rewrite <- (app_nil_r CRLF) at 1.
    by rewrite short_message_unknown.
  - unfold getServerMsgType, strlen. rewrite !length_app. change (length CRLF) with 2%nat.
    rewrite (app_assoc w CRLF r), take_app_le by (rewrite length_app; cbn; lia).
    by solve_tests.
Qed.

(** * Computations that do not look at the buffer *)

Definition frame {A} (m : TM A) : Prop :=
  forall b c, m (set_ext b c) = (set_ext b (fst (m c)), snd (m c)).

Lemma frame_ret {A} (a : A) : frame (mret a).
Proof. done. Qed.

Lemma frame_throw {A} e : frame (throw e : TM A).
Proof. done. Qed.

Lemma frame_modify f : (forall b c, f (set_ext b c) = set_ext b (f c)) -> frame (modify f).
Proof. intros Hf b c. unfold modify. cbn. by rewrite Hf. Qed.

Lemma frame_bind {A B} (m : TM A) (k : A -> TM B) :
  frame m -> (forall a, frame (k a)) -> frame (m ≫= k).
Proof.
  intros Hm Hk b c. unfold mbind, M_bind. rewrite Hm. destruct (m c) as [c' [a|e]]; cbn; [|done].
  apply Hk.
Qed.

Lemma frame_get {A} (k : tcp_client -> TM A) :
  (forall b c, k (set_ext b c) = k c) -> (forall c, frame (k c)) -> frame (get ≫= k).
Proof. intros H1 H2 b c. unfold mbind, M_bind, get. rewrite H1. apply H2. Qed.

Lemma frame_when b m : frame m -> frame (when b m).
Proof. intros Hm. destruct b; [done|apply frame_ret]. Qed.

Lemma frame_send data : frame (send_to_server data).
Proof.
  intros b c. unfold send_to_server, send_packet. cbn. by destruct (send_fails (kernel c)).
Qed.

Ltac tac_frame :=
  repeat match goal with
  | |- forall _, _ => intro
  | |- frame (get ≫= _) => apply frame_get; [reflexivity|]
  | |- frame (mbind _ _) => apply frame_bind
  | |- frame (mret _) => apply frame_ret
  | |- frame (throw _) => apply frame_throw
  | |- frame (when _ _) => apply frame_when
  | |- frame (send_to_server _) => apply frame_send
  | |- frame (modify _) => apply frame_modify; reflexivity
  | |- frame (cout _) => apply frame_modify; reflexivity
  | |- frame (match ?x with _ => _ end) => destruct x
  end.

Lemma frame_terminate {A} text : frame (sendErrMsgAndTerminate text : TM A).
Proof. unfold sendErrMsgAndTerminate, tcp_buildErrMsg, tcp_sendMsgToServer. tac_frame. Qed.

Lemma frame_message t m : frame (tcp_processMessageOfType t m).
Proof.
  pose proof @frame_terminate as Ht.
  unfold tcp_processMessageOfType, tcp_processServerByeMsg, tcp_processServerErrMsg,
    tcp_processServerReplyMsg, tcp_processServerMsgMsg, stopTimer, enableStdinEvents,
    outputIncomingReply, outputIncomingMsg, printErrFromServer.
  tac_frame; try apply Ht; tac_frame.
Qed.

(** * Segmentation *)

Lemma terminate_raises {A} text c : exists e, snd (sendErrMsgAndTerminate (A := A) text c) = Err e.
Proof.
  unfold sendErrMsgAndTerminate, tcp_buildErrMsg, tcp_sendMsgToServer, send_to_server, send_packet.
  unfold mbind, M_bind, get, modify, throw. cbn. destruct (send_fails (kernel c)); by eexists.
Qed.

(** One turn of the loop, with the buffer apart. *)
Lemma process_messages_step n b c :
  process_messages (S n) (set_ext b c) =
  match find_end b with
  | None => (set_ext b c, Ok 2)
  | Some k =>
      let single := take (k + 2) b in
      if tcp_MAX_MSG_SIZE <? strlen single
      then (set_ext b (fst (too_long (A := Z) c)), snd (too_long (A := Z) c))
      else match tcp_processMessageOfType (getServerMsgType single) single c with
           | (c', Ok r) =>
               if (r =? 0) || (r =? 1) then (set_ext b c', Ok r)
               else process_messages n (set_ext (drop (k + 2) b) c')
           | (c', Err e) => (set_ext b c', Err e)
           end
  end.
Proof.
  cbn [process_messages]. rewrite (bind_ok _ _ _ (set_ext b c) (set_ext b c)) by done.
  change (m_msg_from_server (set_ext b c)) with b. change s_BYTES_IN_END_OF_MESSAGE with 2%nat.
  destruct (find_end b) as [k|] eqn:Ek; [|done]. cbv zeta.
  destruct (_ <? _); [apply frame_terminate|].
  unfold tcp_processMessageFromServer, mbind, M_bind, get.
  change (m_msg_from_server (set_ext b c)) with b.
  apply find_end_some in Ek as (w & r & -> & Hl & -> & Hd).
  rewrite getServerMsgType_first, frame_message.
  destruct (tcp_processMessageOfType _ _ c) as [c' [z|e]]; cbn [fst snd]; [|done].
  destruct (_ || _)%bool; [done|]. unfold modify.
  change (set_m_msg_from_server ?v (set_ext _ c')) with (set_ext v c').
  by change (m_msg_from_server (set_ext ?v c')) with v.
Qed.

Lemma process_messages_fuel n m b c :
  (length b < n)%nat -> (length b < m)%nat ->
  process_messages n (set_ext b c) = process_messages m (set_ext b c).
Proof.
  revert m b c. induction n as [|n IH]; intros [|m] b c Hn Hm; [lia..|].
  rewrite !process_messages_step. destruct (find_end b) as [k|] eqn:Ek; [|done]. cbv zeta.
  destruct (_ <? _); [done|]. destruct (tcp_processMessageOfType _ _ c) as [c' [z|e]]; [|done].
  destruct (_ || _)%bool; [done|].
  apply find_end_some in Ek as (w & r & -> & <- & _ & Hd). rewrite Hd.
  rewrite !length_app in Hn, Hm. cbn in Hn, Hm. apply IH; lia.
Qed.

(** Two outcomes that differ at most in the buffer of a client that stops. *)
Definition observe (o : tcp_client * result stop Z) : tcp_client * result stop Z :=
  match o with
  | (c, Ok r) => if (r =? 0) || (r =? 1) then (set_ext [] c, Ok r) else (c, Ok r)
  | (c, Err e) => (set_ext [] c, Err e)
  end.

(** [goes_on o c]: the client goes on, in the state [c]. *)
Definition goes_on (o : tcp_client * result stop Z) (c : tcp_client) : Prop :=
  exists r, o = (c, Ok r) /\ (r =? 0) || (r =? 1) = false.

(** Appending to the buffer changes nothing of the messages that are already complete. *)
Lemma process_messages_app n m b t c :
  (length b < n)%nat -> (length (b ++ t) < m)%nat ->
  let o := process_messages n (set_ext b c) in
  (exists c' l, o = (set_ext l c', Ok 2) /\ find_end l = None /\ (length l <= length b)%nat
     /\ process_messages m (set_ext (b ++ t) c) = process_messages m (set_ext (l ++ t) c'))
  \/ (~ (exists c', goes_on o c')
      /\ observe (process_messages m (set_ext (b ++ t) c)) = observe o).
Proof.
  cbv zeta. revert m b c. induction n as [|n IH]; intros [|m] b c Hn Hm; [lia..|].
  rewrite (process_messages_step n). destruct (find_end b) as [k|] eqn:Ek; cbv zeta.
  2:{ left. exists c, b. split; [done|]. split; [done|]. split; [lia|]. by apply process_messages_fuel. }
  rewrite (process_messages_step m (b ++ t)), (find_end_app _ t _ Ek). cbv zeta.
  pose proof (find_end_some _ _ Ek) as (w & r & -> & Hl & Hs & Hd).
  assert (k + 2 <= length (w ++ CRLF ++ r))%nat as Hk by (rewrite !length_app; cbn; lia).
  rewrite (take_app_le (w ++ _) t), (drop_app_le (w ++ _) t) by exact Hk. rewrite Hs, Hd.
  destruct (_ <? _).
  { right. unfold too_long.
    destruct (terminate_raises (A := Z) (lit "too long message from server.") c) as [e ->].
    split; [|done]. by intros (c' & z & [=] & _). }
  destruct (tcp_processMessageOfType _ _ c) as [c' [z|e]].
  - destruct (_ || _)%bool eqn:Ez.
    + right. split; [|unfold observe; by rewrite Ez]. intros (c1 & z1 & [= _ <-] & E). congruence.
    + rewrite !length_app in Hn, Hm. cbn in Hn, Hm.
      specialize (IH m r c' ltac:(lia) ltac:(rewrite length_app; lia)).
      destruct IH as [(c1 & l & E1 & E2 & E3 & E4)|IH]; [left|by right].
      exists c1, l. split; [done|]. split; [done|]. split; [rewrite !length_app; lia|]. rewrite E4.
      apply process_messages_fuel; rewrite !length_app; cbn; lia.
  - right. split; [|done]. by intros (c1 & z1 & [=] & _).
Qed.

(** What the handler of a socket event does after its loop. *)
Definition after_loop (o : tcp_client * result stop Z) : tcp_client * result stop Z :=
  match o with
  | (c, Ok r) =>
      if (r =? 0) || (r =? 1) then (c, Ok r)
      else if tcp_MAX_MSG_SIZE <=? strlen (ext c) then too_long c else (c, Ok 2)
  | (c, Err e) => (c, Err e)
  end.

Lemma socket_event_loop s c n :
  s <> [] -> (length (ext c ++ s) < n)%nat ->
  tcp_processSocketEvent (Some s) c = after_loop (process_messages n (set_ext (ext c ++ s) c)).
Proof.
  intros Hs Hn. destruct s as [|x s]; [done|]. cbn [tcp_processSocketEvent].
  unfold mbind, M_bind, modify, get.
  change (set_m_msg_from_server (m_msg_from_server c ++ x :: s) c) with (set_ext (ext c ++ x :: s) c).
  change (m_msg_from_server (set_ext (ext c ++ x :: s) c)) with (ext c ++ x :: s).
  rewrite (process_messages_fuel _ n (ext c ++ x :: s) c) by lia.
  destruct (process_messages _ _) as [c' [r|e]]; [|done]. cbn [after_loop].
  destruct (_ || _)%bool; [done|]. by destruct (_ <=? _).
Qed.

(** The report of a too long message does not depend on the buffer. *)
Lemma too_long_ext c :
  exists c' e, forall b, too_long (A := Z) (set_ext b c) = (set_ext b c', Err e).
Proof.
  destruct (terminate_raises (A := Z) (lit "too long message from server.") c) as [e He].
  exists (fst (too_long (A := Z) c)), e. intros b. unfold too_long.
  rewrite (frame_terminate (A := Z)). by rewrite He.
Qed.

(** The next event, if the client goes on. *)
Definition and_then (o : tcp_client * result stop Z) (m : TM Z) : tcp_client * result stop Z :=
  match o with
  | (c, Ok r) => if (r =? 0) || (r =? 1) then (c, Ok r) else m c
  | (c, Err e) => (c, Err e)
  end.

Lemma after_loop_2 c :
  after_loop (c, Ok 2) = if tcp_MAX_MSG_SIZE <=? strlen (ext c) then too_long c else (c, Ok 2).
Proof. reflexivity. Qed.

Lemma and_then_2 c m : and_then (c, Ok 2) m = m c.
Proof. reflexivity. Qed.

(** A buffer that is too long stays too long, whatever completes it. *)
Lemma too_long_for_ever n l t c :
  find_end l = None -> tcp_MAX_MSG_SIZE <= strlen l ->
  observe (after_loop (process_messages (S n) (set_ext (l ++ t) c)))
  = observe (too_long (set_ext l c)).
Proof.
  intros Hl Hlong. unfold strlen in Hlong. destruct (too_long_ext c) as (c' & e & Ht).
  rewrite Ht, process_messages_step. destruct (find_end (l ++ t)) as [k|] eqn:Ek; cbv zeta.
  - pose proof (find_end_none_app _ _ _ Hl Ek) as Hk.
    pose proof (find_end_some _ _ Ek) as (w & r & _ & Hw & -> & _).
    unfold strlen. rewrite length_app, Hw. change (length CRLF) with 2%nat. solve_test.
    specialize (Ht (ext c)). replace (set_ext (ext c) c) with c in Ht by (by destruct c).
    by rewrite Ht.
  - rewrite after_loop_2. change (ext (set_ext ?v c)) with v.
    unfold strlen. rewrite length_app. solve_test. by rewrite Ht.
Qed.

(** A client that stops in the loop stops after it. *)
Lemma after_loop_stops o1 o2 m :
  ~ (exists c', goes_on o1 c') -> observe o2 = observe o1 ->
  observe (and_then (after_loop o1) m) = observe (after_loop o2).
Proof.
  destruct o1 as [c1 [r1|e1]], o2 as [c2 [r2|e2]]; intros Hno E; cbn [observe] in E; try done.
  - destruct ((r1 =? 0) || (r1 =? 1))%bool eqn:Er1; [|exfalso; apply Hno; by exists c1, r1].
    destruct ((r2 =? 0) || (r2 =? 1))%bool eqn:Er2; [|congruence].
    cbn [after_loop]. rewrite Er1, Er2. cbn [and_then]. rewrite Er1. cbn [observe].
    by rewrite Er1, Er2.
  - by destruct ((r1 =? 0) || (r1 =? 1))%bool.
  - by destruct ((r2 =? 0) || (r2 =? 1))%bool.
Qed.

Lemma socket_event_app s t c :
  s <> [] -> t <> [] ->
  observe (and_then (tcp_processSocketEvent (Some s) c) (tcp_processSocketEvent (Some t)))
  = observe (tcp_processSocketEvent (Some (s ++ t)) c).
Proof.
  intros Hs Ht. set (n := length ((ext c ++ s) ++ t)).
  assert (length (ext c ++ s) < S n)%nat as Hn by (unfold n; rewrite (length_app (_ ++ s)); lia).
  rewrite (socket_event_loop s c (S n)) by done.
  rewrite (socket_event_loop (s ++ t) c (S n)), app_assoc by
    (try (by destruct s); unfold n; rewrite <- app_assoc; lia).
  destruct (process_messages_app (S n) (S n) (ext c ++ s) t c)
    as [(c1 & l & E1 & E2 & E3 & E4)|[Hno E]]; [done|unfold n; lia|..].
  - rewrite E1, E4, after_loop_2. change (ext (set_ext l c1)) with l.
    destruct (tcp_MAX_MSG_SIZE <=? strlen l) eqn:Hlong.
    + apply Z.leb_le in Hlong. rewrite too_long_for_ever by done.
      destruct (too_long_ext c1) as (c' & e & Hl). by rewrite Hl.
    + rewrite and_then_2, (socket_event_loop t (set_ext l c1) (S n)); try done.
      change (ext (set_ext l c1)) with l. unfold n. rewrite !length_app in *. lia.
  - by apply after_loop_stops.
Qed.

(** The segments of a stream, one event each. *)
Fixpoint feed (segments : list chars) : TM Z :=
  match segments with
  | [] => mret 2
  | s :: segments' => fun c => and_then (tcp_processSocketEvent (Some s) c) (feed segments')
  end.

Lemma observe_and_then o m1 m2 :
  (forall c, observe (m1 c) = observe (m2 c)) -> observe (and_then o m1) = observe (and_then o m2).
Proof. intros Hm. destruct o as [c [r|e]]; cbn; [|done]. by destruct (_ || _)%bool. Qed.

Lemma feed_concat segments c :
  Forall (fun s => s <> []) segments -> segments <> [] ->
  observe (feed segments c) = observe (tcp_processSocketEvent (Some (concat segments)) c).
Proof.
  revert c. induction segments as [|s ss IH]; intros c Hs Hne; [done|].
  apply Forall_cons in Hs as [Hs Hss]. destruct ss as [|s' ss].
  - cbn [feed concat]. rewrite app_nil_r.
    destruct (tcp_processSocketEvent (Some s) c) as [c' [r|e]] eqn:E; [|done]. cbn [and_then].
    destruct ((r =? 0) || (r =? 1))%bool eqn:Er; [done|]. cbn. rewrite Er.
    destruct s as [|x s]; [done|]. rewrite (socket_event_loop _ _ (S (length (ext c ++ x :: s)))) in E
      by (done || lia).
    destruct (process_messages _ _) as [c1 [r1|e1]]; cbn [after_loop] in E; [|done].
    destruct ((r1 =? 0) || (r1 =? 1))%bool eqn:Er1; [congruence|].
    destruct (_ <=? _); [|congruence].
    destruct (terminate_raises (A := Z) (lit "too long message from server.") c1) as [e He].
    unfold too_long in E. rewrite E in He. done.
  - rewrite <- (socket_event_app s (concat (s' :: ss))); [|done|].
    + cbn [feed]. apply observe_and_then. intros c'. by apply IH.
    + apply Forall_cons in Hss as [? _]. cbn. by destruct s'.
Qed.

(** C2. The client cannot tell how the server's byte stream was cut into segments: two segmentations
    of the same stream leave it in the same state, with the same output, messages sent, exit
    result and exception; only the unread rest of a client that stops may differ. *)
Theorem tcp_segmentation_invisible segments1 segments2 c :
  Forall (fun s => s <> []) segments1 -> Forall (fun s => s <> []) segments2 ->
  concat segments1 = concat segments2 ->
  observe (feed segments1 c) = observe (feed segments2 c).
Proof.
  intros H1 H2 E. destruct segments1 as [|s1 ss1], segments2 as [|s2 ss2].
  - done.
  - apply Forall_cons in H2 as [? _]. by destruct s2.
  - apply Forall_cons in H1 as [? _]. by destruct s1.
  - rewrite !feed_concat by done. by rewrite E.
Qed.

Definition sample : tcp_client := Tcp_client_init (set_is_tcp true Args_default) (os_start 0).

Lemma tcp_segmentation_invisible_witness :
  observe (feed [lit "MSG F"; lit "ROM a"; lit " IS b" ++ CRLF] sample)
  = observe (feed [lit "MSG FROM a IS b" ++ CRLF] sample).
Proof. apply tcp_segmentation_invisible; [repeat constructor; done..|reflexivity]. Defined.

(** * The states a TCP client goes through *)

(** While a reply is awaited, and only then, the timer runs and standard input is off; that is
    in the states AUTH and JOIN, and always in JOIN.  The buffer holds no complete message and
    stays below the longest one. *)
Record tcp_inv (c : tcp_client) : Prop := {
  inv_timer : is_Some (timer (kernel c)) <-> m_is_waiting_for_reply c = true;
  inv_stdin : stdin_events (kernel c) = negb (m_is_waiting_for_reply c);
  inv_waiting : m_is_waiting_for_reply c = true ->
    m_current_state c = S_AUTH \/ m_current_state c = S_JOIN;
  inv_join : m_current_state c = S_JOIN -> m_is_waiting_for_reply c = true;
  inv_tcp : m_is_tcp (m_args c) = true;
  inv_buffer : find_end (ext c) = None /\ strlen (ext c) < tcp_MAX_MSG_SIZE
}.

(** The invariant without the buffer, which is only settled between events. *)
Record tcp_inv0 (c : tcp_client) : Prop := {
  inv0_timer : is_Some (timer (kernel c)) <-> m_is_waiting_for_reply c = true;
  inv0_stdin : stdin_events (kernel c) = negb (m_is_waiting_for_reply c);
  inv0_waiting : m_is_waiting_for_reply c = true ->
    m_current_state c = S_AUTH \/ m_current_state c = S_JOIN;
  inv0_join : m_current_state c = S_JOIN -> m_is_waiting_for_reply c = true;
  inv0_tcp : m_is_tcp (m_args c) = true
}.

Lemma tcp_inv_split c :
  tcp_inv c <-> tcp_inv0 c /\ find_end (ext c) = None /\ strlen (ext c) < tcp_MAX_MSG_SIZE.
Proof.
  split.
  - intros [H1 H2 H3 H4 H5 H6]. split; [by split|done].
  - intros [[H1 H2 H3 H4 H5] H6]. by split.
Qed.

(** Handlers end by returning, waiting or raising; only the first two leave a client. *)
Definition unless_thrown (I : tcp_client -> Prop) (e : stop) (c : tcp_client) : Prop :=
  match e with Blocked => I c | Thrown _ => True end.

Definition thrown (e : stop) (c : tcp_client) : Prop := e <> Blocked.

Lemma wp_terminate {A} text (Q : A -> tcp_client -> Prop) c :
  wp (sendErrMsgAndTerminate text) Q thrown c.
Proof.
  unfold sendErrMsgAndTerminate, tcp_buildErrMsg, tcp_sendMsgToServer.
  repeat wp_step. apply wp_send; [|done]. by repeat wp_step.
Qed.

Lemma wp_tcp_bye (Q : unit -> tcp_client -> Prop) (F : stop -> tcp_client -> Prop) c :
  (forall c', m_args c' = m_args c -> Q tt c') -> (forall w c', F (Thrown w) c') ->
  wp tcp_sendByeMsgToServer Q F c.
Proof.
  intros HQ HF. unfold tcp_sendByeMsgToServer, tcp_buildByeMsg, tcp_sendMsgToServer.
  repeat wp_step. apply wp_send; [by apply HQ|done].
Qed.

Lemma FSM_eqb_false a b : FSM_eqb a b = false <-> a <> b.
Proof. apply bool_decide_eq_false. Qed.

(** The invariant of a state that is written out, from that of the state before. *)
Ltac solve_inv :=
  intros; repeat match goal with
  | H : tcp_inv0 _ |- _ => destruct H
  | H : (_ || _)%bool = false |- _ => apply orb_false_iff in H as [? ?]
  | H : FSM_eqb _ _ = true |- _ => apply FSM_eqb_true in H
  | H : FSM_eqb _ _ = false |- _ => apply FSM_eqb_false in H
  end;
  split; cbn [kernel on_kernel set_kernel timer set_timer timerfd_settime m_is_waiting_for_reply
    set_m_is_waiting_for_reply stdin_events set_stdin_events m_current_state set_m_current_state];
  cbn; try done; try (split; [by intros []|done]); try (by split; eauto); try congruence; eauto.

Lemma tcp_message_inv t m c :
  tcp_inv0 c -> wp (tcp_processMessageOfType t m)
    (fun r c' => (r =? 0) || (r =? 1) = false -> tcp_inv0 c') thrown c.
Proof.
  intros Hc. pose proof @wp_terminate as Ht.
  unfold tcp_processMessageOfType, tcp_processServerByeMsg, tcp_processServerErrMsg,
    tcp_processServerReplyMsg, tcp_processServerMsgMsg, stopTimer, enableStdinEvents,
    outputIncomingReply, outputIncomingMsg, printErrFromServer, cout.
  repeat (wp_step || apply Ht || (intros; exact I)); try done.
  all: solve_inv.
Qed.

Lemma inv0_set_ext b c : tcp_inv0 (set_ext b c) <-> tcp_inv0 c.
Proof. split; intros []; by split. Qed.

Lemma wp_eq {S E A} (m : M S E A) Q F s s' r :
  wp m Q F s -> m s = (s', r) -> match r with Ok a => Q a s' | Err e => F e s' end.
Proof. unfold wp. intros H Em. rewrite Em in H. by destruct r. Qed.

Lemma process_messages_inv n b c :
  tcp_inv0 c -> wp (process_messages n)
    (fun r c' => (r =? 0) || (r =? 1) = false -> tcp_inv0 c') thrown
    (set_ext b c).
Proof.
  revert b c. induction n as [|n IH]; intros b c Hc; [intros _; by apply inv0_set_ext|].
  unfold wp. rewrite process_messages_step.
  destruct (find_end b) as [k|]; [cbv zeta|intros _; by apply inv0_set_ext].
  destruct (_ <? _).
  - pose proof (wp_terminate (A := Z) (lit "too long message from server.")
      (fun _ _ => False) c) as Ht. unfold wp, too_long in *.
    by destruct (sendErrMsgAndTerminate _ c) as [c' [r|e]].
  - pose proof (tcp_message_inv (getServerMsgType (take (k + 2) b)) (take (k + 2) b) c Hc) as Hm.
    unfold wp in Hm. destruct (tcp_processMessageOfType _ _ c) as [c' [r|e]].
    + destruct (_ || _)%bool eqn:Er; [congruence|]. apply IH. by apply Hm.
    + done.
Qed.

(** A client that goes on after an event has a settled buffer. *)
Lemma tcp_socket_buffer s c c' r :
  s <> [] -> tcp_processSocketEvent (Some s) c = (c', Ok r) -> (r =? 0) || (r =? 1) = false ->
  r = 2 /\ find_end (ext c') = None /\ strlen (ext c') < tcp_MAX_MSG_SIZE.
Proof.
  intros Hs E Hr. set (n := S (length (ext c ++ s))).
  rewrite (socket_event_loop s c n) in E by (done || (unfold n; lia)).
  destruct (process_messages_app n (S n) (ext c ++ s) [] c)
    as [(c1 & l & E1 & E2 & _)|[Hno _]]; [unfold n; lia|rewrite app_nil_r; unfold n; lia|..].
  - rewrite E1, after_loop_2 in E. change (ext (set_ext l c1)) with l in E.
    destruct (_ <=? _) eqn:Hlong.
    + destruct (too_long_ext c1) as (c2 & e & Ht). by rewrite Ht in E.
    + injection E as <- <-. change (ext (set_ext l c1)) with l. by bool_to_prop.
  - destruct (process_messages n _) as [c1 [r1|e]]; [|done]. exfalso. apply Hno. exists c1, r1.
    split; [done|]. cbn [after_loop] in E. destruct ((r1 =? 0) || (r1 =? 1))%bool eqn:E1; [|done].
    congruence.
Qed.

Lemma tcp_socket_inv p c :
  tcp_inv c -> wp (tcp_processSocketEvent p)
    (fun r c' => (r =? 0) || (r =? 1) = false -> tcp_inv c') thrown c.
Proof.
  intros [Hc _]%tcp_inv_split. destruct p as [s|]; [|apply wp_terminate].
  destruct (decide (s = [])) as [->|Hs]; [done|].
  pose proof (process_messages_inv (S (length (ext c ++ s))) (ext c ++ s) c Hc) as Hm.
  pose proof (socket_event_loop s c (S (length (ext c ++ s))) Hs ltac:(lia)) as El.
  unfold wp in *. destruct (tcp_processSocketEvent (Some s) c) as [c' [r|e]] eqn:E.
  - intros Hr. pose proof (tcp_socket_buffer s c c' r Hs E Hr) as (_ & Hb).
    apply tcp_inv_split. split; [|done].
    destruct (process_messages _ _) as [c1 [r1|e1]]; [|done].
    cbn [after_loop] in El. destruct ((r1 =? 0) || (r1 =? 1))%bool eqn:E1; [congruence|].
    destruct (_ <=? _); [|injection El as -> _; by apply Hm].
    destruct (terminate_raises (A := Z) (lit "too long message from server.") c1) as [e He].
    unfold too_long in El. by rewrite <- El in He.
  - destruct (process_messages _ _) as [c1 [r1|e1]]; cbn [after_loop] in El; [|congruence].
    destruct (_ || _)%bool; [done|]. destruct (_ <=? _); [|done].
    pose proof (wp_terminate (A := Z) (lit "too long message from server.") (fun _ _ => True) c1)
      as Ht. unfold wp, too_long in *. by rewrite <- El in Ht.
Qed.

(** Reading and parsing a line. *)
Lemma wp_parse_tcp c (Q : list chars -> tcp_client -> Prop) :
  tcp_inv c ->
  (forall c', tcp_inv c' -> Q [] c') ->
  (forall c' line t, tcp_inv c' -> user_command (m_current_state c') line t -> Q t c') ->
  wp parseUserInput Q (unless_thrown tcp_inv) c.
Proof.
  intros Hc H0 H1. unfold parseUserInput. apply wp_bind, wp_read_line; [|exact Hc].
  intros r k (E1 & E2 & E3 & E4).
  assert (tcp_inv (set_kernel k c)) as Hk.
  { destruct Hc. split; cbn; rewrite ?E1, ?E3; done. }
  destruct r as [line|].
  - apply wp_parseLine; [by eauto|]. intros text. apply H0. destruct Hk. by split.
  - apply wp_bind, wp_tcp_bye; [|done]. intros c' Ha. repeat wp_step; [done|].
    change (m_args (set_kernel k c)) with (m_args c) in Ha. destruct Hc. congruence.
Qed.

Lemma not_command text cmd : head text <> Some 47 -> head cmd = Some 47 -> (text =s? cmd) = false.
Proof. intros Ht Hc. apply chars_eqb_false. intros ->. done. Qed.

Lemma inv_buffer_same c c' :
  tcp_inv c -> ext c' = ext c -> tcp_inv0 c' -> tcp_inv c'.
Proof. intros [_ Hb]%tcp_inv_split He H0. apply tcp_inv_split. by rewrite He. Qed.

(** A command that was parsed is carried out. *)
Lemma tcp_stdin_inv hup err c :
  tcp_inv c -> wp (tcp_processStdinEvent hup err) (fun _ c' => tcp_inv c') (unless_thrown tcp_inv) c.
Proof.
  intros Hc. unfold tcp_processStdinEvent. destruct hup; [|destruct err; [done|]].
  { apply wp_bind, wp_tcp_bye; [|done]. by intros. }
  apply wp_bind, wp_parse_tcp; [done|by intros; apply wp_ret|]. clear c Hc.
  intros c line t Hc Ht. pose proof (proj1 (proj1 (tcp_inv_split c) Hc)) as H0.
  unfold processNonMsgToServer, buildUserMsgToServer, getUserMsgType.
  inversion Ht as [u s d Hst Hu Hs Hd L1 L2 L3|ch Hst Hch L|d Hst Hd L| |text Hst Htx Hh L];
    subst; cbn [nth];
    rewrite ?(not_command _ cmd_rename Hh), ?(not_command _ cmd_help Hh),
      ?(not_command _ cmd_auth Hh), ?(not_command _ cmd_join Hh) by done;
    cbn [buildAuthMsg buildJoinMsg buildMsgMsg tcp_virtual];
    unfold tcp_buildAuthMsg, tcp_buildJoinMsg, tcp_buildMsgMsg, tcp_sendMsgToServer,
      disableStdinEvents, startTimer, printSupportedCommands, cout;
    repeat (wp_step || apply wp_send); try done;
    (eapply inv_buffer_same; [exact Hc|reflexivity|]); solve_inv.
  intros _. destruct Hst as [Hst|Hst]; [|by left].
  match goal with
  | H : (_ && FSM_eqb _ S_START)%bool = false |- _ =>
      change (FSM_eqb (m_current_state c) S_START = false) in H; by rewrite Hst in H
  end.
Qed.

Lemma tcp_environment_inv c c' : environment c c' -> tcp_inv c -> tcp_inv c'.
Proof. destruct 1; intros []; by split. Qed.

Lemma tcp_dispatch_inv e c :
  tcp_inv c -> match dispatch e c with Continue c' | Wait c' => tcp_inv c' | Exit _ _ => True end.
Proof.
  intros Hc. destruct e as [hup|p| |]; cbn [dispatch];
    apply (end_of_handler_wp _ _ c (fun t => match t with Continue c' | Wait c' => tcp_inv c' | _ => True end)).
  - eapply wp_conseq; [by apply tcp_stdin_inv|done|]. by intros [].
  - eapply wp_conseq; [by apply tcp_socket_inv|..].
    + intros r c' Hr. cbn in Hr. destruct (_ || _)%bool; [done|]. by apply Hr.
    + intros [] c' He; [done|]. by destruct He.
  - cbn. unfold tcp_processTimerEvent. repeat wp_step; [|done].
    eapply wp_conseq; [apply (wp_terminate _ (fun _ _ => False))|done|].
    intros [] c' He; [done|]. by destruct He.
  - cbn. unfold tcp_sigintHandler. apply wp_bind, wp_tcp_bye; [|done]. by intros; wp_step.
Qed.

Section REACHED.

(** A client as its constructors leave it. *)
Context (a : Args) (k : os) (c : tcp_client).
Context (Htcp : m_is_tcp a = true) (Htimer : timer k = None) (Hstdin : stdin_events k = true).
Context (Hreach : reachable (Tcp_client_init a k) c).

Lemma tcp_reachable_inv : tcp_inv c.
Proof using All.
  revert Hreach. apply reachable_ind_inv.
  - split; cbn; rewrite ?Htimer; try done; try (split; [by intros []|done]).
  - apply tcp_environment_inv.
  - intros e c' _. apply tcp_dispatch_inv.
Qed.

(** The receive buffer between two events. *)
Definition partial_message (s : chars) : Prop := find_end s = None /\ strlen s < tcp_MAX_MSG_SIZE.

(** The ERR message of a client, as it is sent. *)
Definition err_line (c : tcp_client) (text : chars) : sockaddr_in * chars :=
  (m_server_addr (m_args c),
   lit "ERR FROM " ++ m_user_display_name c ++ lit " IS " ++ text ++ CRLF).

(** C28. In every state a TCP client can reach, under any input, any server and any order of the
    events: a reply is awaited exactly while the reply timer runs and exactly while standard
    input is disabled; that happens only in the states AUTH and JOIN, and always in JOIN; the
    receive buffer holds no complete message and is shorter than the longest message. *)
Theorem tcp_reachable_states :
  (is_Some (timer (kernel c)) <-> m_is_waiting_for_reply c = true)
  /\ stdin_events (kernel c) = negb (m_is_waiting_for_reply c)
  /\ (m_is_waiting_for_reply c = true ->
        m_current_state c = S_AUTH \/ m_current_state c = S_JOIN)
  /\ (m_current_state c = S_JOIN -> m_is_waiting_for_reply c = true)
  /\ partial_message (ext c).
Proof using All. by destruct tcp_reachable_inv. Qed.

(** When the timer of a TCP client fires, a reply is overdue: the client reports it to the
    server with ERR, prints it and exits with status 1. The other branch of the handler, for a
    timer nobody waits for, is dead. *)
Theorem tcp_timer_is_reply_timeout :
  enabled Timer c -> send_fails (kernel c) = false ->
  let text := lit "waited too long for the server's reply." in
  exists k', dispatch Timer c = Exit 1 k'
    /\ console k' = console (kernel c) ++ lit "ERROR: " ++ text ++ [LF]
    /\ sent k' = sent (kernel c) ++ [err_line c text].
Proof using All.
  intros Ht Hs. pose proof (inv_timer _ tcp_reachable_inv) as Hw.
  unfold enabled, timer_ready in Ht. destruct (timer (kernel c)); [|done].
  assert (m_is_waiting_for_reply c = true) as Hwait by (apply Hw; by eexists).
  cbn [dispatch processTimerEvent tcp_handlers].
  unfold tcp_processTimerEvent, sendErrMsgAndTerminate, tcp_buildErrMsg, tcp_sendMsgToServer,
    send_to_server, send_packet, mbind, M_bind, get, modify, throw.
  rewrite Hwait. cbn. rewrite Hs. cbn. by eexists.
Qed.

End REACHED.

(** A client that waits for the reply to its AUTH, with its timer about to fire. *)
Definition sample_waiting : tcp_client :=
  fst (tcp_processStdinEvent false false
    (on_kernel (set_pipe (lit "/auth a b c" ++ [LF])) sample)).
Definition sample_overdue : tcp_client := on_kernel (set_clock 5000) sample_waiting.

Lemma sample_overdue_reachable : reachable sample sample_overdue.
Proof.
  eapply rtc_l; [|eapply rtc_l; [|apply rtc_once]].
  - apply step_environment, (env_input (lit "/auth a b c" ++ [LF])).
  - apply (step_continue (Stdin false) _ sample_waiting); [done|vm_compute; reflexivity].
  - apply step_environment, (env_clock 5000).
Qed.

Lemma tcp_reachable_states_witness :
  m_current_state sample_overdue = S_AUTH /\ m_is_waiting_for_reply sample_overdue = true
  /\ stdin_events (kernel sample_overdue) = false.
Proof.
  pose proof (tcp_reachable_states (set_is_tcp true Args_default) (os_start 0) sample_overdue
    eq_refl eq_refl eq_refl sample_overdue_reachable) as (_ & H & _).
  split; [reflexivity|]. split; [reflexivity|exact H].
Defined.

Lemma tcp_timer_is_reply_timeout_witness :
  exists k', dispatch Timer sample_overdue = Exit 1 k'
    /\ last (sent k') = Some (MkAddr 0 0,
         lit "ERR FROM c IS waited too long for the server's reply." ++ CRLF).
Proof.
  destruct (tcp_timer_is_reply_timeout (set_is_tcp true Args_default) (os_start 0) sample_overdue
    eq_refl eq_refl eq_refl sample_overdue_reachable eq_refl eq_refl) as (k' & Hd & _ & Hs).
  exists k'. split; [exact Hd|]. rewrite Hs. reflexivity.
Defined.
