(* ===== verification/TcpGrammar.v ===== *)
(** The messages of a server over TCP: their grammar, case-insensitive, and what the client does
    with each, or with anything else. *)
From S2P Require Import Prelude Args Kernel Regex Client ClientSpec TcpClient TcpSpec.

(** * Grammar *)

(** The same text up to the case of ASCII letters. *)
Definition same_word (a b : chars) : Prop := Forall2 (fun x y => char_eq true x y = true) a b.

Inductive server_msg : Type :=
| SReply (ok : bool) (text : chars)
| SMsg (name text : chars)
| SErr (name text : chars)
| SBye (name : chars).

Definition valid_name (name : chars) : Prop :=
  printable_chars name /\ isValidDisplayNameLength (strlen name) = true.
Definition valid_text (text : chars) : Prop :=
  text_chars text /\ isValidMsgContentLength (strlen text) = true.

(** The line of a message, with its CRLF. *)
Inductive server_grammar : chars -> server_msg -> Prop :=
| g_reply kw res sep text (ok : bool) :
    same_word (lit "REPLY ") kw -> same_word (lit (if ok then "OK" else "NOK")) res ->
    same_word (lit " IS ") sep -> valid_text text ->
    server_grammar (kw ++ res ++ sep ++ text ++ CRLF) (SReply ok text)
| g_msg kw name sep text :
    same_word (lit "MSG FROM ") kw -> valid_name name -> same_word (lit " IS ") sep ->
    valid_text text ->
    server_grammar (kw ++ name ++ sep ++ text ++ CRLF) (SMsg name text)
| g_err kw name sep text :
    same_word (lit "ERR FROM ") kw -> valid_name name -> same_word (lit " IS ") sep ->
    valid_text text ->
    server_grammar (kw ++ name ++ sep ++ text ++ CRLF) (SErr name text)
| g_bye kw name :
    same_word (lit "BYE FROM ") kw -> valid_name name ->
    server_grammar (kw ++ name ++ CRLF) (SBye name).

(** When a message is expected. *)
Definition expected (m : server_msg) (c : tcp_client) : Prop :=
  match m with
  | SReply _ _ =>
      m_is_waiting_for_reply c = true
      /\ (m_current_state c = S_AUTH \/ m_current_state c = S_JOIN)
  | SMsg _ _ => m_current_state c = S_OPEN \/ m_current_state c = S_JOIN
  | SErr _ _ | SBye _ => True
  end.

(** What the client does with it, and the result of the handler. *)
Definition react (m : server_msg) (c : tcp_client) : tcp_client * Z :=
  match m with
  | SMsg name text => (on_kernel (write_console (name ++ lit ": " ++ text ++ [LF])) c, 2)
  | SErr name text =>
      (on_kernel (write_console (lit "ERROR FROM " ++ name ++ lit ": " ++ text ++ [LF])) c, 1)
  | SBye _ => (c, 0)
  | SReply ok text =>
      let c1 := on_kernel (timerfd_settime 0) c in
      let c2 := on_kernel (write_console (lit "Action " ++ lit (if ok then "Success" else "Failure")
                  ++ lit ": " ++ text ++ [LF])) c1 in
      let c3 := if (m_current_state c =fsm S_JOIN) || ok then set_m_current_state S_OPEN c2 else c2 in
      (on_kernel (set_stdin_events true) (set_m_is_waiting_for_reply false c3), 2)
  end.

(** The report of an error: one ERR message, and the exception that ends the client. *)
Definition gives_up (c : tcp_client) (o : tcp_client * result stop Z) : Prop :=
  exists text c', o = (c', Err (Thrown text))
    /\ console (kernel c') = console (kernel c)
    /\ sent (kernel c') = sent (kernel c)
         ++ [(m_server_addr (m_args c),
              lit "ERR FROM " ++ m_user_display_name c ++ lit " IS " ++ text ++ CRLF)].

(** * The regular expressions mean the grammar *)

Lemma after_name x : char_eq true 32 x = true -> is_printable x = false.
Proof.
  unfold char_eq, tolower. intros H%Z.eqb_eq. unfold is_printable.
  destruct ((65 <=? x) && (x <=? 90))%bool eqn:E; cbn in H; bool_to_prop; try lia.
  all: apply andb_false_iff; rewrite Z.leb_gt, Z.leb_gt; lia.
Qed.

Lemma after_text x : char_eq true 13 x = true -> is_printable_space_lf x = false /\ is_printable x = false.
Proof.
  unfold char_eq, tolower. intros H%Z.eqb_eq.
  destruct ((65 <=? x) && (x <=? 90))%bool eqn:E; cbn in H; bool_to_prop; try lia; by subst.
Qed.

#[local] Arguments lit !s / : simpl nomatch.

Lemma ok_nok_compatible a b :
  a ∈ [lit "OK"; lit "NOK"] -> b ∈ [lit "OK"; lit "NOK"] -> a = b \/ compatible true a b = false.
Proof. rewrite !elem_of_cons, !elem_of_nil. intros [->|[->|[]]] [->|[->|[]]]; (by left) || (by right). Qed.

Lemma reply_unambiguous : unambiguous true getReplyMsgRegex.
Proof. cbn. repeat split; auto using ok_nok_compatible. intros x Hx. by apply after_text. Qed.

Lemma msg_unambiguous : unambiguous true getMsgMsgRegex.
Proof. cbn. repeat split; auto using after_name. intros x Hx. by apply after_text. Qed.

Lemma err_unambiguous : unambiguous true getErrMsgRegex.
Proof. cbn. repeat split; auto using after_name. intros x Hx. by apply after_text. Qed.

Lemma bye_unambiguous : unambiguous true getByeMsgRegex.
Proof. cbn. repeat split; auto. intros x Hx. by apply after_text. Qed.

#[local] Arguments lit : simpl never.

(** CRLF has no other spelling. *)
Lemma same_word_crlf w : same_word CRLF w <-> w = CRLF.
Proof.
  split; [|intros ->; apply char_eq_self].
  intros H. inversion H as [|? a ? w' Ha H']; subst. inversion H' as [|? b ? w'' Hb H'']; subst.
  inversion H''; subst.
  assert (forall k x, (k = 13 \/ k = 10) -> char_eq true k x = true -> x = k) as Hk.
  { intros k x Hk Hx. unfold char_eq, tolower in Hx. apply Z.eqb_eq in Hx.
    destruct ((65 <=? x) && (x <=? 90))%bool eqn:E; destruct Hk as [->| ->]; cbn in Hx; bool_to_prop; lia. }
  rewrite (Hk 13 a), (Hk 10 b); auto.
Qed.

Lemma matches_crlf s m : matches true (rlit s_END_OF_MESSAGE) s m <-> s = CRLF /\ m = [].
Proof.
  rewrite <- (app_nil_r (rlit s_END_OF_MESSAGE)), matches_rlit. split.
  - intros (w & s' & -> & ->%same_word_crlf & [-> ->]%matches_end). done.
  - intros [-> ->]. exists CRLF, []. split; [done|]. split; [by apply same_word_crlf|constructor].
Qed.

(** A name or a text followed by the rest of the line. *)
Lemma matches_last_text p s m :
  matches true (IPlus p :: rlit s_END_OF_MESSAGE) s m <->
  exists t, s = t ++ CRLF /\ m = [t] /\ t <> [] /\ all_chars p t.
Proof.
  rewrite matches_plus. split.
  - intros (w & s' & m' & -> & -> & ? & ? & [-> ->]%matches_crlf). by eauto.
  - intros (t & -> & -> & ? & ?). exists t, CRLF, []. repeat split; auto. by apply matches_crlf.
Qed.

Lemma named_regex kw r s m :
  r = rlit kw ++ IPlus is_printable :: rlit (lit " IS ") ++ IPlus is_printable_space_lf
      :: rlit s_END_OF_MESSAGE ->
  unambiguous true r ->
  regex_match true r s = Some m <->
  exists w name sep text, s = w ++ name ++ sep ++ text ++ CRLF /\ m = [name; text]
    /\ same_word kw w /\ printable_chars name /\ same_word (lit " IS ") sep /\ text_chars text.
Proof.
  intros -> Hu. rewrite regex_match_iff by done. rewrite matches_rlit. split.
  - intros (w & s1 & -> & Hw & (name & s2 & m1 & -> & -> & ? & ? & H)%matches_plus).
    apply matches_rlit in H as (sep & s3 & -> & Hsep & (text & -> & -> & ? & ?)%matches_last_text).
    exists w, name, sep, text. by repeat split.
  - intros (w & name & sep & text & -> & -> & Hw & [] & Hsep & []).
    exists w, (name ++ sep ++ text ++ CRLF). split; [done|]. split; [done|].
    apply matches_plus. exists name, (sep ++ text ++ CRLF), [text]. repeat split; auto.
    apply matches_rlit. exists sep, (text ++ CRLF). repeat split; auto.
    apply matches_last_text. by exists text.
Qed.

Lemma tcp_reply_regex s m :
  regex_match true getReplyMsgRegex s = Some m <->
  exists w res sep text (ok : bool), s = w ++ res ++ sep ++ text ++ CRLF /\ m = [res; text]
    /\ same_word (lit "REPLY ") w /\ same_word (lit (if ok then "OK" else "NOK")) res
    /\ same_word (lit " IS ") sep /\ text_chars text.
Proof.
  rewrite regex_match_iff by apply reply_unambiguous. unfold getReplyMsgRegex.
  rewrite matches_rlit. split.
  - intros (w & s1 & -> & Hw & (a & res & s2 & m1 & -> & -> & Ha & Hres & H)%matches_alt).
    apply matches_rlit in H as (sep & s3 & -> & Hsep & (text & -> & -> & ? & ?)%matches_last_text).
    rewrite !elem_of_cons, elem_of_nil in Ha.
    destruct Ha as [->|[->|[]]]; [exists w, res, sep, text, true|exists w, res, sep, text, false];
      by repeat split.
  - intros (w & res & sep & text & ok & -> & -> & Hw & Hres & Hsep & []).
    exists w, (res ++ sep ++ text ++ CRLF). split; [done|]. split; [done|].
    apply matches_alt. exists (lit (if ok then "OK" else "NOK")), res, (sep ++ text ++ CRLF), [text].
    repeat split; auto; [rewrite !elem_of_cons; destruct ok; auto|].
    apply matches_rlit. exists sep, (text ++ CRLF). repeat split; auto.
    apply matches_last_text. by exists text.
Qed.

Lemma bye_regex s m :
  regex_match true getByeMsgRegex s = Some m <->
  exists w name, s = w ++ name ++ CRLF /\ m = [name] /\ same_word (lit "BYE FROM ") w
    /\ printable_chars name.
Proof.
  rewrite regex_match_iff by apply bye_unambiguous. unfold getByeMsgRegex. rewrite matches_rlit.
  split.
  - intros (w & s1 & -> & Hw & (name & -> & -> & ? & ?)%matches_last_text).
    exists w, name. by repeat split.
  - intros (w & name & -> & -> & Hw & []). exists w, (name ++ CRLF). repeat split; auto.
    apply matches_last_text. by exists name.
Qed.

(** * The type of a line of the grammar *)

Lemma upper_letter c x : 65 <= c <= 90 -> char_eq true c x = true -> toupper x = c.
Proof.
  unfold char_eq, tolower, toupper. intros Hc H%Z.eqb_eq.
  replace ((65 <=? c) && (c <=? 90))%bool with true in H by (symmetry; apply andb_true_iff; lia).
  destruct ((65 <=? x) && (x <=? 90))%bool eqn:E1; destruct ((97 <=? x) && (x <=? 122))%bool eqn:E2;
    bool_to_prop; lia.
Qed.

Definition is_upper (c : Z) : bool := (65 <=? c) && (c <=? 90).

Lemma upper_word a w : forallb is_upper a = true -> same_word a w -> map toupper w = a.
Proof.
  intros Ha Hw. induction Hw as [|c x a w Hx _ IH]; [done|]. cbn in Ha. unfold is_upper in Ha.
  bool_to_prop. cbn. by rewrite (upper_letter c x), IH.
Qed.

Lemma same_word_app a b w :
  same_word (a ++ b) w -> exists w1 w2, w = w1 ++ w2 /\ same_word a w1 /\ same_word b w2.
Proof. intros (w1 & w2 & ? & ? & ->)%Forall2_app_inv_l. by exists w1, w2. Qed.

(** A line's type depends on the letters of its keyword. *)
Definition type_of_prefix (prefix : chars) : Protocol_msg_type :=
  if starts_with (lit "MSG") prefix then M_MSG
  else if starts_with (lit "ERR") prefix then M_ERR
  else if starts_with (lit "BYE") prefix then M_BYE
  else if starts_with (lit "REPLY") prefix then M_REPLY
  else M_UNKNOWN.

Lemma type_of_keyword a b kw r :
  same_word (a ++ b) kw -> forallb is_upper a = true -> (3 <= length a <= 5)%nat ->
  exists x, getServerMsgType (kw ++ r) = type_of_prefix (a ++ x).
Proof.
  intros (w1 & w2 & -> & Hw & _)%same_word_app Ha Hl. apply upper_word in Hw; [|done].
  assert (length w1 = length a) as E by (by rewrite <- Hw, length_map).
  exists (map toupper (take (5 - length w1) (w2 ++ r))). rewrite <- app_assoc.
  unfold getServerMsgType, strlen. rewrite length_app. solve_test. cbv zeta.
  rewrite take_app, map_app, take_ge, Hw by lia. reflexivity.
Qed.

Lemma type_of_line s m :
  server_grammar s m ->
  getServerMsgType s =
  match m with SReply _ _ => M_REPLY | SMsg _ _ => M_MSG | SErr _ _ => M_ERR | SBye _ => M_BYE end.
Proof.
  intros H. destruct H as [kw res sep text ok Hk|kw name sep text Hk|kw name sep text Hk|kw name Hk].
  - destruct (type_of_keyword (lit "REPLY") (lit " ") kw (res ++ sep ++ text ++ CRLF)) as [x ->];
      [done|done|cbv; lia|reflexivity].
  - destruct (type_of_keyword (lit "MSG") (lit " FROM ") kw (name ++ sep ++ text ++ CRLF)) as [x ->];
      [done|done|cbv; lia|reflexivity].
  - destruct (type_of_keyword (lit "ERR") (lit " FROM ") kw (name ++ sep ++ text ++ CRLF)) as [x ->];
      [done|done|cbv; lia|reflexivity].
  - destruct (type_of_keyword (lit "BYE") (lit " FROM ") kw (name ++ CRLF)) as [x ->];
      [done|done|cbv; lia|reflexivity].
Qed.

(** * What the client does *)

Lemma terminate_gives_up {A} text c :
  send_fails (kernel c) = false ->
  exists c', sendErrMsgAndTerminate (A := A) text c = (c', Err (Thrown text))
    /\ console (kernel c') = console (kernel c)
    /\ sent (kernel c') = sent (kernel c)
         ++ [(m_server_addr (m_args c),
              lit "ERR FROM " ++ m_user_display_name c ++ lit " IS " ++ text ++ CRLF)].
Proof.
  intros Hs. unfold sendErrMsgAndTerminate, tcp_buildErrMsg, tcp_sendMsgToServer, send_to_server,
    send_packet, mbind, M_bind, get, modify, throw.
  cbn. rewrite Hs. cbn. by eexists.
Qed.

(** The outcome of a complete line. *)
Inductive tcp_outcome (line : chars) (c : tcp_client) : tcp_client * result stop Z -> Prop :=
| accepts m :
    server_grammar line m -> expected m c ->
    tcp_outcome line c (fst (react m c), Ok (snd (react m c)))
| rejects o :
    (forall m, server_grammar line m -> ~ expected m c) -> gives_up c o -> tcp_outcome line c o.

Section OUTCOME.

Context (line : chars) (c : tcp_client) (Hs : send_fails (kernel c) = false).

Lemma gives_up_bind {B} text (k : B -> TM Z) :
  gives_up c ((sendErrMsgAndTerminate text ≫= k) c).
Proof using Hs.
  destruct (terminate_gives_up (A := B) text c Hs) as (c' & E & H1 & H2).
  exists text, c'. split; [|done]. by apply bind_err.
Qed.

Lemma gives_up_now text : gives_up c (sendErrMsgAndTerminate text c).
Proof using Hs.
  destruct (terminate_gives_up (A := Z) text c Hs) as (c' & E & H1 & H2). by exists text, c'.
Qed.

(** A line of a type, by the regular expression of the type. *)
Lemma grammar_msg m :
  server_grammar line m -> getServerMsgType line = M_MSG ->
  exists name text, m = SMsg name text /\ regex_match true getMsgMsgRegex line = Some [name; text]
    /\ valid_name name /\ valid_text text.
Proof.
  intros Hg Ht. rewrite (type_of_line _ _ Hg) in Ht.
  destruct Hg as [|kw name sep text Hk Hn Hi Htx| |]; try done.
  exists name, text. split; [done|]. split; [|done].
  apply (named_regex _ _ _ _ eq_refl msg_unambiguous). destruct Hn, Htx.
  by exists kw, name, sep, text.
Qed.

Lemma grammar_err m :
  server_grammar line m -> getServerMsgType line = M_ERR ->
  exists name text, m = SErr name text /\ regex_match true getErrMsgRegex line = Some [name; text]
    /\ valid_name name /\ valid_text text.
Proof.
  intros Hg Ht. rewrite (type_of_line _ _ Hg) in Ht.
  destruct Hg as [| |kw name sep text Hk Hn Hi Htx|]; try done.
  exists name, text. split; [done|]. split; [|done].
  apply (named_regex _ _ _ _ eq_refl err_unambiguous). destruct Hn, Htx.
  by exists kw, name, sep, text.
Qed.

Lemma grammar_bye m :
  server_grammar line m -> getServerMsgType line = M_BYE ->
  exists name, m = SBye name /\ regex_match true getByeMsgRegex line = Some [name]
    /\ valid_name name.
Proof.
  intros Hg Ht. rewrite (type_of_line _ _ Hg) in Ht.
  destruct Hg as [| | |kw name Hk Hn]; try done.
  exists name. split; [done|]. split; [|done]. apply bye_regex. destruct Hn. by exists kw, name.
Qed.

Lemma grammar_reply m :
  server_grammar line m -> getServerMsgType line = M_REPLY ->
  exists (ok : bool) res text, m = SReply ok text /\ regex_match true getReplyMsgRegex line = Some [res; text]
    /\ same_word (lit (if ok then "OK" else "NOK")) res /\ valid_text text.
Proof.
  intros Hg Ht. rewrite (type_of_line _ _ Hg) in Ht.
  destruct Hg as [kw res sep text ok Hk Hr Hi Htx| | |]; try done.
  exists ok, res, text. split; [done|]. split; [|done]. apply tcp_reply_regex. destruct Htx.
  by exists kw, res, sep, text, ok.
Qed.

Lemma msg_outcome :
  getServerMsgType line = M_MSG -> m_current_state c = S_OPEN \/ m_current_state c = S_JOIN ->
  tcp_outcome line c ((tcp_processServerMsgMsg line ≫= fun _ => mret 2) c).
Proof using Hs.
  intros Ht Hst. unfold tcp_processServerMsgMsg.
  destruct (regex_match true getMsgMsgRegex line) as [m|] eqn:E.
  - destruct (_ && _)%bool eqn:El.
    + apply (named_regex _ _ _ _ eq_refl msg_unambiguous) in E
        as (kw & name & sep & text & -> & -> & ? & ? & ? & ?). apply andb_true_iff in El as [? ?].
      apply (accepts _ _ (SMsg name text)); [by apply g_msg|done].
    + apply rejects; [|by apply gives_up_bind]. intros m' Hg _.
      apply grammar_msg in Hg as (name & text & -> & E' & [_ H1] & [_ H2]); [|done].
      rewrite E in E'. injection E' as ->. cbn [nth] in El. by rewrite H1, H2 in El.
  - apply rejects; [|by apply gives_up_bind]. intros m' Hg _.
    apply grammar_msg in Hg as (name & text & -> & E' & _); [|done]. congruence.
Qed.

Lemma err_outcome :
  getServerMsgType line = M_ERR ->
  tcp_outcome line c ((tcp_processServerErrMsg line ≫= fun _ => mret 1) c).
Proof using Hs.
  intros Ht. unfold tcp_processServerErrMsg.
  destruct (regex_match true getErrMsgRegex line) as [m|] eqn:E.
  - destruct (_ && _)%bool eqn:El.
    + apply (named_regex _ _ _ _ eq_refl err_unambiguous) in E
        as (kw & name & sep & text & -> & -> & ? & ? & ? & ?). apply andb_true_iff in El as [? ?].
      apply (accepts _ _ (SErr name text)); [by apply g_err|done].
    + apply rejects; [|by apply gives_up_bind]. intros m' Hg _.
      apply grammar_err in Hg as (name & text & -> & E' & [_ H1] & [_ H2]); [|done].
      rewrite E in E'. injection E' as ->. cbn [nth] in El. by rewrite H1, H2 in El.
  - apply rejects; [|by apply gives_up_bind]. intros m' Hg _.
    apply grammar_err in Hg as (name & text & -> & E' & _); [|done]. congruence.
Qed.

Lemma bye_outcome :
  getServerMsgType line = M_BYE ->
  tcp_outcome line c ((tcp_processServerByeMsg line ≫= fun _ => mret 0) c).
Proof using Hs.
  intros Ht. unfold tcp_processServerByeMsg.
  destruct (regex_match true getByeMsgRegex line) as [m|] eqn:E.
  - destruct (isValidDisplayNameLength _) eqn:El.
    + apply bye_regex in E as (kw & name & -> & -> & ? & ?).
      apply (accepts _ _ (SBye name)); [by apply g_bye|done].
    + apply rejects; [|by apply gives_up_bind]. intros m' Hg _.
      apply grammar_bye in Hg as (name & -> & E' & [_ H1]); [|done].
      rewrite E in E'. injection E' as ->. cbn [nth] in El. by rewrite H1 in El.
  - apply rejects; [|by apply gives_up_bind]. intros m' Hg _.
    apply grammar_bye in Hg as (name & -> & E' & _); [|done]. congruence.
Qed.

Lemma equal_icase_word a b : same_word a b -> equal_icase b a = true.
Proof.
  intros H. unfold equal_icase. apply chars_eqb_true.
  induction H as [|x y a b Hx _ IH]; [done|]. cbn. f_equal; [|done]. by apply Z.eqb_eq in Hx.
Qed.

Lemma not_equal_icase a b : length a <> length b -> equal_icase a b = false.
Proof.
  intros H. unfold equal_icase. apply chars_eqb_false. intros E%(f_equal length).
  by rewrite !length_map in E.
Qed.

Lemma reply_is_positive (ok : bool) res :
  same_word (lit (if ok then "OK" else "NOK")) res -> equal_icase res (lit "OK") = ok.
Proof.
  intros H. destruct ok; [by apply equal_icase_word|].
  apply not_equal_icase. apply Forall2_length in H. rewrite <- H. done.
Qed.

Lemma reply_outcome :
  getServerMsgType line = M_REPLY -> m_current_state c = S_AUTH \/ m_current_state c = S_JOIN ->
  tcp_outcome line c ((tcp_processServerReplyMsg line ≫= fun _ => mret 2) c).
Proof using Hs.
  intros Ht Hst. unfold tcp_processServerReplyMsg. rewrite bind_assoc, bind_get.
  assert (negb (m_current_state c =fsm S_AUTH) && negb (m_current_state c =fsm S_JOIN) = false)%bool
    as -> by (destruct Hst as [-> | ->]; done).
  rewrite bind_assoc. destruct (m_is_waiting_for_reply c) eqn:Hw; cbn [when].
  2:{ rewrite bind_ret. apply rejects; [|by apply gives_up_bind]. intros m' Hg He.
      apply grammar_reply in Hg as (ok & res & text & -> & _); [|done].
      destruct He as [He _]. congruence. }
  destruct (regex_match true getReplyMsgRegex line) as [m|] eqn:E.
  - destruct (isValidMsgContentLength _) eqn:El.
    + apply tcp_reply_regex in E as (kw & res & sep & text & ok & -> & -> & ? & Hres & ? & ?).
      cbn [nth] in *. rewrite (reply_is_positive _ _ Hres).
      pose proof (accepts _ c _ (g_reply kw res sep text ok H Hres H0 (conj H1 El)) (conj Hw Hst))
        as Ha.
      unfold stopTimer, outputIncomingReply, enableStdinEvents, cout, mbind, M_bind, modify, when.
      cbn [react fst snd] in Ha. by destruct ((m_current_state c =fsm S_JOIN) || ok)%bool.
    + apply rejects; [|by apply gives_up_bind]. intros m' Hg _.
      apply grammar_reply in Hg as (ok & res & text & -> & E' & _ & _ & H1); [|done].
      rewrite E in E'. injection E' as ->. cbn [nth] in El. by rewrite H1 in El.
  - apply rejects; [|by apply gives_up_bind]. intros m' Hg _.
    apply grammar_reply in Hg as (ok & res & text & -> & E' & _); [|done]. congruence.
Qed.

Lemma rejects_type t :
  getServerMsgType line = t ->
  (forall m, expected m c ->
     match m with SReply _ _ => M_REPLY | SMsg _ _ => M_MSG | SErr _ _ => M_ERR | SBye _ => M_BYE end
     <> t) ->
  forall o, gives_up c o -> tcp_outcome line c o.
Proof.
  intros Ht Hm o Ho. apply rejects; [|done]. intros m Hg He. apply (Hm m He).
  by rewrite <- (type_of_line _ _ Hg).
Qed.

Lemma message_outcome : tcp_outcome line c (tcp_processMessageOfType (getServerMsgType line) line c).
Proof using Hs.
  unfold tcp_processMessageOfType. rewrite bind_get.
  destruct (getServerMsgType line) eqn:Ht;
    try (by apply bye_outcome); try (by apply err_outcome);
    try (eapply rejects_type; [exact Ht|by intros []|by apply gives_up_now]);
    destruct (m_current_state c) eqn:Hst;
    try (apply reply_outcome; [done|]; rewrite Hst; by auto);
    try (apply msg_outcome; [done|]; rewrite Hst; by auto);
    try (eapply rejects_type; [exact Ht| |by apply gives_up_bind];
         intros []; cbn; rewrite ?Hst; intuition congruence).
Qed.

End OUTCOME.

(** C5. What a TCP client does with a complete line from the server, the first of its buffer. If the
    line is a REPLY, MSG, ERR or BYE of the grammar, with its keywords in any case, and the
    client's state expects it, the client reacts as the protocol says: it prints the message, a
    REPLY ends the waiting, ERR and BYE end the client with failure and success. On every other
    line it prints nothing, sends exactly one ERR with the reason and ends with that error. *)
Theorem tcp_server_line w rest c :
  send_fails (kernel c) = false -> ext c = (w ++ CRLF) ++ rest ->
  tcp_outcome (w ++ CRLF) c (tcp_processMessageFromServer (w ++ CRLF) c).
Proof.
  intros Hs Hb. unfold tcp_processMessageFromServer. rewrite bind_get.
  unfold m_msg_from_server. rewrite Hb, <- app_assoc, getServerMsgType_first.
  by apply message_outcome.
Qed.

Lemma tcp_server_line_witness :
  let c := set_ext (lit "mSg fRoM a Is b" ++ CRLF) (set_m_current_state S_OPEN sample) in
  tcp_outcome (lit "mSg fRoM a Is b" ++ CRLF) c
    (tcp_processMessageFromServer (lit "mSg fRoM a Is b" ++ CRLF) c)
  /\ tcp_processMessageFromServer (lit "mSg fRoM a Is b" ++ CRLF) c
     = (on_kernel (write_console (lit "a: b" ++ [LF])) c, Ok 2).
Proof.
  split; [|reflexivity].
  apply (tcp_server_line (lit "mSg fRoM a Is b") []); reflexivity.
Defined.
