(* ===== verification/Tester.v ===== *)
(** The test harness's handle on one executable: class [ExecutableTester] of
    [malashchuk-hobza-tests/testo.py], over a simulated machine.

    The state holds the object's attributes and the machine around it: the clock, the process,
    the datagrams that wait in the bound sockets.  Time is in milliseconds and moves only where
    the harness sleeps or blocks, in quanta of [QUANTUM]; in each quantum the process runs and
    what it sent is delivered.  The harness's and the process's sockets are on the loopback
    interface, where nothing is lost or reordered.  A process killed by SIGTERM ends at once. *)
From S2P Require Import Prelude PyRuntime UDPTranslator UDPMessages Args Executable.

(** * State *)

Inductive protocol : Type := UDP | TCP.

#[export] Instance protocol_eq_dec : EqDecision protocol.
Proof. solve_decision. Defined.

(** The accepted connection: how many bytes of the process's stream were received, and whether
    something was sent after the process had exited. *)
Record connection : Type := MkConn { received : nat; sent_late : bool }.

(** The standard input of the process, as [subprocess] wraps it. *)
Inductive stdin_state : Type := Open | Unflushed | Closed.

Record tester (X : Type) : Type := MkTester {
  (* attributes of the object *)
  process : option X;
  stdout_queue : list chars;
  stderr_queue : list chars;
  return_code : option Z;
  server_socket : option (protocol * Z);
  connection_socket : option connection;
  client_address : option sockaddr_in;
  send_confirm : bool;
  history : chars;
  (* the machine *)
  now : Z;
  stdin : stdin_state;
  stdout_pulled : nat;
  stderr_pulled : nat;
  inboxes : gmap Z (list (sockaddr_in * chars));
  routed : nat;
  client_port : Z
}.
Arguments MkTester {X}.
Arguments process {X} _.
Arguments stdout_queue {X} _.
Arguments stderr_queue {X} _.
Arguments return_code {X} _.
Arguments server_socket {X} _.
Arguments connection_socket {X} _.
Arguments client_address {X} _.
Arguments send_confirm {X} _.
Arguments history {X} _.
Arguments now {X} _.
Arguments stdin {X} _.
Arguments stdout_pulled {X} _.
Arguments stderr_pulled {X} _.
Arguments inboxes {X} _.
Arguments routed {X} _.
Arguments client_port {X} _.

Section SETTERS.

Context {X : Type}.

Definition set_process (v : option X) (s : tester X) : tester X :=
  MkTester v (stdout_queue s) (stderr_queue s) (return_code s) (server_socket s)
    (connection_socket s) (client_address s) (send_confirm s) (history s) (now s) (stdin s)
    (stdout_pulled s) (stderr_pulled s) (inboxes s) (routed s) (client_port s).
Definition set_stdout_queue (v : list chars) (s : tester X) : tester X :=
  MkTester (process s) v (stderr_queue s) (return_code s) (server_socket s)
    (connection_socket s) (client_address s) (send_confirm s) (history s) (now s) (stdin s)
    (stdout_pulled s) (stderr_pulled s) (inboxes s) (routed s) (client_port s).
Definition set_stderr_queue (v : list chars) (s : tester X) : tester X :=
  MkTester (process s) (stdout_queue s) v (return_code s) (server_socket s)
    (connection_socket s) (client_address s) (send_confirm s) (history s) (now s) (stdin s)
    (stdout_pulled s) (stderr_pulled s) (inboxes s) (routed s) (client_port s).
Definition set_return_code (v : option Z) (s : tester X) : tester X :=
  MkTester (process s) (stdout_queue s) (stderr_queue s) v (server_socket s)
    (connection_socket s) (client_address s) (send_confirm s) (history s) (now s) (stdin s)
    (stdout_pulled s) (stderr_pulled s) (inboxes s) (routed s) (client_port s).
Definition set_server_socket (v : option (protocol * Z)) (s : tester X) : tester X :=
  MkTester (process s) (stdout_queue s) (stderr_queue s) (return_code s) v
    (connection_socket s) (client_address s) (send_confirm s) (history s) (now s) (stdin s)
    (stdout_pulled s) (stderr_pulled s) (inboxes s) (routed s) (client_port s).
Definition set_connection_socket (v : option connection) (s : tester X) : tester X :=
  MkTester (process s) (stdout_queue s) (stderr_queue s) (return_code s) (server_socket s) v
    (client_address s) (send_confirm s) (history s) (now s) (stdin s) (stdout_pulled s)
    (stderr_pulled s) (inboxes s) (routed s) (client_port s).
Definition set_client_address (v : option sockaddr_in) (s : tester X) : tester X :=
  MkTester (process s) (stdout_queue s) (stderr_queue s) (return_code s) (server_socket s)
    (connection_socket s) v (send_confirm s) (history s) (now s) (stdin s) (stdout_pulled s)
    (stderr_pulled s) (inboxes s) (routed s) (client_port s).
Definition set_send_confirm (v : bool) (s : tester X) : tester X :=
  MkTester (process s) (stdout_queue s) (stderr_queue s) (return_code s) (server_socket s)
    (connection_socket s) (client_address s) v (history s) (now s) (stdin s) (stdout_pulled
    s) (stderr_pulled s) (inboxes s) (routed s) (client_port s).
Definition set_history (v : chars) (s : tester X) : tester X :=
  MkTester (process s) (stdout_queue s) (stderr_queue s) (return_code s) (server_socket s)
    (connection_socket s) (client_address s) (send_confirm s) v (now s) (stdin s)
    (stdout_pulled s) (stderr_pulled s) (inboxes s) (routed s) (client_port s).
Definition set_now (v : Z) (s : tester X) : tester X :=
  MkTester (process s) (stdout_queue s) (stderr_queue s) (return_code s) (server_socket s)
    (connection_socket s) (client_address s) (send_confirm s) (history s) v (stdin s)
    (stdout_pulled s) (stderr_pulled s) (inboxes s) (routed s) (client_port s).
Definition set_stdin (v : stdin_state) (s : tester X) : tester X :=
  MkTester (process s) (stdout_queue s) (stderr_queue s) (return_code s) (server_socket s)
    (connection_socket s) (client_address s) (send_confirm s) (history s) (now s) v
    (stdout_pulled s) (stderr_pulled s) (inboxes s) (routed s) (client_port s).
Definition set_stdout_pulled (v : nat) (s : tester X) : tester X :=
  MkTester (process s) (stdout_queue s) (stderr_queue s) (return_code s) (server_socket s)
    (connection_socket s) (client_address s) (send_confirm s) (history s) (now s) (stdin s)
    v (stderr_pulled s) (inboxes s) (routed s) (client_port s).
Definition set_stderr_pulled (v : nat) (s : tester X) : tester X :=
  MkTester (process s) (stdout_queue s) (stderr_queue s) (return_code s) (server_socket s)
    (connection_socket s) (client_address s) (send_confirm s) (history s) (now s) (stdin s)
    (stdout_pulled s) v (inboxes s) (routed s) (client_port s).
Definition set_inboxes (v : gmap Z (list (sockaddr_in * chars))) (s : tester X) : tester X :=
  MkTester (process s) (stdout_queue s) (stderr_queue s) (return_code s) (server_socket s)
    (connection_socket s) (client_address s) (send_confirm s) (history s) (now s) (stdin s)
    (stdout_pulled s) (stderr_pulled s) v (routed s) (client_port s).
Definition set_routed (v : nat) (s : tester X) : tester X :=
  MkTester (process s) (stdout_queue s) (stderr_queue s) (return_code s) (server_socket s)
    (connection_socket s) (client_address s) (send_confirm s) (history s) (now s) (stdin s)
    (stdout_pulled s) (stderr_pulled s) (inboxes s) v (client_port s).
Definition set_client_port (v : Z) (s : tester X) : tester X :=
  MkTester (process s) (stdout_queue s) (stderr_queue s) (return_code s) (server_socket s)
    (connection_socket s) (client_address s) (send_confirm s) (history s) (now s) (stdin s)
    (stdout_pulled s) (stderr_pulled s) (inboxes s) (routed s) v.

End SETTERS.

(** How an operation ends without a value: a Python exception, or never. *)
Inductive halt : Type :=
| Raised (e : py_exn)
| Hang.

#[export] Instance halt_eq_dec : EqDecision halt.
Proof. solve_decision. Defined.

(** A value of [receive_message] or of [translateMessage]. *)
Inductive pyval : Type :=
| VNone
| VStr (s : chars)
| VBytes (b : chars).

#[export] Instance pyval_eq_dec : EqDecision pyval.
Proof. solve_decision. Defined.

(** [a == b] on values, and [a == "..."], [a == b"..."]. *)
Definition eq_str (v : pyval) (s : chars) : bool := bool_decide (v = VStr s).
Definition eq_bytes (v : pyval) (b : chars) : bool := bool_decide (v = VBytes b).
Definition eq_val (v w : pyval) : bool := bool_decide (v = w).

Definition LOCALHOST : Z := 2130706433.
Definition QUANTUM : Z := 10.
(** A call that blocks without a timeout and is not answered for this many quanta hangs. *)
Definition PATIENCE : nat := 1000.

Abbreviation H X := (M (tester X) halt).

Section TESTER.

Context {X : Type} `{Executable X}.

Definition raise {A} (e : py_exn) : H X A := throw (Raised e).
Definition of_py {A} (r : py A) : H X A :=
  match r with Ok a => mret a | Err e => raise e end.

(** * The machine *)

Definition client_addr (s : tester X) : sockaddr_in := MkAddr LOCALHOST (client_port s).

Definition deliver (from : sockaddr_in) (d : sockaddr_in * chars)
    (boxes : gmap Z (list (sockaddr_in * chars))) : gmap Z (list (sockaddr_in * chars)) :=
  let (to, data) := d in
  match boxes !! sin_port to with
  | Some box => if sin_addr to =? LOCALHOST then <[sin_port to := box ++ [(from, data)]]> boxes
                else boxes
  | None => boxes
  end.

(** The datagrams the process has sent since the last time go to the sockets bound to their
    ports; the others are lost. *)
Definition route (s : tester X) : tester X :=
  match process s with
  | None => s
  | Some p =>
      let fresh := drop (routed s) (datagrams p) in
      set_routed (routed s + length fresh)
        (set_inboxes (fold_left (fun b d => deliver (client_addr s) d b) fresh (inboxes s)) s)
  end.

(** A connection attempt is answered; [accept_connection] stores the connection. *)
Definition listening (to : sockaddr_in) (s : tester X) : bool :=
  bool_decide (server_socket s = Some (TCP, sin_port to)) && (sin_addr to =? LOCALHOST).

Definition accept_connection (s : tester X) : tester X :=
  match process s with
  | None => s
  | Some p =>
      match connecting p with
      | None => s
      | Some to =>
          let ok := listening to s in
          let s := set_process (Some (arrive (Connect_result ok) p)) s in
          if ok && bool_decide (connection_socket s = None)
          then set_connection_socket (Some (MkConn 0 false)) s else s
      end
  end.

Definition tick (s : tester X) : tester X :=
  let t := now s + QUANTUM in
  let s := set_now t s in
  match process s with
  | None => s
  | Some p => accept_connection (route (set_process (Some (elapse t p)) s))
  end.

Fixpoint ticks (n : nat) (s : tester X) : tester X :=
  match n with O => s | S n' => ticks n' (tick s) end.

Definition quanta (ms : Z) : nat := Z.to_nat (ms / QUANTUM).

(** [time.sleep] *)
Definition sleep (ms : Z) : H X unit := modify (ticks (quanta ms)).

(** The reader threads: the new lines of the process's output go to the queues. *)
Definition alive (p : X) : bool := match exited p with None => true | Some _ => false end.

Definition read_stdout (eof : bool) (s : tester X) : tester X :=
  match process s with
  | None => s
  | Some p =>
      let ls := text_lines eof (out_bytes p) in
      set_stdout_pulled (Nat.max (stdout_pulled s) (length ls))
        (set_stdout_queue (stdout_queue s ++ drop (stdout_pulled s) ls) s)
  end.

Definition read_stderr (eof : bool) (s : tester X) : tester X :=
  match process s with
  | None => s
  | Some p =>
      let ls := text_lines eof (err_bytes p) in
      set_stderr_pulled (Nat.max (stderr_pulled s) (length ls))
        (set_stderr_queue (stderr_queue s ++ drop (stderr_pulled s) ls) s)
  end.

Definition ended (s : tester X) : bool :=
  match process s with Some p => negb (alive p) | None => true end.

(** * Methods of [ExecutableTester] *)

Definition tester_init (t : Z) : tester X :=
  MkTester None [] [] None None None None true [] t Closed 0 0 ∅ 0 50000.

(** A socket that is dropped is closed: the datagrams in it are gone. *)
Definition close_server_socket (s : tester X) : tester X :=
  match server_socket s with
  | Some (UDP, port) => set_inboxes (delete port (inboxes s)) s
  | _ => s
  end.

Definition bind_udp (port : Z) : H X unit :=
  s ← get;
  match inboxes s !! port with
  | Some _ => raise OSError
  | None => modify (fun s => set_inboxes (<[port := []]> (inboxes s)) s)
  end.

Definition start_server (proto : chars) (port : Z) : H X unit :=
  if py_lower proto =s? lit "tcp" then
    _ ← modify close_server_socket;
    modify (set_server_socket (Some (TCP, port)))
  else if py_lower proto =s? lit "udp" then
    _ ← modify close_server_socket;
    _ ← modify (set_server_socket None);
    _ ← bind_udp port;
    modify (set_server_socket (Some (UDP, port)))
  else mret tt.

Definition stop_server : H X unit := modify close_server_socket.

Definition bytes_of (v : pyval) : H X chars :=
  match v with VBytes b => mret b | _ => raise TypeError end.

(** [connection_socket.sendall(message.encode())] *)
Definition send_stream (c : connection) (message : pyval) : H X unit :=
  match message with
  | VStr text =>
      data ← of_py (py_encode text);
      s ← get;
      match process s with
      | None => raise BrokenPipeError
      | Some p =>
          if alive p then modify (set_process (Some (arrive (Segment data) p)))
          else if unread p then raise OSError
          else if sent_late c then raise BrokenPipeError
          else modify (set_connection_socket (Some (MkConn (received c) true)))
      end
  | _ => raise AttributeError
  end.

(** [server_socket.sendto(message, address)] *)
Definition send_datagram (port : Z) (message : pyval) (address : sockaddr_in) : H X unit :=
  data ← bytes_of message;
  s ← get;
  match process s with
  | Some p =>
      if bool_decide (address = client_addr s)
      then modify (set_process (Some (arrive (Datagram (MkAddr LOCALHOST port) data) p)))
      else mret tt
  | None => mret tt
  end.

Definition send_message (message : pyval) : H X unit :=
  s ← get;
  match connection_socket s with
  | Some c => send_stream c message
  | None =>
      match server_socket s, client_address s with
      | Some (UDP, port), Some address => send_datagram port message address
      | Some (TCP, _), Some _ => raise OSError
      | _, _ => mret tt
      end
  end.

Definition getMessageId_of (v : pyval) : H X pyval :=
  match v with
  | VNone => raise TypeError
  | VStr s => mret (VStr (py_slice s 1 3))
  | VBytes b => mret (VBytes (getMessageId b))
  end.

Definition translate (v : pyval) : H X pyval :=
  match v with
  | VNone => raise TypeError
  | VStr [] => raise IndexError
  | VStr _ => mret (VStr (lit "Unknown message type"))
  | VBytes b =>
      r ← of_py (translateMessage b);
      mret (match r with Some text => VStr text | None => VNone end)
  end.

Definition tester_confirm (message : pyval) : H X unit :=
  id ← getMessageId_of message;
  id_bytes ← bytes_of id;
  send_message (VBytes ([NUL] ++ id_bytes)).

(** [connection_socket.recv(1024)]: blocks until there are bytes or the process has exited.  The
    timeout of [receive_message] is not set on this socket. *)
Fixpoint recv (fuel : nat) : H X chars :=
  s ← get;
  match connection_socket s, process s with
  | Some c, Some p =>
      match drop (received c) (stream p) with
      | [] =>
          if alive p then
            match fuel with
            | O => throw Hang
            | S fuel' => _ ← modify tick; recv fuel'
            end
          else if unread p then raise OSError else mret []
      | pending =>
          let data := take 1024 pending in
          _ ← modify (set_connection_socket (Some (MkConn (received c + length data) (sent_late c))));
          mret data
      end
  | _, _ => mret []
  end.

(** [recvfrom(1024)] on a bound UDP socket, with a timeout of [fuel] quanta: none is
    [socket.timeout]. *)
Fixpoint recvfrom (fuel : nat) (port : Z) : H X (option (sockaddr_in * chars)) :=
  s ← get;
  match inboxes s !! port with
  | Some ((from, data) :: rest) =>
      _ ← modify (set_inboxes (<[port := rest]> (inboxes s)));
      mret (Some (from, take 1024 data))
  | _ =>
      match fuel with
      | O => mret None
      | S fuel' => _ ← modify tick; recvfrom fuel' port
      end
  end.

(** A timeout in milliseconds; the default of the source is 5 seconds. *)
Definition receive_message_within (timeout : Z) : H X pyval :=
  s ← get;
  match server_socket s with
  | None => mret VNone
  | Some (proto, port) =>
      match connection_socket s with
      | Some _ =>
          data ← recv PATIENCE;
          text ← of_py (py_decode data);
          mret (VStr text)
      | None =>
          match proto with
          | TCP => raise OSError
          | UDP =>
              received ← recvfrom (quanta timeout) port;
              match received with
              | None => raise (TimeoutError (lit "Socket timed out."))
              | Some (address, message) =>
                  _ ← modify (set_client_address (Some address));
                  first ← of_py (py_index message 0);
                  s ← get;
                  _ ← when (negb (first =? 0) && send_confirm s)
                        (tester_confirm (VBytes message));
                  mret (VBytes message)
              end
          end
      end
  end.

Definition receive_message : H X pyval := receive_message_within 5000.

Definition kill : H X unit :=
  modify (fun s =>
    match process s with
    | None => s
    | Some p =>
        set_return_code (Some (match exited p with Some code => code | None => -15 end))
          (set_process None (read_stderr true (read_stdout true s)))
    end).

Definition teardown : H X unit :=
  _ ← kill;
  _ ← stop_server;
  _ ← modify (set_server_socket None);
  modify (set_connection_socket None).

Definition setup (args : list chars) : H X unit :=
  s ← get;
  _ ← when (bool_decide (is_Some (process s))) teardown;
  _ ← modify (set_stdout_queue []);
  _ ← modify (set_stderr_queue []);
  _ ← modify (fun s => set_process (Some (exec args (now s)))
        (set_stdin Open (set_stdout_pulled 0 (set_stderr_pulled 0 (set_routed 0
          (set_client_port (client_port s + 1) s))))));
  _ ← modify (set_return_code None);
  sleep 200.

Definition execute (input_data : chars) : H X unit :=
  _ ← modify (fun s => set_history (history s ++ lit "stdin:" ++ input_data ++ [LF]) s);
  s ← get;
  match process s with
  | None => raise AttributeError
  | Some p =>
      match stdin s with
      | Closed => raise ValueError
      | _ =>
          text ← of_py (py_encode (input_data ++ [LF]));
          if alive p then
            _ ← modify (set_process (Some (arrive (Input text) p)));
            sleep 200
          else _ ← modify (set_stdin Unflushed); raise BrokenPipeError
      end
  end.

(** [history] gets the lines with the separator between them. *)
Definition get_stdout : H X chars :=
  _ ← modify (fun s => read_stdout (ended s) s);
  s ← get;
  let output := stdout_queue s in
  _ ← modify (set_stdout_queue []);
  _ ← modify (set_history (history s ++ py_join (lit "stdout:") output));
  mret (py_join [] output).

Definition get_stderr : H X chars :=
  _ ← modify (fun s => read_stderr (ended s) s);
  s ← get;
  _ ← modify (set_stderr_queue []);
  mret (py_join [] (stderr_queue s)).

Definition get_return_code : H X (option Z) := gets return_code.

(** [process.poll()] *)
Definition poll : H X (option Z) :=
  s ← get;
  match process s with None => raise AttributeError | Some p => mret (exited p) end.

(** [send_signal(signal.SIGINT)]: nothing is sent to a process that was waited for. *)
Definition send_sigint : H X unit :=
  s ← get;
  match process s with
  | None => raise AttributeError
  | Some p =>
      if alive p then modify (set_process (Some (arrive Interrupt p))) else mret tt
  end.

(** [process.stdin.close()]: what could not be flushed before fails again. *)
Definition send_eof : H X unit :=
  s ← get;
  match process s with
  | None => raise AttributeError
  | Some p =>
      match stdin s with
      | Closed => mret tt
      | Unflushed => _ ← modify (set_stdin Closed); raise BrokenPipeError
      | Open => _ ← modify (set_stdin Closed);
                modify (set_process (Some (arrive Input_closed p)))
      end
  end.

(** The headings and texts [dump] prints. *)
Definition dump : H X (list (chars * chars)) :=
  stdout_now ← get_stdout;
  stdout ← get_stdout;
  stderr ← get_stderr;
  s ← get;
  mret [(lit "stdout now", stdout_now); (lit "stdout", stdout); (lit "stderr", stderr);
        (lit "History", history s)].

Definition setClientAddress (address : sockaddr_in) : H X unit :=
  modify (set_client_address (Some address)).

(** * Statements of the test cases *)

(** [assert condition, message] *)
Definition py_assert (condition : bool) (message : chars) : H X unit :=
  if condition then mret tt else raise (AssertionError message).

(** [try: body except TimeoutError: handler] *)
Definition except_timeout {A} (body handler : H X A) : H X A := fun s =>
  match body s with
  | (s', Err (Raised (TimeoutError _))) => handler s'
  | r => r
  end.

(** [any([text in line for line in stdout.split("\n")])], and with [==]. *)
Definition any_line_has (text stdout : chars) : bool := existsb (py_in text) (py_split_lf stdout).
Definition any_line_is (text stdout : chars) : bool :=
  existsb (fun line => text =s? line) (py_split_lf stdout).

(** [text in value] *)
Definition in_value (text : chars) (v : pyval) : H X bool :=
  match v with VStr s => mret (py_in text s) | _ => raise TypeError end.

(** The builders of [UDPMessages] on the values of the tests. *)
Definition send_built (r : py chars) : H X unit := b ← of_py r; send_message (VBytes b).
Definition send_reply (id : Z) (result : bool) (ref : pyval) (text : chars) : H X unit :=
  ref_bytes ← bytes_of ref;
  send_built (reply id (if result then 1 else 0) ref_bytes text).

End TESTER.
