(* ===== verification/TestCasesUdp.v ===== *)
(** The test cases of testo.py on command-line arguments and on UDP, parts 1 and 2 of the file,
    each a program on the harness's state.  [auth_and_reply] is their common helper. *)
From S2P Require Import Prelude PyRuntime UDPMessages Args Executable Tester.

Section TESTS.

Context {X : Type} `{Executable X}.

(** Test that the program exits with a non-zero exit code when no arguments are provided *)
Definition no_args : H X unit :=
  _ ← setup [];
  code1 ← get_return_code;
  py_assert (bool_decide (code1 <> Some 0)) (lit "Expected non-zero exit code.").

(** Test that the program exits with a non-zero exit code when the -t argument is not provided. *)
Definition no_type_arg : H X unit :=
  _ ← setup [lit "-s"; lit "localhost"];
  code1 ← get_return_code;
  py_assert (bool_decide (code1 <> Some 0)) (lit "Expected non-zero exit code.").

(** Test that the program exits with a non-zero exit code when the -s argument is not provided. *)
Definition no_hostname : H X unit :=
  _ ← setup [lit "-t"; lit "udp"];
  code1 ← get_return_code;
  py_assert (bool_decide (code1 <> Some 0)) (lit "Expected non-zero exit code.").

(** Test that the program exits with a non-zero exit code when the -s argument is not provided. *)
Definition all_args : H X unit :=
  _ ← setup [lit "-t"; lit "udp"; lit "-s"; lit "localhost"; lit "-p"; lit "4567"];
  _ ← send_eof;
  code1 ← get_return_code;
  py_assert (bool_decide (code1 = None)) (lit "Expected zero exit code.").

(** Helper function to test the AUTH command followed by a Action successful reply. *)
Definition auth_and_reply : H X unit :=
  _ ← start_server (lit "udp") 4567;
  _ ← setup [lit "-t"; lit "udp"; lit "-s"; lit "localhost"; lit "-p"; lit "4567"];
  _ ← execute (lit "/auth a b c");
  message ← receive_message;
  tMessage ← translate message;
  _ ← py_assert (eq_str tMessage (lit "AUTH IS a AS c USING b" ++ CRLF))
    (lit "Incoming message does not match expected AUTH message.");
  ref1 ← getMessageId_of message;
  _ ← send_reply 0 true ref1 (lit "jojo");
  _ ← sleep 200;
  stdout ← get_stdout;
  _ ← py_assert (any_line_has (lit "Action Success: jojo") stdout)
    (lit "Output does not match expected 'Action Success: jojo' output.");
  message ← receive_message;
  py_assert (eq_bytes message [0; 0; 0])
    (lit "Incoming message does not match expected CONFIRM message.").

(** Test that the /help command shows some output. *)
Definition udp_help_command : H X unit :=
  _ ← auth_and_reply;
  _ ← execute (lit "/help");
  _ ← sleep 200;
  stdout ← get_stdout;
  py_assert (0 <? Z.of_nat (length (py_strip stdout)))
    (lit "Expected some output for /help command.").

(** Test that the program does not accept any message commands before the user is authenticated.
  *)
Definition udp_hello : H X unit :=
  _ ← setup [lit "-t"; lit "udp"; lit "-s"; lit "localhost"; lit "-p"; lit "4567"];
  _ ← execute (lit "Hello");
  stdout ← get_stdout;
  py_assert (py_in (lit "ERROR: ") stdout) (lit "Output does not match expected output.").

(** Test that the program does not accept any join commands before the user is authenticated. *)
Definition udp_not_auth : H X unit :=
  _ ← start_server (lit "udp") 4567;
  _ ← setup [lit "-t"; lit "udp"; lit "-s"; lit "localhost"; lit "-p"; lit "4567"];
  _ ← execute (lit "/join");
  stdout ← get_stdout;
  py_assert (any_line_has (lit "ERROR:") stdout)
    (lit "Output does not match expected error message.").

(** Test that the program does not accept invalid commands. *)
Definition udp_invalid_command : H X unit :=
  _ ← setup [lit "-t"; lit "udp"; lit "-s"; lit "localhost"; lit "-p"; lit "4567"];
  _ ← execute (lit "/pepe");
  stdout ← get_stdout;
  py_assert (py_in (lit "ERROR:") stdout) (lit "Output does not match expected output.").

(** Test that the program sends the correct AUTH message. *)
Definition udp_auth : H X unit :=
  _ ← start_server (lit "udp") 4567;
  _ ← setup [lit "-t"; lit "udp"; lit "-s"; lit "localhost"; lit "-p"; lit "4567"];
  _ ← execute (lit "/auth a b c");
  message ← receive_message;
  tMessage ← translate message;
  py_assert (eq_str tMessage (lit "AUTH IS a AS c USING b" ++ CRLF))
    (lit "Incoming message does not match expected message.").

(** Test that the program sends the correct AUTH message when the port is non-default. *)
Definition udp_auth_port : H X unit :=
  _ ← start_server (lit "udp") 1234;
  _ ← setup [lit "-t"; lit "udp"; lit "-s"; lit "localhost"; lit "-p"; lit "1234"];
  _ ← execute (lit "/auth a b c");
  message ← receive_message;
  tMessage ← translate message;
  py_assert (eq_str tMessage (lit "AUTH IS a AS c USING b" ++ CRLF))
    (lit "Incoming message does not match expected message.").

(** Test that the program handles a NOK reply to AUTH correctly. *)
Definition udp_auth_nok : H X unit :=
  _ ← start_server (lit "udp") 4567;
  _ ← setup [lit "-t"; lit "udp"; lit "-s"; lit "localhost"; lit "-p"; lit "4567"];
  _ ← execute (lit "/auth a b c");
  message ← receive_message;
  tMessage ← translate message;
  _ ← py_assert (eq_str tMessage (lit "AUTH IS a AS c USING b" ++ CRLF))
    (lit "Incoming message does not match expected AUTH message.");
  ref1 ← getMessageId_of message;
  _ ← send_reply 0 false ref1 (lit "nene");
  _ ← sleep 200;
  stdout ← get_stdout;
  _ ← py_assert (any_line_has (lit "Action Failure: nene") stdout)
    (lit "Output does not match expected 'Action Failure: nene' output.");
  message ← receive_message;
  py_assert (eq_bytes message [0; 0; 0])
    (lit "Incoming message does not match expected CONFIRM message.").

(** Test renaming multiple times and sending a message. *)
Definition udp_rename_multiple : H X unit :=
  _ ← auth_and_reply;
  _ ← execute (lit "/rename user1");
  _ ← sleep 200;
  _ ← execute (lit "/rename user2");
  _ ← sleep 200;
  _ ← execute (lit "message after rename");
  message ← receive_message;
  tMessage ← translate message;
  py_assert (eq_str tMessage (lit "MSG FROM user2 IS message after rename" ++ CRLF))
    (lit "Message should be sent with the latest display name 'user2'.").

(** Test that the program handles a NOK reply to AUTH followed by a Action successful AUTH
  correctly. *)
Definition udp_auth_nok_ok : H X unit :=
  _ ← start_server (lit "udp") 4567;
  _ ← setup [lit "-t"; lit "udp"; lit "-s"; lit "localhost"; lit "-p"; lit "4567"];
  _ ← execute (lit "/auth a b c");
  message ← receive_message;
  tMessage ← translate message;
  _ ← py_assert (eq_str tMessage (lit "AUTH IS a AS c USING b" ++ CRLF))
    (lit "Incoming message does not match expected AUTH message.");
  ref1 ← getMessageId_of message;
  _ ← send_reply 0 false ref1 (lit "nene");
  _ ← sleep 200;
  stdout ← get_stdout;
  _ ← py_assert (any_line_has (lit "Action Failure: nene") stdout)
    (lit "Output does not match expected 'Action Failure: nene' output.");
  message ← receive_message;
  _ ← py_assert (eq_bytes message [0; 0; 0])
    (lit "Incoming message does not match expected CONFIRM message.");
  _ ← execute (lit "/auth a b c");
  message ← receive_message;
  tMessage ← translate message;
  _ ← py_assert (eq_str tMessage (lit "AUTH IS a AS c USING b" ++ CRLF))
    (lit "Incoming message does not match expected AUTH message.");
  ref2 ← getMessageId_of message;
  _ ← send_reply 1 true ref2 (lit "yes");
  _ ← sleep 200;
  stdout ← get_stdout;
  _ ← py_assert (any_line_has (lit "Action Success: yes") stdout)
    (lit "Output does not match expected 'Action Success: yes' output.");
  message ← receive_message;
  py_assert (eq_bytes message [0; 0; 1])
    (lit "Incoming message does not match expected CONFIRM message.").

(** A second UDP socket, open while a test runs. *)
Definition with_udp_socket (port : Z) (body : H X unit) : H X unit := fun s =>
  match bind_udp port s with
  | (s, Ok _) => let (s', r) := body s in (set_inboxes (delete port (inboxes s')) s', r)
  | (s, Err e) => (s, Err e)
  end.

(** Test that the program switches to the new port after receiving an OK reply to AUTH. *)
Definition udp_auth_port_change : H X unit :=
  with_udp_socket 1234
    (_ ← start_server (lit "udp") 4567;
     _ ← setup [lit "-t"; lit "udp"; lit "-s"; lit "localhost"; lit "-p"; lit "1234"];
     _ ← execute (lit "/auth a b c");
     received ← recvfrom (quanta 10000) 1234;
     match received with
     | None => raise OSError
     | Some (client_address, data) =>
         let message := VBytes data in
         id ← getMessageId_of message;
         id_bytes ← bytes_of id;
         _ ← send_datagram 1234 (VBytes ([NUL] ++ id_bytes)) client_address;
         tMessage ← translate message;
         _ ← py_assert (eq_str tMessage (lit "AUTH IS a AS c USING b" ++ CRLF))
               (lit "Incoming message does not match expected AUTH message.");
         _ ← setClientAddress client_address;
         ref ← getMessageId_of message;
         _ ← send_reply 0 true ref (lit "jojo");
         _ ← sleep 200;
         stdout ← get_stdout;
         _ ← py_assert (any_line_has (lit "Action Success: jojo") stdout)
               (lit "Output does not match expected 'Action Success: jojo' output.");
         message ← receive_message;
         py_assert (eq_bytes message [0; 0; 0])
           (lit "Incoming message does not match expected CONFIRM message.")
     end).

(** Test that the program handles a Action successful reply to AUTH correctly. *)
Definition udp_auth_ok : H X unit :=
  auth_and_reply.

(** Test that the program sends the correct MSG message. *)
Definition udp_msg : H X unit :=
  _ ← auth_and_reply;
  _ ← execute (lit "ahojky");
  message ← receive_message;
  tMessage ← translate message;
  py_assert (eq_str tMessage (lit "MSG FROM c IS ahojky" ++ CRLF))
    (lit "Incoming message does not match expected MSG message.").

(** Test that the program handles a MSG message from the server correctly. *)
Definition udp_svr_msg : H X unit :=
  _ ← auth_and_reply;
  _ ← send_built (msg 1 (lit "smrt") (lit "ahojky"));
  _ ← sleep 200;
  stdout ← get_stdout;
  _ ← py_assert (any_line_has (lit "smrt: ahojky") stdout)
    (lit "Output does not match expected output.");
  message ← receive_message;
  py_assert (eq_bytes message [0; 0; 1])
    (lit "Incoming message does not match expected CONFIRM message.").

(** Test that the program handles PING correctly. *)
Definition udp_ping : H X unit :=
  _ ← auth_and_reply;
  _ ← send_built (ping 1);
  message ← receive_message;
  py_assert (eq_bytes message [0; 0; 1])
    (lit "Incoming message does not match expected CONFIRM message.").

(** Test that the program handles SIGINT correctly. *)
Definition udp_bye1 : H X unit :=
  _ ← auth_and_reply;
  _ ← send_sigint;
  message ← receive_message;
  tMessage ← translate message;
  py_assert (eq_str tMessage (lit "BYE FROM c" ++ CRLF))
    (lit "Incoming message does not match expected BYE message.").

(** Test that the program handles a C-d (stdin closed) correctly. *)
Definition udp_bye2 : H X unit :=
  _ ← auth_and_reply;
  _ ← send_eof;
  message ← receive_message;
  tMessage ← translate message;
  py_assert (eq_str tMessage (lit "BYE FROM c" ++ CRLF))
    (lit "Incoming message does not match expected BYE message.").

(** Test that the client terminates correctly upon receiving BYE from the server. *)
Definition udp_server_bye : H X unit :=
  _ ← auth_and_reply;
  _ ← send_built (bye 1 (lit "c"));
  _ ← sleep 200;
  code1 ← poll;
  _ ← py_assert (bool_decide (is_Some code1))
    (lit "Client process should terminate after receiving BYE.");
  message ← receive_message;
  py_assert (eq_bytes message [0; 0; 1])
    (lit "Incoming message does not match expected CONFIRM message for BYE.").

(** Test sending and receiving multiple messages. *)
Definition udp_send_receive_multiple : H X unit :=
  _ ← auth_and_reply;
  _ ← execute (lit "client msg 1");
  message ← receive_message;
  text1 ← translate message;
  found2 ← in_value (lit "MSG FROM c IS client msg 1" ++ CRLF) text1;
  _ ← py_assert (found2) (lit "Expected client msg 1");
  _ ← send_built (msg 1 (lit "server") (lit "server msg 1"));
  _ ← sleep 200;
  stdout ← get_stdout;
  _ ← py_assert (py_in (lit "server: server msg 1") stdout)
    (lit "Expected server msg 1 in output");
  message ← receive_message;
  _ ← py_assert (eq_bytes message [0; 0; 1]) (lit "Expected confirm for server msg 1");
  _ ← execute (lit "client msg 2");
  message ← receive_message;
  text3 ← translate message;
  found4 ← in_value (lit "MSG FROM c IS client msg 2" ++ CRLF) text3;
  _ ← py_assert (found4) (lit "Expected client msg 2");
  _ ← send_built (msg 2 (lit "server") (lit "server msg 2"));
  _ ← sleep 200;
  stdout ← get_stdout;
  _ ← py_assert (py_in (lit "server: server msg 2") stdout)
    (lit "Expected server msg 2 in output");
  message ← receive_message;
  py_assert (eq_bytes message [0; 0; 2]) (lit "Expected confirm for server msg 2").

(** Test that the client retransmits a message if CONFIRM is not received. *)
Definition udp_retransmit_missing_confirm1 : H X unit :=
  _ ← auth_and_reply;
  _ ← modify (set_send_confirm false);
  _ ← execute (lit "test retransmit message");
  message1 ← receive_message_within 1000;
  msg_id1 ← getMessageId_of message1;
  text1 ← translate message1;
  found2 ← in_value (lit "MSG FROM c IS test retransmit message" ++ CRLF) text1;
  _ ← py_assert (found2) (lit "Expected first message");
  except_timeout
    (message2 ← receive_message_within 3000;
     msg_id2 ← getMessageId_of message2;
     text3 ← translate message2;
     found4 ← in_value (lit "MSG FROM c IS test retransmit message" ++ CRLF) text3;
     _ ← py_assert (found4) (lit "Expected retransmitted message");
     _ ← py_assert (eq_val msg_id1 msg_id2) (lit "Retransmitted message ID should be the same");
     tester_confirm message2)
    (py_assert (false) (lit "Client did not retransmit the message within the timeout period.")).

(** Test that the client retransmits a message if CONFIRM is not received. *)
Definition udp_retransmit_missing_confirm2 : H X unit :=
  _ ← start_server (lit "udp") 4567;
  _ ← setup [lit "-t"; lit "udp"; lit "-s"; lit "localhost"; lit "-p"; lit "4567"];
  _ ← execute (lit "/auth a b c");
  _ ← modify (set_send_confirm false);
  message1 ← receive_message_within 1000;
  msg_id1 ← getMessageId_of message1;
  text1 ← translate message1;
  found2 ← in_value (lit "AUTH IS a AS c USING b" ++ CRLF) text1;
  _ ← py_assert (found2) (lit "Expected AUTH message");
  except_timeout
    (message2 ← receive_message_within 3000;
     msg_id2 ← getMessageId_of message2;
     text3 ← translate message2;
     found4 ← in_value (lit "AUTH IS a AS c USING b" ++ CRLF) text3;
     _ ← py_assert (found4) (lit "Expected retransmitted AUTH message");
     _ ← py_assert (eq_val msg_id1 msg_id2) (lit "Retransmitted message ID should be the same");
     tester_confirm message2)
    (py_assert (false) (lit "Client did not retransmit the message within the timeout period.")).

(** Test that the client ignores duplicated messages from the server but confirms them. *)
Definition udp_ignore_duplicate_server_msg : H X unit :=
  _ ← auth_and_reply;
  server_message ← of_py (msg 1 (lit "server") (lit "duplicate test"));
  _ ← send_message (VBytes server_message);
  _ ← sleep 200;
  _ ← send_message (VBytes server_message);
  _ ← sleep 200;
  stdout ← get_stdout;
  let occurrences := py_count stdout (lit "server: duplicate test") in
  _ ← py_assert (occurrences =? 1)
    (lit "Expected message to appear once in output, found " ++ py_str_of_int occurrences ++
      lit " times.");
  confirm1 ← receive_message;
  _ ← py_assert (eq_bytes confirm1 [0; 0; 1]) (lit "Expected confirm for first message");
  confirm2 ← receive_message;
  py_assert (eq_bytes confirm2 [0; 0; 1]) (lit "Expected confirm for duplicate message").

(** Test that the program handles an ERR message from the server correctly while waiting for
  REPLY. *)
Definition udp_server_err1 : H X unit :=
  _ ← start_server (lit "udp") 4567;
  _ ← setup [lit "-t"; lit "udp"; lit "-s"; lit "localhost"; lit "-p"; lit "4567"];
  _ ← execute (lit "/auth a b c");
  message ← receive_message;
  tMessage ← translate message;
  _ ← py_assert (eq_str tMessage (lit "AUTH IS a AS c USING b" ++ CRLF))
    (lit "Incoming message does not match expected AUTH message.");
  _ ← sleep 200;
  _ ← send_built (err 0 (lit "server") (lit "chyba"));
  _ ← sleep 200;
  stdout ← get_stdout;
  _ ← py_assert (any_line_has (lit "ERROR FROM server: chyba") stdout)
    (lit "Output does not match expected error message.");
  message ← receive_message;
  py_assert (eq_bytes message [0; 0; 0])
    (lit "Incoming message does not match expected CONFIRM message.").

(** Test that the program handles an ERR message from the server correctly. *)
Definition udp_server_err2 : H X unit :=
  _ ← auth_and_reply;
  _ ← send_built (err 1 (lit "server") (lit "chyba"));
  _ ← sleep 200;
  stdout ← get_stdout;
  _ ← py_assert (any_line_has (lit "ERROR FROM server: chyba") stdout)
    (lit "Output does not match expected error message.");
  message ← receive_message;
  py_assert (eq_bytes message [0; 0; 1])
    (lit "Incoming message does not match expected CONFIRM message.").

(** Test that the program sends the correct JOIN message and hadles REPLY correctly. *)
Definition udp_join_ok : H X unit :=
  _ ← auth_and_reply;
  _ ← execute (lit "/rename user");
  _ ← execute (lit "/join channel");
  message ← receive_message;
  tMessage ← translate message;
  _ ← py_assert (eq_str tMessage (lit "JOIN IS channel AS user" ++ CRLF))
    (lit "Incoming message does not match expected JOIN message.");
  ref1 ← getMessageId_of message;
  _ ← send_reply 1 true ref1 (lit "jojo");
  _ ← sleep 200;
  stdout ← get_stdout;
  _ ← py_assert (any_line_has (lit "Action Success: jojo") stdout)
    (lit "Output does not match expected 'Action Success: jojo' output.");
  message ← receive_message;
  py_assert (eq_bytes message [0; 0; 1])
    (lit "Incoming message does not match expected CONFIRM message.").

(** Test that the program sends the correct JOIN message and handles a NOK reply correctly. *)
Definition udp_join_nok : H X unit :=
  _ ← auth_and_reply;
  _ ← execute (lit "/rename user");
  _ ← execute (lit "/join channel");
  message ← receive_message;
  tMessage ← translate message;
  _ ← py_assert (eq_str tMessage (lit "JOIN IS channel AS user" ++ CRLF))
    (lit "Incoming message does not match expected JOIN message.");
  ref1 ← getMessageId_of message;
  _ ← send_reply 1 false ref1 (lit "nene");
  _ ← sleep 200;
  stdout ← get_stdout;
  _ ← py_assert (any_line_has (lit "Action Failure: nene") stdout)
    (lit "Output does not match expected 'Action Failure: nene' output.");
  message ← receive_message;
  py_assert (eq_bytes message [0; 0; 1])
    (lit "Incoming message does not match expected CONFIRM message.").

(** Test that the program does not allow multiple AUTH commands. *)
Definition udp_multiple_auth : H X unit :=
  _ ← auth_and_reply;
  _ ← execute (lit "/auth d e f");
  _ ← sleep 200;
  stdout ← get_stdout;
  py_assert (any_line_has (lit "ERROR: ") stdout)
    (lit "Output does not match expected 'ERROR: ' output.").

(** Test that the program handles an invalid message correctly. *)
Definition udp_invalid_msg : H X unit :=
  _ ← auth_and_reply;
  _ ← send_message (VBytes [6; 0; 1]);
  _ ← sleep 200;
  stdout ← get_stdout;
  _ ← py_assert (any_line_has (lit "ERROR: ") stdout)
    (lit "Output does not match expected 'ERROR: ' output.");
  message ← receive_message;
  tMessage ← translate message;
  found1 ← in_value (lit "ERR FROM c IS") tMessage;
  py_assert (found1) (lit "Incoming message does not match expected ERR message.").

(** Test that the program handles an ERR message from the server correctly. *)
Definition udp_auth_err : H X unit :=
  _ ← start_server (lit "udp") 4567;
  _ ← setup [lit "-t"; lit "udp"; lit "-s"; lit "localhost"; lit "-p"; lit "4567"];
  _ ← execute (lit "/auth a b c");
  message ← receive_message;
  tMessage ← translate message;
  _ ← py_assert (eq_str tMessage (lit "AUTH IS a AS c USING b" ++ CRLF))
    (lit "Incoming message does not match expected AUTH message.");
  _ ← send_built (err 1 (lit "server") (lit "ajaj"));
  _ ← sleep 200;
  stdout ← get_stdout;
  _ ← py_assert (any_line_has (lit "ERROR FROM server: ajaj") stdout)
    (lit "Output does not match expected error message.");
  message ← receive_message;
  py_assert (eq_bytes message [0; 0; 1])
    (lit "Incoming message does not match expected CONFIRM message.").

(** Test that the client retransmits a message if CONFIRM is not received and also Error when
  client dont recieve CONFIRM. *)
Definition udp_reports_error_when_missing_confirmation : H X unit :=
  _ ← auth_and_reply;
  _ ← modify (set_send_confirm false);
  _ ← execute (lit "Hello!");
  _ ← sleep 2000;
  stdout ← get_stdout;
  py_assert (any_line_has (lit "ERROR: ") stdout)
    (lit "Output does not match expected 'ERROR: ' output.").

(** Test that the program handles an ERR message from the server correctly. *)
Definition udp_reply_5_sec_error_auth : H X unit :=
  _ ← start_server (lit "udp") 4567;
  _ ← setup [lit "-t"; lit "udp"; lit "-s"; lit "localhost"; lit "-p"; lit "4567"];
  _ ← execute (lit "/auth a b c");
  message ← receive_message;
  tMessage ← translate message;
  _ ← py_assert (eq_str tMessage (lit "AUTH IS a AS c USING b" ++ CRLF))
    (lit "Incoming message does not match expected AUTH message.");
  _ ← sleep 5100;
  stdout ← get_stdout;
  _ ← py_assert (any_line_has (lit "ERROR: ") stdout)
    (lit "Output does not match expected 'ERROR: ' output.");
  message ← receive_message;
  tMessage ← translate message;
  found1 ← in_value (lit "ERR FROM c IS") tMessage;
  py_assert (found1) (lit "Incoming message does not match expected ERR message.").

(** Test that the program handles an ERR message from the server correctly. *)
Definition udp_reply_5_sec_error_join : H X unit :=
  _ ← auth_and_reply;
  _ ← execute (lit "/join abc");
  message ← receive_message;
  tMessage ← translate message;
  _ ← py_assert (eq_str tMessage (lit "JOIN IS abc AS c" ++ CRLF))
    (lit "Incoming message does not match expected JOIN message.");
  _ ← sleep 5100;
  message ← receive_message;
  tMessage ← translate message;
  found1 ← in_value (lit "ERR FROM c IS") tMessage;
  _ ← py_assert (found1) (lit "Incoming message does not match expected ERR message.");
  stdout ← get_stdout;
  py_assert (any_line_has (lit "ERROR: ") stdout)
    (lit "Output does not match expected 'ERROR: ' output.").

End TESTS.
