(* ===== verification/TestCasesTcp.v ===== *)
(** The test cases of testo.py on TCP, part 3 of the file, each a program on the harness's state.
    [tcp_auth_and_reply] is their common helper; the file declares [tcp_auth_ok] twice, and the
    first one is [tcp_auth_ok_first] here. *)
From S2P Require Import Prelude PyRuntime Regex Executable Tester.

Section TESTS.

Context {X : Type} `{Executable X}.

(** Helper function to test the AUTH command followed by a Action successful reply. *)
Definition tcp_auth_and_reply : H X unit :=
  _ ← start_server (lit "tcp") 4567;
  _ ← setup [lit "-t"; lit "tcp"; lit "-s"; lit "localhost"; lit "-p"; lit "4567"];
  _ ← execute (lit "/auth a b c");
  message ← receive_message;
  _ ← py_assert (eq_str message (lit "AUTH a AS c USING b" ++ CRLF))
    (lit "Incoming message does not match expected AUTH message.");
  _ ← send_message (VStr (lit "REPLY OK IS vsechno cajk" ++ CRLF));
  _ ← sleep 200;
  stdout ← get_stdout;
  py_assert (any_line_is (lit "Action Success: vsechno cajk") stdout)
    (lit "Output does not match expected error message.").

(** Test that the program handles SIGINT correctly. *)
Definition tcp_sigint : H X unit :=
  _ ← tcp_auth_and_reply;
  _ ← send_sigint;
  message ← receive_message;
  py_assert (eq_str message (lit "BYE FROM c" ++ CRLF))
    (lit "Incoming message does not match expected BYE message after SIGINT.").

(** Test that the program handles SIGINT correctly. *)
Definition tcp_sigint_and_bye : H X unit :=
  _ ← start_server (lit "tcp") 4567;
  _ ← setup [lit "-t"; lit "tcp"; lit "-s"; lit "localhost"; lit "-p"; lit "4567"];
  _ ← send_sigint;
  message ← receive_message;
  py_assert (eq_str message (lit "BYE FROM unknown" ++ CRLF))
    (lit "Incoming message does not match expected BYE message after SIGINT.").

(** Test that the client terminates correctly upon receiving BYE from the server. *)
Definition tcp_server_bye : H X unit :=
  _ ← tcp_auth_and_reply;
  _ ← send_message (VStr (lit "BYE FROM server" ++ CRLF));
  _ ← sleep 200;
  code1 ← poll;
  py_assert (bool_decide (is_Some code1))
    (lit "Client process should terminate after receiving BYE.").

(** Test renaming and sending a message with the new name. *)
Definition tcp_rename : H X unit :=
  _ ← tcp_auth_and_reply;
  _ ← execute (lit "/rename user1");
  _ ← sleep 200;
  _ ← execute (lit "message after rename");
  message ← receive_message;
  py_assert (eq_str message (lit "MSG FROM user1 IS message after rename" ++ CRLF))
    (lit "Message should be sent with the new display name 'user1'.").

(** Test renaming multiple times and sending a message. *)
Definition tcp_rename_multiple : H X unit :=
  _ ← tcp_auth_and_reply;
  _ ← execute (lit "/rename user1");
  _ ← sleep 200;
  _ ← execute (lit "/rename user2");
  _ ← sleep 200;
  _ ← execute (lit "message after rename");
  message ← receive_message;
  py_assert (eq_str message (lit "MSG FROM user2 IS message after rename" ++ CRLF))
    (lit "Message should be sent with the latest display name 'user2'.").

(** Test that the /help command shows some output. *)
Definition tcp_help_command : H X unit :=
  _ ← tcp_auth_and_reply;
  _ ← execute (lit "/help");
  _ ← sleep 1000;
  stdout ← get_stdout;
  py_assert (0 <? Z.of_nat (length (py_strip stdout)))
    (lit "Expected some output for /help command.").

(** Test sending and receiving multiple messages. *)
Definition tcp_send_receive_multiple : H X unit :=
  _ ← tcp_auth_and_reply;
  _ ← execute (lit "client msg 1");
  message ← receive_message;
  _ ← py_assert (eq_str message (lit "MSG FROM c IS client msg 1" ++ CRLF))
    (lit "Expected client msg 1");
  _ ← send_message (VStr (lit "MSG FROM server IS server msg 1" ++ CRLF));
  _ ← sleep 200;
  stdout ← get_stdout;
  _ ← py_assert (py_in (lit "server: server msg 1") stdout)
    (lit "Expected server msg 1 in output");
  _ ← execute (lit "client msg 2");
  message ← receive_message;
  _ ← py_assert (eq_str message (lit "MSG FROM c IS client msg 2" ++ CRLF))
    (lit "Expected client msg 2");
  _ ← send_message (VStr (lit "MSG FROM server IS server msg 2" ++ CRLF));
  _ ← sleep 200;
  stdout ← get_stdout;
  py_assert (py_in (lit "server: server msg 2") stdout) (lit "Expected server msg 2 in output").

(** Test receiving multiple messages concatenated in a single TCP segment. *)
Definition tcp_multiple_messages_single_segment : H X unit :=
  _ ← tcp_auth_and_reply;
  _ ← send_message (VStr (lit "MSG FROM server1 IS msg1" ++ CRLF ++ lit "MSG FROM server2 IS msg2"
    ++ CRLF));
  _ ← sleep 1000;
  stdout ← get_stdout;
  _ ← py_assert (py_in (lit "server1: msg1") stdout) (lit "Expected first message in output.");
  py_assert (py_in (lit "server2: msg2") stdout) (lit "Expected second message in output.").

(** Test receiving a single message split across multiple TCP segments. *)
Definition tcp_single_message_multiple_segments2 : H X unit :=
  _ ← tcp_auth_and_reply;
  _ ← send_message (VStr (lit "M"));
  _ ← sleep 200;
  _ ← send_message (VStr (lit "SG "));
  _ ← sleep 200;
  _ ← send_message (VStr (lit "FR"));
  _ ← sleep 200;
  _ ← send_message (VStr (lit "OM ser"));
  _ ← sleep 200;
  _ ← send_message (VStr (lit "ve"));
  _ ← sleep 200;
  _ ← send_message (VStr (lit "r I"));
  _ ← sleep 200;
  _ ← send_message (VStr (lit "S okeyBroChill" ++ CRLF));
  _ ← sleep 200;
  stdout ← get_stdout;
  py_assert (py_in (lit "server: okeyBroChill") stdout)
    (lit "Expected reassembled message in output.").

(** Test receiving a single message split across multiple TCP segments. *)
Definition tcp_single_message_multiple_segments : H X unit :=
  _ ← tcp_auth_and_reply;
  _ ← send_message (VStr (lit "MSG FROM server IS part1"));
  _ ← sleep 200;
  _ ← send_message (VStr (lit "part2" ++ CRLF));
  _ ← sleep 200;
  stdout ← get_stdout;
  py_assert (py_in (lit "server: part1part2") stdout)
    (lit "Expected reassembled message in output.").

Definition tcp_receive_two_messages_within_3_segments : H X unit :=
  _ ← tcp_auth_and_reply;
  _ ← send_message (VStr (lit "MSG FROM teSter "));
  _ ← sleep 200;
  _ ← send_message (VStr (lit "IS message1" ++ CRLF ++ lit "MSG FROM teSte"));
  _ ← sleep 200;
  _ ← send_message (VStr (lit " IS message2" ++ CRLF));
  _ ← sleep 200;
  stdout ← get_stdout;
  py_assert (py_in (lit "teSter: message1" ++ [LF] ++ lit "teSte: message2") stdout)
    (lit "Expected reassembled message in output.").

(** Test that the program does not accept any message commands before the user is authenticated.
  *)
Definition tcp_hello : H X unit :=
  _ ← start_server (lit "tcp") 4567;
  _ ← setup [lit "-t"; lit "tcp"; lit "-s"; lit "localhost"; lit "-p"; lit "4567"];
  _ ← execute (lit "Hello");
  stdout ← get_stdout;
  py_assert (py_in (lit "ERROR:") stdout) (lit "Output does not match expected output.").

(** Test that the program does not accept any join commands before the user is authenticated. *)
Definition tcp_not_auth : H X unit :=
  _ ← start_server (lit "tcp") 4567;
  _ ← setup [lit "-t"; lit "tcp"; lit "-s"; lit "localhost"; lit "-p"; lit "4567"];
  _ ← execute (lit "/join");
  stdout ← get_stdout;
  py_assert (any_line_has (lit "ERROR:") stdout)
    (lit "Output does not match expected error message.").

(** Test that the program does not accept invalid commands. *)
Definition tcp_invalid_command : H X unit :=
  _ ← start_server (lit "tcp") 4567;
  _ ← setup [lit "-t"; lit "tcp"; lit "-s"; lit "localhost"; lit "-p"; lit "4567"];
  _ ← execute (lit "/pepe");
  stdout ← get_stdout;
  py_assert (py_in (lit "ERROR:") stdout) (lit "Output does not match expected output.").

(** Test that the program sends the correct AUTH message. *)
Definition tcp_auth : H X unit :=
  _ ← start_server (lit "tcp") 4567;
  _ ← setup [lit "-t"; lit "tcp"; lit "-s"; lit "localhost"; lit "-p"; lit "4567"];
  _ ← execute (lit "/auth a b c");
  message ← receive_message;
  py_assert (eq_str message (lit "AUTH a AS c USING b" ++ CRLF))
    (lit "Incoming message does not match expected AUTH message.").

(** Test that the program handles a Action successful reply to AUTH correctly. *)
Definition tcp_auth_ok_first : H X unit :=
  _ ← start_server (lit "tcp") 4567;
  _ ← setup [lit "-t"; lit "tcp"; lit "-s"; lit "localhost"; lit "-p"; lit "4567"];
  _ ← execute (lit "/auth a b c");
  message ← receive_message;
  _ ← py_assert (eq_str message (lit "AUTH a AS c USING b" ++ CRLF))
    (lit "Incoming message does not match expected AUTH message.");
  _ ← send_message (VStr (lit "REPLY OK IS vsechno cajk" ++ CRLF));
  _ ← sleep 200;
  stdout ← get_stdout;
  py_assert (any_line_is (lit "Action Success: vsechno cajk") stdout)
    (lit "Output does not match expected error message.").

(** Test that the program handles a NOK reply to AUTH correctly. *)
Definition tcp_auth_nok : H X unit :=
  _ ← start_server (lit "tcp") 4567;
  _ ← setup [lit "-t"; lit "tcp"; lit "-s"; lit "localhost"; lit "-p"; lit "4567"];
  _ ← execute (lit "/auth a b c");
  message ← receive_message;
  _ ← py_assert (eq_str message (lit "AUTH a AS c USING b" ++ CRLF))
    (lit "Incoming message does not match expected AUTH message.");
  _ ← send_message (VStr (lit "REPLY NOK IS nic cajk" ++ CRLF));
  _ ← sleep 200;
  stdout ← get_stdout;
  py_assert (any_line_is (lit "Action Failure: nic cajk") stdout)
    (lit "Output does not match expected error message.").

(** Test that the program sends the correct AUTH message when the port is non-default. *)
Definition tcp_auth_port : H X unit :=
  _ ← start_server (lit "tcp") 4321;
  _ ← setup [lit "-t"; lit "tcp"; lit "-s"; lit "localhost"; lit "-p"; lit "4321"];
  _ ← execute (lit "/auth a b c");
  message ← receive_message;
  py_assert (eq_str message (lit "AUTH a AS c USING b" ++ CRLF))
    (lit "Incoming message does not match expected message.").

(** Test that the program handles a NOK reply to AUTH followed by a Action successful AUTH
  correctly. *)
Definition tcp_auth_nok_ok : H X unit :=
  _ ← start_server (lit "tcp") 4567;
  _ ← setup [lit "-t"; lit "tcp"; lit "-s"; lit "localhost"; lit "-p"; lit "4567"];
  _ ← execute (lit "/auth a b c");
  message ← receive_message;
  _ ← py_assert (eq_str message (lit "AUTH a AS c USING b" ++ CRLF))
    (lit "Incoming message does not match expected AUTH message.");
  _ ← send_message (VStr (lit "REPLY NOK IS nic cajk" ++ CRLF));
  _ ← sleep 200;
  stdout ← get_stdout;
  _ ← py_assert (any_line_is (lit "Action Failure: nic cajk") stdout)
    (lit "Output does not match expected error message.");
  _ ← execute (lit "/auth d e f");
  message ← receive_message;
  _ ← py_assert (eq_str message (lit "AUTH d AS f USING e" ++ CRLF))
    (lit "Incoming message does not match expected AUTH message.");
  _ ← send_message (VStr (lit "REPLY OK IS vsechno cajk" ++ CRLF));
  _ ← sleep 200;
  stdout ← get_stdout;
  py_assert (any_line_is (lit "Action Success: vsechno cajk") stdout)
    (lit "Output does not match expected error message.").

(** Test that the program handles a Action successful reply to AUTH correctly. *)
Definition tcp_auth_ok : H X unit :=
  tcp_auth_and_reply.

(** Test that the program sends the correct MSG message. *)
Definition tcp_msg : H X unit :=
  _ ← tcp_auth_and_reply;
  _ ← execute (lit "ahojky");
  message ← receive_message;
  py_assert (eq_str message (lit "MSG FROM c IS ahojky" ++ CRLF))
    (lit "Incoming message does not match expected MSG message.").

(** Test that the program handles a MSG message from the server correctly. *)
Definition tcp_svr_msg : H X unit :=
  _ ← tcp_auth_and_reply;
  _ ← send_message (VStr (lit "MSG FROM SeverusSnape IS ahojky" ++ CRLF));
  _ ← sleep 200;
  stdout ← get_stdout;
  py_assert (any_line_has (lit "SeverusSnape: ahojky") stdout)
    (lit "Output does not match expected output.").

(** Test that the program handles a C-d (stdin closed) correctly. *)
Definition tcp_bye : H X unit :=
  _ ← tcp_auth_and_reply;
  _ ← send_eof;
  message ← receive_message;
  py_assert (eq_str message (lit "BYE FROM c" ++ CRLF))
    (lit "Incoming message does not match expected BYE message.").

(** Test that the program handles a C-d (stdin closed) correctly. *)
Definition tcp_bye_in_auth : H X unit :=
  _ ← start_server (lit "tcp") 4567;
  _ ← setup [lit "-t"; lit "tcp"; lit "-s"; lit "localhost"; lit "-p"; lit "4567"];
  _ ← send_eof;
  message ← receive_message;
  py_assert (eq_str message (lit "BYE FROM unknown" ++ CRLF))
    (lit "Incoming message does not match expected BYE message.").

(** Test that the program handles an ERR message from the server correctly while waiting for
  REPLY. *)
Definition tcp_server_err1 : H X unit :=
  _ ← start_server (lit "tcp") 4567;
  _ ← setup [lit "-t"; lit "tcp"; lit "-s"; lit "localhost"; lit "-p"; lit "4567"];
  _ ← execute (lit "/auth a b c");
  _ ← send_message (VStr (lit "ERR FROM jetovp IS rdeli" ++ CRLF));
  _ ← sleep 400;
  stdout ← get_stdout;
  py_assert (any_line_has (lit "ERROR FROM jetovp: rdeli") stdout)
    (lit "Output does not match expected error message.").

(** Test that the program handles an ERR message from the server correctly. *)
Definition tcp_server_err2 : H X unit :=
  _ ← tcp_auth_and_reply;
  _ ← send_message (VStr (lit "ERR FROM chuj IS bobr" ++ CRLF));
  _ ← sleep 400;
  stdout ← get_stdout;
  py_assert (any_line_has (lit "ERROR FROM chuj: bobr") stdout)
    (lit "Output does not match expected error message.").

(** Test that the program sends the correct JOIN message and handles REPLY correctly. *)
Definition tcp_join_ok : H X unit :=
  _ ← tcp_auth_and_reply;
  _ ← execute (lit "/rename user");
  _ ← execute (lit "/join channel");
  message ← receive_message;
  _ ← py_assert (eq_str message (lit "JOIN channel AS user" ++ CRLF))
    (lit "Incoming message does not match expected JOIN message.");
  _ ← send_message (VStr (lit "REPLY OK IS takjo brasko ale bud hodnej" ++ CRLF));
  _ ← sleep 200;
  stdout ← get_stdout;
  py_assert (any_line_has (lit "Action Success: takjo brasko ale bud hodnej") stdout)
    (lit "Output does not match expected 'Action Success: jojo' output.").

(** Test that the program sends the correct JOIN message and handles a NOK reply correctly. *)
Definition tcp_join_nok : H X unit :=
  _ ← tcp_auth_and_reply;
  _ ← execute (lit "/rename user");
  _ ← execute (lit "/join channel");
  message ← receive_message;
  _ ← py_assert (eq_str message (lit "JOIN channel AS user" ++ CRLF))
    (lit "Incoming message does not match expected JOIN message.");
  _ ← send_message (VStr (lit "REPLY NOK IS minus boiiii" ++ CRLF));
  _ ← sleep 200;
  stdout ← get_stdout;
  py_assert (any_line_has (lit "Action Failure: minus boiiii") stdout)
    (lit "Output does not match expected 'Action Success: jojo' output.").

(** Test that the program does not allow multiple AUTH commands. *)
Definition tcp_multiple_auth : H X unit :=
  _ ← tcp_auth_and_reply;
  _ ← execute (lit "/auth d e f");
  _ ← sleep 200;
  stdout ← get_stdout;
  py_assert (any_line_has (lit "ERROR: ") stdout)
    (lit "Output does not match expected 'ERROR: ' output.").

(** The loop of [tcp_invalid_msg] that collects what the client sends. *)
Fixpoint collect_parts (n : nat) (received : chars) : H X chars :=
  match n with
  | O => mret received
  | S n' =>
      part ← except_timeout (v ← receive_message_within 500; mret (Some v)) (mret None);
      match part with
      | None => mret received
      | Some (VStr text) => collect_parts n' (received ++ text)
      | Some (VBytes []) | Some VNone => collect_parts n' received
      | Some (VBytes _) => raise TypeError
      end
  end.

Definition err_regex : regex :=
  rlit (lit "ERR FROM c IS ") ++ IPlus (fun c => (32 <=? c) && (c <=? 126)) :: rlit CRLF.

(** Test that the program handles an invalid message correctly and responds appropriately. *)
Definition tcp_invalid_msg : H X unit :=
  _ ← tcp_auth_and_reply;
  _ ← send_message (VStr (lit "TVOJE MAMINKA" ++ CRLF));
  _ ← sleep 200;
  stdout ← get_stdout;
  _ ← py_assert (any_line_has (lit "ERROR: ") stdout)
        (lit "Output does not contain expected 'ERROR: ' message.");
  received ← collect_parts 2 [];
  let err_match := re_search err_regex received in
  _ ← py_assert err_match (lit "Missing or malformed ERR message.");
  _ ← send_eof;
  sleep 200.

(** Test that the program handles an ERR message from the server correctly. *)
Definition tcp_auth_err : H X unit :=
  _ ← start_server (lit "tcp") 4567;
  _ ← setup [lit "-t"; lit "tcp"; lit "-s"; lit "localhost"; lit "-p"; lit "4567"];
  _ ← execute (lit "/auth a b c");
  message ← receive_message;
  _ ← py_assert (eq_str message (lit "AUTH a AS c USING b" ++ CRLF))
    (lit "Incoming message does not match expected AUTH message.");
  _ ← send_message (VStr (lit "ERR FROM server IS ajaj" ++ CRLF));
  _ ← sleep 200;
  stdout ← get_stdout;
  py_assert (any_line_has (lit "ERROR FROM server: ajaj") stdout)
    (lit "Output does not match expected error message.").

(** Test that the program handles a too long TCP message correctly. *)
Definition tcp_too_long_msg_minus_one : H X unit :=
  _ ← start_server (lit "tcp") 4567;
  _ ← setup [lit "-t"; lit "tcp"; lit "-s"; lit "localhost"; lit "-p"; lit "4567"];
  _ ← send_message (VStr (replicate (Z.to_nat 60033) 97 ++ CRLF));
  _ ← sleep 200;
  stdout ← get_stdout;
  _ ← py_assert (any_line_is
    (lit "ERROR: only messages of types BYE, ERR, MSG and REPLY are expected to be received from the server.")
    stdout)
    (lit "Output does not match expected error message.");
  message ← receive_message;
  py_assert (eq_str message
    (lit "ERR FROM unknown IS only messages of types BYE, ERR, MSG and REPLY are expected to be received from the server."
    ++ CRLF))
    (lit "Incoming message does not match expected ERR message.").

(** Test that the program handles a too long TCP message correctly. *)
Definition tcp_too_long_server_msg : H X unit :=
  _ ← start_server (lit "tcp") 4567;
  _ ← setup [lit "-t"; lit "tcp"; lit "-s"; lit "localhost"; lit "-p"; lit "4567"];
  _ ← send_message (VStr (replicate (Z.to_nat 60034) 97 ++ CRLF));
  _ ← sleep 200;
  stdout ← get_stdout;
  _ ← py_assert (any_line_is (lit "ERROR: too long message from server.") stdout)
    (lit "Output does not match expected error message.");
  message ← receive_message;
  py_assert (eq_str message (lit "ERR FROM unknown IS too long message from server." ++ CRLF))
    (lit "Incoming message does not match expected ERR message.").

(** Test that the program handles a too long TCP message correctly. *)
Definition tcp_too_long_server_msg_plus_one : H X unit :=
  _ ← start_server (lit "tcp") 4567;
  _ ← setup [lit "-t"; lit "tcp"; lit "-s"; lit "localhost"; lit "-p"; lit "4567"];
  _ ← send_message (VStr (replicate (Z.to_nat 60035) 97 ++ CRLF));
  _ ← sleep 200;
  stdout ← get_stdout;
  _ ← py_assert (any_line_is (lit "ERROR: too long message from server.") stdout)
    (lit "Output does not match expected error message.");
  message ← receive_message;
  py_assert (eq_str message (lit "ERR FROM unknown IS too long message from server." ++ CRLF))
    (lit "Incoming message does not match expected ERR message.").

(** Test that the program handles a too long TCP message correctly. *)
Definition tcp_too_long_server_msg_plus_one_without_end : H X unit :=
  _ ← start_server (lit "tcp") 4567;
  _ ← setup [lit "-t"; lit "tcp"; lit "-s"; lit "localhost"; lit "-p"; lit "4567"];
  _ ← send_message (VStr (replicate (Z.to_nat 60036) 97));
  _ ← sleep 200;
  stdout ← get_stdout;
  _ ← py_assert (any_line_is (lit "ERROR: too long message from server.") stdout)
    (lit "Output does not match expected error message.");
  message ← receive_message;
  py_assert (eq_str message (lit "ERR FROM unknown IS too long message from server." ++ CRLF))
    (lit "Incoming message does not match expected ERR message.").

(** Helper function to test the AUTH command followed by a Action successful reply. *)
Definition tcp_auth_reply_timeout : H X unit :=
  _ ← start_server (lit "tcp") 4567;
  _ ← setup [lit "-t"; lit "tcp"; lit "-s"; lit "localhost"; lit "-p"; lit "4567"];
  _ ← execute (lit "/auth a b c");
  message ← receive_message;
  _ ← py_assert (eq_str message (lit "AUTH a AS c USING b" ++ CRLF))
    (lit "Incoming message does not match expected AUTH message.");
  _ ← sleep 5200;
  stdout ← get_stdout;
  _ ← py_assert (any_line_is (lit "ERROR: waited too long for the server's reply.") stdout)
    (lit "Output does not match expected error message.");
  message ← receive_message;
  py_assert (eq_str message (lit "ERR FROM c IS waited too long for the server's reply." ++ CRLF))
    (lit "Incoming message does not match expected ERR message.").

(** Helper function to test the AUTH command followed by a Action successful reply. *)
Definition tcp_join_reply_timeout : H X unit :=
  _ ← start_server (lit "tcp") 4567;
  _ ← setup [lit "-t"; lit "tcp"; lit "-s"; lit "localhost"; lit "-p"; lit "4567"];
  _ ← execute (lit "/auth a b c");
  message ← receive_message;
  _ ← py_assert (eq_str message (lit "AUTH a AS c USING b" ++ CRLF))
    (lit "Incoming message does not match expected AUTH message.");
  _ ← send_message (VStr (lit "REPLY OK IS takjo brasko ale bud hodnej" ++ CRLF));
  _ ← sleep 200;
  stdout ← get_stdout;
  _ ← py_assert (any_line_has (lit "Action Success: takjo brasko ale bud hodnej") stdout)
    (lit "Output does not match expected 'Action Success: takjo brasko ale bud hodnej' output.");
  _ ← execute (lit "/join abc1");
  message ← receive_message;
  _ ← py_assert (eq_str message (lit "JOIN abc1 AS c" ++ CRLF))
    (lit "Incoming message does not match expected ERR message.");
  _ ← sleep 5100;
  message ← receive_message;
  _ ← py_assert (eq_str message (lit "ERR FROM c IS waited too long for the server's reply." ++
    CRLF))
    (lit "Incoming message does not match expected ERR message.");
  stdout ← get_stdout;
  py_assert (any_line_is (lit "ERROR: waited too long for the server's reply.") stdout)
    (lit "Output does not match expected error message.").

(** Helper function to test the AUTH command followed by a Action successful reply. *)
Definition tcp_invalid_message_type : H X unit :=
  _ ← start_server (lit "tcp") 4567;
  _ ← setup [lit "-t"; lit "tcp"; lit "-s"; lit "localhost"; lit "-p"; lit "4567"];
  _ ← send_message (VStr (lit "invalidmsgtype" ++ CRLF));
  _ ← sleep 200;
  message ← receive_message;
  _ ← py_assert (eq_str message
    (lit "ERR FROM unknown IS only messages of types BYE, ERR, MSG and REPLY are expected to be received from the server."
    ++ CRLF))
    (lit "Incoming message does not match expected ERR message.");
  stdout ← get_stdout;
  py_assert (any_line_is
    (lit "ERROR: only messages of types BYE, ERR, MSG and REPLY are expected to be received from the server.")
    stdout)
    (lit "Output does not match expected error message.").

(** Helper function to test the AUTH command followed by a Action successful reply. *)
Definition tcp_unexpected_message_type : H X unit :=
  _ ← start_server (lit "tcp") 4567;
  _ ← setup [lit "-t"; lit "tcp"; lit "-s"; lit "localhost"; lit "-p"; lit "4567"];
  _ ← send_message (VStr (lit "JOIN" ++ CRLF));
  _ ← sleep 200;
  message ← receive_message;
  _ ← py_assert (eq_str message
    (lit "ERR FROM unknown IS only messages of types BYE, ERR, MSG and REPLY are expected to be received from the server."
    ++ CRLF))
    (lit "Incoming message does not match expected ERR message.");
  stdout ← get_stdout;
  py_assert (any_line_is
    (lit "ERROR: only messages of types BYE, ERR, MSG and REPLY are expected to be received from the server.")
    stdout)
    (lit "Output does not match expected error message.").

(** Helper function to test the AUTH command followed by a Action successful reply. *)
Definition tcp_auth_reply_delay : H X unit :=
  _ ← start_server (lit "tcp") 4567;
  _ ← setup [lit "-t"; lit "tcp"; lit "-s"; lit "localhost"; lit "-p"; lit "4567"];
  _ ← execute (lit "/auth a b c");
  message ← receive_message;
  _ ← py_assert (eq_str message (lit "AUTH a AS c USING b" ++ CRLF))
    (lit "Incoming message does not match expected AUTH message.");
  _ ← sleep 4200;
  _ ← send_message (VStr (lit "RepLy Nok iS something wrong has happened." ++ CRLF));
  _ ← sleep 200;
  stdout ← get_stdout;
  py_assert (any_line_is (lit "Action Failure: something wrong has happened.") stdout)
    (lit "Output does not match expected error message.").

(** Helper function to test the AUTH command followed by a Action successful reply. *)
Definition tcp_join_reply_delay : H X unit :=
  _ ← start_server (lit "tcp") 4567;
  _ ← setup [lit "-t"; lit "tcp"; lit "-s"; lit "localhost"; lit "-p"; lit "4567"];
  _ ← execute (lit "/auth a b c");
  message ← receive_message;
  _ ← py_assert (eq_str message (lit "AUTH a AS c USING b" ++ CRLF))
    (lit "Incoming message does not match expected AUTH message.");
  _ ← send_message (VStr (lit "REPLY OK IS takjo brasko ale bud hodnej" ++ CRLF));
  _ ← sleep 200;
  stdout ← get_stdout;
  _ ← py_assert (any_line_has (lit "Action Success: takjo brasko ale bud hodnej") stdout)
    (lit "Output does not match expected 'Action Success: takjo brasko ale bud hodnej' output.");
  _ ← execute (lit "/join abc1");
  _ ← sleep 4700;
  _ ← send_message (VStr (lit "RepLy Nok iS something wrong has happened." ++ CRLF));
  _ ← sleep 200;
  stdout ← get_stdout;
  py_assert (any_line_is (lit "Action Failure: something wrong has happened.") stdout)
    (lit "Output does not match expected error message.").

(** Helper function to test the AUTH command followed by a Action successful reply. *)
Definition tcp_processing_server_messages_while_joining : H X unit :=
  _ ← start_server (lit "tcp") 4567;
  _ ← setup [lit "-t"; lit "tcp"; lit "-s"; lit "localhost"; lit "-p"; lit "4567"];
  _ ← execute (lit "/auth a b c");
  message ← receive_message;
  _ ← py_assert (eq_str message (lit "AUTH a AS c USING b" ++ CRLF))
    (lit "Incoming message does not match expected AUTH message.");
  _ ← send_message (VStr (lit "REPLY OK IS takjo brasko ale bud hodnej" ++ CRLF));
  _ ← sleep 200;
  stdout ← get_stdout;
  _ ← py_assert (any_line_has (lit "Action Success: takjo brasko ale bud hodnej") stdout)
    (lit "Output does not match expected 'Action Success: takjo brasko ale bud hodnej' output.");
  _ ← execute (lit "/join abc1");
  _ ← send_message (VStr (lit "MSG FROM server1 is msg from server 1." ++ CRLF));
  _ ← send_message (VStr (lit "MSG FROM server2 is msg from server 2." ++ CRLF));
  _ ← sleep 2500;
  _ ← send_message (VStr (lit "MSG FROM server3 is msg from server 3." ++ CRLF));
  _ ← sleep 1800;
  _ ← send_message (VStr (lit "RepLy oK iS something is something :))))." ++ CRLF));
  _ ← sleep 200;
  stdout ← get_stdout;
  let expected_output := py_dedent (lit "        server1: msg from server 1." ++ [LF] ++
    lit "        server2: msg from server 2." ++ [LF] ++ lit "        server3: msg from server 3."
    ++ [LF] ++ lit "        Action Success: something is something :))))." ++ [LF] ++ lit "    ")
    in
  let stdout_clean := py_strip stdout in
  let expected_clean := py_strip expected_output in
  py_assert (stdout_clean =s? expected_clean)
    ([LF] ++ lit "Expected:" ++ [LF] ++ expected_clean ++ [LF] ++ [LF] ++ lit "Got:" ++ [LF] ++
      stdout_clean).

(** Helper function to test the AUTH command followed by a Action successful reply. *)
Definition tcp_all_good_after_auth_reply_delay : H X unit :=
  _ ← start_server (lit "tcp") 4567;
  _ ← setup [lit "-t"; lit "tcp"; lit "-s"; lit "localhost"; lit "-p"; lit "4567"];
  _ ← execute (lit "/auth a b c");
  message ← receive_message;
  _ ← py_assert (eq_str message (lit "AUTH a AS c USING b" ++ CRLF))
    (lit "Incoming message does not match expected AUTH message.");
  _ ← sleep 4200;
  _ ← send_message (VStr (lit "RepLy Nok iS something wrong has happened." ++ CRLF));
  _ ← sleep 200;
  stdout ← get_stdout;
  _ ← py_assert (any_line_is (lit "Action Failure: something wrong has happened.") stdout)
    (lit "Output does not match expected error message.");
  _ ← sleep 6000;
  _ ← execute (lit "/auth x y z");
  message ← receive_message;
  _ ← py_assert (eq_str message (lit "AUTH x AS z USING y" ++ CRLF))
    (lit "Incoming message does not match expected AUTH message.");
  _ ← send_message (VStr (lit "RepLy oK iS allright" ++ CRLF));
  _ ← sleep 200;
  stdout ← get_stdout;
  _ ← py_assert (any_line_is (lit "Action Success: allright") stdout)
    (lit "Output does not match expected error message.");
  _ ← send_message (VStr (lit "MSG from user1234 Is elchin krasavs kawasaki" ++ CRLF));
  _ ← sleep 200;
  stdout ← get_stdout;
  py_assert (any_line_is (lit "user1234: elchin krasavs kawasaki") stdout)
    (lit "Output does not match expected error message.").

(** Helper function to test the AUTH command followed by a Action successful reply. *)
Definition tcp_all_good_after_join_reply_delay : H X unit :=
  _ ← start_server (lit "tcp") 4567;
  _ ← setup [lit "-t"; lit "tcp"; lit "-s"; lit "localhost"; lit "-p"; lit "4567"];
  _ ← execute (lit "/auth a b c");
  message ← receive_message;
  _ ← py_assert (eq_str message (lit "AUTH a AS c USING b" ++ CRLF))
    (lit "Incoming message does not match expected AUTH message.");
  _ ← send_message (VStr (lit "RepLy OK iS something wrong has happened." ++ CRLF));
  _ ← sleep 200;
  stdout ← get_stdout;
  _ ← py_assert (any_line_is (lit "Action Success: something wrong has happened.") stdout)
    (lit "Output does not match expected error message.");
  _ ← execute (lit "/join someshi");
  message ← receive_message;
  _ ← py_assert (eq_str message (lit "JOIN someshi AS c" ++ CRLF))
    (lit "Incoming message does not match expected AUTH message.");
  _ ← sleep 4200;
  _ ← send_message (VStr (lit "RepLy Nok iS something wrong has happened." ++ CRLF));
  _ ← sleep 200;
  stdout ← get_stdout;
  _ ← py_assert (any_line_is (lit "Action Failure: something wrong has happened.") stdout)
    (lit "Output does not match expected error message.");
  _ ← sleep 6000;
  _ ← send_message (VStr (lit "MSG from user1234 Is elchin krasavs kawasaki" ++ CRLF));
  _ ← sleep 200;
  stdout ← get_stdout;
  py_assert (any_line_is (lit "user1234: elchin krasavs kawasaki") stdout)
    (lit "Output does not match expected error message.").

(** Test verifies that TCP grammar is case-insensitive for REPLY, MSG, and ERR server packets. *)
Definition tcp_grammar_is_case_insensitive : H X unit :=
  _ ← start_server (lit "tcp") 4567;
  _ ← setup [lit "-t"; lit "tcp"; lit "-s"; lit "localhost"; lit "-p"; lit "4567"];
  _ ← execute (lit "/auth a b c");
  message ← receive_message;
  _ ← py_assert (eq_str message (lit "AUTH a AS c USING b" ++ CRLF))
    (lit "AUTH message mismatch.");
  _ ← send_message (VStr (lit "rEpLy oK is authenticated" ++ CRLF));
  _ ← sleep 200;
  stdout ← get_stdout;
  _ ← py_assert (any_line_has (lit "Action Success: authenticated") stdout)
    (lit "Client did not report successful reply.");
  _ ← send_message (VStr (lit "mSg fRoM teSter Is message" ++ CRLF));
  _ ← sleep 200;
  stdout ← get_stdout;
  _ ← py_assert (any_line_has (lit "teSter: message") stdout)
    (lit "Client did not receive expected message.");
  _ ← send_message (VStr (lit "eRR FrOm teSter iS message" ++ CRLF));
  _ ← sleep 200;
  stdout ← get_stdout;
  py_assert (any_line_has (lit "ERROR FROM teSter: message") stdout)
    (lit "Client did not report expected error message.").

End TESTS.
