(* ===== verification/Runner.v ===== *)
(** The test runner of testo.py: the decorator [testcase], [run_tests] and the command line, over
    the test cases of a script; [testo_suite] are those of testo.py. *)
From S2P Require Import Prelude PyRuntime Executable Tester TestCasesUdp TestCasesTcp.

(** * State *)

(** The tester in use and the texts printed so far, one per call of [print]. *)
Record session (X : Type) : Type := MkSession {
  the_tester : tester X;
  printed : list chars
}.
Arguments MkSession {X}.
Arguments the_tester {X} _.
Arguments printed {X} _.

(** How the program ends early: [sys.exit], an exception nobody catches, or never. *)
Inductive quit : Type :=
| SystemExit (code : Z)
| Uncaught (e : py_exn)
| Never.

Abbreviation R X := (M (session X) quit).

(** A test case under its [__name__]. *)
Record testcase_func (X : Type) : Type := MkTest {
  test_name : chars;
  test_func : H X unit
}.
Arguments MkTest {X}.
Arguments test_name {X} _.
Arguments test_func {X} _.

(** What differs between the two scripts that share the runner's code: their decorated test cases,
    in the order of the file, and the method [dump] of their tester. *)
Class Suite (X : Type) : Type := {
  declared : list (testcase_func X);
  suite_dump : H X (list (chars * chars))
}.

(** The colours of [termcolor]. *)
Inductive colour : Type := Yellow | Green | Red | Magenta.

Section RUNNER.

Context {X : Type} `{Executable X} `{Suite X}.

(** [termcolor.colored], the message of an exception of the standard library, and
    [get_terminal_size().columns], which raises when standard output is not a terminal. *)
Context (colored : chars -> colour -> chars) (message_of : py_exn -> chars) (columns : py Z).

Definition print (text : chars) : R X unit :=
  modify (fun s => MkSession (the_tester s) (printed s ++ [text])).

(** A computation of the harness, in a session. *)
Definition on_tester {A} (m : H X A) : R X (result py_exn A) := fun s =>
  match m (the_tester s) with
  | (t, Ok a) => (MkSession t (printed s), Ok (Ok a))
  | (t, Err (Raised e)) => (MkSession t (printed s), Ok (Err e))
  | (t, Err Hang) => (MkSession t (printed s), Err Never)
  end.

Definition or_uncaught {A} (m : R X (result py_exn A)) : R X A :=
  r ← m;
  match r with Ok a => mret a | Err e => throw (Uncaught e) end.

(** * The decorator *)

Definition equals_signs (n : Z) : chars := replicate (Z.to_nat n) 61.

Definition hourglass : chars := [9203].
Definition tick_mark : chars := [9989].
Definition cross_mark : chars := [10060].

Definition quoted (name : chars) : chars := lit "'" ++ name ++ lit "'".

Fixpoint print_texts (texts : list (chars * chars)) : R X unit :=
  match texts with
  | [] => mret tt
  | (heading, text) :: rest =>
      _ ← print (colored heading Magenta);
      _ ← print text;
      print_texts rest
  end.

Definition print_dump : R X unit := texts ← or_uncaught (on_tester suite_dump); print_texts texts.

(** The header line around the title. *)
Definition print_title (name : chars) : R X unit :=
  let title := SP :: hourglass ++ lit " Starting test " ++ quoted name ++ lit " " in
  let len_title := Z.of_nat (length title) in
  width ← match columns with Ok w => mret w | Err e => throw (Uncaught e) end;
  let start_sep := equals_signs ((width - len_title - 1) / 2) in
  let end_sep := equals_signs (width - (Z.of_nat (length start_sep) + len_title) - 1) in
  print (colored ([LF] ++ start_sep ++ title ++ end_sep) Yellow).

(** The verdict on a test body that returned or raised. *)
Definition report (name : chars) (r : result py_exn unit) : R X bool :=
  match r with
  | Ok _ =>
      _ ← print (colored (tick_mark ++ lit " Test " ++ quoted name ++ lit ": PASSED") Green);
      mret true
  | Err (AssertionError e) =>
      _ ← print (colored (cross_mark ++ lit " Test " ++ quoted name ++ lit ": FAILED - " ++ e) Red);
      _ ← print_dump;
      mret false
  | Err (TimeoutError e) =>
      _ ← print (colored (cross_mark ++ lit " Test " ++ quoted name ++ lit ": FAILED - Timeout - "
                          ++ e) Red);
      _ ← print_dump;
      mret false
  | Err e =>
      _ ← print (colored (cross_mark ++ lit " Test " ++ quoted name ++ lit ": ERROR - "
                          ++ message_of e) Red);
      mret false
  end.

(** [wrapper], the function the decorator makes of a test case. *)
Definition wrapper (t : testcase_func X) : R X bool :=
  let name := test_name t in
  _ ← print_title name;
  r ← on_tester (test_func t);
  passed ← report name r;
  _ ← print (colored (lit "Test " ++ quoted name ++ lit " finished") Yellow);
  _ ← or_uncaught (on_tester teardown);
  mret passed.

(** Registration: by the name, in the order of the declarations. *)
Definition register (lists : list (testcase_func X) * list (testcase_func X))
    (t : testcase_func X) : list (testcase_func X) * list (testcase_func X) :=
  let (udp, tcp) := lists in
  if py_in (lit "udp") (test_name t) then (udp ++ [t], tcp)
  else if py_in (lit "tcp") (test_name t) then (udp, tcp ++ [t])
  else (udp, tcp).

Definition registered : list (testcase_func X) * list (testcase_func X) :=
  fold_left register declared ([], []).
Definition udp_test_cases : list (testcase_func X) := fst registered.
Definition tcp_test_cases : list (testcase_func X) := snd registered.

(** * [run_tests] *)

(** [tester = ExecutableTester(executable_path)] *)
Definition new_tester : R X unit :=
  modify (fun s => MkSession (tester_init (now (the_tester s))) (printed s)).

(** The loop over one list of test cases: how many passed. *)
Fixpoint run_all (ts : list (testcase_func X)) (test_cases_passed : Z) : R X Z :=
  match ts with
  | [] => mret test_cases_passed
  | t :: ts' =>
      _ ← new_tester;
      passed ← wrapper t;
      run_all ts' (test_cases_passed + if passed : bool then 1 else 0)
  end.

(** The loop that looks for one name: whether it passed, if it is there. *)
Fixpoint run_named (ts : list (testcase_func X)) (name : chars) : R X (option bool) :=
  match ts with
  | [] => mret None
  | t :: ts' =>
      if test_name t =s? name then passed ← wrapper t; mret (Some passed)
      else run_named ts' name
  end.

Definition print_summary (test_cases_passed total_cases : Z) : R X unit :=
  let all := test_cases_passed =? total_cases in
  print (colored ([LF] ++ (if all then tick_mark else cross_mark) ++ lit " "
    ++ py_str_of_int test_cases_passed ++ lit "/" ++ py_str_of_int total_cases
    ++ lit " test cases passed") (if all then Green else Red)).

Definition b2z (b : bool) : Z := if b then 1 else 0.

Definition run_tests (udp tcp : bool) (test_case : option chars) : R X unit :=
  _ ← new_tester;
  match test_case with
  | None =>
      passed ← (if udp then run_all udp_test_cases 0 else mret 0);
      passed ← (if tcp then run_all tcp_test_cases passed else mret passed);
      print_summary passed
        ((if udp then Z.of_nat (length udp_test_cases) else 0)
         + (if tcp then Z.of_nat (length tcp_test_cases) else 0))
  | Some name =>
      found ← (if udp then run_named udp_test_cases name else mret None);
      found ← (match found with
               | Some passed => mret (Some passed)
               | None => if tcp then run_named tcp_test_cases name else mret None
               end);
      match found with
      | Some passed => print_summary (b2z passed) 1
      | None =>
          print (lit "Error: Test case " ++ quoted name
                 ++ lit " not found in the specified protocol tests.")
      end
  end.

(** * The command line *)

Record options : Type := MkOptions {
  opt_debug : bool;
  opt_udp : bool;
  opt_tcp : bool;
  opt_test_case : option chars;
  opt_executable_path : option chars
}.

Definition exit_with_error {A} (text : chars) : R X A := _ ← print text; throw (SystemExit 1).

Definition known_test (name : chars) : bool :=
  existsb (fun t => test_name t =s? name) (udp_test_cases ++ tcp_test_cases).

(** The loop over [iter(sys.argv[1:])]; [-t] and [-p] take the next argument. *)
Fixpoint parse_options (args : list chars) (o : options) : R X options :=
  match args with
  | [] => mret o
  | arg :: rest =>
      if arg =s? lit "-d" then
        parse_options rest (MkOptions true (opt_udp o) (opt_tcp o) (opt_test_case o)
          (opt_executable_path o))
      else if arg =s? lit "-t" then
        match rest with
        | [] => exit_with_error (lit "Error: -t requires a test case name.")
        | name :: rest' =>
            if known_test name then
              parse_options rest' (MkOptions (opt_debug o) (opt_udp o) (opt_tcp o) (Some name)
                (opt_executable_path o))
            else exit_with_error
                   (lit "Error: Test case " ++ quoted name ++ lit " not recognized.")
        end
      else if arg =s? lit "-p" then
        match rest with
        | [] => exit_with_error (lit "Error: -p requires a protocol name (udp or tcp).")
        | name :: rest' =>
            let protocol := py_lower name in
            if protocol =s? lit "udp" then
              parse_options rest' (MkOptions (opt_debug o) (opt_udp o) false (opt_test_case o)
                (opt_executable_path o))
            else if protocol =s? lit "tcp" then
              parse_options rest' (MkOptions (opt_debug o) false (opt_tcp o) (opt_test_case o)
                (opt_executable_path o))
            else exit_with_error (lit "Error: Protocol must be either 'udp' or 'tcp'.")
        end
      else match opt_executable_path o with
           | None =>
               parse_options rest (MkOptions (opt_debug o) (opt_udp o) (opt_tcp o)
                 (opt_test_case o) (Some arg))
           | Some _ =>
               exit_with_error
                 (lit "Error: Unexpected argument or executable path already set.")
           end
  end.

Definition default_options : options := MkOptions false true true None None.

Definition usage : chars :=
  lit "Usage: python test_executable.py <path_to_executable> [-d: debug] [-t <testcase_name>] [-p <udp|tcp>]".

(** The program: [argv] is [sys.argv], with the script's name first.  The
    executable's path picks the program that [exec] starts. *)
Definition main (argv : list chars) : R X unit :=
  if existsb (fun a => a =s? lit "-h") argv then _ ← print usage; throw (SystemExit 0)
  else
    o ← parse_options (tail argv) default_options;
    match opt_executable_path o with
    | None => exit_with_error (lit "Error: Path to executable is required.")
    | Some executable_path => run_tests (opt_udp o) (opt_tcp o) (opt_test_case o)
    end.

End RUNNER.

(** * The script testo.py *)

Section TESTO.

Context {X : Type} `{Executable X}.

(** The decorated functions of the file. *)
Definition testo_tests : list (testcase_func X) := [
  MkTest (lit "no_args") no_args;
  MkTest (lit "no_type_arg") no_type_arg;
  MkTest (lit "no_hostname") no_hostname;
  MkTest (lit "all_args") all_args;
  MkTest (lit "udp_help_command") udp_help_command;
  MkTest (lit "udp_hello") udp_hello;
  MkTest (lit "udp_not_auth") udp_not_auth;
  MkTest (lit "udp_invalid_command") udp_invalid_command;
  MkTest (lit "udp_auth") udp_auth;
  MkTest (lit "udp_auth_port") udp_auth_port;
  MkTest (lit "udp_auth_nok") udp_auth_nok;
  MkTest (lit "udp_rename_multiple") udp_rename_multiple;
  MkTest (lit "udp_auth_nok_ok") udp_auth_nok_ok;
  MkTest (lit "udp_auth_port_change") udp_auth_port_change;
  MkTest (lit "udp_auth_ok") udp_auth_ok;
  MkTest (lit "udp_msg") udp_msg;
  MkTest (lit "udp_svr_msg") udp_svr_msg;
  MkTest (lit "udp_ping") udp_ping;
  MkTest (lit "udp_bye1") udp_bye1;
  MkTest (lit "udp_bye2") udp_bye2;
  MkTest (lit "udp_server_bye") udp_server_bye;
  MkTest (lit "udp_send_receive_multiple") udp_send_receive_multiple;
  MkTest (lit "udp_retransmit_missing_confirm1") udp_retransmit_missing_confirm1;
  MkTest (lit "udp_retransmit_missing_confirm2") udp_retransmit_missing_confirm2;
  MkTest (lit "udp_ignore_duplicate_server_msg") udp_ignore_duplicate_server_msg;
  MkTest (lit "udp_server_err1") udp_server_err1;
  MkTest (lit "udp_server_err2") udp_server_err2;
  MkTest (lit "udp_join_ok") udp_join_ok;
  MkTest (lit "udp_join_nok") udp_join_nok;
  MkTest (lit "udp_multiple_auth") udp_multiple_auth;
  MkTest (lit "udp_invalid_msg") udp_invalid_msg;
  MkTest (lit "udp_auth_err") udp_auth_err;
  MkTest (lit "udp_reports_error_when_missing_confirmation") udp_reports_error_when_missing_confirmation;
  MkTest (lit "udp_reply_5_sec_error_auth") udp_reply_5_sec_error_auth;
  MkTest (lit "udp_reply_5_sec_error_join") udp_reply_5_sec_error_join;
  MkTest (lit "tcp_sigint") tcp_sigint;
  MkTest (lit "tcp_sigint_and_bye") tcp_sigint_and_bye;
  MkTest (lit "tcp_server_bye") tcp_server_bye;
  MkTest (lit "tcp_rename") tcp_rename;
  MkTest (lit "tcp_rename_multiple") tcp_rename_multiple;
  MkTest (lit "tcp_help_command") tcp_help_command;
  MkTest (lit "tcp_send_receive_multiple") tcp_send_receive_multiple;
  MkTest (lit "tcp_multiple_messages_single_segment") tcp_multiple_messages_single_segment;
  MkTest (lit "tcp_single_message_multiple_segments2") tcp_single_message_multiple_segments2;
  MkTest (lit "tcp_single_message_multiple_segments") tcp_single_message_multiple_segments;
  MkTest (lit "tcp_receive_two_messages_within_3_segments") tcp_receive_two_messages_within_3_segments;
  MkTest (lit "tcp_hello") tcp_hello;
  MkTest (lit "tcp_not_auth") tcp_not_auth;
  MkTest (lit "tcp_invalid_command") tcp_invalid_command;
  MkTest (lit "tcp_auth") tcp_auth;
  MkTest (lit "tcp_auth_ok") tcp_auth_ok_first;
  MkTest (lit "tcp_auth_nok") tcp_auth_nok;
  MkTest (lit "tcp_auth_port") tcp_auth_port;
  MkTest (lit "tcp_auth_nok_ok") tcp_auth_nok_ok;
  MkTest (lit "tcp_auth_ok") tcp_auth_ok;
  MkTest (lit "tcp_msg") tcp_msg;
  MkTest (lit "tcp_svr_msg") tcp_svr_msg;
  MkTest (lit "tcp_bye") tcp_bye;
  MkTest (lit "tcp_bye_in_auth") tcp_bye_in_auth;
  MkTest (lit "tcp_server_err1") tcp_server_err1;
  MkTest (lit "tcp_server_err2") tcp_server_err2;
  MkTest (lit "tcp_join_ok") tcp_join_ok;
  MkTest (lit "tcp_join_nok") tcp_join_nok;
  MkTest (lit "tcp_multiple_auth") tcp_multiple_auth;
  MkTest (lit "tcp_invalid_msg") tcp_invalid_msg;
  MkTest (lit "tcp_auth_err") tcp_auth_err;
  MkTest (lit "tcp_too_long_msg_minus_one") tcp_too_long_msg_minus_one;
  MkTest (lit "tcp_too_long_server_msg") tcp_too_long_server_msg;
  MkTest (lit "tcp_too_long_server_msg_plus_one") tcp_too_long_server_msg_plus_one;
  MkTest (lit "tcp_too_long_server_msg_plus_one_without_end") tcp_too_long_server_msg_plus_one_without_end;
  MkTest (lit "tcp_auth_reply_timeout") tcp_auth_reply_timeout;
  MkTest (lit "tcp_join_reply_timeout") tcp_join_reply_timeout;
  MkTest (lit "tcp_invalid_message_type") tcp_invalid_message_type;
  MkTest (lit "tcp_unexpected_message_type") tcp_unexpected_message_type;
  MkTest (lit "tcp_auth_reply_delay") tcp_auth_reply_delay;
  MkTest (lit "tcp_join_reply_delay") tcp_join_reply_delay;
  MkTest (lit "tcp_processing_server_messages_while_joining") tcp_processing_server_messages_while_joining;
  MkTest (lit "tcp_all_good_after_auth_reply_delay") tcp_all_good_after_auth_reply_delay;
  MkTest (lit "tcp_all_good_after_join_reply_delay") tcp_all_good_after_join_reply_delay;
  MkTest (lit "tcp_grammar_is_case_insensitive") tcp_grammar_is_case_insensitive
].

#[export] Instance testo_suite : Suite X := { declared := testo_tests; suite_dump := dump }.

End TESTO.
