(* ===== verification/UdpSpec.v ===== *)
(** What the UDP client promises: its datagrams are the harness's messages, a message is
    retransmitted as often as allowed and no more, a server message is shown once however often
    it comes, and the timer only runs while something is awaited. *)
From S2P Require Import Prelude PyRuntime UDPMessages UDPTranslator Args Kernel Regex Client.
From S2P Require Import ClientSpec UdpClient Process Reachable.

(** * The client's datagrams and the harness's messages *)

Definition plain (s : chars) : Prop := ascii_text s /\ no_nul s.

(** [agrees m c msg]: the computation leaves in [m_msg_to_server] the datagram the harness's
    builder makes of [msg], which the harness's translator reads back. *)
Definition agrees (m : UM unit) (c : udp_client) (msg : message) : Prop :=
  snd (m c) = Ok tt
  /\ build msg = Ok (m_msg_to_server (fst (m c)))
  /\ translateMessage (m_msg_to_server (fst (m c))) = Ok (Some (render msg)).

Lemma encode_all_plain ss :
  Forall plain ss -> encode_all ss = Ok (concat (map (fun s => s ++ [NUL]) ss)).
Proof.
  induction 1 as [|s ss [Hs _] _ IH]; [done|]. cbn.
  rewrite (encode_z_ok s s) by (by apply py_encode_ascii). cbn. by rewrite IH.
Qed.

Lemma agrees_intro m c msg :
  snd (m c) = Ok tt -> Forall plain (strings msg) -> ref_ok msg -> id_ok msg -> result_ok msg ->
  m_msg_to_server (fst (m c)) = UDPMessages.type_byte msg :: id_bytes msg ++ reply_fields msg
    ++ concat (map (fun s => s ++ [NUL]) (strings msg)) ->
  agrees m c msg.
Proof.
  intros Hm Hs Hr Hi Hres E. pose proof (encode_all_plain _ Hs) as He.
  split; [done|]. rewrite E. split; [by apply build_layout|].
  apply translate_layout; [done| |done]. eapply Forall_impl; [exact Hs|]. by intros s [].
Qed.

Lemma uint16_range z : 0 <= uint16 z < 65536.
Proof. unfold uint16. lia. Qed.

(** C24. The client and the harness agree on every datagram the client can send: the bytes the client
    builds for AUTH, JOIN, MSG, ERR and BYE are those of the harness's Python builder for the same
    fields, and the harness's translator prints the line expected for them. ERR and BYE carry the
    next message id, which wraps at 16 bits. *)
Theorem udp_messages_agree c a b :
  0 <= m_msg_to_server_id (ext c) < 65536 -> plain (m_user_display_name c) -> plain a -> plain b ->
  let id := m_msg_to_server_id (ext c) in
  let name := m_user_display_name c in
  agrees (udp_buildAuthMsg a b) c (MAuth id a name b)
  /\ agrees (udp_buildJoinMsg a) c (MJoin id a name)
  /\ agrees (udp_buildMsgMsg a) c (MMsg id name a)
  /\ agrees (udp_buildErrMsg a) c (MErr (uint16 (id + 1)) name a)
  /\ agrees udp_buildByeMsg c (MBye (uint16 (id + 1)) name).
Proof.
  intros Hid Hn Ha Hb id name. pose proof (uint16_range (id + 1)).
  refine (conj _ (conj _ (conj _ (conj _ _)))); apply agrees_intro; try done;
    try (repeat (apply Forall_cons_2 || apply Forall_nil_2); done);
    cbn [strings map concat]; rewrite app_nil_r, <- ?app_assoc; reflexivity.
Qed.

Definition sample_args : Args := MkArgs 4567 250 3 false false (MkAddr 2130706433 4567).
Definition sample_udp : udp_client := Udp_client_init sample_args (os_start 0).

Lemma udp_messages_agree_witness :
  agrees (udp_buildAuthMsg (lit "a") (lit "b")) sample_udp
    (MAuth 0 (lit "a") (lit "unknown") (lit "b")).
Proof.
  apply (udp_messages_agree sample_udp (lit "a") (lit "b")); [cbn; lia|..];
    split; repeat constructor; vm_compute; congruence.
Defined.

(** * Retransmission *)

(** The timer fires [n] times. *)
Fixpoint fires (n : nat) : UM unit :=
  match n with
  | O => mret tt
  | S n' => _ ← udp_processTimerEvent; fires n'
  end.

(** A client that waits for a CONFIRM, with [n] retransmissions left. *)
Record awaits_confirm (n : nat) (c : udp_client) : Prop := {
  await_flag : m_is_waiting_for_confirm (ext c) || m_is_waiting_for_bye_confirm (ext c) = true;
  await_left : m_allowed_retransmissions (ext c) = Z.of_nat n;
  await_small : (n < 256)%nat;
  await_sends : send_fails (kernel c) = false
}.

(** What one transmission adds to what was sent. *)
Definition transmission (c : udp_client) : sockaddr_in * chars :=
  (m_server_addr (m_args c), m_msg_to_server c).

Lemma read_timer_fields k :
  send_fails (read_timer k) = send_fails k /\ sent (read_timer k) = sent k
  /\ clock (read_timer k) = clock k.
Proof. unfold read_timer. by destruct (timer_ready k). Qed.

Lemma fire_once n c :
  awaits_confirm (S n) c ->
  exists c', udp_processTimerEvent c = (c', Ok tt) /\ awaits_confirm n c'
    /\ transmission c' = transmission c /\ m_args c' = m_args c
    /\ kernel c' = timerfd_settime (uint16 (m_udp_confirm_timeout (m_args c)))
         (set_sent (sent (kernel c) ++ [transmission c]) (read_timer (kernel c))).
Proof.
  intros [Hf Hl Hs Hok]. destruct (read_timer_fields (kernel c)) as (R1 & R2 & R3).
  unfold udp_processTimerEvent, udp_sendMsgToServer, start_confirm_timer, send_to_server,
    send_packet, mbind, M_bind, modify, get, startTimer. cbn.
  rewrite Hf, Hl. solve_test. cbn. rewrite R1, Hok. cbn.
  eexists. split; [reflexivity|]. split; [split; cbn; try done; [|lia|by rewrite R1]|].
  - unfold uint8. lia.
  - cbn. rewrite R2. done.
Qed.

Lemma fire_last c :
  awaits_confirm 0 c ->
  exists c', udp_processTimerEvent c
      = (c', Err (Thrown (lit "exceeded udp max retransmission number.")))
    /\ kernel c' = read_timer (kernel c).
Proof.
  intros [Hf Hl _ _].
  unfold udp_processTimerEvent, mbind, M_bind, modify, get, throw. cbn. rewrite Hf, Hl. cbn.
  by eexists.
Qed.

Lemma fires_sent n m c :
  awaits_confirm (n + m) c ->
  exists c', fires n c = (c', Ok tt) /\ awaits_confirm m c' /\ transmission c' = transmission c
    /\ sent (kernel c') = sent (kernel c) ++ replicate n (transmission c).
Proof.
  revert c. induction n as [|n IH]; intros c Hc.
  - exists c. rewrite app_nil_r. done.
  - cbn [fires]. destruct (fire_once (n + m) c Hc) as (c1 & E1 & H1 & T1 & _ & K1).
    assert (sent (kernel c1) = sent (kernel c) ++ [transmission c]) as S1 by by rewrite K1.
    destruct (IH c1 H1) as (c2 & E2 & H2 & T2 & S2). exists c2.
    rewrite (bind_ok _ _ _ _ _ E1). split; [done|]. split; [done|]. split; [congruence|].
    rewrite S2, S1, T1, <- app_assoc. done.
Qed.

(** C16. A message that is never confirmed is sent again, byte for byte, exactly as many times as
    retransmissions are left, each time to the current server address; the next expiry of the
    timer sends nothing and ends the client with the retransmission error. *)
Theorem udp_retransmissions r c :
  awaits_confirm r c ->
  exists c' c'', fires r c = (c', Ok tt)
    /\ sent (kernel c') = sent (kernel c) ++ replicate r (transmission c)
    /\ fires (S r) c = (c'', Err (Thrown (lit "exceeded udp max retransmission number.")))
    /\ sent (kernel c'') = sent (kernel c').
Proof.
  intros Hc. destruct (fires_sent r 0 c) as (c' & E & H0 & _ & Hs); [by rewrite Nat.add_0_r|].
  destruct (fire_last c' H0) as (c'' & E' & Hk). exists c', c''.
  split; [done|]. split; [done|]. split; [|rewrite Hk; apply read_timer_fields]. clear Hs Hk H0 Hc. revert c E.
  induction r as [|r IH]; intros c E.
  - injection E as ->. cbn [fires]. unfold mbind, M_bind. by rewrite E'.
  - change (fires (S (S r)) c) with ((udp_processTimerEvent ≫= fun _ => fires (S r)) c).
    change (fires (S r) c) with ((udp_processTimerEvent ≫= fun _ => fires r) c) in E.
    unfold mbind, M_bind in *. destruct (udp_processTimerEvent c) as [c1 [[]|e]]; [|done].
    by apply IH.
Qed.

(** A client that has just sent its AUTH. *)
Definition sample_sent : udp_client :=
  fst (udp_processStdinEvent false false
    (on_kernel (set_pipe (lit "/auth a b c" ++ [LF])) sample_udp)).

Lemma udp_retransmissions_witness :
  exists c', fires 3 sample_sent = (c', Ok tt)
    /\ sent (kernel c') = replicate 4 (MkAddr 2130706433 4567, [2; 0; 0; 97; 0; 99; 0; 98; 0]).
Proof.
  destruct (udp_retransmissions 3 sample_sent) as (c' & c'' & E & Hs & _).
  - split; [reflexivity|reflexivity|lia|reflexivity].
  - exists c'. split; [exact E|]. rewrite Hs. reflexivity.
Defined.

(** * Messages from the server *)

(** A CONFIRM was sent for a message of the server. *)
Definition confirmed_server (id : Z) (c : udp_client) : udp_client :=
  set_ext (set_confirmed_server_messages ({[ id ]} ∪ m_confirmed_server_messages (ext c)) (ext c))
    (set_kernel (set_sent (sent (kernel c) ++ [(m_server_addr (m_args c), [0; id / 256; id mod 256])])
       (kernel c)) c).

Lemma sendConfirm_ok id c :
  send_fails (kernel c) = false -> sendConfirmMsg id c = (confirmed_server id c, Ok tt).
Proof.
  intros Hs. unfold sendConfirmMsg, send_to_server, send_packet, mbind, M_bind, modify.
  by rewrite Hs.
Qed.

(** The name and the text of a MSG or an ERR the client can show. *)
Definition shown (name text : chars) : Prop :=
  printable_chars name /\ text_chars text /\ isValidDisplayNameLength (strlen name) = true
  /\ isValidMsgContentLength (strlen text) = true /\ strlen name + strlen text <= 60002.

Lemma printable_ascii name : printable_chars name -> plain name.
Proof.
  intros [_ H]. unfold all_chars, is_printable in H.
  split; eapply Forall_impl; try exact H; cbn; intros x Hx; unfold NUL; bool_to_prop; lia.
Qed.

Lemma text_ascii text : text_chars text -> plain text.
Proof.
  intros [_ H]. unfold all_chars, is_printable_space_lf in H.
  split; eapply Forall_impl; try exact H; cbn; intros x Hx; unfold NUL; bool_to_prop; lia.
Qed.

Lemma msg_layout t id name text :
  (forall a b, id_field (t a b) = Some id /\ strings (t a b) = [a; b] /\ reply_fields (t a b) = []) ->
  0 <= id < 65536 -> shown name text -> result_ok (t name text) ->
  build (t name text) = Ok (UDPMessages.type_byte (t name text) :: id / 256 :: id mod 256
    :: name ++ NUL :: text ++ [NUL]).
Proof.
  intros Ht Hid (Hn & Htx & _) Hr. destruct (Ht name text) as (E1 & E2 & E3).
  assert (Forall plain (strings (t name text))) as Hp.
  { rewrite E2. repeat (apply Forall_cons_2 || apply Forall_nil_2);
      auto using printable_ascii, text_ascii. }
  rewrite (build_layout _ (concat (map (fun s => s ++ [NUL]) (strings (t name text))))).
  - unfold id_bytes. rewrite E1, E2, E3. cbn. by rewrite app_nil_r, <- app_assoc.
  - unfold id_ok. by rewrite E1.
  - done.
  - by apply encode_all_plain.
Qed.

Lemma nul_not_printable x : char_eq false 0 x = true -> is_printable x = false.
Proof. intros <-%Z.eqb_eq. reflexivity. Qed.
Lemma nul_not_text x : char_eq false 0 x = true -> is_printable_space_lf x = false.
Proof. intros <-%Z.eqb_eq. reflexivity. Qed.

Lemma udp_msg_regex name text :
  printable_chars name -> text_chars text ->
  regex_match false udp_getMsgMsgRegex (name ++ NUL :: text ++ [NUL]) = Some [name; text].
Proof.
  intros [] []. apply regex_match_iff.
  - cbn. repeat split; auto using nul_not_printable, nul_not_text.
  - unfold udp_getMsgMsgRegex, udp_getErrMsgRegex.
    apply m_plus; [done|done|]. apply m_char; [done|].
    apply m_plus; [done|done|]. apply m_char; [done|]. constructor.
Qed.

Lemma strlen_msg a b c name text :
  strlen (a :: b :: c :: name ++ NUL :: text ++ [NUL]) = strlen name + strlen text + 5.
Proof. unfold strlen. cbn [length]. rewrite length_app. cbn [length]. rewrite length_app. cbn. lia. Qed.

Lemma nonempty_strlen (s : chars) : s <> [] -> 1 <= strlen s.
Proof. destruct s; [done|]. unfold strlen. cbn. lia. Qed.

(** What a MSG of the server does: it is printed unless its id was confirmed before, and
    confirmed in any case. *)
Definition received_msg (id : Z) (name text : chars) (c : udp_client) : udp_client :=
  confirmed_server id
    (if bool_decide (id ∈ m_confirmed_server_messages (ext c)) then c
     else on_kernel (write_console (name ++ lit ": " ++ text ++ [LF])) c).

Lemma socket_event_short from bs c :
  strlen bs <= udp_MAX_MSG_SIZE ->
  udp_processSocketEvent (Some (from, bs)) c = udp_processMessageFromServer bs from c.
Proof.
  intros Hl. cbn [udp_processSocketEvent]. unfold strlen in *.
  rewrite take_ge by (apply Nat2Z.inj_le; rewrite Z2Nat.id; lia).
  by solve_test.
Qed.

Lemma isValidMsgMsg_shown id1 id2 name text c :
  shown name text ->
  isValidMsgMsg (4 :: id1 :: id2 :: name ++ NUL :: text ++ [NUL]) c =
  (if bool_decide (id1 * 256 + id2 ∈ m_confirmed_server_messages (ext c)) then c
   else on_kernel (write_console (name ++ lit ": " ++ text ++ [LF])) c, Ok true).
Proof.
  intros (Hn & Ht & Ln & Lt & Ll).
  pose proof (nonempty_strlen name (proj1 Hn)). pose proof (nonempty_strlen text (proj1 Ht)).
  unfold isValidMsgMsg, isValidMsgMsgLength. rewrite strlen_msg.
  change (is_type M_MSG _) with true. change (drop s_BYTES_IN_MSG_HEADER (4 :: ?a :: ?b :: ?r)) with r.
  change (getMsgId _) with (id1 * 256 + id2).
  unfold header_size, s_MIN_VARIABLE_DATA_LENGTH, terminator_size, s_DISPLAY_NAME_MAX_LENGTH,
    s_MSG_CONTENT_MAX_LENGTH. change (Z.of_nat s_BYTES_IN_MSG_HEADER) with 3.
  solve_tests. rewrite udp_msg_regex by done. cbn [nth]. rewrite Ln, Lt. cbn [andb].
  unfold mbind, M_bind, get. by destruct (bool_decide _).
Qed.

Lemma udp_msg_datagram id name text from bs c :
  msg id name text = Ok bs -> shown name text -> send_fails (kernel c) = false ->
  m_current_state c = S_OPEN \/ m_current_state c = S_JOIN ->
  udp_processSocketEvent (Some (from, bs)) c = (received_msg id name text c, Ok 2).
Proof.
  intros Hb Hsh Hs Hst. change (build (MMsg id name text) = Ok bs) in Hb.
  pose proof (build_inv (MMsg id name text) bs Hb) as (Hid & _). cbn in Hid.
  rewrite (msg_layout (MMsg id) id name text) in Hb by done. injection Hb as <-.
  cbn [UDPMessages.type_byte].
  rewrite socket_event_short by (rewrite strlen_msg; destruct Hsh as (_ & _ & _ & _ & Hl);
    change udp_MAX_MSG_SIZE with 60007; lia).
  set (bs := 4 :: _). assert (udp_processServerMsgMsg bs c = (received_msg id name text c, Ok tt)) as Hm.
  { unfold udp_processServerMsgMsg, mbind, M_bind, bs. rewrite isValidMsgMsg_shown by done.
    change (getMsgId _) with (id / 256 * 256 + id mod 256).
    replace (id / 256 * 256 + id mod 256) with id by lia.
    apply sendConfirm_ok. by destruct (bool_decide _). }
  unfold udp_processMessageFromServer.
  change (is_type M_BYE bs) with false. change (is_type M_ERR bs) with false. cbv iota.
  rewrite bind_get. destruct Hst as [-> | ->]; change (is_type M_CONFIRM bs) with false;
    change (is_type M_MSG bs) with true; cbv iota; by rewrite (bind_ok _ _ _ _ _ Hm).
Qed.

(** The server repeats a datagram. *)
Fixpoint repeats (n : nat) (from : sockaddr_in) (bs : chars) : UM unit :=
  match n with
  | O => mret tt
  | S n' => _ ← udp_processSocketEvent (Some (from, bs)); repeats n' from bs
  end.

Lemma repeats_confirmed n id name text from bs c :
  msg id name text = Ok bs -> shown name text -> send_fails (kernel c) = false ->
  m_current_state c = S_OPEN \/ m_current_state c = S_JOIN ->
  id ∈ m_confirmed_server_messages (ext c) ->
  exists c', repeats n from bs c = (c', Ok tt)
    /\ console (kernel c') = console (kernel c)
    /\ sent (kernel c') = sent (kernel c)
         ++ replicate n (m_server_addr (m_args c), [0; id / 256; id mod 256]).
Proof.
  intros Hb Hsh. revert c. induction n as [|n IH]; intros c Hs Hst Hin.
  - exists c. by rewrite app_nil_r.
  - cbn [repeats]. rewrite (bind_ok _ _ _ _ _ (udp_msg_datagram _ _ _ _ _ _ Hb Hsh Hs Hst)).
    destruct (IH (received_msg id name text c)) as (c' & E & Hc & Hsent); unfold received_msg.
    + by destruct (bool_decide _).
    + by destruct (bool_decide _).
    + destruct (bool_decide _); cbn; set_solver.
    + exists c'. split; [done|]. unfold received_msg in *. rewrite bool_decide_true in * by done.
      rewrite Hc, Hsent. split; [done|]. cbn. by rewrite <- app_assoc.
Qed.

(** C15. A MSG the server sends again and again is printed exactly once and confirmed every time: any
    number of copies, at least one, of the datagram the harness builds for a message not confirmed
    before adds one line to the output and one CONFIRM of its id per copy. *)
Theorem udp_duplicates_shown_once n id name text from bs c :
  msg id name text = Ok bs -> shown name text -> send_fails (kernel c) = false ->
  m_current_state c = S_OPEN \/ m_current_state c = S_JOIN ->
  id ∉ m_confirmed_server_messages (ext c) ->
  exists c', repeats (S n) from bs c = (c', Ok tt)
    /\ console (kernel c') = console (kernel c) ++ name ++ lit ": " ++ text ++ [LF]
    /\ sent (kernel c') = sent (kernel c)
         ++ replicate (S n) (m_server_addr (m_args c), [0; id / 256; id mod 256]).
Proof.
  intros Hb Hsh Hs Hst Hnew. cbn [repeats].
  rewrite (bind_ok _ _ _ _ _ (udp_msg_datagram _ _ _ _ _ _ Hb Hsh Hs Hst)).
  unfold received_msg. rewrite bool_decide_false by done.
  destruct (repeats_confirmed n id name text from bs
    (confirmed_server id (on_kernel (write_console (name ++ lit ": " ++ text ++ [LF])) c)))
    as (c' & E & Hc & Hsent); try done; [cbn; set_solver|].
  exists c'. split; [done|]. rewrite Hc, Hsent. split; [done|]. cbn. by rewrite <- app_assoc.
Qed.

Definition sample_open : udp_client := set_m_current_state S_OPEN sample_udp.

Lemma udp_duplicates_shown_once_witness :
  exists c', repeats 2 (MkAddr 0 0) [4; 0; 7; 97; 0; 98; 0] sample_open = (c', Ok tt)
    /\ console (kernel c') = lit "a: b" ++ [LF]
    /\ sent (kernel c') = replicate 2 (MkAddr 2130706433 4567, [0; 0; 7]).
Proof.
  apply (udp_duplicates_shown_once 1 7 (lit "a") (lit "b")); try reflexivity.
  - repeat split; try (repeat constructor; done); try reflexivity; try done; by cbn.
  - by left.
  - cbn. set_solver.
Defined.

(** * Errors *)

(** The client after it has reported an error: the next id, an ERR that waits for its CONFIRM,
    and the reason printed with the terminator that follows it in the datagram. *)
Record reported (reason : chars) (c c' : udp_client) : Prop := {
  rep_sent : sent (kernel c') = sent (kernel c)
    ++ [(m_server_addr (m_args c),
         254 :: htons_bytes (uint16 (m_msg_to_server_id (ext c) + 1))
         ++ m_user_display_name c ++ [NUL] ++ lit "ERROR: " ++ reason ++ [NUL])];
  rep_console : console (kernel c') = console (kernel c) ++ lit "ERROR: " ++ reason ++ [NUL; LF];
  rep_waits : m_is_waiting_for_confirm (ext c') = true /\ m_is_waiting_for_reply c' = false
    /\ stdin_events (kernel c') = false;
  rep_id : m_msg_to_server_id (ext c') = uint16 (m_msg_to_server_id (ext c) + 1)
}.

Lemma drop_to_reason t name reason c :
  drop (s_BYTES_IN_MSG_HEADER + length name + 1 + length (lit "ERROR: "))
    (udp_message t (name ++ [NUL] ++ (lit "ERROR: " ++ reason) ++ [NUL]) c) = reason ++ [NUL].
Proof.
  unfold udp_message, htons_bytes. set (id := m_msg_to_server_id (ext c)).
  replace ([type_byte t] ++ [id / 256; id mod 256] ++ name ++ [NUL] ++ (lit "ERROR: " ++ reason) ++ [NUL])
    with (((type_byte t :: id / 256 :: id mod 256 :: name) ++ NUL :: lit "ERROR: ") ++ reason ++ [NUL])
    by (cbn; by rewrite <- !app_assoc).
  rewrite drop_app_length'; [done|]. rewrite length_app. cbn. lia.
Qed.

Lemma sendErr_reported reason c :
  send_fails (kernel c) = false ->
  exists c', sendErrMsg (lit "ERROR: " ++ reason) c = (c', Ok tt) /\ reported reason c c'.
Proof.
  intros Hs. unfold sendErrMsg, udp_buildErrMsg. rewrite bind_assoc. unfold modify.
  unfold mbind at 1. unfold M_bind at 1. rewrite bind_assoc, bind_get.
  set (c1 := next_id c). unfold mbind at 1. unfold M_bind at 1. rewrite bind_get.
  cbn [m_user_display_name m_msg_to_server set_m_msg_to_server]. rewrite drop_to_reason.
  unfold printErrMsg, cout, udp_sendMsgToServer, send_to_server, send_packet, disableStdinEvents,
    start_confirm_timer, startTimer, waiting_for_confirm, mbind, M_bind, get, modify.
  cbn [on_kernel set_kernel write_console set_console kernel send_fails set_m_msg_to_server].
  change (send_fails (kernel c1)) with (send_fails (kernel c)). rewrite Hs. cbv iota.
  eexists. split; [reflexivity|]. split; [|cbn; by rewrite <- app_assoc|done|done].
  cbn. by rewrite <- ?app_assoc.
Qed.

(** C38. A MSG the protocol allows can be refused: the receive limit is computed from REPLY alone, so
    a MSG whose name and text are valid but longer than 60002 characters together is answered with
    an ERR and never shown. *)
Theorem udp_long_msg_refused id name text from bs c :
  msg id name text = Ok bs -> printable_chars name -> text_chars text ->
  isValidMsgContentLength (strlen text) = true -> 60002 < strlen name + strlen text ->
  send_fails (kernel c) = false ->
  exists c', udp_processSocketEvent (Some (from, bs)) c = (c', Ok 2)
    /\ reported (lit "too long message from server.") c c'.
Proof.
  intros Hb Hn Ht Hl Hlong Hs. change (build (MMsg id name text) = Ok bs) in Hb.
  pose proof (build_inv (MMsg id name text) bs Hb) as (Hid & _).
  assert (Forall plain [name; text]) as Hp by
    (repeat (apply Forall_cons_2 || apply Forall_nil_2); auto using printable_ascii, text_ascii).
  rewrite (build_layout (MMsg id name text) _ Hid I (encode_all_plain _ Hp)) in Hb.
  injection Hb as <-. cbn [udp_processSocketEvent].
  set (bs := _ :: _). assert (strlen bs = strlen name + strlen text + 5) as Hbs.
  { unfold bs, strlen. cbn. rewrite ?length_app. cbn. rewrite ?length_app. cbn. lia. }
  assert ((udp_MAX_MSG_SIZE <? strlen (take (Z.to_nat (udp_MAX_MSG_SIZE + 1)) bs)) = true) as ->.
  { change udp_MAX_MSG_SIZE with 60007. unfold strlen in *. rewrite length_take.
    apply Z.ltb_lt. lia. }
  destruct (sendErr_reported (lit "too long message from server.") c Hs) as (c' & E & Hr).
  exists c'. split; [|done]. unfold err_and_go_on.
  change (lit "ERROR: too long message from server.")
    with (lit "ERROR: " ++ lit "too long message from server.").
  by rewrite (bind_ok _ _ _ _ _ E).
Qed.

Lemma replicate_text n : (0 < n)%nat -> text_chars (replicate n 97).
Proof.
  intros Hn. split; [destruct n; [lia|done]|]. apply Forall_replicate. reflexivity.
Qed.

Lemma udp_long_msg_refused_witness :
  exists c' bs, msg 1 (lit "abc") (replicate (Z.to_nat 60000) 97) = Ok bs
    /\ udp_processSocketEvent (Some (MkAddr 0 0, bs)) sample_open = (c', Ok 2)
    /\ reported (lit "too long message from server.") sample_open c'.
Proof.
  assert (text_chars (replicate (Z.to_nat 60000) 97)) as Ht by (apply replicate_text; lia).
  assert (strlen (replicate (Z.to_nat 60000) 97) = 60000) as Hl
    by (unfold strlen; rewrite length_replicate; lia).
  revert Ht Hl. generalize (replicate (Z.to_nat 60000) 97). intros text Ht Hl.
  assert (printable_chars (lit "abc")) as Hn by (split; [done|repeat constructor]).
  destruct (proj1 (build_total (MMsg 1 (lit "abc") text))) as [bs Hb].
  { split; [cbn; lia|]. split; [done|]. cbn [strings].
    apply Forall_cons_2; [|apply Forall_cons_2; [|apply Forall_nil_2]]; apply ascii_encodable;
      [by apply printable_ascii|by apply text_ascii]. }
  destruct (udp_long_msg_refused 1 (lit "abc") text (MkAddr 0 0) bs
    sample_open Hb Hn Ht) as (c' & E & Hr);
    [rewrite Hl; reflexivity|rewrite Hl; reflexivity|reflexivity|]. by exists c', bs.
Defined.
