(* ===== verification/UserInput.v ===== *)
(** From a line the user types to what the server gets: each command of the grammar, through the
    whole handler of standard input, in both clients. *)
From S2P Require Import Prelude PyRuntime UDPMessages Args Kernel Regex Client ClientSpec TcpClient.
From S2P Require Import UdpClient UdpSpec.

(** * Commands *)

Inductive command : Type :=
| CAuth (username secret name : chars)
| CJoin (channel : chars)
| CRename (name : chars)
| CHelp
| CMessage (text : chars).

Definition line_of (cmd : command) : chars :=
  match cmd with
  | CAuth u s d => lit "/auth " ++ u ++ lit " " ++ s ++ lit " " ++ d
  | CJoin ch => lit "/join " ++ ch
  | CRename d => lit "/rename " ++ d
  | CHelp => cmd_help
  | CMessage text => text
  end.

Definition tokens_of (cmd : command) : list chars :=
  match cmd with
  | CAuth u s d => [cmd_auth; u; s; d]
  | CJoin ch => [cmd_join; ch]
  | CRename d => [cmd_rename; d]
  | CHelp => [cmd_help]
  | CMessage text => [text]
  end.

(** The command is one of the grammar, in the state. *)
Definition allowed (st : FSM_state) (cmd : command) : Prop :=
  user_command st (line_of cmd) (tokens_of cmd)
  /\ match cmd with CMessage text => head text <> Some 47 | _ => True end.

(** The name after the command, and whether the command is a request that is replied to. *)
Definition name_after (cmd : command) (name : chars) : chars :=
  match cmd with CAuth _ _ d | CRename d => d | _ => name end.
Definition is_request (cmd : command) : bool :=
  match cmd with CAuth _ _ _ | CJoin _ => true | _ => false end.

Definition help_text : chars :=
  lit "Supported commands:" ++ [LF]
  ++ lit "/auth {Username} {Secret} {DisplayName} - client authentication (signing in) using user-provided username, display name and a password" ++ [LF]
  ++ lit "/join {ChannelID} - client's request to join a chat channel by its identifier" ++ [LF]
  ++ lit "/rename {DisplayName} - locally changes the display name of the user to be sent with new messages/selected commands" ++ [LF]
  ++ lit "/help - prints out supported local commands with their parameters and a description" ++ [LF].

Definition printed_by (cmd : command) : chars :=
  match cmd with CHelp => help_text | _ => [] end.

Lemma not_a_keyword text cmd : head text <> Some 47 -> (text =s? lit (String "/"%char cmd)) = false.
Proof.
  intros Hh. destruct (text =s? _) eqn:E; [|done]. apply chars_eqb_true in E. by subst.
Qed.

Lemma allowed_state st cmd :
  allowed st cmd ->
  match cmd with CAuth _ _ _ => st = S_START \/ st = S_AUTH | _ => True end.
Proof. intros [H _]. destruct cmd; [|done..]. by inversion H; subst. Qed.

Lemma allowed_head st cmd :
  allowed st cmd -> match cmd with CMessage text => head text <> Some 47 | _ => True end.
Proof. by intros [_ H]. Qed.

(** The fields that go into a message are ASCII without NUL. *)
Definition fields (cmd : command) : list chars :=
  match cmd with
  | CAuth u s d => [u; d; s]
  | CJoin ch => [ch]
  | CMessage text => [text]
  | CRename _ | CHelp => []
  end.

Lemma name_plain s : name_chars s -> plain s.
Proof.
  intros [Hne H]. apply printable_ascii. split; [done|]. eapply Forall_impl; [exact H|].
  cbn. unfold is_alpha_numeric_underline_dash, is_printable. intros x Hx.
  apply andb_true_iff. rewrite !Z.leb_le. bool_to_prop; lia.
Qed.

Lemma allowed_plain st cmd : allowed st cmd -> Forall plain (fields cmd).
Proof.
  intros [H Hh]. destruct cmd; cbn in Hh; cbn [fields]; inversion H; subst; try done;
    repeat (apply Forall_cons_2 || apply Forall_nil_2); auto using name_plain, printable_ascii, text_ascii.
Qed.

(** What the handlers do up to their first look at the tokens. *)
Lemma parse_typed {D} `{Virtual D} st cmd (k : os) (c : client D) :
  m_current_state c = st -> allowed st cmd -> getline (kernel c) = Some (Line (line_of cmd), k) ->
  parseUserInput c = (set_kernel k c, Ok (tokens_of cmd)).
Proof.
  intros <- [Hcmd _] Hk. unfold parseUserInput.
  rewrite (bind_ok _ _ c (set_kernel k c) (Line (line_of cmd))) by (unfold read_line; by rewrite Hk).
  destruct (parseLine_parsed (line_of cmd) (set_kernel k c)) as [t Ht|text Hno].
  - by rewrite (user_command_unique _ _ _ _ Hcmd Ht).
  - by destruct (Hno _ Hcmd).
Qed.

(** * TCP *)

(** The line of the protocol. *)
Definition tcp_line (name : chars) (cmd : command) : option chars :=
  match cmd with
  | CAuth u s d => Some (lit "AUTH " ++ u ++ lit " AS " ++ d ++ lit " USING " ++ s ++ CRLF)
  | CJoin ch => Some (lit "JOIN " ++ ch ++ lit " AS " ++ name ++ CRLF)
  | CMessage text => Some (lit "MSG FROM " ++ name ++ lit " IS " ++ text ++ CRLF)
  | CRename _ | CHelp => None
  end.

Definition packet (to : sockaddr_in) (data : option chars) : list (sockaddr_in * chars) :=
  match data with Some bs => [(to, bs)] | None => [] end.

Record tcp_typed (cmd : command) (c c' : tcp_client) : Prop := {
  tt_sent : sent (kernel c') = sent (kernel c)
    ++ packet (m_server_addr (m_args c)) (tcp_line (m_user_display_name c) cmd);
  tt_console : console (kernel c') = console (kernel c) ++ printed_by cmd;
  tt_name : m_user_display_name c' = name_after cmd (m_user_display_name c);
  tt_state : m_current_state c' =
    match cmd with CAuth _ _ _ => S_AUTH | CJoin _ => S_JOIN | _ => m_current_state c end;
  tt_waits : m_is_waiting_for_reply c' = is_request cmd || m_is_waiting_for_reply c;
  tt_input : stdin_events (kernel c') = negb (is_request cmd) && stdin_events (kernel c);
  tt_timer : timer (kernel c') =
    if is_request cmd then Some (clock (kernel c) + 5000) else timer (kernel c);
  tt_buffer : m_msg_from_server c' = m_msg_from_server c
}.

Ltac unfold_input :=
  unfold processNonMsgToServer, buildUserMsgToServer, getUserMsgType, printSupportedCommands, cout,
    buildAuthMsg, buildJoinMsg, buildMsgMsg, tcp_virtual, udp_virtual, tcp_buildAuthMsg,
    tcp_buildJoinMsg, tcp_buildMsgMsg, tcp_sendMsgToServer, udp_buildAuthMsg, udp_buildJoinMsg,
    udp_buildMsgMsg, udp_sendMsgToServer, send_to_server, send_packet, disableStdinEvents,
    waiting_for_confirm, start_confirm_timer, startTimer, when, mbind, M_bind, get, modify, tokens_of.

(** Evaluate the comparisons of closed words, and of a message with the keywords. *)
Ltac word_tests :=
  repeat match goal with
  | Hh : head ?text <> Some 47 |- context [?text =s? ?w] =>
      rewrite (not_a_keyword text _ Hh : (text =s? w) = false)
  | |- context [(?a =s? ?b)] =>
      let v := eval vm_compute in (a =s? b) in
      match v with true => idtac | false => idtac end; change (a =s? b) with v
  end.

(** C17. Each command of the grammar has the effect the protocol gives it, over TCP: the line of an
    AUTH, JOIN or MSG is sent with the fields the user typed and the current display name, a name
    is taken over, "/help" prints the commands; AUTH and JOIN change the state, start the five
    seconds for the REPLY and stop the input, the other commands leave all that alone. *)
Theorem tcp_typed_command cmd c k :
  allowed (m_current_state c) cmd -> getline (kernel c) = Some (Line (line_of cmd), k) ->
  send_fails (kernel c) = false ->
  exists c', tcp_processStdinEvent false false c = (c', Ok tt) /\ tcp_typed cmd c c'.
Proof.
  intros Hcmd Hk Hs. pose proof (getline_same _ _ _ Hk) as (S1 & S2 & S3 & S4 & S5 & S6 & _).
  pose proof (allowed_state _ _ Hcmd) as Hst. pose proof (allowed_head _ _ Hcmd) as Hh.
  unfold tcp_processStdinEvent. rewrite (bind_ok _ _ _ _ _ (parse_typed _ cmd k c eq_refl Hcmd Hk)).
  destruct cmd as [u s d|ch|d| |text]; cbn in Hh; unfold_input; cbn [nth]; word_tests; cbn;
    rewrite ?S6, ?Hs; cbn; [destruct Hst as [Hst|Hst]; rewrite Hst; fsm_tests|..];
    (eexists; split; [reflexivity|]); split; cbn; rewrite ?S1, ?S2, ?S3, ?S4, ?S5, ?app_nil_r; done.
Qed.

Lemma tcp_typed_command_witness :
  exists c', tcp_processStdinEvent false false
      (set_m_current_state S_OPEN (Tcp_client_init sample_args
        (set_pipe (lit "hello there" ++ [LF]) (os_start 0)))) = (c', Ok tt)
    /\ sent (kernel c')
       = [(MkAddr 2130706433 4567, lit "MSG FROM unknown IS hello there" ++ CRLF)].
Proof.
  destruct (tcp_typed_command (CMessage (lit "hello there"))
    (set_m_current_state S_OPEN (Tcp_client_init sample_args
        (set_pipe (lit "hello there" ++ [LF]) (os_start 0))))
    (os_start 0)) as (c' & E & H); [|reflexivity|reflexivity|].
  - split; [apply uc_message; [done|split; [done|repeat constructor]|done|reflexivity]|done].
  - exists c'. split; [exact E|]. rewrite (tt_sent _ _ _ H). reflexivity.
Defined.

(** * UDP *)

(** The message of the protocol, which the harness's builder turns into a datagram. *)
Definition udp_typed_message (id : Z) (name : chars) (cmd : command) : option message :=
  match cmd with
  | CAuth u s d => Some (MAuth id u d s)
  | CJoin ch => Some (MJoin id ch name)
  | CMessage text => Some (MMsg id name text)
  | CRename _ | CHelp => None
  end.

Record udp_typed (cmd : command) (c c' : udp_client) : Prop := {
  ut_console : console (kernel c') = console (kernel c) ++ printed_by cmd;
  ut_name : m_user_display_name c' = name_after cmd (m_user_display_name c);
  ut_state : m_current_state c' =
    match cmd with CAuth _ _ _ => S_AUTH | _ => m_current_state c end;
  ut_id : m_msg_to_server_id (ext c') = m_msg_to_server_id (ext c);
  ut_sent :
    match udp_typed_message (m_msg_to_server_id (ext c)) (m_user_display_name c) cmd with
    | None =>
        sent (kernel c') = sent (kernel c) /\ m_msg_to_server c' = m_msg_to_server c
        /\ stdin_events (kernel c') = stdin_events (kernel c)
    | Some msg =>
        build msg = Ok (m_msg_to_server c')
        /\ sent (kernel c') = sent (kernel c) ++ [(m_server_addr (m_args c), m_msg_to_server c')]
        /\ m_is_waiting_for_confirm (ext c') = true
        /\ m_is_waiting_for_reply c' = is_request cmd
        /\ stdin_events (kernel c') = false
        /\ timer (kernel c') =
             let t := uint16 (m_udp_confirm_timeout (m_args c)) in
             if t =? 0 then None else Some (clock (kernel c) + t)
    end
}.

(** The layout of a message whose strings are plain. *)
Lemma build_plain m :
  Forall plain (strings m) -> id_ok m -> result_ok m ->
  build m = Ok (UDPMessages.type_byte m :: id_bytes m ++ reply_fields m
                ++ concat (map (fun s => s ++ [NUL]) (strings m))).
Proof. intros Hp Hid Hr. apply build_layout; auto using encode_all_plain. Qed.

Lemma udp_stdin_typed_command cmd c k :
  allowed (m_current_state c) cmd -> getline (kernel c) = Some (Line (line_of cmd), k) ->
  send_fails (kernel c) = false -> 0 <= m_msg_to_server_id (ext c) < 65536 ->
  plain (m_user_display_name c) ->
  exists c', udp_processStdinEvent false false c = (c', Ok tt) /\ udp_typed cmd c c'.
Proof.
  intros Hcmd Hk Hs Hid Hn. pose proof (getline_same _ _ _ Hk) as (S1 & S2 & S3 & S4 & S5 & S6 & _).
  pose proof (allowed_state _ _ Hcmd) as Hst. pose proof (allowed_head _ _ Hcmd) as Hh.
  pose proof (allowed_plain _ _ Hcmd) as Hp.
  unfold udp_processStdinEvent. rewrite (bind_ok _ _ _ _ _ (parse_typed _ cmd k c eq_refl Hcmd Hk)).
  destruct cmd as [u s d|ch|d| |text]; cbn in Hh; unfold_input; cbn [nth]; word_tests; cbn;
    rewrite ?S6, ?Hs; cbn; [destruct Hst as [Hst|Hst]; rewrite Hst; fsm_tests|..];
    (eexists; split; [reflexivity|]); split; cbn; rewrite ?S1, ?S2, ?S3, ?S4, ?S5, ?app_nil_r; try done;
    (split; [|by repeat split]).
  1-2: refine (eq_trans (build_plain (MAuth (m_msg_to_server_id (ext c)) u d s) Hp Hid I) _).
  3: refine (eq_trans (build_plain (MJoin (m_msg_to_server_id (ext c)) ch (m_user_display_name c))
      (Forall_app_2 _ [_] [_] Hp (Forall_cons_2 _ _ _ Hn (Forall_nil_2 _))) Hid I) _).
  4: refine (eq_trans (build_plain (MMsg (m_msg_to_server_id (ext c)) (m_user_display_name c) text)
      (Forall_cons_2 _ _ _ Hn Hp) Hid I) _).
  all: cbn; by rewrite ?app_nil_r, <- ?app_assoc.
Qed.

(** C18. The same over UDP: the datagram of a command is the one the harness's builder makes of the
    typed fields, the current name and the current message id; it is sent once, waits for its
    CONFIRM under the configured timeout with the input stopped, and an AUTH or JOIN awaits a
    REPLY too; "/rename" and "/help" send nothing. *)
Theorem udp_typed_command cmd c k :
  allowed (m_current_state c) cmd -> getline (kernel c) = Some (Line (line_of cmd), k) ->
  send_fails (kernel c) = false -> 0 <= m_msg_to_server_id (ext c) < 65536 ->
  plain (m_user_display_name c) ->
  exists c', udp_processStdinEvent false false c = (c', Ok tt) /\ udp_typed cmd c c'.
Proof. apply udp_stdin_typed_command. Qed.

Definition sample_typing : udp_client :=
  set_m_current_state S_OPEN (Udp_client_init sample_args
    (set_pipe (lit "hello there" ++ [LF]) (os_start 0))).

Lemma udp_typed_command_witness :
  exists c' bs, udp_processStdinEvent false false sample_typing = (c', Ok tt)
    /\ msg 0 (lit "unknown") (lit "hello there") = Ok bs
    /\ sent (kernel c') = [(MkAddr 2130706433 4567, bs)].
Proof.
  destruct (udp_typed_command (CMessage (lit "hello there")) sample_typing (os_start 0))
    as (c' & E & H); [|reflexivity|reflexivity|by split| |].
  - split; [apply uc_message; [done|split; [done|repeat constructor]|done|reflexivity]|done].
  - split; repeat constructor; vm_compute; congruence.
  - exists c', (m_msg_to_server c'). destruct (ut_sent _ _ _ H) as (Hb & Hs & _).
    split; [exact E|]. split; [exact Hb|exact Hs].
Defined.
