(* ===== verification/UdpStates.v ===== *)
(** The states a UDP client goes through, and how a conversation ends or goes wrong: CONFIRM and
    BYE, and the replies that come at the wrong moment. *)
From S2P Require Import Prelude Args Kernel Regex Client ClientSpec UdpClient Process Reachable.
From S2P Require Import UdpSpec.

(** * The invariant *)

(** Message ids and counters stay in their widths. *)
Record in_range (c : udp_client) : Prop := {
  range_id : 0 <= m_msg_to_server_id (ext c) < 65536;
  range_left : 0 <= m_allowed_retransmissions (ext c) <= m_udp_max_retrans_count (m_args c);
  range_max : 0 <= m_udp_max_retrans_count (m_args c) < 256
}.

(** Something is awaited: a CONFIRM, the CONFIRM of a BYE, or a REPLY. *)
Definition awaiting (c : udp_client) : bool :=
  m_is_waiting_for_confirm (ext c) || m_is_waiting_for_bye_confirm (ext c)
  || m_is_waiting_for_reply c.

Record udp_inv (c : udp_client) : Prop := {
  udp_range : in_range c;
  udp_timer : is_Some (timer (kernel c)) -> awaiting c = true
}.

Definition unless_thrown (I : udp_client -> Prop) (e : stop) (c : udp_client) : Prop :=
  match e with Blocked => I c | Thrown _ => True end.

Lemma range_next c : in_range c -> in_range (next_id c).
Proof. intros [H1 H2 H3]. split; cbn; [apply uint16_range|done|done]. Qed.

Lemma awaiting_confirm c : m_is_waiting_for_confirm (ext c) = true -> awaiting c = true.
Proof. unfold awaiting. by intros ->. Qed.

Lemma awaiting_reply c : m_is_waiting_for_reply c = true -> awaiting c = true.
Proof. unfold awaiting. intros ->. by rewrite orb_true_r. Qed.

(** A state that is written out, from the ranges of the state before. *)
Ltac solve_udp_inv :=
  repeat match goal with
  | H : udp_inv _ |- _ => destruct H
  | H : in_range _ |- _ => destruct H
  end;
  split; [split; cbn; try apply uint16_range; try done; try (unfold uint8; lia)
         |cbn; unfold awaiting; cbn; rewrite ?orb_true_r; try done; try (by intros [])].

Lemma wp_sendErr text (Q : unit -> udp_client -> Prop) F c :
  in_range c -> (forall c', udp_inv c' -> Q tt c') -> (forall w c', F (Thrown w) c') ->
  wp (sendErrMsg text) Q F c.
Proof.
  intros Hc HQ HF. unfold sendErrMsg, udp_buildErrMsg, printErrMsg, cout, udp_sendMsgToServer,
    disableStdinEvents, start_confirm_timer, startTimer, waiting_for_confirm.
  repeat wp_step. apply wp_send; [|done]. repeat wp_step. apply HQ. solve_udp_inv.
Qed.

Lemma wp_err_and_go_on text (Q : Z -> udp_client -> Prop) F c :
  in_range c -> (forall c', udp_inv c' -> Q 2 c') -> (forall w c', F (Thrown w) c') ->
  wp (err_and_go_on text) Q F c.
Proof. intros. apply wp_bind, wp_sendErr; [done| |done]. intros. by repeat wp_step; auto. Qed.

Lemma wp_udp_bye (Q : unit -> udp_client -> Prop) F c :
  in_range c -> (forall c', udp_inv c' -> Q tt c') -> (forall w c', F (Thrown w) c') ->
  wp udp_sendByeMsgToServer Q F c.
Proof.
  intros Hc HQ HF. unfold udp_sendByeMsgToServer, udp_buildByeMsg, udp_sendMsgToServer,
    disableStdinEvents, start_confirm_timer, startTimer, waiting_for_confirm, reset_retransmissions.
  repeat wp_step. apply wp_send; [|done]. repeat wp_step. apply HQ. solve_udp_inv.
Qed.

Lemma wp_sendConfirm id (Q : unit -> udp_client -> Prop) F c :
  Q tt (confirmed_server id c) -> (forall w c', F (Thrown w) c') -> wp (sendConfirmMsg id) Q F c.
Proof. intros HQ HF. unfold sendConfirmMsg. apply wp_bind, wp_send; [|done]. by wp_step. Qed.

Lemma confirmed_server_inv id c : udp_inv c -> udp_inv (confirmed_server id c).
Proof. intros [[] H]. split; [by split|done]. Qed.

Lemma console_inv text c : udp_inv c -> udp_inv (on_kernel (write_console text) c).
Proof. intros [[] H]. split; [by split|done]. Qed.

(** * The handlers keep it *)

Definition goes_on_udp (r : Z) (c : udp_client) : Prop :=
  (r =? 0) || (r =? 1) = false -> udp_inv c.

Lemma wp_confirmed t c :
  udp_inv c -> wp (confirmed t) (fun _ c' => udp_inv c') (unless_thrown udp_inv) c.
Proof.
  intros Hc. unfold confirmed, waiting_for_confirm, reset_retransmissions, stopTimer, startTimer,
    enableStdinEvents.
  repeat wp_step; try done; solve_udp_inv.
Qed.

Lemma wp_reply m from c :
  udp_inv c ->
  wp (udp_processServerReplyMsg m from) (fun _ c' => udp_inv c') (unless_thrown udp_inv) c.
Proof.
  intros Hc. pose proof (udp_range c Hc) as Hr.
  unfold udp_processServerReplyMsg, stopTimer, outputIncomingReply, enableStdinEvents, cout.
  repeat (wp_step || (apply wp_sendErr; [done|by intros|done]) || (apply wp_sendConfirm; [|done]));
    try done; solve_udp_inv; eauto.
Qed.

Ltac udp_wp :=
  repeat (wp_step || (apply wp_err_and_go_on; [done|by auto|done])
          || (apply wp_sendErr; [done|intros|done]) || (apply wp_sendConfirm; [|done])
          || (eapply wp_conseq; [by apply wp_confirmed|cbv beta; intros|done])
          || (eapply wp_conseq; [by apply wp_reply|cbv beta; intros|done])); auto;
  try (intros _; auto using confirmed_server_inv, console_inv).

Lemma udp_message_inv m from c :
  udp_inv c -> wp (udp_processMessageFromServer m from) goes_on_udp (unless_thrown udp_inv) c.
Proof.
  intros Hc. pose proof (udp_range c Hc) as Hr. unfold goes_on_udp.
  unfold udp_processMessageFromServer, udp_processServerByeMsg,
    udp_processServerErrMsg, isValidErrMsg, udp_processServerMsgMsg, isValidMsgMsg,
    udp_processServerPingMsg, udp_processServerConfirmMsg,
    outputIncomingMsg, printErrFromServer, cout.
  udp_wp.
Qed.

Lemma udp_socket_inv p c :
  udp_inv c -> wp (udp_processSocketEvent p) goes_on_udp (unless_thrown udp_inv) c.
Proof.
  intros Hc. pose proof (udp_range c Hc). unfold goes_on_udp.
  destruct p as [[from bs]|]; cbn [udp_processSocketEvent]; [cbv zeta|].
  - wp_step; [|by apply udp_message_inv]. by apply wp_err_and_go_on; auto.
  - by apply wp_err_and_go_on; auto.
Qed.

Lemma udp_timer_inv c :
  udp_inv c -> wp udp_processTimerEvent (fun _ c' => udp_inv c') (unless_thrown udp_inv) c.
Proof.
  intros Hc. pose proof (udp_range c Hc) as [Hi Hl Hm].
  unfold udp_processTimerEvent, udp_sendMsgToServer, start_confirm_timer, startTimer.
  repeat wp_step; try done.
  - apply wp_send; [|done]. repeat wp_step. split.
    + split; cbn; try done. unfold uint8. cbn in *. bool_to_prop; lia.
    + intros _. unfold awaiting. cbn in *. by rewrite Heqb.
  - apply wp_sendErr; [by split|by intros|done].
Qed.

Lemma wp_parse_udp c (Q : list chars -> udp_client -> Prop) :
  udp_inv c ->
  (forall c', udp_inv c' -> Q [] c') ->
  (forall c' line t, udp_inv c' -> user_command (m_current_state c') line t -> Q t c') ->
  wp parseUserInput Q (unless_thrown udp_inv) c.
Proof.
  intros Hc H0 H1. unfold parseUserInput. apply wp_bind, wp_read_line; [|exact Hc].
  intros r k (E1 & E2 & E3 & E4).
  assert (udp_inv (set_kernel k c)) as Hk.
  { destruct Hc as [[] Ht]. split; [by split|]. cbn. by rewrite E3. }
  destruct r as [line|].
  - apply wp_parseLine; [by eauto|]. intros text. by apply H0, console_inv.
  - apply wp_bind, wp_udp_bye; [by destruct Hk| |done]. intros c' Hc'. repeat wp_step; [done|].
    by apply H0.
Qed.

Lemma udp_stdin_inv hup err c :
  udp_inv c -> wp (udp_processStdinEvent hup err) (fun _ c' => udp_inv c') (unless_thrown udp_inv) c.
Proof.
  intros Hc. unfold udp_processStdinEvent. destruct hup; [|destruct err; [done|]].
  { apply wp_udp_bye; [by destruct Hc|by intros|done]. }
  apply wp_bind, wp_parse_udp; [done|by intros; apply wp_ret|]. clear c Hc.
  intros c line t Hc _.
  unfold processNonMsgToServer, buildUserMsgToServer, getUserMsgType, printSupportedCommands, cout.
  cbn [buildAuthMsg buildJoinMsg buildMsgMsg udp_virtual].
  unfold udp_buildAuthMsg, udp_buildJoinMsg, udp_buildMsgMsg, udp_sendMsgToServer,
    disableStdinEvents, waiting_for_confirm, start_confirm_timer, startTimer.
  repeat (wp_step || (apply wp_send; [|done])); try done; solve_udp_inv.
Qed.

Lemma udp_environment_inv c c' : environment c c' -> udp_inv c -> udp_inv c'.
Proof. destruct 1; intros [[] H]; (split; [by split|exact H]). Qed.

Lemma udp_dispatch_inv e c :
  udp_inv c -> match dispatch e c with Continue c' | Wait c' => udp_inv c' | Exit _ _ => True end.
Proof.
  intros Hc. destruct e as [hup|p| |]; cbn [dispatch];
    apply (end_of_handler_wp _ _ c (fun t => match t with Continue c' | Wait c' => udp_inv c' | _ => True end)).
  - eapply wp_conseq; [by apply udp_stdin_inv|done|]. by intros [].
  - eapply wp_conseq; [by apply udp_socket_inv| |by intros []].
    intros r c' Hr. unfold goes_on_udp in Hr. destruct (_ || _)%bool; [done|]. by apply Hr.
  - eapply wp_conseq; [by apply udp_timer_inv|done|]. by intros [].
  - apply wp_udp_bye; [by destruct Hc|done|done].
Qed.

(** * Reachable states *)

Lemma timer_fired c c1 :
  on_kernel read_timer c = c1 ->
  udp_processTimerEvent c =
  (if m_is_waiting_for_confirm (ext c1) || m_is_waiting_for_bye_confirm (ext c1) then
     if m_allowed_retransmissions (ext c1) =? 0
     then throw (Thrown (lit "exceeded udp max retransmission number."))
     else
       _ ← udp_sendMsgToServer;
       _ ← start_confirm_timer;
       modify (on_ext (set_allowed_retransmissions (m_allowed_retransmissions (ext c1) - 1)))
   else if m_is_waiting_for_reply c1
   then sendErrMsg (lit "ERROR: " ++ lit "waited too long for the server's reply.")
   else throw (Thrown (lit "timer event, but m_is_waiting_for_confirm and m_is_waiting_for_reply are false.")))
    c1.
Proof. by intros <-. Qed.

Section REACHED.

Context (a : Args) (k : os) (c : udp_client).
Context (Hmax : 0 <= m_udp_max_retrans_count a < 256) (Htimer : timer k = None).
Context (Hreach : reachable (Udp_client_init a k) c).

Lemma udp_reachable_inv : udp_inv c.
Proof using All.
  revert Hreach. apply reachable_ind_inv.
  - split; [split; cbn; lia|]. cbn. rewrite Htimer. by intros [].
  - apply udp_environment_inv.
  - intros e c' _. apply udp_dispatch_inv.
Qed.

(** C27. In every state a UDP client can reach, under any input, any datagrams and any order of the
    events: message ids fit in 16 bits, the retransmissions left are at most those configured, and
    the timer runs only while a CONFIRM, the CONFIRM of a BYE or a REPLY is awaited. *)
Theorem udp_reachable_states :
  0 <= m_msg_to_server_id (ext c) < 65536
  /\ 0 <= m_allowed_retransmissions (ext c) <= m_udp_max_retrans_count (m_args c)
  /\ (is_Some (timer (kernel c)) -> awaiting c = true).
Proof using All. by destruct udp_reachable_inv as [[H1 H2 _] Ht]. Qed.

(** A message of the client waits for its CONFIRM. *)
Definition unconfirmed (c : udp_client) : bool :=
  m_is_waiting_for_confirm (ext c) || m_is_waiting_for_bye_confirm (ext c).

(** What an expiry of the timer means in a reachable state: an unconfirmed message is sent again
    if retransmissions are left, otherwise the client ends; a missing REPLY is reported with ERR.
    The handler's third branch, for a timer without a reason, is never taken. *)
Theorem udp_timer_outcome :
  enabled Timer c -> send_fails (kernel c) = false ->
  let o := udp_processTimerEvent c in
  if unconfirmed c then
    if m_allowed_retransmissions (ext c) =? 0
    then snd o = Err (Thrown (lit "exceeded udp max retransmission number."))
         /\ sent (kernel (fst o)) = sent (kernel c)
    else snd o = Ok tt /\ sent (kernel (fst o)) = sent (kernel c) ++ [transmission c]
  else snd o = Ok tt
       /\ reported (lit "waited too long for the server's reply.") c (fst o).
Proof using All.
  intros Ht Hs o. unfold unconfirmed. destruct udp_reachable_inv as [_ Haw].
  unfold enabled, timer_ready in Ht. destruct (timer (kernel c)) as [t|] eqn:Et; [|done].
  assert (read_timer (kernel c) = set_timer None (kernel c)) as Er
    by (unfold read_timer, timer_ready; by rewrite Et, Ht).
  specialize (Haw (mk_is_Some _ _ eq_refl)). unfold awaiting in Haw.
  set (c1 := set_kernel (set_timer None (kernel c)) c).
  assert (on_kernel read_timer c = c1) as Ec by (unfold on_kernel; by rewrite Er).
  assert (send_fails (kernel c1) = false) as Hs1 by done.
  unfold o. rewrite (timer_fired c c1 Ec).
  change (ext c1) with (ext c). change (m_is_waiting_for_reply c1) with (m_is_waiting_for_reply c).
  destruct (m_is_waiting_for_confirm (ext c) || m_is_waiting_for_bye_confirm (ext c))%bool.
  - destruct (m_allowed_retransmissions (ext c) =? 0); [done|].
    unfold udp_sendMsgToServer, send_to_server, send_packet, start_confirm_timer, startTimer,
      mbind, M_bind, get, modify.
    rewrite Hs1. done.
  - cbn [orb] in Haw. rewrite Haw.
    destruct (sendErr_reported (lit "waited too long for the server's reply.") c1 Hs1)
      as (c' & E & []).
    rewrite E. split; [done|]. by split.
Qed.

End REACHED.

Lemma udp_reachable_states_witness :
  0 <= m_msg_to_server_id (ext sample_sent) < 65536
  /\ m_is_waiting_for_confirm (ext sample_sent) = true.
Proof.
  assert (reachable sample_udp sample_sent) as Hr.
  { eapply rtc_l; [|apply rtc_once].
    - apply step_environment, (env_input (lit "/auth a b c" ++ [LF])).
    - apply (step_continue (Stdin false) _ sample_sent); [done|vm_compute; reflexivity]. }
  split; [|reflexivity].
  apply (udp_reachable_states sample_args (os_start 0) sample_sent); [cbn; lia|reflexivity|exact Hr].
Defined.

Definition sample_expired : udp_client := on_kernel (set_clock 250) sample_sent.

Lemma udp_timer_outcome_witness :
  sent (kernel (fst (udp_processTimerEvent sample_expired)))
  = sent (kernel sample_expired) ++ [transmission sample_expired].
Proof.
  assert (reachable sample_udp sample_expired) as Hr.
  { eapply rtc_l; [|eapply rtc_l; [|apply rtc_once]].
    - apply step_environment, (env_input (lit "/auth a b c" ++ [LF])).
    - apply (step_continue (Stdin false) _ sample_sent); [done|vm_compute; reflexivity].
    - exact (step_environment _ _ (env_clock 250 sample_sent)). }
  assert (m_is_waiting_for_confirm (ext sample_expired) = true) as Hw by (vm_compute; reflexivity).
  assert ((m_allowed_retransmissions (ext sample_expired) =? 0) = false) as Ha
    by (vm_compute; reflexivity).
  assert (enabled Timer sample_expired) as He by (vm_compute; reflexivity).
  assert (send_fails (kernel sample_expired) = false) as Hs by (vm_compute; reflexivity).
  pose proof (udp_timer_outcome sample_args (os_start 0) sample_expired ltac:(cbn; lia) eq_refl Hr
                He Hs) as H.
  cbv zeta in H. unfold unconfirmed in H. rewrite Hw, Ha in H. exact (proj2 H).
Defined.
