(* ===== verification/UdpReplies.v ===== *)
(** How a request of a UDP client is answered: the CONFIRM, the REPLY and what they do to the
    state machine, with the two cases in which the pairing of replies with requests, which the
    client makes through [m_msg_to_server_id - 1], goes wrong. *)
From S2P Require Import Prelude PyRuntime UDPMessages Args Kernel Regex Client ClientSpec UdpClient.
From S2P Require Import UdpSpec.

(** * The datagrams *)

Lemma confirm_layout ref bs : confirm ref = Ok bs -> bs = 0 :: ref.
Proof. by intros [= <-]. Qed.

Definition answer (result : bool) : Z := if result then 1 else 0.

(** The text of a REPLY the client can show. *)
Definition shown_reply (text : chars) : Prop :=
  text_chars text /\ isValidMsgContentLength (strlen text) = true /\ strlen text <= 60000.

Lemma reply_layout rid result ref text bs :
  text_chars text -> reply rid (answer result) ref text = Ok bs ->
  0 <= rid < 65536
  /\ bs = 1 :: rid / 256 :: rid mod 256 :: answer result :: ref ++ text ++ [NUL].
Proof.
  intros Ht Hb. change (build (MReply rid (answer result) ref text) = Ok bs) in Hb.
  pose proof (build_inv _ _ Hb) as (Hid & _). cbn in Hid. split; [done|].
  assert (Forall plain [text]) as Hp.
  { repeat (apply Forall_cons_2 || apply Forall_nil_2); by apply text_ascii. }
  rewrite (build_layout (MReply rid (answer result) ref text) _ Hid
    ltac:(cbn; destruct result; cbn; lia) (encode_all_plain _ Hp)) in Hb.
  injection Hb as <-. cbn. by rewrite app_nil_r.
Qed.

Lemma c_str_text text : no_nul text -> c_str (text ++ [NUL]) = text.
Proof.
  induction 1 as [|x text Hx _ IH]; [done|]. cbn. by rewrite IH, (proj2 (Z.eqb_neq x NUL) Hx).
Qed.

Lemma udp_reply_regex text :
  text_chars text ->
  regex_match false getPrintableCharsSpaceLfAndTerminatorRegex (text ++ [NUL]) = Some [text].
Proof.
  intros []. apply regex_match_iff.
  - cbn. repeat split; auto using nul_not_text.
  - apply m_plus; [done|done|]. apply m_char; [done|]. constructor.
Qed.

(** The bytes of a REPLY to the message [r1 r2]. *)
Definition reply_bytes (rid : Z) (result : bool) (r1 r2 : Z) (text : chars) : chars :=
  1 :: rid / 256 :: rid mod 256 :: answer result :: r1 :: r2 :: text ++ [NUL].

Lemma reply_valid rid result r1 r2 text :
  shown_reply text -> isValidReplyMsg (reply_bytes rid result r1 r2 text) = true.
Proof.
  intros (Ht & _ & Hl). pose proof (nonempty_strlen text (proj1 Ht)).
  assert (strlen (reply_bytes rid result r1 r2 text) = strlen text + 7) as Hs.
  { unfold strlen, reply_bytes. cbn [length]. rewrite length_app. cbn. lia. }
  unfold isValidReplyMsg, isValidReplyMsgLength. rewrite Hs.
  change (is_type M_REPLY _) with true.
  change (char_at s_BYTES_IN_MSG_HEADER _) with (answer result).
  change (drop reply_content_pos _) with (text ++ [NUL]).
  rewrite udp_reply_regex by done.
  unfold s_MIN_VARIABLE_DATA_LENGTH, terminator_size, s_MSG_CONTENT_MAX_LENGTH, header_size.
  change (Z.of_nat s_BYTES_IN_MSG_HEADER) with 3. change (Z.of_nat s_BYTES_IN_REPLY_RESULT) with 1.
  change (Z.of_nat s_BYTES_IN_MSG_ID) with 2. change (Z.of_nat s_BYTES_IN_PROTOCOL_MSG_TYPE) with 1.
  solve_tests. by destruct result.
Qed.

Lemma reply_event rid result r1 r2 text from c :
  shown_reply text -> m_current_state c = S_AUTH \/ m_current_state c = S_JOIN ->
  udp_processSocketEvent (Some (from, reply_bytes rid result r1 r2 text)) c
  = (_ ← udp_processServerReplyMsg (reply_bytes rid result r1 r2 text) from; mret 2) c.
Proof.
  intros Ht Hst. rewrite socket_event_short.
  - unfold udp_processMessageFromServer. set (bs := reply_bytes _ _ _ _ _).
    change (is_type M_BYE bs) with false. change (is_type M_ERR bs) with false. cbv iota.
    rewrite bind_get. by destruct Hst as [-> | ->].
  - destruct Ht as (_ & _ & Hl). unfold strlen, reply_bytes in *. cbn [length].
    rewrite length_app. cbn [length]. change udp_MAX_MSG_SIZE with 60007. lia.
Qed.

(** A REPLY that does not answer what is awaited only sets the server's address. *)
Lemma reply_ignored rid result r1 r2 text from c :
  shown_reply text -> m_current_state c = S_AUTH ->
  (m_msg_to_server_id (ext c) - 1 =? r1 * 256 + r2) = false ->
  udp_processSocketEvent (Some (from, reply_bytes rid result r1 r2 text)) c
  = (set_m_args (set_server_addr from (m_args c)) c, Ok 2).
Proof.
  intros Ht Hst Hid. rewrite reply_event by auto. unfold udp_processServerReplyMsg.
  rewrite bind_assoc, bind_get, reply_valid, Hst by done.
  change (getRefMsgId _) with (r1 * 256 + r2). rewrite Hid, andb_false_r. done.
Qed.

(** The client after the REPLY it waited for. *)
Record answered (opens : bool) (rid : Z) (result : bool) (text : chars) (to : sockaddr_in)
    (c c' : udp_client) : Prop := {
  ans_state : m_current_state c' = if opens then S_OPEN else m_current_state c;
  ans_waits : m_is_waiting_for_reply c' = false;
  ans_timer : timer (kernel c') = None /\ stdin_events (kernel c') = true;
  ans_console : console (kernel c') = console (kernel c)
    ++ (if bool_decide (rid ∈ m_confirmed_server_messages (ext c)) then []
        else lit "Action " ++ lit (if result then "Success" else "Failure") ++ lit ": " ++ text
             ++ [LF]);
  ans_sent : sent (kernel c') = sent (kernel c) ++ [(to, [0; rid / 256; rid mod 256])];
  ans_ext : m_msg_to_server_id (ext c') = m_msg_to_server_id (ext c)
    /\ m_allowed_retransmissions (ext c') = m_allowed_retransmissions (ext c)
    /\ m_is_waiting_for_confirm (ext c') = m_is_waiting_for_confirm (ext c)
}.

Lemma reply_accepted rid result r1 r2 text from c :
  shown_reply text -> 0 <= rid < 65536 -> send_fails (kernel c) = false ->
  m_current_state c = S_AUTH \/ m_current_state c = S_JOIN ->
  m_is_waiting_for_reply c = true ->
  m_msg_to_server_id (ext c) - 1 = r1 * 256 + r2 ->
  exists c', udp_processSocketEvent (Some (from, reply_bytes rid result r1 r2 text)) c = (c', Ok 2)
    /\ answered ((m_current_state c =fsm S_JOIN) || result) rid result text
         (if m_current_state c =fsm S_AUTH then from else m_server_addr (m_args c)) c c'.
Proof.
  intros Ht Hr Hs Hst Hw Hid. rewrite reply_event by done. unfold udp_processServerReplyMsg.
  rewrite bind_assoc, bind_get, reply_valid by done.
  change (getRefMsgId _) with (r1 * 256 + r2).
  change (getMsgId (reply_bytes _ _ _ _ _)) with (rid / 256 * 256 + rid mod 256).
  replace (rid / 256 * 256 + rid mod 256) with rid by lia.
  change (char_at s_BYTES_IN_MSG_HEADER _) with (answer result).
  change (drop reply_content_pos _) with (text ++ [NUL]).
  rewrite c_str_text by (apply text_ascii, Ht).
  rewrite Hw, Hid, Z.eqb_refl. change (true && true)%bool with true.
  replace (negb (answer result =? 0)) with result by (by destruct result).
  unfold sendConfirmMsg, send_to_server, send_packet, when, outputIncomingReply, cout, stopTimer,
    enableStdinEvents, mbind, M_bind, modify.
  destruct Hst as [Hst|Hst]; rewrite Hst; fsm_tests; destruct result; cbn;
    destruct (bool_decide (rid ∈ m_confirmed_server_messages (ext c))) eqn:E; cbn; rewrite ?Hs; cbn;
    (eexists; split; [reflexivity|]); split; cbn; rewrite ?E, ?app_nil_r; done.
Qed.

(** * A request and its answer *)

(** The client has sent an AUTH or a JOIN and waits for its CONFIRM. *)
Record requests (t : Protocol_msg_type) (c : udp_client) : Prop := {
  req_state : t = M_AUTH /\ m_current_state c = S_AUTH \/ t = M_JOIN /\ m_current_state c = S_OPEN;
  req_type : char_at 0 (m_msg_to_server c) = msg_type_value t;
  req_id : 0 <= m_msg_to_server_id (ext c) < 65536;
  req_max : 0 <= m_udp_max_retrans_count (m_args c) < 256;
  req_sends : send_fails (kernel c) = false
}.

(** The client after the CONFIRM of a request: it waits five seconds for the REPLY. *)
Record confirmed_request (t : Protocol_msg_type) (c c' : udp_client) : Prop := {
  conf_state : m_current_state c' = if bool_decide (t = M_AUTH) then S_AUTH else S_JOIN;
  conf_waits : m_is_waiting_for_reply c' = true /\ m_is_waiting_for_confirm (ext c') = false;
  conf_timer : timer (kernel c') = Some (clock (kernel c) + 5000);
  conf_id : m_msg_to_server_id (ext c') = uint16 (m_msg_to_server_id (ext c) + 1);
  conf_left : m_allowed_retransmissions (ext c') = m_udp_max_retrans_count (m_args c);
  conf_args : m_args c' = m_args c;
  conf_seen : m_confirmed_server_messages (ext c') = m_confirmed_server_messages (ext c);
  conf_out : console (kernel c') = console (kernel c) /\ sent (kernel c') = sent (kernel c)
    /\ send_fails (kernel c') = false
}.

Lemma confirm_event id from c :
  0 <= id < 65536 ->
  udp_processSocketEvent (Some (from, 0 :: htons_bytes id)) c
  = (if id =? m_msg_to_server_id (ext c) then
       if char_at 0 (m_msg_to_server c) =? 255 then (c, Ok 0)
       else if char_at 0 (m_msg_to_server c) =? 254 then (c, Ok 1)
       else (_ ← confirmed (char_at 0 (m_msg_to_server c)); mret 2) c
     else (c, Ok 2)).
Proof.
  intros Hid. rewrite socket_event_short by done.
  unfold udp_processMessageFromServer, htons_bytes. set (bs := [_; _; _]).
  change (is_type M_BYE bs) with false. change (is_type M_ERR bs) with false. cbv iota.
  rewrite bind_get.
  assert (udp_processServerConfirmMsg bs c
    = (if id =? m_msg_to_server_id (ext c) then
         if char_at 0 (m_msg_to_server c) =? 255 then (c, Ok 0)
         else if char_at 0 (m_msg_to_server c) =? 254 then (c, Ok 1)
         else (_ ← confirmed (char_at 0 (m_msg_to_server c)); mret 2) c
       else (c, Ok 2))) as E.
  { unfold udp_processServerConfirmMsg. change (isValidConfirmMsg bs) with true. cbv iota.
    rewrite bind_get. change (getMsgId bs) with (id / 256 * 256 + id mod 256).
    replace (id / 256 * 256 + id mod 256) with id by lia. unfold msg_type_value.
    by repeat case_match. }
  by destruct (m_current_state c).
Qed.

Lemma request_confirmed t from c :
  requests t c ->
  exists c', udp_processSocketEvent (Some (from, 0 :: htons_bytes (m_msg_to_server_id (ext c)))) c
    = (c', Ok 2) /\ confirmed_request t c c'.
Proof.
  intros [Hst Hty Hid Hmax Hs]. rewrite confirm_event, Z.eqb_refl, Hty by done.
  unfold confirmed. rewrite bind_assoc, bind_get.
  destruct Hst as [[-> Hst]|[-> Hst]]; rewrite Hst; cbn; (eexists; split; [reflexivity|]); split; cbn;
    try done; unfold uint8; lia.
Qed.

(** C6. A request is carried through: when the CONFIRM of an AUTH or JOIN comes and then its REPLY,
    both as the harness builds them, the client first stops repeating and waits five seconds for
    the REPLY; the REPLY is shown once and confirmed, after an AUTH to the address it came from,
    which is the server's from then on; the client is in OPEN, or still in AUTH after a refused
    AUTH, takes input again, awaits nothing, and has the next id and all its retransmissions. *)
Theorem udp_request_answered t rid result text from b1 b2 c :
  requests t c -> m_msg_to_server_id (ext c) < 65535 -> shown_reply text ->
  confirm (htons_bytes (m_msg_to_server_id (ext c))) = Ok b1 ->
  reply rid (answer result) (htons_bytes (m_msg_to_server_id (ext c))) text = Ok b2 ->
  exists c1 c2, udp_processSocketEvent (Some (from, b1)) c = (c1, Ok 2)
    /\ confirmed_request t c c1
    /\ udp_processSocketEvent (Some (from, b2)) c1 = (c2, Ok 2)
    /\ answered (bool_decide (t = M_JOIN) || result) rid result text
         (if bool_decide (t = M_AUTH) then from else m_server_addr (m_args c)) c1 c2
    /\ m_msg_to_server_id (ext c2) = m_msg_to_server_id (ext c) + 1
    /\ m_allowed_retransmissions (ext c2) = m_udp_max_retrans_count (m_args c)
    /\ m_is_waiting_for_confirm (ext c2) = false.
Proof.
  intros Hreq Hlast Ht Hb1 Hb2. pose proof (req_id _ _ Hreq) as Hid.
  apply confirm_layout in Hb1 as ->.
  destruct (request_confirmed t from c Hreq) as (c1 & E1 & H1). destruct (H1) as [].
  apply reply_layout in Hb2 as [Hrid ->]; [|apply Ht]. unfold htons_bytes.
  set (id := m_msg_to_server_id (ext c)) in *.
  assert (m_msg_to_server_id (ext c1) = id + 1) as E3 by (rewrite conf_id0; unfold uint16; lia).
  destruct (reply_accepted rid result (id / 256) (id mod 256) text from c1) as (c2 & E2 & H2);
    [done|done|apply conf_out0|rewrite conf_state0; case_bool_decide; auto|apply conf_waits0|lia|].
  exists c1, c2. split; [exact E1|]. split; [done|]. split; [exact E2|].
  destruct (ans_ext _ _ _ _ _ _ _ H2) as (E4 & E5 & E6).
  split; [|rewrite E4, E5, E6; by destruct conf_waits0].
  rewrite conf_state0, conf_args0 in H2.
  destruct (req_state _ _ Hreq) as [[-> _]|[-> _]]; exact H2.
Qed.

Lemma sample_requests : requests M_AUTH sample_sent.
Proof. split; [by left|reflexivity|vm_compute; done|done|reflexivity]. Qed.

Lemma udp_request_answered_witness :
  exists c1 c2, udp_processSocketEvent (Some (MkAddr 1 2, [0; 0; 0])) sample_sent = (c1, Ok 2)
    /\ udp_processSocketEvent (Some (MkAddr 1 2, [1; 0; 9; 1; 0; 0; 111; 0])) c1 = (c2, Ok 2)
    /\ m_current_state c2 = S_OPEN
    /\ m_msg_to_server_id (ext c2) = 1.
Proof.
  destruct (udp_request_answered M_AUTH 9 true (lit "o") (MkAddr 1 2) [0; 0; 0]
    [1; 0; 9; 1; 0; 0; 111; 0] sample_sent sample_requests) as (c1 & c2 & E1 & _ & E2 & H & Hid & _);
    [vm_compute; done| |reflexivity|reflexivity|].
  - split; [by split; [|repeat constructor]|by vm_compute].
  - exists c1, c2. split; [exact E1|]. split; [exact E2|]. split; [apply (ans_state _ _ _ _ _ _ _ H)|].
    rewrite Hid. vm_compute. reflexivity.
Defined.

(** * Two flaws of the pairing *)


Definition sample_last : udp_client := on_ext (set_msg_to_server_id 65535) sample_sent.


(** C40. A REPLY to the previous request is taken for the answer to the next one: while the client
    still waits for the CONFIRM of an AUTH, a late REPLY to the AUTH before it stops the timer, so
    that the AUTH is not sent again, and opens the session if it is positive. *)
Theorem udp_late_reply_accepted rid result text from bs c :
  m_current_state c = S_AUTH -> m_is_waiting_for_confirm (ext c) = true ->
  m_is_waiting_for_reply c = true -> 1 <= m_msg_to_server_id (ext c) < 65536 ->
  send_fails (kernel c) = false -> shown_reply text ->
  reply rid (answer result) (htons_bytes (m_msg_to_server_id (ext c) - 1)) text = Ok bs ->
  exists c', udp_processSocketEvent (Some (from, bs)) c = (c', Ok 2)
    /\ m_is_waiting_for_confirm (ext c') = true /\ timer (kernel c') = None
    /\ stdin_events (kernel c') = true
    /\ m_current_state c' = (if result then S_OPEN else S_AUTH).
Proof.
  intros Hst Hc Hw Hid Hs Ht Hb. apply reply_layout in Hb as [Hrid ->]; [|apply Ht].
  set (id := m_msg_to_server_id (ext c)) in *. unfold htons_bytes.
  destruct (reply_accepted rid result ((id - 1) / 256) ((id - 1) mod 256) text from c)
    as (c' & E & []); [done..|by left|done|fold id; lia|].
  exists c'. split; [exact E|]. destruct ans_timer0, ans_ext0 as (_ & _ & ->).
  rewrite ans_state0, Hst. fsm_tests. by destruct result.
Qed.

(** The second AUTH, with id 1, after a refused first one. *)
Definition sample_second : udp_client :=
  on_ext (set_msg_to_server_id 1) sample_sent.

Lemma udp_late_reply_accepted_witness :
  exists c', udp_processSocketEvent (Some (MkAddr 1 2, [1; 0; 9; 1; 0; 0; 111; 0])) sample_second
      = (c', Ok 2)
    /\ m_is_waiting_for_confirm (ext c') = true /\ timer (kernel c') = None.
Proof.
  destruct (udp_late_reply_accepted 9 true (lit "o") (MkAddr 1 2) [1; 0; 9; 1; 0; 0; 111; 0]
    sample_second) as (c' & E & H1 & H2 & _); [reflexivity..|vm_compute; done|reflexivity| |reflexivity|].
  - split; [by split; [|repeat constructor]|by vm_compute].
  - exists c'. split; [exact E|]. by split.
Defined.
