(* ===== verification/Session.v ===== *)
(** The session automaton of the protocol, and that both clients follow it: which states follow which,
    on whose account, and that nothing is said before the session is open. *)
From S2P Require Import Prelude Args Kernel Regex Client ClientSpec TcpClient UdpClient Process.
From S2P Require Import Reachable TcpSpec UdpSpec UdpStates.

(** * The automaton *)

(** What a turn of the event loop is caused by. *)
Inductive cause : Type := User | Server | Clock | Signal.

Definition cause_of (e : event) : cause :=
  match e with Stdin _ => User | Socket _ => Server | Timer => Clock | Sigint => Signal end.

(** The steps of a session.  The transports differ in when a channel is being joined: over TCP when
    the user asks for it, over UDP when the server has confirmed the request. *)
Inductive session (joining : cause) : cause -> FSM_state -> FSM_state -> Prop :=
| session_stay e s : session joining e s s
| session_auth : session joining User S_START S_AUTH
| session_open : session joining Server S_AUTH S_OPEN
| session_join : session joining joining S_OPEN S_JOIN
| session_joined : session joining Server S_JOIN S_OPEN.

(** * What is said *)

(** A datagram other than CONFIRM, AUTH, ERR and BYE says something to the server's other users. *)
Definition udp_quiet (data : chars) : bool :=
  match data with [] => true | t :: _ => bool_decide (t ∈ [0; 2; 254; 255]) end.

Definition tcp_quiet (data : chars) : bool :=
  starts_with (lit "AUTH ") data || starts_with (lit "ERR FROM ") data
  || starts_with (lit "BYE FROM ") data || bool_decide (data = []).

Section SAID.

Context {D : Type} (quiet : chars -> bool).

Definition opened (c : client D) : Prop := m_current_state c = S_OPEN \/ m_current_state c = S_JOIN.

(** Until the session is open only quiet messages have been sent, and one is ready to be sent
    again. *)
Definition quiet_so_far (c : client D) : Prop :=
  opened c \/ (Forall (fun d => quiet (snd d) = true) (sent (kernel c))
               /\ quiet (m_msg_to_server c) = true).

(** What a handler must do from the state [s]. *)
Definition proper (joining e : cause) (s : FSM_state) (c' : client D) : Prop :=
  session joining e s (m_current_state c') /\ quiet_so_far c'.

(** A handler that raises ends the client; one that waits for a line leaves it. *)
Definition unless_raised (P : client D -> Prop) (e : stop) (c : client D) : Prop :=
  match e with Blocked => P c | Thrown _ => True end.

Definition thrown (e : stop) (_ : client D) : Prop := e <> Blocked.

(** Reading and parsing a line, for a class whose BYE is quiet. *)
Context `{Virtual D} (joining : cause).
Context (bye_said : forall c, quiet_so_far c ->
  wp sendByeMsgToServer
    (fun _ c' => quiet_so_far c' /\ m_current_state c' = m_current_state c) thrown c).

Lemma wp_parse_said s c (Q : list chars -> client D -> Prop) :
  quiet_so_far c -> m_current_state c = s ->
  (forall c', quiet_so_far c' -> m_current_state c' = s -> Q [] c') ->
  (forall c' line t, quiet_so_far c' -> m_current_state c' = s ->
     user_command s line t -> Q t c') ->
  wp parseUserInput Q (unless_raised (proper joining User s)) c.
Proof using All.
  intros Hc Es H0 H1. unfold parseUserInput.
  apply wp_bind, wp_read_line; [|split; [rewrite Es; apply session_stay|done]].
  intros r k (_ & _ & _ & _ & E & _).
  assert (quiet_so_far (set_kernel k c)) as Hk.
  { destruct Hc as [Ho|[Hs Hm]]; [by left|right]. cbn. by rewrite E. }
  destruct r as [line|].
  - apply wp_parseLine; [|intros text; by apply H0]. cbn. rewrite Es. by eauto.
  - apply wp_bind. eapply wp_conseq; [by apply bye_said|cbv beta|by intros []].
    intros _ c' [Hq Hs]. cbn in Hs. repeat wp_step; [done|]. apply H0; [done|congruence].
Qed.

End SAID.

(** * UDP *)

Arguments thrown {D} e _.

Abbreviation udp_proper := (proper udp_quiet Server).

Lemma quiet_sent to data (l : list (sockaddr_in * chars)) quiet :
  Forall (fun d => quiet (snd d) = true) l -> quiet data = true ->
  Forall (fun d => quiet (snd d) = true) (l ++ [(to, data)]).
Proof. intros Hl Hd. apply Forall_app. split; [done|]. by apply Forall_singleton. Qed.

Lemma read_timer_sent k : sent (read_timer k) = sent k.
Proof. unfold read_timer. by destruct (timer_ready k). Qed.

(** A state that is written out, from that of the state before. *)
Ltac solve_said :=
  match goal with
  | H : quiet_so_far _ _ |- _ =>
      let Ho := fresh "Ho" in let Hs := fresh "Hs" in let Hm := fresh "Hm" in
      destruct H as [Ho|[Hs Hm]];
      first [ left; exact Ho | left; left; reflexivity | left; right; reflexivity
            | left; unfold opened in *; cbn; intuition congruence
            | right; cbn; rewrite ?read_timer_sent;
              split; [repeat (apply quiet_sent; [|done || exact Hm]); exact Hs|done || exact Hm] ]
  end.

Ltac solve_session :=
  cbn;
  repeat match goal with
  | H : (_ || _)%bool = true |- _ => apply orb_true_iff in H
  | H : (_ && _)%bool = true |- _ => apply andb_true_iff in H as [_ H]
  | H : FSM_eqb _ _ = true |- _ => apply FSM_eqb_true in H
  | H : _ \/ _ |- _ => destruct H
  end;
  first [ apply session_stay
        | congruence
        | cbn in *; congruence
        | cbn in *; repeat match goal with H : m_current_state _ = _ |- _ => rewrite H end;
          constructor ].

Ltac solve_proper := intros; split; [solve_session|solve_said].

Lemma udp_timer_proper c :
  quiet_so_far udp_quiet c ->
  wp udp_processTimerEvent (fun _ c' => udp_proper Clock (m_current_state c) c') (unless_raised (udp_proper Clock (m_current_state c))) c.
Proof.
  intros Hc. unfold udp_processTimerEvent, sendErrMsg, udp_buildErrMsg, printErrMsg, cout,
    udp_sendMsgToServer, disableStdinEvents, start_confirm_timer, startTimer, waiting_for_confirm.
  repeat (wp_step || (apply wp_send; [|done])); try done; solve_proper.
Qed.

Lemma udp_message_proper m from c :
  quiet_so_far udp_quiet c ->
  wp (udp_processMessageFromServer m from) (fun _ c' => udp_proper Server (m_current_state c) c')
    (unless_raised (udp_proper Server (m_current_state c))) c.
Proof.
  intros Hc. unfold udp_processMessageFromServer, udp_processServerByeMsg, udp_processServerErrMsg,
    isValidErrMsg, udp_processServerMsgMsg, isValidMsgMsg, udp_processServerPingMsg,
    udp_processServerConfirmMsg, udp_processServerReplyMsg, confirmed, err_and_go_on,
    outputIncomingMsg, outputIncomingReply, printErrFromServer, sendErrMsg, sendConfirmMsg,
    udp_buildErrMsg, printErrMsg, cout, reset_retransmissions, stopTimer, enableStdinEvents,
    udp_sendMsgToServer, disableStdinEvents, start_confirm_timer, startTimer, waiting_for_confirm.
  repeat (wp_step || (apply wp_send; [|done])); try done; solve_proper.
Qed.

Lemma udp_socket_proper p c :
  quiet_so_far udp_quiet c ->
  wp (udp_processSocketEvent p) (fun _ c' => udp_proper Server (m_current_state c) c')
    (unless_raised (udp_proper Server (m_current_state c))) c.
Proof.
  intros Hc. destruct p as [[from bs]|]; cbn [udp_processSocketEvent]; [cbv zeta|].
  - wp_step; [|by apply udp_message_proper].
    unfold err_and_go_on, sendErrMsg, udp_buildErrMsg, printErrMsg, cout, udp_sendMsgToServer,
      disableStdinEvents, start_confirm_timer, startTimer, waiting_for_confirm.
    repeat (wp_step || (apply wp_send; [|done])); try done; solve_proper.
  - unfold err_and_go_on, sendErrMsg, udp_buildErrMsg, printErrMsg, cout, udp_sendMsgToServer,
      disableStdinEvents, start_confirm_timer, startTimer, waiting_for_confirm.
    repeat (wp_step || (apply wp_send; [|done])); try done; solve_proper.
Qed.

Lemma udp_bye_said c :
  quiet_so_far udp_quiet c ->
  wp udp_sendByeMsgToServer
    (fun _ c' => quiet_so_far udp_quiet c' /\ m_current_state c' = m_current_state c) thrown c.
Proof.
  intros Hc. unfold udp_sendByeMsgToServer, udp_buildByeMsg, udp_sendMsgToServer,
    disableStdinEvents, start_confirm_timer, startTimer, waiting_for_confirm, reset_retransmissions.
  repeat (wp_step || (apply wp_send; [|done])); try done; split; [|done].
  solve_said.
Qed.

(** The rest of a handler of standard input, once the line is a command. *)
Lemma udp_stdin_proper hup err s c :
  quiet_so_far udp_quiet c -> m_current_state c = s ->
  wp (udp_processStdinEvent hup err) (fun _ c' => udp_proper User s c')
    (unless_raised (udp_proper User s)) c.
Proof.
  intros Hc Es. unfold udp_processStdinEvent. destruct hup; [|destruct err; [done|]].
  { eapply wp_conseq; [by apply udp_bye_said| |by intros []].
    intros _ c' [Hq E]. split; [rewrite E, Es; apply session_stay|done]. }
  apply wp_bind. eapply wp_parse_said; [exact udp_bye_said|done..| |].
  { intros c' Hq E. repeat wp_step. split; [rewrite E; apply session_stay|done]. }
  clear c Hc Es. intros c line t Hc Es Ht.
  unfold processNonMsgToServer, buildUserMsgToServer, getUserMsgType.
  inversion Ht as [u x d Hst Hu Hs Hd L1 L2 L3|ch Hst Hch L|d Hst Hd L| |text Hst Htx Hh L];
    subst t s; cbn [nth];
    rewrite ?(not_command _ cmd_rename Hh), ?(not_command _ cmd_help Hh),
      ?(not_command _ cmd_auth Hh), ?(not_command _ cmd_join Hh) by done;
    cbn [buildAuthMsg buildJoinMsg buildMsgMsg udp_virtual];
    unfold udp_buildAuthMsg, udp_buildJoinMsg, udp_buildMsgMsg, udp_sendMsgToServer,
      disableStdinEvents, start_confirm_timer, startTimer, waiting_for_confirm,
      printSupportedCommands, cout;
    repeat (wp_step || (apply wp_send; [|done])); try done; solve_proper.
Qed.

Lemma udp_dispatch_proper e (c : udp_client) :
  quiet_so_far udp_quiet c ->
  match dispatch e c with
  | Continue c' | Wait c' => udp_proper (cause_of e) (m_current_state c) c'
  | Exit _ _ => True
  end.
Proof.
  intros Hc. destruct e as [hup|p| |]; cbn [dispatch cause_of];
    apply (end_of_handler_wp _ _ c (fun t => match t with
      | Continue c' | Wait c' => udp_proper _ (m_current_state c) c' | _ => True end)).
  - eapply wp_conseq; [by apply udp_stdin_proper|done|]. by intros [?|].
  - eapply wp_conseq; [by apply udp_socket_proper| |by intros [?|]].
    intros r c' Hr. by destruct (_ || _)%bool.
  - eapply wp_conseq; [by apply udp_timer_proper|done|]. by intros [?|].
  - eapply wp_conseq; [by apply udp_bye_said|..].
    + intros [] c' [Hq E]. split; [rewrite E; apply session_stay|done].
    + intros [?|] c' Ht; [done|by destruct Ht].
Qed.

(** * TCP *)

Abbreviation tcp_proper := (proper tcp_quiet User).

(** Within one event the server can only open a session that has started. *)
Definition moved (s : FSM_state) (c : tcp_client) : Prop :=
  (m_current_state c = s \/ s <> S_START /\ m_current_state c = S_OPEN) /\ quiet_so_far tcp_quiet c.

Ltac solve_moved :=
  split; [cbn; repeat match goal with
          | H : (_ || _)%bool = true |- _ => apply orb_true_iff in H
          | H : FSM_eqb _ _ = true |- _ => apply FSM_eqb_true in H
          | H : FSM_eqb _ _ = false |- _ => apply FSM_eqb_false in H
          end; intuition congruence
         | solve_said ].

Lemma tcp_message_moved t m s c :
  moved s c -> wp (tcp_processMessageOfType t m) (fun _ c' => moved s c') thrown c.
Proof.
  intros [Hs Hc].
  unfold tcp_processMessageOfType, tcp_processServerByeMsg, tcp_processServerErrMsg,
    tcp_processServerReplyMsg, tcp_processServerMsgMsg, stopTimer, enableStdinEvents,
    outputIncomingReply, outputIncomingMsg, printErrFromServer, cout, sendErrMsgAndTerminate,
    tcp_buildErrMsg, tcp_sendMsgToServer.
  repeat (wp_step || (apply wp_send; [|done])); try done; solve_moved.
Qed.

Lemma tcp_terminate_thrown {A} text (Q : A -> tcp_client -> Prop) c :
  wp (sendErrMsgAndTerminate text) Q thrown c.
Proof.
  unfold sendErrMsgAndTerminate, tcp_buildErrMsg, tcp_sendMsgToServer.
  repeat wp_step. apply wp_send; [|done]. by repeat wp_step.
Qed.

Lemma process_messages_moved n s c :
  moved s c -> wp (process_messages n) (fun _ c' => moved s c') thrown c.
Proof.
  revert c. induction n as [|n IH]; intros c Hc; [exact Hc|]. cbn [process_messages].
  repeat wp_step; [by apply tcp_terminate_thrown| |done].
  eapply wp_conseq; [by apply tcp_message_moved| |done]. intros r c' Hc'.
  repeat wp_step; [done|]. by apply IH.
Qed.

Lemma tcp_socket_moved p s c :
  moved s c -> wp (tcp_processSocketEvent p) (fun _ c' => moved s c') thrown c.
Proof.
  intros Hc. destruct p as [[|x data]|]; [done| |apply tcp_terminate_thrown].
  unfold tcp_processSocketEvent, too_long. repeat wp_step.
  eapply wp_conseq; [by apply process_messages_moved| |done]. intros r c' Hc'.
  repeat wp_step; [done|apply tcp_terminate_thrown|done].
Qed.

Lemma moved_session s c : moved s c -> tcp_proper Server s c.
Proof.
  intros [[E|[Hs E]] Hq]; (split; [|done]); rewrite E; [apply session_stay|].
  destruct s; [done|by constructor..].
Qed.

Lemma tcp_bye_said c :
  quiet_so_far tcp_quiet c ->
  wp tcp_sendByeMsgToServer
    (fun _ c' => quiet_so_far tcp_quiet c' /\ m_current_state c' = m_current_state c) thrown c.
Proof.
  intros Hc. unfold tcp_sendByeMsgToServer, tcp_buildByeMsg, tcp_sendMsgToServer.
  repeat (wp_step || (apply wp_send; [|done])); try done. split; [solve_said|done].
Qed.


Lemma tcp_stdin_proper hup err s c :
  quiet_so_far tcp_quiet c -> m_current_state c = s ->
  wp (tcp_processStdinEvent hup err) (fun _ c' => tcp_proper User s c')
    (unless_raised (tcp_proper User s)) c.
Proof.
  intros Hc Es. unfold tcp_processStdinEvent. destruct hup; [|destruct err; [done|]].
  { apply wp_bind. eapply wp_conseq; [by apply tcp_bye_said| |by intros []]. by intros. }
  apply wp_bind. eapply wp_parse_said; [exact tcp_bye_said|done..| |].
  { intros c' Hq E. repeat wp_step. split; [rewrite E; apply session_stay|done]. }
  clear c Hc Es. intros c line t Hc Es Ht.
  unfold processNonMsgToServer, buildUserMsgToServer, getUserMsgType.
  inversion Ht as [u x d Hst Hu Hs Hd L1 L2 L3|ch Hst Hch L|d Hst Hd L| |text Hst Htx Hh L];
    subst t s; cbn [nth];
    rewrite ?(not_command _ cmd_rename Hh), ?(not_command _ cmd_help Hh),
      ?(not_command _ cmd_auth Hh), ?(not_command _ cmd_join Hh) by done;
    cbn [buildAuthMsg buildJoinMsg buildMsgMsg tcp_virtual];
    unfold tcp_buildAuthMsg, tcp_buildJoinMsg, tcp_buildMsgMsg, tcp_sendMsgToServer,
      disableStdinEvents, startTimer, printSupportedCommands, cout;
    repeat (wp_step || (apply wp_send; [|done])); try done; solve_proper.
Qed.

Lemma tcp_dispatch_proper e (c : tcp_client) :
  quiet_so_far tcp_quiet c ->
  match dispatch e c with
  | Continue c' | Wait c' => tcp_proper (cause_of e) (m_current_state c) c'
  | Exit _ _ => True
  end.
Proof.
  intros Hc. destruct e as [hup|p| |]; cbn [dispatch cause_of];
    apply (end_of_handler_wp _ _ c (fun t => match t with
      | Continue c' | Wait c' => tcp_proper _ (m_current_state c) c' | _ => True end)).
  - eapply wp_conseq; [by apply tcp_stdin_proper|done|]. by intros [].
  - eapply wp_conseq; [by apply tcp_socket_moved; split; [left|]|..].
    + intros r c' Hr. destruct (_ || _)%bool; [done|by apply moved_session].
    + intros [?|] c' Ht; [done|by destruct Ht].
  - cbn. unfold tcp_processTimerEvent. repeat wp_step; [|done].
    eapply wp_conseq; [apply (tcp_terminate_thrown _ (fun _ _ => False))|done|].
    intros [?|] c' Ht; [done|by destruct Ht].
  - cbn. unfold tcp_sigintHandler. apply wp_bind.
    eapply wp_conseq; [by apply tcp_bye_said|by intros|].
    intros [?|] c' Ht; [done|by destruct Ht].
Qed.

(** * Reachable states *)

Lemma environment_said {D} quiet (c c' : client D) :
  environment c c' -> quiet_so_far quiet c -> quiet_so_far quiet c'.
Proof. destruct 1; (intros [Ho|Hq]; [by left|by right]). Qed.

Section REACHED.

Context (a : Args) (k : os) (Hsent : sent k = []).

Lemma udp_reachable_quiet c : reachable (Udp_client_init a k) c -> quiet_so_far udp_quiet c.
Proof using All.
  apply reachable_ind_inv.
  - right. cbn. by rewrite Hsent.
  - apply environment_said.
  - intros e c' _ Hc. pose proof (udp_dispatch_proper e c' Hc) as Hp.
    by destruct (dispatch e c'); [destruct Hp..|].
Qed.

Lemma tcp_reachable_quiet c : reachable (Tcp_client_init a k) c -> quiet_so_far tcp_quiet c.
Proof using All.
  apply reachable_ind_inv.
  - right. cbn. by rewrite Hsent.
  - apply environment_said.
  - intros e c' _ Hc. pose proof (tcp_dispatch_proper e c' Hc) as Hp.
    by destruct (dispatch e c'); [destruct Hp..|].
Qed.

(** A turn of the loop that leaves the client running. *)
Definition turns_into {D} `{Handlers D} (e : event) (c c' : client D) : Prop :=
  dispatch e c = Continue c' \/ dispatch e c = Wait c'.

(** C7. Both clients follow the session automaton of the protocol: in every reachable state and for
    every event that leaves the client running, the state changes by a step of [session] with the
    cause of the event, so that only the user's AUTH leaves START, only a message of the server
    opens the session or ends the joining of a channel, and the timer and signals change nothing. *)
Theorem clients_follow_session e :
  (forall c c' : udp_client, reachable (Udp_client_init a k) c -> turns_into e c c' ->
     session Server (cause_of e) (m_current_state c) (m_current_state c'))
  /\ (forall c c' : tcp_client, reachable (Tcp_client_init a k) c -> turns_into e c c' ->
     session User (cause_of e) (m_current_state c) (m_current_state c')).
Proof using All.
  split; intros c c' Hc Ht.
  - pose proof (udp_dispatch_proper e c (udp_reachable_quiet c Hc)) as Hp.
    by destruct Ht as [E|E]; rewrite E in Hp; destruct Hp.
  - pose proof (tcp_dispatch_proper e c (tcp_reachable_quiet c Hc)) as Hp.
    by destruct Ht as [E|E]; rewrite E in Hp; destruct Hp.
Qed.

(** C8. Nothing is said before the session is open: in every reachable state in START or AUTH, whatever
    the user typed, the server sent and the order of the events, everything a client has sent is a
    CONFIRM, an AUTH, an ERR or a BYE; no MSG and no JOIN has left it. *)
Theorem nothing_said_before_open s :
  s = S_START \/ s = S_AUTH ->
  (forall c : udp_client, reachable (Udp_client_init a k) c -> m_current_state c = s ->
     Forall (fun d => udp_quiet (snd d) = true) (sent (kernel c)))
  /\ (forall c : tcp_client, reachable (Tcp_client_init a k) c -> m_current_state c = s ->
     Forall (fun d => tcp_quiet (snd d) = true) (sent (kernel c))).
Proof using All.
  intros Hs. split; intros c Hc E; [destruct (udp_reachable_quiet c Hc) as [[Ho|Ho]|[Hq _]]
    |destruct (tcp_reachable_quiet c Hc) as [[Ho|Ho]|[Hq _]]];
    try exact Hq; exfalso; destruct Hs; congruence.
Qed.

End REACHED.

(** * Sample runs *)

Lemma clients_follow_session_witness :
  session Server User (m_current_state sample_udp) (m_current_state sample_sent).
Proof.
  set (c := on_kernel (set_pipe (lit "/auth a b c" ++ [LF])) sample_udp).
  assert (reachable sample_udp c) as Hr
    by exact (rtc_once _ _ (step_environment _ _ (env_input (lit "/auth a b c" ++ [LF]) sample_udp))).
  assert (turns_into (Stdin false) c sample_sent) as Ht by (left; vm_compute; reflexivity).
  exact (proj1 (clients_follow_session sample_args (os_start 0) eq_refl (Stdin false)) c sample_sent
    Hr Ht).
Defined.

Lemma nothing_said_before_open_witness :
  sent (kernel sample_sent) <> []
  /\ Forall (fun d => udp_quiet (snd d) = true) (sent (kernel sample_sent)).
Proof.
  assert (reachable sample_udp sample_sent) as Hr.
  { eapply rtc_l; [|apply rtc_once].
    - apply step_environment, (env_input (lit "/auth a b c" ++ [LF])).
    - apply (step_continue (Stdin false) _ sample_sent); [done|vm_compute; reflexivity]. }
  assert (m_current_state sample_sent = S_AUTH) as Hs by (vm_compute; reflexivity).
  split; [vm_compute; discriminate|].
  exact (proj1 (nothing_said_before_open sample_args (os_start 0) eq_refl S_AUTH (or_intror eq_refl))
    sample_sent Hr Hs).
Defined.
