(* ===== verification/UdpEof.v ===== *)
(** The UDP client when its standard input is a pipe that was closed: the end is reported again on
    every turn of the loop, and every report sends another BYE. *)
From S2P Require Import Prelude Args Kernel Regex Client UdpClient Executable Process UdpSpec.

(** * States *)

(** The other end of the pipe is closed, and nothing is wrong with the socket. *)
Record hung_up (c : udp_client) : Prop := {
  hung_pipe : pipe_closed (kernel c) = true;
  hung_sends : send_fails (kernel c) = false;
  hung_max : 1 <= m_udp_max_retrans_count (m_args c) < 256
}.

(** No timer runs but that of a BYE with a retransmission left. *)
Definition has_time (c : udp_client) : Prop :=
  timer (kernel c) = None
  \/ m_is_waiting_for_bye_confirm (ext c) = true /\ 1 <= m_allowed_retransmissions (ext c) < 256.

(** The BYE of a client with the id [n]. *)
Definition bye_datagram (c : udp_client) (n : Z) : sockaddr_in * chars :=
  (m_server_addr (m_args c),
   type_byte M_BYE :: htons_bytes n ++ m_user_display_name c ++ [NUL]).

(** [n] BYEs after the one with the id [id], each with the next id. *)
Fixpoint byes (c : udp_client) (id : Z) (n : nat) : list (sockaddr_in * chars) :=
  match n with
  | O => []
  | S n' => bye_datagram c (uint16 (id + 1)) :: byes c (uint16 (id + 1)) n'
  end.

(** From [c] to [c'] only the datagrams [ds] were sent: nothing was read or printed. *)
Record only_sent (ds : list (sockaddr_in * chars)) (c c' : udp_client) : Prop := {
  only_hung : hung_up c';
  only_args : m_args c' = m_args c;
  only_name : m_user_display_name c' = m_user_display_name c;
  only_input : pipe (kernel c') = pipe (kernel c) /\ filebuf (kernel c') = filebuf (kernel c);
  only_console : console (kernel c') = console (kernel c);
  only_sent_ds : sent (kernel c') = sent (kernel c) ++ ds
}.

Lemma only_sent_nil c : hung_up c -> only_sent [] c c.
Proof. intros Hc. split; try done. by rewrite app_nil_r. Qed.

Lemma only_sent_trans d1 d2 c1 c2 c3 :
  only_sent d1 c1 c2 -> only_sent d2 c2 c3 -> only_sent (d1 ++ d2) c1 c3.
Proof.
  intros [_ A1 N1 [P1 F1] C1 S1] [H2 A2 N2 [P2 F2] C2 S2].
  split; [done|congruence..|split; congruence|congruence|by rewrite S2, S1, app_assoc].
Qed.

Lemma byes_same c c' id n :
  m_args c' = m_args c -> m_user_display_name c' = m_user_display_name c -> byes c' id n = byes c id n.
Proof.
  intros Ha Hn. revert id. induction n as [|n IH]; intros id; [done|]. cbn [byes]. rewrite IH.
  unfold bye_datagram. by rewrite Ha, Hn.
Qed.

(** * One turn *)

(** The end of input: another BYE, with the next id, and all retransmissions again. *)
Lemma hup_turn c :
  hung_up c ->
  exists c', dispatch (Stdin true) c = Continue c'
    /\ only_sent (byes c (m_msg_to_server_id (ext c)) 1) c c'
    /\ m_msg_to_server_id (ext c') = uint16 (m_msg_to_server_id (ext c) + 1)
    /\ has_time c' /\ timer_ready (kernel c') = false.
Proof.
  intros [Hp Hs Hm]. cbn [dispatch processStdinEvent udp_handlers udp_processStdinEvent].
  unfold udp_sendByeMsgToServer, udp_buildByeMsg, udp_sendMsgToServer, send_to_server, send_packet,
    disableStdinEvents, start_confirm_timer, startTimer, waiting_for_confirm, reset_retransmissions,
    mbind, M_bind, modify, get. cbn. rewrite Hs. cbn.
  eexists. split; [reflexivity|]. split; [by split|]. split; [done|]. split.
  - right. split; [done|]. cbn. unfold uint8. lia.
  - unfold timer_ready. cbn. pose proof (uint16_range (uint16 (m_udp_confirm_timeout (m_args c)))).
    destruct (_ =? 0) eqn:E; [done|]. bool_to_prop. cbn. apply Z.leb_gt. unfold uint16 in *. lia.
Qed.

(** The timer of a BYE: it is sent again. *)
Lemma timer_turn c :
  hung_up c -> has_time c -> timer_ready (kernel c) = true ->
  exists c', dispatch Timer c = Continue c' /\ only_sent [transmission c] c c'
    /\ m_msg_to_server_id (ext c') = m_msg_to_server_id (ext c)
    /\ timer_ready (kernel c') = false.
Proof.
  intros [Hp Hs Hm] [Ht|[Hw Hl]] Hr; [unfold timer_ready in Hr; by rewrite Ht in Hr|].
  cbn [dispatch processTimerEvent udp_handlers]. unfold udp_processTimerEvent.
  assert (read_timer (kernel c) = set_timer None (kernel c)) as Er
    by (unfold read_timer; by rewrite Hr).
  unfold udp_sendMsgToServer, send_to_server, send_packet, start_confirm_timer, startTimer,
    mbind, M_bind, modify, get. cbn -[read_timer]. rewrite Hw, orb_true_r. solve_test.
  cbn -[read_timer]. rewrite Er. cbn. rewrite Hs. cbn.
  eexists. split; [reflexivity|]. split; [by split|]. split; [done|].
  unfold timer_ready. cbn. pose proof (uint16_range (uint16 (m_udp_confirm_timeout (m_args c)))).
  destruct (_ =? 0) eqn:E; [done|]. bool_to_prop. cbn. apply Z.leb_gt. unfold uint16 in *. lia.
Qed.

(** * The event loop *)

(** Nothing arrives from outside. *)
Definition silent (i : io) : Prop := interrupted i = false /\ blocked i = false /\ inbox i = [].

Lemma silent_event i c :
  silent i -> pipe_closed (kernel c) = true ->
  next_event i c
  = Some (if timer_ready (kernel c) then Timer else Stdin true, i) :> option (event * io).
Proof.
  intros (Hi & Hb & Hx) Hp. unfold next_event. cbn [receive udp_handlers].
  unfold udp_receive, stdin_ready. rewrite Hi, Hb, Hx, Hp. by destruct (timer_ready (kernel c)).
Qed.

Lemma hup_turns n i c :
  silent i -> hung_up c -> timer_ready (kernel c) = false ->
  exists c', turns n i c = (i, Continue c')
    /\ only_sent (byes c (m_msg_to_server_id (ext c)) n) c c' /\ (n = O \/ has_time c').
Proof.
  intros Hi. revert c. induction n as [|n IH]; intros c Hc Ht.
  { exists c. split; [done|]. split; [by apply only_sent_nil|by left]. }
  cbn [turns]. rewrite silent_event, Ht by (done || apply Hc).
  destruct (hup_turn c Hc) as (c1 & -> & H1 & Hid & Htime & Hr).
  destruct (IH c1 (only_hung _ _ _ H1) Hr) as (c' & E & H2 & Hn). exists c'. split; [exact E|].
  rewrite Hid, (byes_same c) in H2 by apply H1. split; [exact (only_sent_trans _ _ _ _ _ H1 H2)|].
  right. destruct Hn as [->|]; [|done]. by injection E as <-.
Qed.

(** How many of the datagrams are BYEs. *)
Definition bye_count (ds : list (sockaddr_in * chars)) : nat :=
  length (List.filter (fun d => char_at 0 (snd d) =? type_byte M_BYE) ds).

Lemma bye_count_app a b : bye_count (a ++ b) = (bye_count a + bye_count b)%nat.
Proof. unfold bye_count. by rewrite List.filter_app, length_app. Qed.

Lemma byes_count c id n : bye_count (byes c id n) = n.
Proof.
  revert id. induction n as [|n IH]; intros id; [done|].
  change (byes c id (S n)) with ([bye_datagram c (uint16 (id + 1))] ++ byes c (uint16 (id + 1)) n).
  by rewrite bye_count_app, IH.
Qed.

Lemma eof_turns n i c :
  silent i -> hung_up c -> has_time c ->
  exists c' ds, turns (S (S n)) i c = (i, Continue c') /\ only_sent ds c c' /\ has_time c'
    /\ (S n <= bye_count ds)%nat.
Proof.
  intros Hi Hc Ht. destruct (timer_ready (kernel c)) eqn:Er.
  - destruct (timer_turn c Hc Ht Er) as (c1 & E1 & H1 & _ & Hr).
    destruct (hup_turns (S n) i c1 Hi (only_hung _ _ _ H1) Hr) as (c' & E2 & H2 & [|Ht']); [done|].
    exists c'. eexists. split; [|split; [exact (only_sent_trans _ _ _ _ _ H1 H2)|split; [done|]]].
    + remember (S n) as m. cbn [turns]. by rewrite silent_event, Er, E1 by (done || apply Hc).
    + rewrite bye_count_app, byes_count. lia.
  - destruct (hup_turns (S (S n)) i c Hi Hc Er) as (c' & E2 & H2 & [|Ht']); [done|].
    exists c'. eexists. split; [exact E2|]. split; [exact H2|]. split; [done|].
    rewrite byes_count. lia.
Qed.

Section PROCESS.

Context (inet_pton getaddrinfo : chars -> option Z) (undefined_status : Z).


End PROCESS.

(** A client started with its commands in a pipe that is closed already. *)
Definition sample_piped : udp_client :=
  on_kernel (fun k => set_pipe_closed true (set_pipe (lit "/auth a b c" ++ [LF]) k)) sample_udp.

