(* ===== verification/Interrupt.v ===== *)
(** What SIGINT does to a client: a TCP client says BYE and ends at once; a UDP client says BYE, waits
    for its CONFIRM, and ends when it comes or when the retransmissions are used up. *)
From S2P Require Import Prelude Args Kernel Regex Client TcpClient UdpClient Executable Process.
From S2P Require Import UdpSpec UdpStates UdpEof.

(** * Time *)

(** The process is given the processor at the times [ts] after [t], at most [gap] apart. *)
Inductive schedule (gap : Z) : Z -> list Z -> Prop :=
| schedule_nil t : 0 <= gap -> schedule gap t []
| schedule_cons t t' ts : t <= t' <= t + gap -> schedule gap t' ts -> schedule gap t (t' :: ts).

Fixpoint last_time (t : Z) (ts : list Z) : Z :=
  match ts with
  | [] => t
  | t' :: ts' => last_time t' ts'
  end.

Section PROCESS.

Context (inet_pton getaddrinfo : chars -> option Z) (undefined_status : Z).

Abbreviation elapse_at := (fun p t => process_elapse inet_pton getaddrinfo undefined_status t p).
Definition elapses (ts : list Z) (p : process) : process := fold_left elapse_at ts p.

Lemma exited_stays ts i tcp code k :
  elapses ts (MkProcess i (Exited tcp code k)) = MkProcess i (Exited tcp code k).
Proof. induction ts as [|t ts IH]; [done|]. exact IH. Qed.

(** * TCP *)

(** A TCP client that is interrupted sends one BYE and exits with 0, the next time it is given the
    processor and whatever else waits for it. *)
Theorem tcp_interrupt_ends t i c :
  interrupted i = true -> send_fails (kernel c) = false ->
  exists k, elapse_at (MkProcess i (Tcp c)) t = MkProcess (set_interrupted false i) (Exited true 0 k)
    /\ sent k = sent (kernel c) ++
         [(m_server_addr (m_args c), lit "BYE FROM " ++ m_user_display_name c ++ s_END_OF_MESSAGE)]
    /\ console k = console (kernel c).
Proof.
  intros Hi Hs. unfold process_elapse. cbn [the_io the_life on_life_kernel live].
  change BURST with (S 7). cbn [turns]. unfold next_event. rewrite Hi. cbn [dispatch sigintHandler tcp_handlers].
  unfold tcp_sigintHandler, tcp_sendByeMsgToServer, tcp_buildByeMsg, tcp_sendMsgToServer,
    send_to_server, send_packet, mbind, M_bind, modify, get, throw. cbn. rewrite Hs. cbn.
  eexists. split; [reflexivity|]. done.
Qed.

(** * UDP *)

(** What the timer is set to: the option's value in 16 bits, 0 for none. *)
Definition timeout_of (c : udp_client) : Z := uint16 (m_udp_confirm_timeout (m_args c)).

(** A client whose last message waits for its CONFIRM, with nothing else to do but to send it again
    at the time [d]. *)
Record waits (n : nat) (d : option Z) (c : udp_client) : Prop := {
  waits_confirm : awaits_confirm n c;
  waits_pipe : pipe_closed (kernel c) = false;
  waits_events : stdin_events (kernel c) = false;
  waits_timer : timer (kernel c) = d
}.

Lemma timeout_range c : 0 <= timeout_of c < 65536.
Proof. apply uint16_range. Qed.

Definition quiet (i : io) : Prop := interrupted i = false /\ blocked i = false /\ inbox i = [].

Lemma waits_event n d i c :
  quiet i -> waits n d c ->
  next_event i c = (if timer_ready (kernel c) then Some (Timer, i) else None) :> option (event * io).
Proof.
  intros (Hi & Hb & Hx) [_ Hp He _]. unfold next_event. cbn [receive udp_handlers].
  unfold udp_receive, stdin_ready. by rewrite Hi, Hb, Hx, Hp, He.
Qed.

Lemma waits_clock n d t c : waits n d c -> waits n d (on_kernel (set_clock t) c).
Proof. intros [[H1 H2 H3 H4] H5 H6 H7]. by split. Qed.

(** Too early: nothing happens. *)
Lemma waits_early n d t i c :
  quiet i -> waits n d c -> (forall d', d = Some d' -> t < d') ->
  elapse_at (MkProcess i (Udp c)) t = MkProcess i (Udp (on_kernel (set_clock t) c)).
Proof.
  intros Hi Hc Hd. unfold process_elapse. cbn [the_io the_life on_life_kernel live].
  change BURST with (S 7). cbn [turns]. rewrite (waits_event n d) by (done || by apply waits_clock).
  assert (timer_ready (kernel (on_kernel (set_clock t) c)) = false) as ->; [|done].
  unfold timer_ready. cbn. rewrite (waits_timer _ _ _ Hc). destruct d as [d|]; [|done].
  apply Z.leb_gt. by apply Hd.
Qed.

(** In time: the message is sent again, or the client ends. *)
(** From [c] to [c'] the message of [c] was sent again [n] times, and nothing else happened. *)
Record sent_again (n : nat) (c c' : udp_client) : Prop := {
  again_sent : sent (kernel c') = sent (kernel c) ++ replicate n (transmission c);
  again_message : transmission c' = transmission c;
  again_args : m_args c' = m_args c;
  again_console : console (kernel c') = console (kernel c)
}.

Lemma sent_again_refl c : sent_again 0 c c.
Proof. split; [|done..]. by rewrite app_nil_r. Qed.

Lemma sent_again_trans n m c1 c2 c3 :
  sent_again n c1 c2 -> sent_again m c2 c3 -> sent_again (n + m) c1 c3.
Proof.
  intros [S1 T1 A1 C1] [S2 T2 A2 C2]. split; [|congruence..].
  by rewrite S2, S1, T1, replicate_add, app_assoc.
Qed.

Lemma ready_at n d t c : waits n (Some d) c -> d <= t ->
  timer_ready (kernel (on_kernel (set_clock t) c)) = true
  /\ read_timer (kernel (on_kernel (set_clock t) c)) = set_timer None (set_clock t (kernel c)).
Proof.
  intros Hc Hd. assert (timer_ready (kernel (on_kernel (set_clock t) c)) = true) as Hr.
  { unfold timer_ready. cbn. rewrite (waits_timer _ _ _ Hc). by apply Z.leb_le. }
  split; [done|]. unfold read_timer. by rewrite Hr.
Qed.

Lemma waits_again n d t i c :
  quiet i -> waits (S n) (Some d) c -> d <= t -> timeout_of c <> 0 ->
  exists c', elapse_at (MkProcess i (Udp c)) t = MkProcess i (Udp c')
    /\ waits n (Some (t + timeout_of c)) c' /\ sent_again 1 c c'.
Proof.
  intros Hi Hc Hd HT. destruct (ready_at _ _ _ _ Hc Hd) as [Hr Er].
  pose proof (waits_clock _ _ t _ Hc) as Hc0. set (c0 := on_kernel (set_clock t) c) in *.
  destruct (fire_once n c0 (waits_confirm _ _ _ Hc0)) as (c1 & E & Hw & Ht & Ha & Hk).
  rewrite Er in Hk. unfold timerfd_settime in Hk.
  change (uint16 (m_udp_confirm_timeout (m_args c0))) with (timeout_of c) in Hk.
  destruct (Z.eqb_spec (timeout_of c) 0) as [|_] in Hk; [done|]. cbn in Hk.
  assert (waits n (Some (t + timeout_of c)) c1) as Hw1.
  { destruct Hc0. split; [done|..]; rewrite Hk; done. }
  exists c1. split; [|split; [done|split; [by rewrite Hk|done|done|by rewrite Hk]]].
  unfold process_elapse. cbn [the_io the_life on_life_kernel live].
  fold c0. change BURST with (S (S 6)). cbn [turns]. rewrite (waits_event _ _ _ _ Hi Hc0), Hr.
  cbn [dispatch processTimerEvent udp_handlers]. rewrite E. cbn [end_of_handler go_on turns].
  rewrite (waits_event _ _ _ _ Hi Hw1).
  assert (timer_ready (kernel c1) = false) as ->; [|done].
  rewrite Hk. unfold timer_ready. cbn. apply Z.leb_gt.
  pose proof (timeout_range c). lia.
Qed.

(** How the client ends when nobody answers. *)
Definition gave_up (c : udp_client) (k : os) : Prop :=
  sent k = sent (kernel c)
  /\ console k = console (kernel c) ++ lit "ERROR: exceeded udp max retransmission number." ++ [LF].

Lemma waits_last d t i c :
  quiet i -> waits 0 (Some d) c -> d <= t ->
  exists k, elapse_at (MkProcess i (Udp c)) t = MkProcess i (Exited false 1 k) /\ gave_up c k.
Proof.
  intros Hi Hc Hd. destruct (ready_at _ _ _ _ Hc Hd) as [Hr Er].
  pose proof (waits_clock _ _ t _ Hc) as Hc0. set (c0 := on_kernel (set_clock t) c) in *.
  destruct (fire_last c0 (waits_confirm _ _ _ Hc0)) as (c1 & E & Hk). rewrite Er in Hk.
  unfold process_elapse. cbn [the_io the_life on_life_kernel live].
  fold c0. change BURST with (S 7). cbn [turns]. rewrite (waits_event _ _ _ _ Hi Hc0), Hr.
  cbn [dispatch processTimerEvent udp_handlers]. rewrite E. cbn. rewrite Hk.
  eexists. split; [reflexivity|]. done.
Qed.

(** Given the processor often enough, the client uses up its retransmissions and ends. *)
Lemma waits_end gap ts n d t i c :
  quiet i -> waits n (Some d) c -> timeout_of c <> 0 -> schedule gap t ts -> t < d ->
  d + Z.of_nat n * (timeout_of c + gap) <= last_time t ts ->
  exists c' k, elapses ts (MkProcess i (Udp c)) = MkProcess i (Exited false 1 k)
    /\ sent_again n c c' /\ gave_up c' k.
Proof.
  intros Hi Hc HT Hts. revert n d c Hc HT.
  induction Hts as [t Hg|t t' ts Hg Hts IH]; intros n d c Hc HT Ht Hend; cbn [last_time] in Hend.
  { pose proof (timeout_range c). nia. }
  cbn [elapses fold_left]. destruct (Z.lt_ge_cases t' d) as [He|Hl].
  - rewrite (waits_early n (Some d)) by (done || by intros ? [= <-]).
    destruct (IH n d (on_kernel (set_clock t') c)) as (c' & k & E & [] & Hk);
      [by apply waits_clock|done|done|done|]. by exists c', k.
  - destruct n as [|n].
    + destruct (waits_last d t' i c Hi Hc Hl) as (k & -> & Hk). exists c, k.
      split; [apply exited_stays|]. split; [apply sent_again_refl|done].
    + destruct (waits_again n d t' i c Hi Hc Hl HT) as (c1 & -> & H1 & A1).
      assert (timeout_of c1 = timeout_of c) as Et by (unfold timeout_of; by rewrite (again_args _ _ _ A1)).
      pose proof (timeout_range c). rewrite <- Et in *.
      destruct (IH n _ c1 H1 HT) as (c' & k & E & A2 & Hk); [lia|nia|].
      exists c', k. split; [exact E|]. split; [exact (sent_again_trans 1 n _ _ _ A1 A2)|done].
Qed.

(** A timeout of 0 disarms the timer: the client waits for ever. *)
Lemma waits_forever ts n i c :
  quiet i -> waits n None c ->
  exists c', elapses ts (MkProcess i (Udp c)) = MkProcess i (Udp c') /\ sent_again 0 c c'.
Proof.
  intros Hi. revert c. induction ts as [|t ts IH]; intros c Hc.
  { exists c. split; [done|apply sent_again_refl]. }
  cbn [elapses fold_left]. rewrite (waits_early n None) by done.
  destruct (IH (on_kernel (set_clock t) c)) as (c' & E & []); [by apply waits_clock|].
  by exists c'.
Qed.

(** The signal: BYE is sent with the next id, and its CONFIRM awaited. *)
Lemma interrupt_bye t i c :
  interrupted i = true -> blocked i = false -> inbox i = [] ->
  pipe_closed (kernel c) = false -> send_fails (kernel c) = false ->
  0 <= m_udp_max_retrans_count (m_args c) < 256 ->
  exists c', elapse_at (MkProcess i (Udp c)) t = MkProcess (set_interrupted false i) (Udp c')
    /\ waits (Z.to_nat (m_udp_max_retrans_count (m_args c)))
         (if timeout_of c =? 0 then None else Some (t + timeout_of c)) c'
    /\ sent (kernel c') = sent (kernel c) ++ [bye_datagram c (uint16 (m_msg_to_server_id (ext c) + 1))]
    /\ transmission c' = bye_datagram c (uint16 (m_msg_to_server_id (ext c) + 1))
    /\ m_args c' = m_args c /\ console (kernel c') = console (kernel c).
Proof.
  intros Hi Hb Hx Hp Hs Hr. set (c0 := on_kernel (set_clock t) c).
  assert (exists c', dispatch Sigint c0 = Continue c'
    /\ waits (Z.to_nat (m_udp_max_retrans_count (m_args c)))
         (if timeout_of c =? 0 then None else Some (t + timeout_of c)) c'
    /\ sent (kernel c') = sent (kernel c) ++ [bye_datagram c (uint16 (m_msg_to_server_id (ext c) + 1))]
    /\ transmission c' = bye_datagram c (uint16 (m_msg_to_server_id (ext c) + 1))
    /\ m_args c' = m_args c /\ console (kernel c') = console (kernel c)
    /\ timer_ready (kernel c') = false) as (c1 & E & Hw & Hsent & Ht & Ha & Hc & Hready).
  { cbn [dispatch sigintHandler udp_handlers].
    unfold udp_sigintHandler, udp_sendByeMsgToServer, udp_buildByeMsg, udp_sendMsgToServer,
      send_to_server, send_packet, disableStdinEvents, start_confirm_timer, startTimer,
      waiting_for_confirm, reset_retransmissions, mbind, M_bind, modify, get. cbn. rewrite Hs. cbn.
    eexists. split; [reflexivity|]. split.
    - split; [split; cbn; [done|unfold uint8; lia|lia|done]|done..].
    - do 4 (split; [done|]). unfold timer_ready. cbn.
      change (uint16 (m_udp_confirm_timeout (m_args c))) with (timeout_of c).
      pose proof (timeout_range c). destruct (Z.eqb_spec (timeout_of c) 0); [done|].
      apply Z.leb_gt. lia. }
  exists c1. split; [|done]. unfold process_elapse. cbn [the_io the_life on_life_kernel live].
  fold c0. change BURST with (S (S 6)). cbn [turns]. unfold next_event at 1. rewrite Hi, E.
  assert (quiet (set_interrupted false i)) as Hq by done.
  by rewrite (waits_event _ _ _ _ Hq Hw), Hready.
Qed.

(** C12. Ctrl-C ends a UDP client in bounded time even when the server is gone.  Interrupted while no
    read of standard input is going on, with standard input open and nothing arriving, the client
    sends BYE with its next id; given the processor at least every [gap] milliseconds it sends it
    again as often as retransmissions are configured, and after at most that many timeouts and one
    more (and the gaps) exits with status 1 and the retransmission error.  With a timeout that is a
    multiple of 65536, 0 among them, the timer is never armed: BYE is sent once, and the client waits
    for ever. *)
Theorem udp_interrupt_ends gap t ts i c :
  interrupted i = true -> blocked i = false -> inbox i = [] ->
  pipe_closed (kernel c) = false -> send_fails (kernel c) = false ->
  0 <= m_udp_max_retrans_count (m_args c) < 256 ->
  let r := m_udp_max_retrans_count (m_args c) in
  let bye := bye_datagram c (uint16 (m_msg_to_server_id (ext c) + 1)) in
  let p := elapses (t :: ts) (MkProcess i (Udp c)) in
  if timeout_of c =? 0 then
    exists c', p = MkProcess (set_interrupted false i) (Udp c')
      /\ sent (kernel c') = sent (kernel c) ++ [bye]
  else
    schedule gap t ts -> t + (r + 1) * timeout_of c + r * gap <= last_time t ts ->
    exists k, p = MkProcess (set_interrupted false i) (Exited false 1 k)
      /\ sent k = sent (kernel c) ++ replicate (S (Z.to_nat r)) bye
      /\ console k = console (kernel c)
           ++ lit "ERROR: exceeded udp max retransmission number." ++ [LF].
Proof.
  intros Hi Hb Hx Hp Hs Hr r bye p.
  destruct (interrupt_bye t i c Hi Hb Hx Hp Hs Hr) as (c1 & E & Hw & Hsent & Ht & Ha & Hc).
  assert (quiet (set_interrupted false i)) as Hq by done.
  unfold p. cbn [elapses fold_left]. rewrite E.
  destruct (Z.eqb_spec (timeout_of c) 0) as [HT|HT].
  - destruct (waits_forever ts _ _ _ Hq Hw) as (c' & E' & [A _ _ _]). exists c'. split; [exact E'|].
    rewrite A, Hsent. apply app_nil_r.
  - intros Hts Hend. pose proof (timeout_range c).
    assert (timeout_of c1 = timeout_of c) as Et by (unfold timeout_of; by rewrite Ha).
    destruct (waits_end gap ts _ _ t _ _ Hq Hw)
      as (c' & k & E' & [A _ _ C] & [K1 K2]); [by rewrite Et|done|lia|rewrite Et, Z2Nat.id by lia; lia|].
    exists k. split; [exact E'|]. split; [by rewrite K1, A, Hsent, Ht, <- app_assoc|].
    by rewrite K2, C, Hc.
Qed.

End PROCESS.

(** A client in an open session, with one retransmission, interrupted at 1000. *)
Definition sample_interrupted : udp_client :=
  Udp_client_init (MkArgs 4567 250 1 false false (MkAddr 2130706433 4567)) (os_start 0).

Lemma udp_interrupt_ends_witness :
  exists k, elapses (fun _ => None) (fun _ => None) 0 [1000; 1200; 1400; 1600; 1800]
      (MkProcess (set_interrupted true io_start) (Udp sample_interrupted))
    = MkProcess io_start (Exited false 1 k)
    /\ length (sent k) = 2%nat.
Proof.
  pose proof (udp_interrupt_ends (fun _ => None) (fun _ => None) 0 200 1000 [1200; 1400; 1600; 1800]
    (set_interrupted true io_start) sample_interrupted eq_refl eq_refl eq_refl eq_refl eq_refl
    ltac:(cbn; lia)) as (k & E & Hs & _); [|by vm_compute|].
  - do 4 (apply schedule_cons; [lia|]). by apply schedule_nil.
  - exists k. split; [exact E|]. rewrite Hs. reflexivity.
Defined.
