(* ===== verification/ReadAhead.v ===== *)
(** Standard input as the event loop sees it.  [epoll] watches the pipe, the C library reads ahead
    of the program, and [std::getline] waits for a whole line: of lines that arrive together only the
    first is handled before more arrives, and a part of a line stops everything else. *)
From S2P Require Import Prelude Args Kernel Regex Client TcpClient UdpClient Executable Process.
From S2P Require Import KernelSpec ProcessSpec UdpSpec.

(** * The input of a process *)

Definition same_input (k k' : os) : Prop :=
  pipe k' = pipe k /\ pipe_closed k' = pipe_closed k /\ filebuf k' = filebuf k.

#[export] Instance same_input_order : Kernel_order same_input.
Proof.
  split; [|done| |done|done].
  - split; [done|]. unfold same_input. intros a b c. intuition congruence.
  - intros to data k. unfold send_packet. by destruct (send_fails k).
Qed.

(** Nothing new in the open pipe; [b] is read ahead. *)
Definition held (b : chars) (k : os) : Prop :=
  pipe k = [] /\ pipe_closed k = false /\ filebuf k = b.

Lemma held_same b k k' : same_input k k' -> held b k -> held b k'.
Proof. unfold same_input, held. intuition congruence. Qed.

(** A client at its prompt: it waits for input, and for nothing else. *)
Record prompt {D} (i : io) (c : client D) : Prop := {
  prompt_io : interrupted i = false /\ blocked i = false /\ inbox i = [] /\ segments i = [];
  prompt_timer : timer (kernel c) = None;
  prompt_events : stdin_events (kernel c) = true;
  prompt_input : held [] (kernel c)
}.

(** What happens to a process while nobody types: it runs, and everything but its input arrives. *)
Definition typed_by_user (a : arrival) : bool :=
  match a with Input _ | Input_closed => true | _ => false end.

Section LOOP.

Context {D : Type} `{!Handlers D, !Handlers_along same_input D}.

(** The event loop does not see what was read ahead. *)
Lemma held_event b i c e i' :
  held b (kernel c) -> next_event i c = Some (e, i') -> reads e = false.
Proof.
  intros (Hp & Hc & _). unfold next_event, stdin_ready. rewrite Hp, Hc. cbn.
  destruct (interrupted i); [by intros [= <- _]|]. destruct (blocked i); [done|].
  destruct (receive i) as [[p j]|]; [by intros [= <- _]|].
  destruct (timer_ready (kernel c)); [by intros [= <- _]|]. by rewrite andb_false_r.
Qed.

Lemma held_turns b fuel i c :
  held b (kernel c) -> held b (turn_kernel (snd (turns fuel i c))).
Proof.
  revert i c. induction fuel as [|fuel IH]; intros i c Hc; cbn; [done|].
  destruct (next_event i c) as [[e i']|] eqn:E; [|done].
  assert (held b (turn_kernel (dispatch e c))) as Hd.
  { eapply held_same, Hc. apply (along_dispatch same_input). by rewrite (held_event b i c e i'). }
  destruct (dispatch e c) as [c'|c'|code k]; cbn in *; [by apply IH|done..].
Qed.

(** Lines that arrive together: the first is handled, and the others are read ahead. *)
Lemma reading_turn c line rest fuel i :
  pipe (kernel c) = line ++ LF :: rest -> pipe_closed (kernel c) = false ->
  filebuf (kernel c) = [] -> LF ∉ line -> (length (line ++ LF :: rest) <= BUFSIZE)%nat ->
  next_event i c = Some (Stdin false, i) ->
  held rest (turn_kernel (snd (turns (S fuel) i c))).
Proof.
  intros Hp Hc Hf Hl Hn E. cbn [turns]. rewrite E.
  assert (held rest (turn_kernel (dispatch (Stdin false) c))) as Hd.
  { eapply held_same; [apply (along_dispatch same_input); reflexivity|]. cbn [reads].
    unfold read_line. by rewrite (getline_takes_all _ line rest). }
  destruct (dispatch (Stdin false) c) as [c'|c'|code k]; cbn [snd turn_kernel] in *;
    [by apply held_turns|done..].
Qed.

Lemma prompt_event t text i c :
  receive i = None -> prompt i c -> text <> [] ->
  next_event i (on_kernel (set_clock t) (on_kernel (fun k => set_pipe (pipe k ++ text) k) c))
  = Some (Stdin false, i).
Proof.
  intros Hr [(Hi & Hb & _) Ht He (Hp & Hc & _)] Hne. unfold next_event, timer_ready, stdin_ready. cbn.
  rewrite Hi, Hb, Hr, Ht, Hc, He, Hp. cbn. by destruct text.
Qed.

End LOOP.

(** * Half a line *)

(** A BYE. *)
Definition is_bye (d : sockaddr_in * chars) : Prop := char_at 0 (snd d) = type_byte M_BYE.

(** From [k] to [k'] nothing but BYEs was sent, and nothing read or printed. *)
Definition only_byes (k k' : os) : Prop :=
  same_input k k' /\ send_fails k' = send_fails k /\ console k' = console k
  /\ exists ds, sent k' = sent k ++ ds /\ Forall is_bye ds.

#[export] Instance only_byes_preorder : PreOrder only_byes.
Proof.
  split.
  - intros k. repeat split. exists []. by rewrite app_nil_r.
  - intros a b c ((? & ? & ?) & ? & ? & d1 & S1 & B1) ((? & ? & ?) & ? & ? & d2 & S2 & B2).
    repeat split; try congruence. exists (d1 ++ d2). rewrite S2, S1, app_assoc. split; [done|].
    by apply Forall_app.
Qed.

(** The client waits inside [std::getline] for the end of a line. *)
Record mid_line (i : io) (c : udp_client) : Prop := {
  mid_blocked : blocked i = true;
  mid_open : pipe_closed (kernel c) = false;
  mid_input : LF ∉ filebuf (kernel c) ++ pipe (kernel c);
  mid_sends : send_fails (kernel c) = false
}.

Lemma mid_line_byes i i' c c' :
  only_byes (kernel c) (kernel c') -> blocked i' = true -> mid_line i c -> mid_line i' c'.
Proof.
  intros ((Hp & Hc & Hf) & Hs & _) Hb [_ H2 H3 H4]. split; [done|congruence|by rewrite Hf, Hp|congruence].
Qed.

Lemma half_line_blocks c :
  LF ∉ filebuf (kernel c) ++ pipe (kernel c) -> pipe_closed (kernel c) = false ->
  dispatch (Stdin false) c = Wait c.
Proof.
  intros Hl Hc. cbn [dispatch processStdinEvent udp_handlers].
  unfold udp_processStdinEvent, parseUserInput, read_line, mbind, M_bind. by rewrite getline_blocks.
Qed.

Lemma sigint_byes c :
  send_fails (kernel c) = false ->
  exists c', dispatch Sigint c = Continue c' /\ only_byes (kernel c) (kernel c').
Proof.
  intros Hs. cbn [dispatch sigintHandler udp_handlers].
  unfold udp_sigintHandler, udp_sendByeMsgToServer, udp_buildByeMsg, udp_sendMsgToServer,
    send_to_server, send_packet, disableStdinEvents, start_confirm_timer, startTimer,
    waiting_for_confirm, reset_retransmissions, mbind, M_bind, modify, get. cbn. rewrite Hs. cbn.
  eexists. split; [reflexivity|]. repeat split. eexists. split; [reflexivity|].
  by apply Forall_singleton.
Qed.

Lemma mid_line_turns n i c :
  mid_line i c ->
  exists i' c', turns n i c = (i', Continue c') /\ mid_line i' c' /\ only_byes (kernel c) (kernel c').
Proof.
  revert i c. induction n as [|n IH]; intros i c Hm; [by exists i, c|].
  pose proof Hm as [Hb Ho Hl Hs]. cbn [turns]. unfold next_event. rewrite Hb, Ho. cbn [orb].
  destruct (interrupted i).
  - destruct (sigint_byes c Hs) as (c1 & -> & H1).
    assert (mid_line (set_interrupted false i) c1) as Hm1 by (by eapply mid_line_byes).
    destruct (IH _ _ Hm1) as (i' & c' & -> & Hm' & H2). exists i', c'. split; [done|].
    split; [done|]. by etrans.
  - destruct (negb (pipe (kernel c) =s? [])); [|by exists i, c].
    rewrite half_line_blocks by done. eexists _, c. split; [reflexivity|].
    split; [by eapply mid_line_byes|done].
Qed.

Section PROCESS.

Context (inet_pton getaddrinfo : chars -> option Z) (undefined_status : Z).

Abbreviation run := (process_elapse inet_pton getaddrinfo undefined_status).

Inductive untouched_step : process -> process -> Prop :=
| step_runs t p : untouched_step p (run t p)
| step_told a p : typed_by_user a = false -> untouched_step p (process_arrive a p).

(** A process that nobody types to, from [p] to [p']. *)
Definition untouched : process -> process -> Prop := rtc untouched_step.

(** * Lines that arrive together *)

Lemma held_connected b accepted c :
  held b (kernel c) -> held b (life_kernel (connected accepted c)).
Proof. by destruct accepted. Qed.

Lemma held_main b argv k :
  held b k -> held b (life_kernel (main inet_pton getaddrinfo undefined_status argv k)).
Proof.
  unfold main. destruct (Args_ctor _ _ _) as [args|what|]; [|by destruct what|done].
  destruct (m_is_help_used args); [done|]. unfold create. by destruct (m_is_tcp args).
Qed.

Lemma held_live b i l :
  held b (life_kernel l) ->
  held b (life_kernel (the_life (live inet_pton getaddrinfo undefined_status i l))).
Proof.
  destruct l as [argv k|c [accepted|]|c|c|tcp code k]; cbn [live].
  - apply held_main.
  - apply held_connected.
  - done.
  - rewrite after_turns_kernel by done. apply (held_turns (D := chars)).
  - rewrite after_turns_kernel by done. apply (held_turns (D := udp)).
  - done.
Qed.

Lemma held_step b p p' :
  untouched_step p p' -> held b (life_kernel (the_life p)) -> held b (life_kernel (the_life p')).
Proof.
  intros [t [i l]|a [i l] Ha] Hb.
  - apply held_live. by destruct l.
  - destruct a; try done. by destruct l.
Qed.

Lemma held_untouched b p p' :
  untouched p p' -> held b (life_kernel (the_life p)) -> held b (life_kernel (the_life p')).
Proof. induction 1; [done|]. intros Hb. eauto using held_step. Qed.

(** Either client at its prompt. *)
Inductive at_prompt : process -> Prop :=
| tcp_at_prompt i c : prompt i c -> at_prompt (MkProcess i (Tcp c))
| udp_at_prompt i c : prompt i c -> at_prompt (MkProcess i (Udp c)).

(** C10. Lines that arrive together are not handled together.  At the prompt of either client, several
    lines are written to its standard input at once, as a script does that is piped into it: the
    first is handled, and the others are read with it and stay in the buffer of the C library,
    unhandled, for as long as nothing more is typed: whatever the server sends, however much time
    passes, and until the end of a client that is interrupted or told BYE. *)
Theorem lines_together_wait p line rest t p' :
  at_prompt p -> LF ∉ line -> (length (line ++ LF :: rest) <= BUFSIZE)%nat ->
  untouched (run t (process_arrive (Input (line ++ LF :: rest)) p)) p' ->
  held rest (life_kernel (the_life p')).
Proof.
  intros Hp Hl Hn Hu. eapply held_untouched; [exact Hu|].
  assert (line ++ LF :: rest <> []) as Hne by (by destruct line).
  destruct Hp as [i c Hc|i c Hc]; pose proof Hc as [(_ & _ & Hx & Hs) _ _ (Hp & Ho & Hf)];
    unfold process_elapse, process_arrive; cbn [the_io the_life on_life on_life_kernel live];
    rewrite after_turns_kernel by done;
    apply (reading_turn _ line); try done; cbn; rewrite ?Hp; try done.
  1-2: apply prompt_event; try done.
  - cbn. unfold tcp_receive. by rewrite Hs.
  - cbn. unfold udp_receive. by rewrite Hx.
Qed.

(** * Half a line *)

(** A UDP client in the middle of a line, from [k] on. *)
Definition deaf (k : os) (p : process) : Prop :=
  exists i c, p = MkProcess i (Udp c) /\ mid_line i c /\ only_byes k (kernel c).

Lemma deaf_step k p p' : untouched_step p p' -> deaf k p -> deaf k p'.
Proof.
  intros [t q|a q Ha] (i & c & -> & Hm & Hk).
  - set (c0 := on_kernel (set_clock t) c).
    destruct (mid_line_turns BURST i c0) as (i' & c' & E & Hm' & H'); [by destruct Hm|].
    exists i', c'. split; [|split; [done|by etrans]].
    transitivity (after_turns false Udp (turns BURST i c0)); [done|by rewrite E].
  - destruct a; try done; do 2 eexists; (split; [reflexivity|]); split; try done; by destruct Hm.
Qed.


End PROCESS.

(** * Witnesses *)

Abbreviation sample_run := (process_elapse (fun _ => None) (fun _ => None) 0).

(** A client that is sent a PING after two lines were typed at once, and runs for five seconds. *)
Definition sample_typed (text : chars) : process :=
  sample_run 10 (process_arrive (Input text) (MkProcess io_start (Udp sample_udp))).
Definition sample_later (text : chars) : process :=
  sample_run 5000 (process_arrive (Datagram (MkAddr 2130706433 4567) [253; 0; 9]) (sample_typed text)).

Lemma sample_untouched text :
  untouched (fun _ => None) (fun _ => None) 0 (sample_typed text) (sample_later text).
Proof.
  eapply rtc_l; [by apply (step_told _ _ _ (Datagram (MkAddr 2130706433 4567) [253; 0; 9]))|].
  apply rtc_once, step_runs.
Qed.

Lemma sample_prompt : prompt io_start sample_udp.
Proof. by repeat split. Qed.

Lemma lines_together_wait_witness :
  length (sent (life_kernel (the_life (sample_later (lit "/help" ++ LF :: lit "/auth a b c" ++ [LF])))))
    = 1%nat
  /\ held (lit "/auth a b c" ++ [LF])
       (life_kernel (the_life (sample_later (lit "/help" ++ LF :: lit "/auth a b c" ++ [LF])))).
Proof.
  split; [vm_compute; reflexivity|].
  apply (lines_together_wait (fun _ => None) (fun _ => None) 0
    (MkProcess io_start (Udp sample_udp)) (lit "/help") (lit "/auth a b c" ++ [LF]) 10).
  - apply udp_at_prompt, sample_prompt.
  - by apply (bool_decide_unpack _).
  - apply Nat.leb_le. reflexivity.
  - apply (sample_untouched (lit "/help" ++ LF :: lit "/auth a b c" ++ [LF])).
Defined.

