(* ===== verification/Typing.v ===== *)
(** The client's types: every octet it stores, prints or sends is one, every address it sends to has
    a port, as long as what reaches it from outside is octets too. *)
From S2P Require Import Prelude PyRuntime Args Kernel Regex Client ClientSpec TcpClient UdpClient.
From S2P Require Import Executable Process UdpSpec.

(** * Octets *)

Definition octets (s : chars) : Prop := Forall is_byte s.

Definition real_address (a : sockaddr_in) : Prop :=
  0 <= sin_addr a < 4294967296 /\ 0 <= sin_port a < 65536.

Definition real_datagram (d : sockaddr_in * chars) : Prop := real_address (fst d) /\ octets (snd d).

(** A literal's, by computation. *)
Definition all_octets (s : chars) : bool := forallb (fun b => (0 <=? b) && (b <? 256)) s.

Lemma all_octets_true s : all_octets s = true -> octets s.
Proof.
  intros Hs. apply Forall_forall. intros b Hb. unfold all_octets in Hs. rewrite forallb_forall in Hs.
  specialize (Hs b (proj1 (list_elem_of_In _ _) Hb)). unfold is_byte. bool_to_prop. lia.
Qed.

Lemma octets_nil : octets [].
Proof. constructor. Qed.

Lemma octets_cons b s : is_byte b -> octets s -> octets (b :: s).
Proof. by constructor. Qed.

Lemma octets_app s t : octets s -> octets t -> octets (s ++ t).
Proof. intros Hs Ht. by apply Forall_app. Qed.

Lemma octets_take n s : octets s -> octets (take n s).
Proof. apply Forall_take. Qed.

Lemma octets_drop n s : octets s -> octets (drop n s).
Proof. apply Forall_drop. Qed.

Lemma octets_nth n (m : list chars) : Forall octets m -> octets (nth n m []).
Proof.
  intros Hm. destruct (Nat.lt_ge_cases n (length m)) as [Hn|Hn].
  - rewrite Forall_forall in Hm. apply Hm, list_elem_of_In, nth_In, Hn.
  - rewrite nth_overflow by done. apply octets_nil.
Qed.

Lemma octets_nth_tail n x (m : list chars) : Forall octets (x :: m) -> octets (nth n m []).
Proof. intros Hm. inversion Hm. by apply octets_nth. Qed.

Lemma octet_at i s : octets s -> is_byte (char_at i s).
Proof.
  intros Hs. unfold char_at. destruct (Nat.lt_ge_cases i (length s)) as [Hi|Hi].
  - unfold octets in Hs. rewrite Forall_forall in Hs. apply Hs, list_elem_of_In, nth_In, Hi.
  - rewrite nth_overflow by done. unfold is_byte, NUL. lia.
Qed.

Lemma octets_c_str s : octets s -> octets (c_str s).
Proof.
  induction 1 as [|b s Hb Hs IH]; cbn; [apply octets_nil|].
  destruct (b =? NUL); [apply octets_nil|by apply octets_cons].
Qed.

Lemma octets_concat ss : Forall octets ss -> octets (concat ss).
Proof. induction 1; cbn; [apply octets_nil|by apply octets_app]. Qed.

(** What an expression captures is part of the string. *)
Lemma regex_octets icase r s m : regex_match icase r s = Some m -> octets s -> Forall octets m.
Proof.
  intros Hm%regex_match_sound. induction Hm; intros Hs; [constructor|..].
  - apply IHHm. by inversion Hs.
  - apply Forall_app in Hs as [Hw Hs]. constructor; auto.
  - apply Forall_app in Hs as [Hw Hs]. constructor; auto.
Qed.

(** Two octets of a number. *)
Definition is_id (n : Z) : Prop := 0 <= n < 65536.

Lemma octets_id n : is_id n -> octets (htons_bytes n).
Proof.
  unfold is_id, htons_bytes. intros Hn. repeat apply octets_cons; [..|apply octets_nil];
    unfold is_byte; Z.to_euclidean_division_equations; lia.
Qed.

Lemma id_of_message m : octets m -> is_id (getMsgId m).
Proof.
  intros Hm. pose proof (octet_at 1 m Hm) as H1. pose proof (octet_at 2 m Hm) as H2.
  unfold is_id, getMsgId. unfold is_byte in *. lia.
Qed.

Lemma octet_type t : is_byte (type_byte t).
Proof. unfold is_byte, type_byte, uint8. apply Z.mod_pos_bound. lia. Qed.

Lemma is_id_uint16 n : is_id (uint16 n).
Proof. apply uint16_range. Qed.

Lemma octets_udp t payload (c : udp_client) :
  is_id (m_msg_to_server_id (ext c)) -> octets payload -> octets (udp_message t payload c).
Proof.
  intros Hi Hp. apply octets_app; [|apply octets_app; [by apply octets_id|done]].
  apply octets_cons; [apply octet_type|apply octets_nil].
Qed.

Create HintDb octets.
#[export] Hint Resolve octets_nil octets_take octets_drop octets_nth octets_nth_tail octet_at octets_c_str octets_id id_of_message octet_type
  is_id_uint16 regex_octets : octets.
#[export] Hint Resolve is_id_uint16 id_of_message : typed.

(** The octets of a text, part by part. *)
Ltac solve_octets :=
  first
    [ assumption
    | apply all_octets_true; reflexivity
    | lazymatch goal with
      | |- octets (_ ++ _) => apply octets_app; solve_octets
      | |- octets (_ :: _) => apply octets_cons; [eauto 3 with octets|solve_octets]
      | |- octets (take _ _) => apply octets_take; solve_octets
      | |- octets (drop _ _) => apply octets_drop; solve_octets
      | |- octets (udp_message _ _ _) => apply octets_udp; [eauto 3 with octets|solve_octets]
      | |- octets (if ?b then _ else _) => destruct b; solve_octets
      | |- Forall octets (_ :: _) => constructor; solve_octets
      | |- Forall octets [] => constructor
      | |- _ => solve [eauto 5 with octets]
      end ].

#[export] Hint Extern 0 (octets _) => solve [solve_octets] : typed.
#[export] Hint Extern 0 (Forall octets _) => solve [solve_octets] : typed.

(** * Objects *)

Record typed_os (k : os) : Prop := {
  ty_pipe : octets (pipe k);
  ty_filebuf : octets (filebuf k);
  ty_console : octets (console k);
  ty_sent : Forall real_datagram (sent k)
}.

(** What the members of the derived class are. *)
Class Typed_members (D : Type) : Type := typed_members : D -> Prop.

#[export] Instance tcp_members : Typed_members chars := octets.
#[export] Instance udp_members : Typed_members udp := fun u => is_id (m_msg_to_server_id u).

Record typed {D} `{Typed_members D} (c : client D) : Prop := {
  ty_server : real_address (m_server_addr (m_args c));
  ty_name : octets (m_user_display_name c);
  ty_message : octets (m_msg_to_server c);
  ty_kernel : typed_os (kernel c);
  ty_ext : typed_members (ext c)
}.

#[export] Hint Resolve ty_name ty_message ty_console : octets.
#[export] Hint Resolve ty_pipe ty_filebuf ty_console ty_sent ty_server ty_name ty_message ty_kernel
  ty_ext : typed.

(** A computation of type [P]: what it raises has a text. *)
Definition octets_thrown (e : stop) : Prop :=
  match e with Thrown what => octets what | Blocked => True end.

Lemma thrown_octets what : octets what -> octets_thrown (Thrown what).
Proof. done. Qed.

#[export] Hint Resolve thrown_octets : typed.

Abbreviation computes P m := (produces typed P octets_thrown m).
Abbreviation anything := (fun _ => True).

(** The reading of a kernel's fields. *)
Lemma typed_write text k : octets text -> typed_os k -> typed_os (write_console text k).
Proof. intros Ht []. split; try done. by apply octets_app. Qed.

Lemma typed_send to data k :
  real_address to -> octets data -> typed_os k -> typed_os (fst (send_packet to data k)).
Proof.
  intros Ha Hd Hk. unfold send_packet. destruct (send_fails k); [done|]. destruct Hk.
  split; try done. apply Forall_app. split; [done|]. apply Forall_singleton. by split.
Qed.

Lemma split_line_octets s l r : split_line s = Some (l, r) -> octets s -> octets l /\ octets r.
Proof.
  revert l r. induction s as [|x s IH]; intros l r; [done|]. cbn. intros E Hs. inversion Hs; subst.
  destruct (x =? LF); [by injection E as <- <-; split; [apply octets_nil|]|].
  destruct (split_line s) as [[l' r']|]; [|done]. injection E as <- <-.
  destruct (IH l' r' eq_refl) as [? ?]; [done|]. split; [by apply octets_cons|done].
Qed.

Definition octets_of_line (r : getline_result) : Prop :=
  match r with Line l => octets l | Eof => True end.

Lemma getline_typed fuel k r k' :
  getline_loop fuel k = Some (r, k') -> typed_os k -> typed_os k' /\ octets_of_line r.
Proof.
  revert k. induction fuel as [|fuel IH]; intros k; cbn [getline_loop];
    (destruct (split_line (filebuf k)) as [[l rest]|] eqn:E;
     [intros [= <- <-] []; destruct (split_line_octets _ _ _ E ltac:(done)); by repeat split|]).
  - destruct (pipe_closed k); [|done]. destruct (filebuf k) eqn:Ef; intros [= <- <-] Hk; [done|].
    destruct Hk. rewrite <- Ef. by repeat split; try apply octets_nil.
  - destruct (pipe k) as [|x p] eqn:Ep.
    + destruct (pipe_closed k); [|done]. destruct (filebuf k) eqn:Ef; intros [= <- <-] Hk; [done|].
      destruct Hk. rewrite <- Ef. by repeat split; try apply octets_nil.
    + rewrite <- Ep. intros E' Hk. apply IH in E'; [done|]. destruct Hk.
      split; cbn; try done; auto with typed.
Qed.

Lemma typed_timerfd ms k : typed_os k -> typed_os (timerfd_settime ms k).
Proof. intros []. by split. Qed.

Lemma typed_read_timer k : typed_os k -> typed_os (read_timer k).
Proof. unfold read_timer. destruct (timer_ready k); [|done]. intros []. by split. Qed.

Lemma typed_events b k : typed_os k -> typed_os (set_stdin_events b k).
Proof. intros []. by split. Qed.

#[export] Hint Resolve typed_write typed_send typed_timerfd typed_read_timer typed_events : typed.

#[export] Hint Extern 1 (typed_members _) =>
  (unfold typed_members, tcp_members, udp_members, m_msg_from_server in *; cbn) : typed.

(** A state that is written out, from that of the state before. *)
Ltac solve_typed :=
  intros; match goal with H : typed _ |- typed _ => destruct H end;
  split; cbn; eauto 10 with typed.

Ltac typing := tac_produces; try solve_typed; eauto 10 with typed.

(** * The base class *)

Section BASE.

Context {D : Type} `{Typed_members D}.

Lemma cout_typed text : octets text -> computes anything (cout text : CM D unit).
Proof. intros Ht. unfold cout. typing. Qed.

Hint Resolve cout_typed : typed.

Lemma printErrMsg_typed text : octets text -> computes anything (printErrMsg text : CM D unit).
Proof. intros Ht. unfold printErrMsg. typing. Qed.

Lemma send_typed data : octets data -> computes anything (send_to_server data : CM D unit).
Proof.
  intros Hd c Hc. unfold send_to_server.
  pose proof (typed_send (m_server_addr (m_args c)) data (kernel c)) as Hk.
  destruct (send_packet _ _ _) as [k ok]. split; [destruct Hc; split; cbn; auto|].
  destruct ok; [done|]. apply all_octets_true. reflexivity.
Qed.

Lemma startTimer_typed time : computes anything (startTimer time : CM D unit).
Proof. unfold startTimer. typing. Qed.

Lemma stopTimer_typed : computes anything (stopTimer : CM D unit).
Proof. unfold stopTimer. typing. Qed.

Lemma disableStdinEvents_typed : computes anything (disableStdinEvents : CM D unit).
Proof. unfold disableStdinEvents. typing. Qed.

Lemma enableStdinEvents_typed : computes anything (enableStdinEvents : CM D unit).
Proof. unfold enableStdinEvents. typing. Qed.

Lemma read_line_typed : computes octets_of_line (read_line : CM D getline_result).
Proof.
  intros c Hc. unfold read_line, getline. destruct (getline_loop _ _) as [[r k]|] eqn:E; [|by split].
  destruct (getline_typed _ _ _ _ E) as [Hk Hr]; [by destruct Hc|]. by split; [destruct Hc|].
Qed.

Lemma outputIncomingMsg_typed name text :
  octets name -> octets text -> computes anything (outputIncomingMsg name text : CM D unit).
Proof. intros. unfold outputIncomingMsg. typing. Qed.

Lemma outputIncomingReply_typed b text :
  octets text -> computes anything (outputIncomingReply b text : CM D unit).
Proof. intros. unfold outputIncomingReply. destruct b; typing. Qed.

Lemma printErrFromServer_typed name text :
  octets name -> octets text -> computes anything (printErrFromServer name text : CM D unit).
Proof. intros. unfold printErrFromServer. typing. Qed.

Lemma printSupportedCommands_typed : computes anything (printSupportedCommands : CM D unit).
Proof. apply cout_typed, all_octets_true. reflexivity. Qed.

Hint Resolve printErrMsg_typed printSupportedCommands_typed : typed.

Lemma processNonMsg_typed user_input :
  Forall octets user_input -> computes anything (processNonMsgToServer user_input : CM D bool).
Proof. intros. unfold processNonMsgToServer. typing. Qed.

(** A line's tokens. *)
Lemma parseLine_typed line : octets line -> computes (Forall octets) (parseLine line : CM D (list chars)).
Proof.
  intros Hl. unfold parseLine, wrong_state, wrong_length. typing.
  destruct (negb (line =s? []) && _)%bool; [|done]. eauto with typed.
Qed.

(** * The base class's part of the handlers *)

(** What a derived class promises the base class: its messages are octets when their parts are. *)
Class Typed_virtual `{Virtual D} : Prop := {
  auth_typed a b : octets a -> octets b -> computes anything (buildAuthMsg a b);
  join_typed a : octets a -> computes anything (buildJoinMsg a);
  msg_typed a : octets a -> computes anything (buildMsgMsg a);
  bye_typed : computes anything sendByeMsgToServer
}.

Hint Resolve auth_typed join_typed msg_typed bye_typed read_line_typed parseLine_typed : typed.

Context `{!Virtual D} `{!Typed_virtual}.

Lemma buildUserMsg_typed user_input :
  Forall octets user_input -> computes anything (buildUserMsgToServer user_input : CM D unit).
Proof using All. intros. unfold buildUserMsgToServer. typing. Qed.

Lemma parseUserInput_typed : computes (Forall octets) (parseUserInput : CM D (list chars)).
Proof using All.
  unfold parseUserInput. eapply produces_bind; [apply read_line_typed|].
  intros [line|] Hl; [by apply parseLine_typed|]. typing.
Qed.

End BASE.

#[export] Hint Resolve cout_typed printErrMsg_typed send_typed startTimer_typed stopTimer_typed
  disableStdinEvents_typed enableStdinEvents_typed outputIncomingMsg_typed outputIncomingReply_typed
  printErrFromServer_typed processNonMsg_typed buildUserMsg_typed parseUserInput_typed : typed.

(** What one receiving call gives. *)
Definition real_packet (p : packet) : Prop :=
  match p with Some d => real_datagram d | None => True end.

(** What the event loop needs of a derived class. *)
Class Typed_handlers (D : Type) `{Typed_members D} `{Handlers D} : Prop := {
  stdin_typed hup err : computes anything (processStdinEvent hup err : CM D unit);
  socket_typed p : real_packet p -> computes anything (processSocketEvent p : CM D Z);
  timer_typed : computes anything (processTimerEvent : CM D unit);
  sigint_typed : computes anything (sigintHandler : CM D unit)
}.

(** * The TCP client *)

Section TCP.

Abbreviation tcp P m := (computes P (m : TM _)).

Lemma tcp_build_typed text : octets text -> tcp anything (modify (set_m_msg_to_server text)).
Proof. intros. typing. Qed.

Hint Resolve tcp_build_typed : typed.

Lemma tcp_send_typed : tcp anything tcp_sendMsgToServer.
Proof. unfold tcp_sendMsgToServer. typing. Qed.

Hint Resolve tcp_send_typed : typed.

#[export] Instance tcp_virtual_typed : Typed_virtual (D := chars).
Proof.
  split; cbn; unfold tcp_buildAuthMsg, tcp_buildJoinMsg, tcp_buildMsgMsg, tcp_sendByeMsgToServer,
    tcp_buildByeMsg; typing.
Qed.

Lemma tcp_say_bye_typed : tcp anything tcp_sendByeMsgToServer.
Proof. exact (bye_typed (D := chars)). Qed.

Hint Resolve tcp_virtual_typed tcp_say_bye_typed : typed.

Lemma tcp_terminate_typed {A} text (P : A -> Prop) :
  octets text -> tcp P (sendErrMsgAndTerminate text).
Proof. intros. unfold sendErrMsgAndTerminate, tcp_buildErrMsg. typing. Qed.

Hint Resolve tcp_terminate_typed : typed.

Lemma tcp_reply_typed m : octets m -> tcp anything (tcp_processServerReplyMsg m).
Proof. intros. unfold tcp_processServerReplyMsg. typing. Qed.

Lemma tcp_msg_typed m : octets m -> tcp anything (tcp_processServerMsgMsg m).
Proof. intros. unfold tcp_processServerMsgMsg. typing. Qed.

Lemma tcp_err_typed m : octets m -> tcp anything (tcp_processServerErrMsg m).
Proof. intros. unfold tcp_processServerErrMsg. typing. Qed.

Lemma tcp_bye_typed m : octets m -> tcp anything (tcp_processServerByeMsg m).
Proof. intros. unfold tcp_processServerByeMsg. typing. Qed.

Hint Resolve tcp_reply_typed tcp_msg_typed tcp_err_typed tcp_bye_typed : typed.

Lemma tcp_message_typed t m : octets m -> tcp anything (tcp_processMessageOfType t m).
Proof. intros. unfold tcp_processMessageOfType. typing. Qed.

Lemma buffer_octets (c : tcp_client) : typed c -> octets (m_msg_from_server c).
Proof. intros Hc. exact (ty_ext _ Hc). Qed.

Hint Resolve tcp_message_typed : typed.
Hint Resolve buffer_octets : octets.

Lemma tcp_from_server_typed m : octets m -> tcp anything (tcp_processMessageFromServer m).
Proof. intros. unfold tcp_processMessageFromServer. typing. Qed.

Hint Resolve tcp_from_server_typed : typed.

Lemma process_messages_typed n : tcp anything (process_messages n).
Proof.
  induction n as [|n IH]; cbn [process_messages]; unfold too_long; typing.
Qed.

Hint Resolve process_messages_typed : typed.

Definition octets_if_any (p : option chars) : Prop := match p with Some s => octets s | None => True end.

Lemma tcp_socket_typed p : octets_if_any p -> tcp anything (tcp_processSocketEvent p).
Proof. intros. unfold tcp_processSocketEvent, too_long. typing. Qed.

Lemma tcp_stdin_typed hup err : tcp anything (tcp_processStdinEvent hup err).
Proof. unfold tcp_processStdinEvent. typing. Qed.

Lemma tcp_timer_typed : tcp anything tcp_processTimerEvent.
Proof. unfold tcp_processTimerEvent. typing. Qed.

Lemma tcp_sigint_typed : tcp anything tcp_sigintHandler.
Proof. unfold tcp_sigintHandler. typing. Qed.

#[export] Instance tcp_handlers_typed : Typed_handlers chars.
Proof.
  split; [apply tcp_stdin_typed| |apply tcp_timer_typed|apply tcp_sigint_typed].
  intros [[from data]|] Hp; apply tcp_socket_typed; [apply Hp|done].
Qed.

End TCP.

(** * The UDP client *)

Section UDP.

Abbreviation udp P m := (computes P (m : UM _)).

Lemma id_typed (c : udp_client) : typed c -> is_id (m_msg_to_server_id (ext c)).
Proof. intros Hc. exact (ty_ext _ Hc). Qed.

Hint Resolve id_typed : octets.

Lemma udp_build_typed text : octets text -> udp anything (modify (set_m_msg_to_server text)).
Proof. intros. typing. Qed.

Lemma next_id_typed : udp anything (modify next_id).
Proof. typing. Qed.

Hint Resolve udp_build_typed next_id_typed : typed.

Lemma udp_send_typed : udp anything udp_sendMsgToServer.
Proof. unfold udp_sendMsgToServer. typing. Qed.

Lemma confirm_timer_typed : udp anything start_confirm_timer.
Proof. unfold start_confirm_timer. typing. Qed.

Lemma reset_typed : udp anything reset_retransmissions.
Proof. unfold reset_retransmissions. typing. Qed.

Lemma waiting_typed v : udp anything (waiting_for_confirm v).
Proof. unfold waiting_for_confirm. typing. Qed.

Hint Resolve udp_send_typed confirm_timer_typed reset_typed waiting_typed : typed.

Lemma udp_say_bye_typed : udp anything udp_sendByeMsgToServer.
Proof. unfold udp_sendByeMsgToServer, udp_buildByeMsg. typing. Qed.

#[export] Instance udp_virtual_typed : Typed_virtual (D := UdpClient.udp).
Proof.
  split; cbn; unfold udp_buildAuthMsg, udp_buildJoinMsg, udp_buildMsgMsg;
    [..|exact udp_say_bye_typed]; typing.
Qed.

Hint Resolve udp_say_bye_typed udp_virtual_typed : typed.

Lemma sendErr_typed text : octets text -> udp anything (sendErrMsg text).
Proof. intros. unfold sendErrMsg, udp_buildErrMsg. typing. Qed.

Lemma sendConfirm_typed id : is_id id -> udp anything (sendConfirmMsg id).
Proof. intros. unfold sendConfirmMsg. typing. Qed.

Hint Resolve sendErr_typed sendConfirm_typed : typed.

Lemma isValidMsgMsg_typed m : octets m -> udp anything (isValidMsgMsg m).
Proof. intros. unfold isValidMsgMsg. typing. Qed.

Lemma isValidErrMsg_typed m : octets m -> udp anything (isValidErrMsg m).
Proof. intros. unfold isValidErrMsg. typing. Qed.

Hint Resolve isValidMsgMsg_typed isValidErrMsg_typed : typed.

Lemma udp_msg_typed m : octets m -> udp anything (udp_processServerMsgMsg m).
Proof. intros. unfold udp_processServerMsgMsg. typing. Qed.

Lemma udp_ping_typed m : octets m -> udp anything (udp_processServerPingMsg m).
Proof. intros. unfold udp_processServerPingMsg. typing. Qed.

Lemma udp_bye_typed m : octets m -> udp anything (udp_processServerByeMsg m).
Proof. intros. unfold udp_processServerByeMsg. typing. Qed.

Lemma udp_err_typed m : octets m -> udp anything (udp_processServerErrMsg m).
Proof. intros. unfold udp_processServerErrMsg. typing. Qed.

Lemma confirmed_typed t : udp anything (confirmed t).
Proof. unfold confirmed. typing. Qed.

Hint Resolve udp_msg_typed udp_ping_typed udp_bye_typed udp_err_typed confirmed_typed : typed.

Lemma udp_confirm_typed m : octets m -> udp anything (udp_processServerConfirmMsg m).
Proof. intros. unfold udp_processServerConfirmMsg. typing. Qed.

Lemma udp_reply_typed m from :
  octets m -> real_address from -> udp anything (udp_processServerReplyMsg m from).
Proof. intros. unfold udp_processServerReplyMsg. typing. Qed.

Lemma err_and_go_on_typed text : octets text -> udp anything (err_and_go_on text).
Proof. intros. unfold err_and_go_on. typing. Qed.

Hint Resolve udp_confirm_typed udp_reply_typed err_and_go_on_typed : typed.

Lemma udp_from_server_typed m from :
  octets m -> real_address from -> udp anything (udp_processMessageFromServer m from).
Proof. intros. unfold udp_processMessageFromServer. typing. Qed.

Hint Resolve udp_from_server_typed : typed.

Lemma udp_socket_typed p : real_packet p -> udp anything (udp_processSocketEvent p).
Proof. destruct p as [[from data]|]; [intros [? ?]|intros _]; cbn [udp_processSocketEvent]; typing. Qed.

Lemma udp_stdin_typed hup err : udp anything (udp_processStdinEvent hup err).
Proof. unfold udp_processStdinEvent. typing. Qed.

Lemma udp_timer_typed : udp anything udp_processTimerEvent.
Proof. unfold udp_processTimerEvent. typing. Qed.

#[export] Instance udp_handlers_typed : Typed_handlers UdpClient.udp.
Proof.
  split; [apply udp_stdin_typed|apply udp_socket_typed|apply udp_timer_typed|].
  apply udp_say_bye_typed.
Qed.

End UDP.

(** * The event loop *)

Record typed_io (i : io) : Prop := {
  ty_inbox : Forall real_datagram (inbox i);
  ty_segments : octets (segments i)
}.

Section LOOP.

Context {D : Type} `{Typed_members D} `{!Handlers D} `{!Typed_handlers D}.

(** What can be received is real, and so is what is left. *)
Definition receives_real : Prop :=
  forall i p i', typed_io i -> receive i = Some (p, i') -> real_packet p /\ typed_io i'.

Definition real_event (e : event) : Prop := match e with Socket p => real_packet p | _ => True end.

Definition typed_turn (t : turn D) : Prop :=
  match t with Continue c | Wait c => typed c | Exit _ k => typed_os k end.

Lemma catch_typed what k : octets what -> typed_os k -> typed_os (snd (main_catch k what)).
Proof.
  intros Hw Hk. destruct what; [done|]. apply typed_write; [|done]. solve_octets.
Qed.

Lemma end_typed {A} (m : CM D A) cont c :
  computes anything m -> (forall a c', typed c' -> typed_turn (cont a c')) ->
  typed c -> typed_turn (end_of_handler (m c) cont).
Proof.
  intros Hm Hc Ht. destruct (Hm c Ht) as [H1 H2]. unfold end_of_handler.
  destruct (m c) as [c' [a|[what|]]]; cbn in *; [by apply Hc| |done].
  pose proof (catch_typed what (kernel c') H2 (ty_kernel _ H1)).
  by destruct (main_catch (kernel c') what).
Qed.

Lemma dispatch_typed e c : real_event e -> typed c -> typed_turn (dispatch e c).
Proof using All.
  intros He Hc. destruct e as [hup|p| |]; cbn [dispatch]; apply end_typed; try done.
  - apply stdin_typed.
  - by apply socket_typed.
  - intros a c' Hc'. destruct (_ || _)%bool; [by destruct Hc'|done].
  - apply timer_typed.
  - apply sigint_typed.
Qed.

Lemma next_event_typed i c e i' :
  receives_real -> typed_io i -> next_event i c = Some (e, i') -> real_event e /\ typed_io i'.
Proof.
  intros Hr Hi. unfold next_event.
  destruct (interrupted i); [intros [= <- <-]; by destruct Hi|].
  destruct (blocked i); [destruct (_ || _)%bool; [|done]; intros [= <- <-]; by destruct Hi|].
  destruct (receive i) as [[p j]|] eqn:E; [intros [= <- <-]; by apply (Hr i)|].
  destruct (timer_ready (kernel c)); [by intros [= <- <-]|].
  destruct (stdin_ready (kernel c)); [by intros [= <- <-]|done].
Qed.

Lemma turns_typed fuel i c :
  receives_real -> typed_io i -> typed c ->
  typed_io (fst (turns fuel i c)) /\ typed_turn (snd (turns fuel i c)).
Proof using All.
  intros Hr. revert i c. induction fuel as [|fuel IH]; intros i c Hi Hc; [done|]. cbn [turns].
  destruct (next_event i c) as [[e j]|] eqn:E; [|done].
  destruct (next_event_typed i c e j Hr Hi E) as [He Hj].
  pose proof (dispatch_typed e c He Hc) as Ht. destruct (dispatch e c); [by apply IH|..]; split; try done.
  by destruct Hj.
Qed.

End LOOP.

Lemma tcp_receives_real : receives_real (D := chars).
Proof.
  intros i p i' [Hx Hs]. cbn. unfold tcp_receive. destruct (segments i) as [|b s] eqn:E; [done|].
  rewrite <- E in *. intros [= <- <-]. split; [|split; [done|by apply octets_drop]].
  split; [split; cbn; lia|by apply octets_take].
Qed.

Lemma udp_receives_real : receives_real (D := UdpClient.udp).
Proof.
  intros i p i' [Hx Hs]. cbn. unfold udp_receive. destruct (inbox i) as [|d rest] eqn:E; [done|].
  intros [= <- <-]. inversion Hx; subst. split; [done|by split].
Qed.

(** * The process *)

Definition typed_life (l : life) : Prop :=
  match l with
  | Launching _ k => typed_os k
  | Connecting c _ => typed c
  | Tcp c => typed c
  | Udp c => typed c
  | Exited _ _ k => typed_os k
  end.

Record typed_process (p : process) : Prop := {
  ty_io : typed_io (the_io p);
  ty_life : typed_life (the_life p)
}.

(** What may reach a process. *)
Definition real_arrival (a : arrival) : Prop :=
  match a with
  | Input text => octets text
  | Datagram from data => real_address from /\ octets data
  | Segment data => octets data
  | Input_closed | Interrupt | Connect_result _ => True
  end.

Section PROCESS.

Context (inet_pton getaddrinfo : chars -> option Z) (undefined_status : Z).

(** The C library gives 32-bit addresses. *)
Definition gives_addresses (f : chars -> option Z) : Prop :=
  forall host ip, f host = Some ip -> 0 <= ip < 4294967296.
Context (Hpton : gives_addresses inet_pton) (Hinfo : gives_addresses getaddrinfo).

(** The arguments, while they are read and after. *)
Definition typed_args (a : Args) : Prop :=
  0 <= m_server_port a < 65536 /\ real_address (m_server_addr a).

Definition typed_ctor {A} (P : A -> Prop) (r : ctor A) : Prop :=
  match r with Constructed a => P a | Threw what => octets what | Undefined => True end.

Lemma typed_ctor_bind {A B} (P : A -> Prop) (Q : B -> Prop) (r : ctor A) k :
  typed_ctor P r -> (forall a, P a -> typed_ctor Q (k a)) -> typed_ctor Q (r ≫= k).
Proof. intros Hr Hk. destruct r as [a|w|]; cbn in *; auto. Qed.

Lemma stoi_typed s : typed_ctor anything (stoi s).
Proof.
  assert (forall n d, typed_ctor anything (stoi_digits n d)) as Hd.
  { intros n d. unfold stoi_digits. repeat case_match; try done; cbn; solve_octets. }
  destruct s as [s|]; [|done]. unfold stoi. repeat case_match; apply Hd.
Qed.

Lemma server_address_typed host a :
  typed_args a -> typed_ctor typed_args (processServerAddress inet_pton getaddrinfo host a).
Proof using All.
  intros [Hp Ha]. destruct host as [host|]; [|done]. cbn.
  apply typed_ctor_bind with (P := fun ip => 0 <= ip < 4294967296).
  - destruct (inet_pton host) as [ip|] eqn:E; [by apply (Hpton host)|]. unfold hostnameToIpAddress.
    destruct (getaddrinfo host) as [ip|] eqn:E2; [by apply (Hinfo host)|]. cbn. solve_octets.
  - intros ip Hip. unfold typed_ctor, typed_args, real_address. cbn. lia.
Qed.

Lemma args_loop_typed argv host a :
  typed_args a -> typed_ctor typed_args (args_loop inet_pton getaddrinfo argv host a).
Proof using All.
  revert host a. induction argv as [argv IH] using (induction_ltof1 _ (@length chars)).
  unfold ltof in IH. intros host a Ha. destruct argv as [|flag rest]; [by apply server_address_typed|].
  cbn [args_loop]. cbv zeta.
  assert (forall h b, typed_args b -> typed_ctor typed_args
    match rest with
    | [] => processServerAddress inet_pton getaddrinfo h b
    | _ :: rest' => args_loop inet_pton getaddrinfo rest' h b
    end) as Hnext.
  { intros h b Hb. destruct rest; [by apply server_address_typed|]. apply IH; [cbn; lia|done]. }
  repeat case_match; try (by apply Hnext); try (apply all_octets_true; reflexivity);
    try (eapply typed_ctor_bind; [apply stoi_typed|]; intros v _; apply Hnext; by destruct Ha);
    try done.
  all: eapply typed_ctor_bind; [apply stoi_typed|]; intros v _; apply Hnext; destruct Ha.
  split; [apply uint16_range|done].
Qed.

Lemma Args_ctor_typed argv : typed_ctor typed_args (Args_ctor inet_pton getaddrinfo argv).
Proof using All. apply args_loop_typed. unfold typed_args, real_address. cbn. lia. Qed.

(** * Every step keeps the types *)

Lemma typed_set_clock t k : typed_os k -> typed_os (set_clock t k).
Proof. intros []. by split. Qed.

Lemma typed_on_kernel {D} `{Typed_members D} f (c : client D) :
  (forall k, typed_os k -> typed_os (f k)) -> typed c -> typed (on_kernel f c).
Proof. intros Hf []. split; cbn; auto. Qed.

Lemma typed_on_life f l :
  (forall k, typed_os k -> typed_os (f k)) -> typed_life l -> typed_life (on_life_kernel f l).
Proof. intros Hf Hl. destruct l; cbn in *; auto using typed_on_kernel. Qed.

Lemma exit_typed tcp what k :
  octets what -> typed_os k -> typed_life (exit_with tcp (main_catch k what)).
Proof.
  intros Hw Hk. pose proof (catch_typed what k Hw Hk). unfold exit_with.
  by destruct (main_catch k what).
Qed.

Lemma main_typed argv k :
  typed_os k -> typed_life (main inet_pton getaddrinfo undefined_status argv k).
Proof using All.
  intros Hk. unfold main. pose proof (Args_ctor_typed argv) as Ha.
  destruct (Args_ctor _ _ argv) as [a|what|]; cbn in Ha; [|by apply exit_typed|done].
  destruct (m_is_help_used a); [apply typed_write; [|done]; apply all_octets_true; reflexivity|].
  destruct Ha as [_ Ha]. unfold create. destruct (m_is_tcp a).
  all: split; cbn; try done; try apply octets_nil; try (apply all_octets_true; reflexivity).
Qed.

Lemma live_typed i l :
  typed_io i -> typed_life l -> typed_process (live inet_pton getaddrinfo undefined_status i l).
Proof using All.
  intros Hi Hl. destruct l as [argv k|c [[]|]|c|c|tcp code k]; cbn [typed_life live] in *;
    try (by split).
  - split; [done|by apply main_typed].
  - split; [done|]. apply exit_typed; [apply all_octets_true; reflexivity|by destruct Hl].
  - pose proof (turns_typed BURST i c tcp_receives_real Hi Hl) as Ht. revert Ht.
    destruct (turns BURST i c) as [j []]; intros [? ?]; by split.
  - pose proof (turns_typed BURST i c udp_receives_real Hi Hl) as Ht. revert Ht.
    destruct (turns BURST i c) as [j []]; intros [? ?]; by split.
Qed.

Abbreviation client_process := (client_executable inet_pton getaddrinfo undefined_status).

Lemma elapse_typed t p : typed_process p -> typed_process (elapse (Executable := client_process) t p).
Proof using All.
  intros [Hi Hl]. apply live_typed; [done|]. apply typed_on_life; [apply typed_set_clock|done].
Qed.

Lemma arrive_typed a p :
  real_arrival a -> typed_process p -> typed_process (arrive (Executable := client_process) a p).
Proof.
  intros Ha [[Hx Hs] Hl]. destruct a as [text| | |from data|ok|data]; cbn in Ha |- *.
  - split; [done|]. apply typed_on_life; [|done]. intros k []. split; cbn; try done.
    by apply octets_app.
  - split; [done|]. apply typed_on_life; [|done]. intros k []. by split.
  - by split.
  - split; [|done]. split; [|done]. apply Forall_app. split; [done|]. by apply Forall_singleton.
  - split; [done|]. cbn. by destruct (the_life p).
  - split; [|done]. split; [done|]. by apply octets_app.
Qed.

(** What can happen to a process between its start and a moment of its life. *)
Inductive lives (argv : list chars) (t : Z) : process -> Prop :=
| lives_start : lives argv t (exec (Executable := client_process) argv t)
| lives_on t' p : lives argv t p -> lives argv t (elapse (Executable := client_process) t' p)
| lives_told a p :
    real_arrival a -> lives argv t p -> lives argv t (arrive (Executable := client_process) a p).

Lemma lives_typed argv t p : lives argv t p -> typed_process p.
Proof using All.
  induction 1; [|by apply elapse_typed|by apply arrive_typed].
  split; split; cbn; try apply octets_nil; constructor.
Qed.


End PROCESS.

(** A client that is told to authenticate. *)
Definition to_itself (host : chars) : option Z := Some 2130706433.
Definition sample_process : Executable process := client_executable to_itself to_itself 0.
Definition sample_start : list chars := [lit "-t"; lit "udp"; lit "-s"; lit "127.0.0.1"].
Definition sample_told : process :=
  elapse (Executable := sample_process) 20
    (arrive (Executable := sample_process) (Input (lit "/auth a b c" ++ [LF]))
      (elapse (Executable := sample_process) 10
        (exec (Executable := sample_process) sample_start 0))).

Lemma sample_lives : lives to_itself to_itself 0 sample_start 0 sample_told.
Proof.
  apply lives_on, lives_told; [apply all_octets_true; reflexivity|]. apply lives_on, lives_start.
Qed.

Lemma to_itself_real : gives_addresses to_itself.
Proof. intros host ip [= <-]. lia. Qed.

