(* ===== verification/TesterSpec.v ===== *)
(** What the harness's handle on a process guarantees to the test cases: datagrams arrive once and
    in order, output is read once, a receive ends in time, and what [setup] and [teardown] leave.
    The theorems hold for every [Executable]; those that need them use its laws. *)
From S2P Require Import Prelude PyRuntime UDPTranslator UDPMessages Args Executable Tester.
From S2P Require Import TestCasesUdp.

(** * Lines of text *)

Lemma raw_lines_app s t line :
  fst (raw_lines s line) `prefix_of` fst (raw_lines (s ++ t) line).
Proof.
  revert line. induction s as [s IH] using (induction_ltof1 _ (@length Z)). unfold ltof in IH.
  intros line. destruct s as [|x s]; [apply prefix_nil|].
  assert (forall l, fst (raw_lines s l) `prefix_of` fst (raw_lines (s ++ t) l)) as IHs
    by (intros l; apply IH; cbn; lia).
  cbn [app raw_lines]. destruct (x =? LF).
  { specialize (IHs []). destruct (raw_lines s []), (raw_lines (s ++ t) []).
    by apply prefix_cons. }
  destruct (x =? CR); [|apply IHs]. destruct s as [|y s]; [apply prefix_nil|].
  cbn [app]. destruct (y =? LF).
  - pose proof (IH s ltac:(cbn; lia) []) as H1. destruct (raw_lines s []), (raw_lines (s ++ t) []).
    by apply prefix_cons.
  - specialize (IHs []). cbn [app] in IHs.
    destruct (raw_lines (y :: s) []), (raw_lines (y :: s ++ t) []). by apply prefix_cons.
Qed.

Lemma decode_lines_app a b : decode_lines a `prefix_of` decode_lines (a ++ b).
Proof.
  induction a as [|l a IH]; [apply prefix_nil|]. cbn. destruct (py_decode l); [|done].
  by apply prefix_cons.
Qed.

(** More output, or its end, only adds lines. *)
Lemma text_lines_app eof s t : text_lines false s `prefix_of` text_lines eof (s ++ t).
Proof.
  unfold text_lines. destruct (raw_lines_app s t []) as [more E].
  destruct (raw_lines s []) as [ls r], (raw_lines (s ++ t) []) as [ls' r']. cbn in E. subst ls'.
  destruct eof; [|apply decode_lines_app]. destruct r'; [apply decode_lines_app|].
  rewrite <- app_assoc. apply decode_lines_app.
Qed.

(** * Time *)

Section TIME.

Context {X : Type} `{Executable X}.

(** What the passing of time leaves alone. *)
Record untouched (s s' : tester X) : Prop := {
  un_out : stdout_queue s' = stdout_queue s /\ stdout_pulled s' = stdout_pulled s;
  un_err : stderr_queue s' = stderr_queue s /\ stderr_pulled s' = stderr_pulled s;
  un_code : return_code s' = return_code s;
  un_server : server_socket s' = server_socket s;
  un_peer : client_address s' = client_address s /\ client_port s' = client_port s;
  un_confirm : send_confirm s' = send_confirm s;
  un_history : history s' = history s;
  un_stdin : stdin s' = stdin s
}.

#[export] Instance untouched_preorder : PreOrder untouched.
Proof. split; [by intros s; split|]. intros a b c [] []. split; intuition congruence. Qed.

Lemma tick_untouched s : untouched s (tick s).
Proof.
  unfold tick, accept_connection, route. cbn. destruct (process s) as [p|]; [|by split]. cbn.
  destruct (connecting _); [|by split]. by destruct (_ && _)%bool.
Qed.

Lemma ticks_untouched n s : untouched s (ticks n s).
Proof.
  revert s. induction n as [|n IH]; intros s; [done|]. cbn.
  etrans; [apply tick_untouched|apply IH].
Qed.

Lemma ticks_add n m s : ticks (n + m) s = ticks m (ticks n s).
Proof. revert s. induction n as [|n IH]; intros s; [done|]. apply IH. Qed.

Lemma tick_now s : now (tick s) = now s + QUANTUM.
Proof.
  unfold tick, accept_connection, route. cbn. destruct (process s) as [p|]; [|done]. cbn.
  destruct (connecting _); [|done]. by destruct (_ && _)%bool.
Qed.

Lemma ticks_now n s : now (ticks n s) = now s + QUANTUM * Z.of_nat n.
Proof.
  revert s. induction n as [|n IH]; intros s; [cbn; lia|]. cbn [ticks]. rewrite IH, tick_now. lia.
Qed.

(** The machine: what the next instants depend on. *)
Definition machine (s : tester X) :=
  (process s, server_socket s, connection_socket s, now s, (inboxes s, routed s, client_port s)).

Lemma tick_machine s s' : machine s = machine s' -> machine (tick s) = machine (tick s').
Proof.
  unfold machine. intros [= E1 E2 E3 E4 E5 E6 E7]. unfold tick. cbn. rewrite E1, E4.
  destruct (process s') as [p|] eqn:Ep; cbn; rewrite ?E1, ?Ep, ?E2, ?E3, ?E4, ?E5, ?E6, ?E7; [|done].
  unfold accept_connection, route, listening, client_addr. cbn. rewrite ?E2, ?E5, ?E6, ?E7.
  destruct (connecting _); cbn; rewrite ?E2, ?E3, ?E4, ?E7; [|done].
  by destruct (_ && _)%bool; cbn; rewrite ?E2, ?E3, ?E4, ?E7.
Qed.

Lemma ticks_machine n s s' : machine s = machine s' -> machine (ticks n s) = machine (ticks n s').
Proof.
  revert s s'. induction n as [|n IH]; intros s s' E; [done|]. by apply IH, tick_machine.
Qed.

(** * Datagrams *)

(** The datagram goes to a port of the loopback interface. *)
Definition to_port (port : Z) (d : sockaddr_in * chars) : bool :=
  (sin_port (fst d) =? port) && (sin_addr (fst d) =? LOCALHOST).

(** What a socket bound to [port] gets of the datagrams [ds]. *)
Definition mail (port : Z) (from : sockaddr_in) (ds : list (sockaddr_in * chars)) :
    list (sockaddr_in * chars) :=
  map (fun d => (from, snd d)) (List.filter (to_port port) ds).

Lemma mail_app port from a b : mail port from (a ++ b) = mail port from a ++ mail port from b.
Proof. unfold mail. by rewrite List.filter_app, map_app. Qed.

Lemma mail_cons port from d ds :
  mail port from (d :: ds) = mail port from [d] ++ mail port from ds.
Proof. apply (mail_app port from [d]). Qed.

Lemma deliver_one port from d boxes box :
  boxes !! port = Some box -> deliver from d boxes !! port = Some (box ++ mail port from [d]).
Proof.
  intros Hb. destruct d as [[a q] data]. unfold mail, to_port. cbn.
  destruct (q =? port) eqn:Eq; cbn.
  - apply Z.eqb_eq in Eq as ->. rewrite Hb. destruct (a =? LOCALHOST); cbn.
    + apply lookup_insert_eq.
    + by rewrite app_nil_r.
  - rewrite app_nil_r. destruct (boxes !! q); [|done]. destruct (a =? LOCALHOST); [|done].
    apply Z.eqb_neq in Eq. by rewrite lookup_insert_ne.
Qed.

Lemma deliver_all port from ds boxes box :
  boxes !! port = Some box ->
  fold_left (fun b d => deliver from d b) ds boxes !! port = Some (box ++ mail port from ds).
Proof.
  revert boxes box. induction ds as [|d ds IH]; intros boxes box Hb; [by rewrite app_nil_r|].
  cbn [fold_left]. rewrite mail_cons, app_assoc. by apply IH, deliver_one.
Qed.

Lemma tick_process s p :
  process s = Some p ->
  exists p', process (tick s) = Some p'
    /\ (p' = elapse (now s + QUANTUM) p
        \/ exists ok, p' = arrive (Connect_result ok) (elapse (now s + QUANTUM) p))
    /\ routed (tick s)
       = (routed s + length (drop (routed s) (datagrams (elapse (now s + QUANTUM) p))))%nat
    /\ inboxes (tick s)
       = fold_left (fun b d => deliver (client_addr s) d b)
           (drop (routed s) (datagrams (elapse (now s + QUANTUM) p))) (inboxes s).
Proof.
  intros Hp. unfold tick, accept_connection, route. cbn. rewrite Hp. cbn.
  destruct (connecting _); cbn; [|by eauto 10].
  destruct (_ && _)%bool; cbn; eauto 10.
Qed.

Context `{!Executable_laws X}.

Lemma tick_mail s p port box :
  process s = Some p -> (routed s <= length (datagrams p))%nat -> inboxes s !! port = Some box ->
  exists p', process (tick s) = Some p' /\ datagrams p `prefix_of` datagrams p'
    /\ routed (tick s) = length (datagrams p')
    /\ inboxes (tick s) !! port
       = Some (box ++ mail port (client_addr s) (drop (routed s) (datagrams p'))).
Proof using All.
  intros Hp Hr Hb. destruct (tick_process s p Hp) as (p' & Hp' & He & Hr' & Hi).
  set (q := elapse (now s + QUANTUM) p) in *.
  assert (datagrams p' = datagrams q) as Ed.
  { destruct He as [-> | [ok ->]]; [done|]. apply arrive_outputs. }
  assert (datagrams p `prefix_of` datagrams q) as Hpre by apply elapse_datagrams.
  exists p'. rewrite Ed, Hr', Hi. split; [done|]. split; [done|]. split.
  - apply prefix_length in Hpre. rewrite length_drop. lia.
  - by apply deliver_all.
Qed.

Lemma ticks_mail n s p port box :
  process s = Some p -> (routed s <= length (datagrams p))%nat -> inboxes s !! port = Some box ->
  exists p', process (ticks (S n) s) = Some p' /\ datagrams p `prefix_of` datagrams p'
    /\ routed (ticks (S n) s) = length (datagrams p')
    /\ inboxes (ticks (S n) s) !! port
       = Some (box ++ mail port (client_addr s) (drop (routed s) (datagrams p'))).
Proof using All.
  intros Hp Hr Hb. induction n as [|n (p1 & H1 & [l1 D1] & R1 & I1)]; [by apply tick_mail|].
  replace (S (S n)) with (S n + 1)%nat by lia. rewrite ticks_add.
  assert (client_addr (ticks (S n) s) = client_addr s) as Ea.
  { unfold client_addr. by rewrite (proj2 (un_peer _ _ (ticks_untouched (S n) s))). }
  destruct (tick_mail (ticks (S n) s) p1 port _ H1 ltac:(lia) I1) as (p2 & H2 & [l2 D2] & R2 & I2).
  exists p2. split; [done|]. split; [exists (l1 ++ l2); by rewrite D2, D1, <- app_assoc|].
  split; [done|]. change (inboxes (ticks 1 (ticks (S n) s))) with (inboxes (tick (ticks (S n) s))).
  rewrite I2, Ea, R1, <- app_assoc, <- mail_app. do 3 f_equal.
  rewrite D2, drop_app_length. rewrite D1 in *. rewrite !drop_app_le; [done|..];
    rewrite ?length_app; lia.
Qed.

End TIME.

(** * Receiving *)

Section RECEIVE.

Context {X : Type} `{Executable X}.

(** The datagrams that wait in a bound socket. *)
Definition waiting (port : Z) (s : tester X) : list (sockaddr_in * chars) :=
  default [] (inboxes s !! port).

(** [recvfrom] takes the first datagram at the first instant there is one, within the time. *)
Lemma recvfrom_spec fuel port s :
  (exists k from data rest, (k <= fuel)%nat
     /\ (forall j, (j < k)%nat -> waiting port (ticks j s) = [])
     /\ waiting port (ticks k s) = (from, data) :: rest
     /\ recvfrom fuel port s
        = (set_inboxes (<[port := rest]> (inboxes (ticks k s))) (ticks k s),
           Ok (Some (from, take 1024 data))))
  \/ (forall j, (j <= fuel)%nat -> waiting port (ticks j s) = [])
     /\ recvfrom fuel port s = (ticks fuel s, Ok None).
Proof.
  revert s. induction fuel as [|fuel IH]; intros s.
  - cbn [recvfrom]. rewrite bind_get. destruct (waiting port s) as [|[from data] rest] eqn:Ew;
      unfold waiting in Ew; destruct (inboxes s !! port) as [[|[f d] r]|] eqn:Eb; cbn in Ew; try done.
    + right. split; [|done]. intros j Hj. replace j with O by lia. cbn. unfold waiting. by rewrite Eb.
    + right. split; [|done]. intros j Hj. replace j with O by lia. cbn. unfold waiting. by rewrite Eb.
    + left. injection Ew as -> -> ->. exists O, from, data, rest. split; [lia|].
      split; [lia|]. split; [by cbn; unfold waiting; rewrite Eb|done].
  - cbn [recvfrom]. rewrite bind_get. destruct (waiting port s) as [|[from data] rest] eqn:Ew.
    + assert (recvfrom (S fuel) port s = recvfrom fuel port (tick s)) as E.
      { cbn [recvfrom]. rewrite bind_get. unfold waiting in Ew.
        destruct (inboxes s !! port) as [[|[f d] r]|] eqn:Eb; cbn in Ew; done. }
      cbn [recvfrom] in E. rewrite bind_get in E. rewrite E.
      destruct (IH (tick s)) as [(k & from & data & rest & Hk & Hb & Hw & Er)|[Hb Er]].
      * left. exists (S k), from, data, rest. split; [lia|]. split; [|done].
        intros [|j] Hj; [done|]. apply Hb. lia.
      * right. split; [|done]. intros [|j] Hj; [done|]. apply Hb. lia.
    + left. exists O, from, data, rest. split; [lia|]. split; [lia|]. split; [done|].
      unfold waiting in Ew. destruct (inboxes s !! port) as [[|[f d] r]|]; try done.
      cbn in Ew. by injection Ew as -> -> ->.
Qed.

(** Without a listening TCP socket there is no connection. *)
Lemma tick_no_connection port s :
  server_socket s = Some (UDP, port) -> connection_socket s = None ->
  connection_socket (tick s) = None.
Proof.
  intros Hs Hc. unfold tick, accept_connection, route, listening. cbn.
  destruct (process s) as [p|]; [|done]. cbn. destruct (connecting _); [|done]. cbn.
  rewrite Hs. rewrite bool_decide_false by done. by cbn.
Qed.

Lemma ticks_no_connection n port s :
  server_socket s = Some (UDP, port) -> connection_socket s = None ->
  connection_socket (ticks n s) = None.
Proof.
  revert s. induction n as [|n IH]; intros s Hs Hc; [done|]. cbn. apply IH.
  - by rewrite (un_server _ _ (tick_untouched s)).
  - by eapply tick_no_connection.
Qed.

(** The state after a datagram was taken, and after its CONFIRM: the bytes of the message id
    after a zero, to the sender, if it is the process. *)
Definition taken (port : Z) (from : sockaddr_in) (rest : list (sockaddr_in * chars))
    (s : tester X) : tester X :=
  set_client_address (Some from) (set_inboxes (<[port := rest]> (inboxes s)) s).

Definition confirmed_back (port : Z) (from : sockaddr_in) (message : chars) (s : tester X) :
    tester X :=
  match process s with
  | Some p =>
      if bool_decide (from = client_addr s)
      then set_process (Some (arrive (Datagram (MkAddr LOCALHOST port)
             (NUL :: getMessageId message)) p)) s
      else s
  | None => s
  end.

(** How a receive over UDP ends. *)
Inductive udp_received (port : Z) (n : nat) (s : tester X) : tester X * result halt pyval -> Prop :=
| ur_timeout :
    (forall j, (j <= n)%nat -> waiting port (ticks j s) = []) ->
    udp_received port n s (ticks n s, Err (Raised (TimeoutError (lit "Socket timed out."))))
| ur_empty k from rest :
    (k <= n)%nat -> (forall j, (j < k)%nat -> waiting port (ticks j s) = []) ->
    waiting port (ticks k s) = (from, []) :: rest ->
    udp_received port n s (taken port from rest (ticks k s), Err (Raised IndexError))
| ur_message k from x data rest :
    (k <= n)%nat -> (forall j, (j < k)%nat -> waiting port (ticks j s) = []) ->
    waiting port (ticks k s) = (from, x :: data) :: rest ->
    udp_received port n s
      (if negb (x =? 0) && send_confirm s
       then confirmed_back port from (take 1024 (x :: data)) (taken port from rest (ticks k s))
       else taken port from rest (ticks k s),
       Ok (VBytes (take 1024 (x :: data)))).

Lemma receive_received timeout port s :
  server_socket s = Some (UDP, port) -> connection_socket s = None ->
  udp_received port (quanta timeout) s (receive_message_within timeout s).
Proof.
  intros Hs Hc.
  unfold receive_message_within. rewrite bind_get, Hs, Hc.
  destruct (recvfrom_spec (quanta timeout) port s)
    as [(k & from & data & rest & Hk & Hb & Hw & E)|[Hb E]]; rewrite (bind_ok _ _ _ _ _ E);
    [|by constructor].
  rewrite (bind_ok _ _ _ (taken port from rest (ticks k s)) tt) by done.
  destruct data as [|x data]; [by apply (ur_empty _ _ _ k)|].
  rewrite (bind_ok _ _ _ (taken port from rest (ticks k s)) x) by done. rewrite bind_get.
  change (send_confirm (taken _ _ _ _)) with (send_confirm (ticks k s)).
  rewrite (un_confirm _ _ (ticks_untouched k s)).
  pose proof (ur_message port (quanta timeout) s k from x data rest Hk Hb Hw) as Hu.
  destruct (negb (x =? 0) && send_confirm s)%bool; [|exact Hu].
  rewrite (bind_ok _ _ _ (confirmed_back port from (take 1024 (x :: data))
             (taken port from rest (ticks k s))) tt); [exact Hu|].
  cbn [when]. unfold tester_confirm, getMessageId_of, bytes_of. rewrite bind_ret, bind_ret.
  unfold send_message. rewrite bind_get. cbn [taken set_client_address set_inboxes connection_socket
    server_socket client_address].
  rewrite (ticks_no_connection k port s Hs Hc), (un_server _ _ (ticks_untouched k s)), Hs.
  unfold send_datagram, bytes_of. rewrite bind_ret, bind_get. unfold confirmed_back, taken. cbn.
  destruct (process (ticks k s)); [|done]. by case_bool_decide.
Qed.

(** Over UDP [receive_message] ends within its timeout: it returns the first datagram that
    arrives, cut to 1024 bytes, at the instant it arrives, confirms it to its sender unless it is
    a CONFIRM or confirming is switched off, and otherwise raises the timeout error exactly when
    the time is over. *)
Theorem udp_receive_in_time timeout port s :
  server_socket s = Some (UDP, port) -> connection_socket s = None ->
  udp_received port (quanta timeout) s (receive_message_within timeout s)
  /\ (0 <= timeout -> now s <= now (fst (receive_message_within timeout s)) <= now s + timeout).
Proof.
  intros Hs Hc. pose proof (receive_received timeout port s Hs Hc) as Hu.
  split; [done|]. intros Ht. unfold quanta, QUANTUM in Hu.
  destruct Hu as [Hb|k from rest Hk Hb Hw|k from x data rest Hk Hb Hw]; cbn [fst].
  - rewrite ticks_now. unfold QUANTUM. lia.
  - change (now (taken port from rest (ticks k s))) with (now (ticks k s)).
    rewrite ticks_now. unfold QUANTUM. lia.
  - assert (forall m t, now (confirmed_back port from m t) = now t) as En.
    { intros m t. unfold confirmed_back. destruct (process t); [|done]. by case_bool_decide. }
    destruct (_ && _)%bool; rewrite ?En;
      change (now (taken port from rest (ticks k s))) with (now (ticks k s));
      rewrite ticks_now; unfold QUANTUM; lia.
Qed.

End RECEIVE.

(** * Receiving over TCP *)

Section RECEIVE_TCP.

Context {X : Type} `{Executable X}.

(** Nothing more comes for [n] quanta, and the process does not end. *)
Definition silent (n : nat) (s : tester X) : Prop :=
  forall k, (k <= n)%nat ->
    exists c p, connection_socket (ticks k s) = Some c /\ process (ticks k s) = Some p
      /\ alive p = true /\ drop (received c) (stream p) = [].

Lemma recv_hangs n s : silent n s -> recv n s = (ticks n s, Err Hang).
Proof.
  revert s. induction n as [|n IH]; intros s Hs.
  - destruct (Hs O) as (c & p & Hc & Hp & Ha & Hd); [lia|]. cbn in *. rewrite bind_get.
    by rewrite Hc, Hp, Hd, Ha.
  - destruct (Hs O) as (c & p & Hc & Hp & Ha & Hd); [lia|]. cbn [recv ticks] in *. rewrite bind_get.
    rewrite Hc, Hp, Hd, Ha. rewrite (bind_ok _ _ _ (tick s) tt) by done. apply IH.
    intros k Hk. apply (Hs (S k)). lia.
Qed.

(** Over TCP the timeout of [receive_message] has no effect: when the process stays connected
    and silent the call blocks, for whatever timeout it was given; here it is given up after ten
    seconds of blocking. *)
Theorem tcp_receive_ignores_timeout timeout proto port s :
  server_socket s = Some (proto, port) -> silent PATIENCE s ->
  receive_message_within timeout s = (ticks PATIENCE s, Err Hang)
  /\ now (ticks PATIENCE s) = now s + 10000.
Proof.
  intros Hs Hq. split; [|by rewrite ticks_now].
  destruct (Hq O) as (c & p & Hc & _); [lia|]. cbn in Hc.
  unfold receive_message_within. rewrite bind_get, Hs, Hc.
  unfold mbind, M_bind. by rewrite recv_hangs.
Qed.

(** * Standard output *)

Lemma py_join_nil_app (a b : list chars) : py_join [] (a ++ b) = py_join [] a ++ py_join [] b.
Proof.
  induction a as [|x a IH]; [done|]. cbn. destruct a as [|y a]; cbn in *.
  - by destruct b; cbn; rewrite ?app_nil_r.
  - rewrite IH. by rewrite <- ?app_assoc.
Qed.

Lemma get_stdout_process s p :
  process s = Some p ->
  get_stdout s =
  (let ls := text_lines (negb (alive p)) (out_bytes p) in
   let new := stdout_queue s ++ drop (stdout_pulled s) ls in
   (set_history (history s ++ py_join (lit "stdout:") new)
      (set_stdout_queue []
         (set_stdout_pulled (Nat.max (stdout_pulled s) (length ls)) (set_stdout_queue new s))),
    Ok (py_join [] new))).
Proof.
  intros Hp. unfold get_stdout, modify, get, mbind, M_bind, mret, M_ret, ended, read_stdout.
  by rewrite !Hp.
Qed.

Lemma get_stdout_machine s : machine (fst (get_stdout s)) = machine s.
Proof.
  unfold get_stdout, modify, get, mbind, M_bind, mret, M_ret, read_stdout, machine. cbn.
  by destruct (process s) eqn:E; cbn; rewrite E.
Qed.

Context `{!Executable_laws X}.

(** What a process prints while time passes. *)
Lemma ticks_output n s p :
  process s = Some p ->
  exists p', process (ticks n s) = Some p' /\ out_bytes p `prefix_of` out_bytes p'
    /\ (alive p = false -> alive p' = false /\ out_bytes p' = out_bytes p).
Proof using All.
  revert s p. induction n as [|n IH]; intros s p Hp; [by eauto|]. cbn [ticks].
  destruct (tick_process s p Hp) as (p1 & H1 & Hc & _). set (q := elapse (now s + QUANTUM) p) in *.
  assert (out_bytes p1 = out_bytes q /\ exited p1 = exited q) as [E1 E2].
  { destruct Hc as [-> | [ok ->]]; [done|]. split; apply arrive_outputs. }
  destruct (IH _ _ H1) as (p2 & H2 & Hpre & Hend). exists p2. split; [done|]. split.
  - etrans; [|exact Hpre]. rewrite E1. apply elapse_out.
  - unfold alive in *. destruct (exited p) as [code|] eqn:Ex; [|done]. intros _.
    assert (q = p) as Eq by (by eapply elapse_exited). rewrite Eq in *.
    rewrite E2, Ex in Hend. destruct (Hend eq_refl) as [Ha Ho]. by rewrite Ho, E1.
Qed.

(** What a read of standard output gives. *)
Definition stdout_of (s : tester X) : result halt chars := snd (get_stdout s).

(** Standard output is read without loss or repetition: the text of two reads with time between
    them is together the text one read at the later instant would have given. *)
Theorem stdout_read_once n s p :
  process s = Some p ->
  (stdout_pulled s <= length (text_lines (negb (alive p)) (out_bytes p)))%nat ->
  exists o1 o2,
    stdout_of s = Ok o1
    /\ stdout_of (ticks n (fst (get_stdout s))) = Ok o2
    /\ stdout_of (ticks n s) = Ok (o1 ++ o2).
Proof using All.
  unfold stdout_of.
  intros Hp Hl. set (ls := text_lines (negb (alive p)) (out_bytes p)) in *.
  destruct (ticks_output n s p Hp) as (p' & Hp' & [t Hpre] & Hend).
  set (ls' := text_lines (negb (alive p')) (out_bytes p')).
  assert (ls `prefix_of` ls') as [more Hls].
  { unfold ls, ls'. destruct (alive p) eqn:Ea; cbn.
    - rewrite Hpre. apply text_lines_app.
    - by destruct (Hend eq_refl) as [-> ->]. }
  set (s1 := fst (get_stdout s)).
  assert (process (ticks n s1) = Some p') as Hp1.
  { rewrite <- Hp'. pose proof (ticks_machine n s1 s (get_stdout_machine s)) as Hm.
    unfold machine in Hm. congruence. }
  pose proof (get_stdout_process s p Hp) as G. fold ls in G. cbv zeta in G.
  destruct (un_out _ _ (ticks_untouched n s)) as [Q0 U0].
  destruct (un_out _ _ (ticks_untouched n s1)) as [Q1 U1].
  assert (stdout_queue s1 = [] /\ stdout_pulled s1 = length ls) as [Q2 U2].
  { unfold s1. rewrite G. cbn. split; [done|lia]. }
  rewrite (get_stdout_process _ _ Hp'), (get_stdout_process _ _ Hp1). fold ls'. cbv zeta. cbn [snd].
  rewrite Q0, U0, Q1, U1, Q2, U2, G. cbn [snd].
  do 2 eexists. split; [done|]. split; [done|]. f_equal. rewrite <- py_join_nil_app. f_equal.
  rewrite Hls, drop_app_length, drop_app_le by done. by rewrite <- app_assoc.
Qed.

End RECEIVE_TCP.

(** * Starting and ending a process *)

Section LIFE.

Context {X : Type} `{Executable X}.

(** The end of a test: the process is killed and waited for, and nothing is bound or connected. *)
Record torn_down (s s' : tester X) : Prop := {
  td_process : process s' = None;
  td_sockets : server_socket s' = None /\ connection_socket s' = None;
  td_code : return_code s' = match process s with
                             | Some p => Some (default (-15) (exited p))
                             | None => return_code s
                             end;
  td_now : now s' = now s;
  td_box port : server_socket s = Some (UDP, port) -> inboxes s' !! port = None
}.

Lemma teardown_torn_down s : exists s', teardown s = (s', Ok tt) /\ torn_down s s'.
Proof.
  unfold teardown, kill, stop_server, modify, mbind, M_bind. eexists. split; [reflexivity|].
  unfold read_stderr, read_stdout, close_server_socket.
  destruct (process s) as [p|] eqn:Ep; cbn; rewrite ?Ep; cbn;
    destruct (server_socket s) as [[[] q]|] eqn:Es; cbn;
    (split; cbn; rewrite ?Ep, ?Es; [done|done|try (by destruct (exited p)); done|done|]);
    try (intros port [= <-]; apply lookup_delete_eq); by intros port [=].
Qed.

(** The process just started, before the 200 ms that [setup] waits. *)
Record started (args : list chars) (s s0 : tester X) : Prop := {
  st_process : process s0 = Some (exec args (now s));
  st_queues : stdout_queue s0 = [] /\ stderr_queue s0 = [];
  st_pulled : stdout_pulled s0 = O /\ stderr_pulled s0 = O /\ routed s0 = O;
  st_code : return_code s0 = None;
  st_stdin : stdin s0 = Open;
  st_server : server_socket s0 = match process s with Some _ => None | None => server_socket s end;
  st_now : now s0 = now s
}.

Lemma setup_started args s :
  exists s0, started args s s0 /\ setup args s = (ticks 20 s0, Ok tt).
Proof.
  destruct (teardown_torn_down s) as (s1 & E1 & H1).
  unfold setup. rewrite bind_get. destruct (process s) as [p|] eqn:Ep.
  - rewrite bool_decide_true by by eexists. cbn [when]. rewrite (bind_ok _ _ _ _ _ E1).
    destruct H1 as [_ [Hs _] _ Hn _].
    eexists. split; [|reflexivity]. split; cbn; rewrite ?Ep; congruence || done.
  - rewrite bool_decide_false by (by intros []). cbn [when].
    eexists. split; [|reflexivity]. split; cbn; rewrite ?Ep; done.
Qed.

(** [setup] starts every test from a clean slate: the new process has just been started with the
    given arguments at the current time, the queues of both outputs are empty, nothing of them is
    counted as read, no exit code is recorded and standard input is open; 200 ms later the call
    returns.  A server started before survives only when no process was running. *)
Theorem setup_starts_fresh args s :
  exists s0, started args s s0 /\ setup args s = (ticks 20 s0, Ok tt)
    /\ now (ticks 20 s0) = now s + 200 /\ stdout_queue (ticks 20 s0) = []
    /\ return_code (ticks 20 s0) = None.
Proof.
  destruct (setup_started args s) as (s0 & Hst & E). exists s0. split; [done|]. split; [done|].
  pose proof (ticks_untouched 20 s0) as Hu. rewrite ticks_now, (un_code _ _ Hu), (st_code _ _ _ Hst).
  rewrite (proj1 (un_out _ _ Hu)), (proj1 (st_queues _ _ _ Hst)), (st_now _ _ _ Hst).
  split; [done|]. by split.
Qed.

(** The test passes in this state of the harness. *)
Definition passes_in (test : H X unit) (s : tester X) : Prop := snd (test s) = Ok tt.

(** The four tests of the command-line arguments check nothing: the exit code they compare is the
    one [setup] has just cleared, so each of them passes for every program whatsoever, from every
    state of the harness. *)
Theorem argument_tests_pass_always s :
  passes_in no_args s /\ passes_in no_type_arg s /\ passes_in no_hostname s
  /\ passes_in all_args s.
Proof.
  unfold passes_in.
  assert (forall args, exists s1, setup args s = (s1, Ok tt) /\ return_code s1 = None) as Hset.
  { intros args. destruct (setup_started args s) as (s0 & Hst & E). exists (ticks 20 s0).
    by rewrite (un_code _ _ (ticks_untouched 20 s0)), (st_code _ _ _ Hst). }
  assert (forall args, snd ((_ ← setup args; code1 ← get_return_code;
    py_assert (bool_decide (code1 <> Some 0)) (lit "Expected non-zero exit code.")) s) = Ok tt) as Ht.
  { intros args. destruct (Hset args) as (s1 & E & Hr). rewrite (bind_ok _ _ _ _ _ E).
    unfold get_return_code, gets, mbind, M_bind. by rewrite Hr. }
  split; [apply Ht|]. split; [apply Ht|]. split; [apply Ht|].
  unfold all_args. set (args := [lit "-t"; lit "udp"; lit "-s"; lit "localhost"; lit "-p"; lit "4567"]).
  destruct (setup_started args s) as (s0 & Hst & E). rewrite (bind_ok _ _ _ _ _ E).
  pose proof (ticks_untouched 20 s0) as Hu. pose proof (un_code _ _ Hu) as Hc.
  rewrite (st_code _ _ _ Hst) in Hc. pose proof (un_stdin _ _ Hu) as Hi. rewrite (st_stdin _ _ _ Hst) in Hi.
  assert (exists p, process (ticks 20 s0) = Some p) as [p Hp].
  { assert (forall n t, is_Some (process t) -> is_Some (process (ticks n t))) as Hn.
    { induction n as [|n IH]; intros t Hp; [done|]. apply IH. destruct Hp as [p Hp].
      destruct (tick_process t p Hp) as (p' & ? & _). by eexists. }
    apply Hn. rewrite (st_process _ _ _ Hst). by eexists. }
  clear Hu E Hst. revert Hc Hi Hp. generalize (ticks 20 s0). intros s1 Hc Hi Hp.
  unfold send_eof, get_return_code, gets, mbind, M_bind, get, modify. rewrite Hp, Hi. cbn.
  by rewrite Hc.
Qed.

(** [dump] never shows the standard output of a failed test under its heading "stdout": it reads
    the output twice, the first read under the heading "stdout now" takes everything, and the
    second is always empty. *)
Theorem dump_second_stdout_empty s :
  exists s' now_text err_text history_text, dump s =
    (s', Ok [(lit "stdout now", now_text); (lit "stdout", []); (lit "stderr", err_text);
             (lit "History", history_text)])
    /\ stdout_of s = Ok now_text.
Proof.
  unfold stdout_of, dump, get_stdout, get_stderr, modify, get, mbind, M_bind, mret, M_ret, ended, read_stdout.
  destruct (process s) as [p|] eqn:Ep; cbn; rewrite ?Ep; cbn; rewrite ?Ep; cbn.
  - set (ls := text_lines (negb (alive p)) (out_bytes p)).
    assert (drop (Nat.max (stdout_pulled s) (length ls)) ls = []) as -> by (apply drop_ge; lia).
    do 4 eexists. by split.
  - do 4 eexists. by split.
Qed.

End LIFE.

(** * Sample programs *)

(** A program that prints a line and sends one byte to port 4567 at every instant it runs. *)
#[local] Instance talker : Executable nat := {|
  exec _ _ := O;
  arrive _ n := n;
  elapse _ n := S n;
  out_bytes n := concat (replicate n [120; LF]);
  err_bytes _ := [];
  datagrams n := replicate n (MkAddr LOCALHOST 4567, [1; 0; 7]);
  connecting _ := None;
  stream _ := [];
  unread _ := false;
  exited _ := None
|}.

Lemma replicate_prefix {A} n (x : A) : replicate n x `prefix_of` replicate (S n) x.
Proof. exists [x]. by rewrite replicate_S_end. Qed.

#[local] Instance talker_laws : Executable_laws nat.
Proof.
  split; cbn; try done.
  - intros _ n. destruct (replicate_prefix n [120; LF]) as [k E]. change [_; _] with [120; LF].
    exists (concat k). by rewrite <- concat_app, <- E.
  - intros _ n. apply (replicate_prefix n).
Qed.

(** It was started, with a server bound to the port. *)
Definition sample_tester : tester nat :=
  set_server_socket (Some (UDP, 4567))
    (set_inboxes {[ 4567 := [] ]} (set_process (Some 0%nat) (tester_init 0))).


Lemma udp_receive_in_time_witness :
  udp_received 4567 500 sample_tester (receive_message_within 5000 sample_tester)
  /\ 0 <= now (fst (receive_message_within 5000 sample_tester)) <= 5000.
Proof.
  destruct (udp_receive_in_time 5000 4567 sample_tester) as [H1 H2];
    [reflexivity|reflexivity|].
  split; [exact H1|]. apply H2. lia.
Defined.

Lemma stdout_read_once_witness :
  exists o1 o2, stdout_of sample_tester = Ok o1
    /\ stdout_of (ticks 2 (fst (get_stdout sample_tester))) = Ok o2
    /\ stdout_of (ticks 2 sample_tester) = Ok (o1 ++ o2).
Proof.
  apply (stdout_read_once 2 sample_tester O); [reflexivity|cbn; lia].
Defined.

(** A program that does nothing, connected over TCP. *)
#[local] Instance mute : Executable unit := {|
  exec _ _ := tt;
  arrive _ _ := tt;
  elapse _ _ := tt;
  out_bytes _ := [];
  err_bytes _ := [];
  datagrams _ := [];
  connecting _ := None;
  stream _ := [];
  unread _ := false;
  exited _ := None
|}.

Definition sample_connected : tester unit :=
  set_server_socket (Some (TCP, 4567))
    (set_connection_socket (Some (MkConn 0 false)) (set_process (Some tt) (tester_init 0))).

Lemma mute_connection n s :
  process s = Some tt -> process (ticks n s) = Some tt
    /\ connection_socket (ticks n s) = connection_socket s.
Proof.
  revert s. induction n as [|n IH]; intros s Hp; [done|]. cbn [ticks].
  destruct (IH (tick s)) as [H1 H2].
  - unfold tick, accept_connection, route. cbn. by rewrite Hp.
  - split; [done|]. rewrite H2. unfold tick, accept_connection, route. cbn. by rewrite Hp.
Qed.

Lemma tcp_receive_ignores_timeout_witness :
  receive_message_within 100 sample_connected
  = (ticks PATIENCE sample_connected, Err Hang).
Proof.
  apply (tcp_receive_ignores_timeout 100 TCP 4567 sample_connected); [reflexivity|].
  intros k _. destruct (mute_connection k sample_connected eq_refl) as [Hp Hc].
  exists (MkConn 0 false), tt. rewrite Hp, Hc. done.
Defined.
