(* ===== verification/RunnerSpec.v ===== *)
(** What the test runner guarantees: which tests it has, what it reports of each, the summary, and
    how the command line selects. *)
From S2P Require Import Prelude PyRuntime Executable Tester TestCasesUdp TestCasesTcp TesterSpec.
From S2P Require Import Runner.

(** What the runner relies on: [dump] reads the outputs, does not raise and does not wait. *)
Class Suite_laws (X : Type) `{Suite X} : Prop := {
  dump_returns s : exists s' texts, suite_dump s = (s', Ok texts) /\ now s' = now s
}.

#[export] Instance testo_suite_laws `{Executable X} : Suite_laws X.
Proof.
  split. intros s. do 2 eexists. split; [reflexivity|].
  cbn. unfold read_stdout, read_stderr. destruct (process s); cbn; by repeat case_match.
Qed.

Section RUNNER.

Context {X : Type} `{Executable X} `{!Suite X} `{!Suite_laws X}.

(** * Registration *)

Lemma register_filter ts lists :
  fold_left register ts lists
  = (fst lists ++ List.filter (fun t => py_in (lit "udp") (test_name t)) ts,
     snd lists ++ List.filter (fun t => negb (py_in (lit "udp") (test_name t))
                                        && py_in (lit "tcp") (test_name t)) ts
     : list (testcase_func X)).
Proof.
  revert lists. induction ts as [|t ts IH]; intros [udp tcp]; cbn; [by rewrite !app_nil_r|].
  rewrite IH. destruct (py_in (lit "udp") (test_name t)); cbn; [by rewrite <- app_assoc|].
  by destruct (py_in (lit "tcp") (test_name t)); cbn; rewrite <- ?app_assoc.
Qed.

(** * One test *)

Context (colored : chars -> colour -> chars) (message_of : py_exn -> chars).

(** A call that prints, and may read the tester's output. *)
Definition prints (s s' : session X) : Prop := exists texts, printed s' = printed s ++ texts.

Lemma prints_trans s1 s2 s3 : prints s1 s2 -> prints s2 s3 -> prints s1 s3.
Proof. intros [t1 E1] [t2 E2]. exists (t1 ++ t2). by rewrite E2, E1, app_assoc. Qed.

Lemma print_texts_prints texts s : exists s', print_texts colored texts s = (s', Ok tt) /\ prints s s'.
Proof.
  revert s. induction texts as [|[heading text] texts IH]; intros s.
  - exists s. split; [done|]. exists []. by rewrite app_nil_r.
  - destruct (IH (MkSession (the_tester s) ((printed s ++ [colored heading Magenta]) ++ [text])))
      as (s' & E & Hp).
    exists s'. split; [exact E|]. eapply prints_trans; [|exact Hp].
    exists [colored heading Magenta; text]. cbn. by rewrite <- app_assoc.
Qed.

Lemma print_dump_prints s : exists s', print_dump colored s = (s', Ok tt) /\ prints s s'.
Proof.
  destruct (dump_returns (the_tester s)) as (t' & texts & E & _).
  unfold print_dump, or_uncaught, on_tester, mbind, M_bind. rewrite E. cbn.
  destruct (print_texts_prints texts (MkSession t' (printed s))) as (s' & E' & Hp).
  exists s'. by rewrite E'.
Qed.

Definition returned (r : result halt unit) : bool := match r with Ok _ => true | Err _ => false end.

Lemma report_prints name r s :
  exists s', report colored message_of name r s = (s', Ok (match r with Ok _ => true | Err _ => false end))
    /\ prints s s'.
Proof.
  unfold report.
  assert (forall text, prints s (MkSession (the_tester s) (printed s ++ [text]))) as Hp
    by (intros text; by eexists).
  assert (forall text, exists s', (_ ← print text; _ ← print_dump colored; mret false) s
      = (s', Ok false) /\ prints s s') as Hd.
  { intros text. destruct (print_dump_prints (MkSession (the_tester s) (printed s ++ [text])))
      as (s' & E & [texts Ht]). exists s'. unfold print, modify, mbind, M_bind. rewrite E.
    split; [done|]. exists (text :: texts). rewrite Ht. cbn. by rewrite <- app_assoc. }
  destruct r as [[]|[]]; try apply Hd; (eexists; split; [reflexivity|apply Hp]).
Qed.

Lemma print_title_prints width name (s : session X) :
  exists title, print_title colored (Ok width) name s
    = (MkSession (the_tester s) (printed s ++ [title]), Ok tt).
Proof. unfold print_title. cbv zeta. rewrite bind_ret. eexists. reflexivity. Qed.

(** How the wrapper ends on a body that ends: with the verdict, one title, the report and the last
    line printed, and the tester torn down. *)
Record wrapped (name : chars) (verdict : bool) (s : session X) (o : session X * result quit bool) :
    Prop := {
  wr_result : snd o = Ok verdict;
  wr_printed : exists texts, printed (fst o) = printed s ++ texts
    ++ [colored (lit "Test " ++ quoted name ++ lit " finished") Yellow];
  wr_process : process (the_tester (fst o)) = None;
  wr_sockets : server_socket (the_tester (fst o)) = None
    /\ connection_socket (the_tester (fst o)) = None
}.

Lemma wrapper_wrapped width t s t' r :
  test_func t (the_tester s) = (t', r) -> r <> Err Hang ->
  wrapped (test_name t) (returned r) s (wrapper colored message_of (Ok width) t s).
Proof.
  intros Ht Hr. unfold wrapper.
  destruct (print_title_prints width (test_name t) s) as [title E].
  rewrite (bind_ok _ _ _ _ _ E). set (s1 := MkSession (the_tester s) _).
  assert (exists r', on_tester (test_func t) s1 = (MkSession t' (printed s1), Ok r')
          /\ (match r' with Ok _ => true | Err _ => false end) = returned r) as (r' & E1 & Er).
  { unfold on_tester. cbn [the_tester s1]. rewrite Ht. destruct r as [[]|[e|]]; [..|done]; by eexists. }
  rewrite (bind_ok _ _ _ _ _ E1).
  destruct (report_prints (test_name t) r' (MkSession t' (printed s1))) as (s2 & E2 & [texts P2]).
  rewrite (bind_ok _ _ _ _ _ E2). rewrite Er.
  destruct (teardown_torn_down (the_tester s2)) as (t3 & E3 & H3).
  destruct H3 as [Hp [Hs Hc] _ _ _].
  unfold print, modify, or_uncaught, on_tester, mbind, M_bind. cbn. rewrite E3.
  split; cbn; [done| |done|done].
  exists (title :: texts). rewrite P2. cbn. by rewrite <- !app_assoc.
Qed.

(** C32. The verdict on a test is its outcome, and a test leaves nothing behind: whatever the body of a
    test case does, short of blocking for ever, the wrapper returns true exactly when the body
    returned, ends with the line that says the test finished, and leaves no process and no socket;
    what was printed before stays. *)
Theorem wrapper_verdict width t s t' r :
  test_func t (the_tester s) = (t', r) -> r <> Err Hang ->
  wrapped (test_name t) (returned r) s (wrapper colored message_of (Ok width) t s).
Proof. apply wrapper_wrapped. Qed.

(** * All tests *)

(** The test passes when it starts, in a new tester, at the given time. *)
Definition passes (t : testcase_func X) (time : Z) : bool :=
  returned (snd (test_func t (tester_init time))).

(** It never blocks for ever. *)
Definition ends (t : testcase_func X) : Prop :=
  forall time, snd (test_func t (tester_init time)) <> Err Hang.

(** How many of the tests pass when they start at the given times. *)
Fixpoint count_passed (ts : list (testcase_func X)) (times : list Z) : Z :=
  match ts, times with
  | t :: ts', time :: times' => (if passes t time then 1 else 0) + count_passed ts' times'
  | _, _ => 0
  end.

Lemma run_all_counts width ts n s :
  Forall ends ts ->
  exists times s', length times = length ts
    /\ run_all colored message_of (Ok width) ts n s = (s', Ok (n + count_passed ts times))
    /\ prints s s'.
Proof.
  intros He. revert n s. induction He as [|t ts Ht _ IH]; intros n s.
  - exists [], s. cbn. rewrite Z.add_0_r. split; [done|]. split; [done|]. exists [].
    by rewrite app_nil_r.
  - cbn [run_all]. set (time := now (the_tester s)).
    rewrite (bind_ok _ _ s (MkSession (tester_init time) (printed s)) tt) by done.
    set (s1 := MkSession _ _). destruct (test_func t (the_tester s1)) as [t' r] eqn:E.
    assert (r <> Err Hang) as Hr by (specialize (Ht time); cbn in E; by rewrite E in Ht).
    destruct (wrapper_wrapped width t s1 t' r E Hr) as [Hv [texts Hp] _ _].
    destruct (wrapper _ _ _ t s1) as [s2 v] eqn:Ew. cbn in Hv, Hp. subst v.
    rewrite (bind_ok _ _ _ _ _ Ew).
    destruct (IH (n + if returned r then 1 else 0) s2) as (times & s3 & Hl & Er & [more Hm]).
    exists (time :: times), s3. split; [cbn; by rewrite Hl|]. split.
    + rewrite Er. cbn [count_passed]. unfold passes. cbn in E. rewrite E. cbn [snd].
      by rewrite Z.add_assoc.
    + exists (texts ++ [colored (lit "Test " ++ quoted (test_name t) ++ lit " finished") Yellow] ++ more).
      rewrite Hm, Hp. cbn. by rewrite <- !app_assoc.
Qed.

(** The last line. *)
Definition summary (passed total : Z) : chars :=
  let all := passed =? total in
  colored ([LF] ++ (if all then tick_mark else cross_mark) ++ lit " " ++ py_str_of_int passed
    ++ lit "/" ++ py_str_of_int total ++ lit " test cases passed") (if all then Green else Red).

Definition selected (udp tcp : bool) : list (testcase_func X) :=
  (if udp then udp_test_cases else []) ++ (if tcp then tcp_test_cases else []).

Lemma count_passed_app ts1 ts2 times1 times2 :
  length times1 = length ts1 ->
  count_passed (ts1 ++ ts2) (times1 ++ times2) = count_passed ts1 times1 + count_passed ts2 times2.
Proof.
  revert times1. induction ts1 as [|t ts1 IH]; intros [|time times1] Hl; try done.
  cbn. rewrite IH by (by injection Hl). lia.
Qed.

Lemma run_if (b : bool) width ts n s :
  Forall ends (if b then ts else []) ->
  exists times s', length times = length (if b then ts else [])
    /\ (if b then run_all colored message_of (Ok width) ts n else mret n) s
       = (s', Ok (n + count_passed (if b then ts else []) times))
    /\ prints s s'.
Proof.
  intros He. destruct b; [by apply run_all_counts|]. exists [], s. cbn. rewrite Z.add_0_r.
  split; [done|]. split; [done|]. exists []. by rewrite app_nil_r.
Qed.

(** C31. The summary is honest: when no selected test blocks for ever, [run_tests] runs each selected test once,
    in its own new tester, and the last text it prints gives the number of those that passed out
    of the number selected, with the green mark exactly when they are equal. *)
Theorem run_tests_summary width udp tcp s :
  Forall ends (selected udp tcp) ->
  exists times s' texts, run_tests colored message_of (Ok width) udp tcp None s = (s', Ok tt)
    /\ length times = length (selected udp tcp)
    /\ printed s' = printed s ++ texts
         ++ [summary (count_passed (selected udp tcp) times) (Z.of_nat (length (selected udp tcp)))].
Proof.
  unfold selected at 1. intros [Hu Ht]%Forall_app. unfold run_tests.
  rewrite (bind_ok _ _ s (MkSession (tester_init (now (the_tester s))) (printed s)) tt) by done.
  set (s1 := MkSession _ _).
  destruct (run_if udp width udp_test_cases 0 s1 Hu) as (times1 & s2 & L1 & E1 & [texts1 P1]).
  rewrite (bind_ok _ _ _ _ _ E1).
  destruct (run_if tcp width tcp_test_cases (0 + count_passed (if udp then udp_test_cases else []) times1)
    s2 Ht) as (times2 & s3 & L2 & E2 & [texts2 P2]).
  rewrite (bind_ok _ _ _ _ _ E2).
  unfold print_summary, print, modify.
  exists (times1 ++ times2). eexists _, (texts1 ++ texts2). split; [reflexivity|].
  split; [unfold selected; rewrite !length_app; congruence|]. cbn [printed].
  rewrite P2, P1. cbn [printed s1]. rewrite <- !app_assoc. do 3 f_equal. unfold summary, selected.
  rewrite count_passed_app by done. rewrite length_app, Nat2Z.inj_add.
  by destruct udp, tcp.
Qed.

(** The runner needs a terminal: where [get_terminal_size] raises, as it does when the output is
    redirected, the exception is outside the try block of the wrapper, and a run of any selection
    of tests ends with it before the first one, with nothing printed. *)
Theorem no_terminal_no_test e udp tcp s :
  selected udp tcp <> [] ->
  run_tests colored message_of (Err e) udp tcp None s
  = (MkSession (tester_init (now (the_tester s))) (printed s), Err (Uncaught e)).
Proof.
  unfold selected, run_tests.
  assert (forall t ts n s1, run_all colored message_of (Err e) (t :: ts) n s1
    = (MkSession (tester_init (now (the_tester s1))) (printed s1), Err (Uncaught e))) as Ha by done.
  assert (forall n s1, run_all (X := X) colored message_of (Err e) [] n s1 = (s1, Ok n)) as Hn by done.
  unfold new_tester, modify, mbind, M_bind. destruct udp, tcp; cbn -[run_all];
    try (destruct udp_test_cases as [|t1 ts1]; rewrite ?Ha, ?Hn; cbn -[run_all]; [|done]);
    try (destruct tcp_test_cases as [|t2 ts2]; rewrite ?Ha; [|done]); done.
Qed.

End RUNNER.

(** * The command line *)

Section OPTIONS.

Context {X : Type} `{Executable X} `{!Suite X}.

(** The options, as they are written on the command line. *)
Inductive option_item : Type :=
| ODebug
| OTest (name : chars)
| OProtocol (spelling : chars)
| OPath (path : chars).

Definition written (i : option_item) : list chars :=
  match i with
  | ODebug => [lit "-d"]
  | OTest name => [lit "-t"; name]
  | OProtocol spelling => [lit "-p"; spelling]
  | OPath path => [path]
  end.

Definition is_flag (a : chars) : bool := (a =s? lit "-d") || (a =s? lit "-t") || (a =s? lit "-p").
Definition names_udp (spelling : chars) : bool := py_lower spelling =s? lit "udp".
Definition names_tcp (spelling : chars) : bool := py_lower spelling =s? lit "tcp".

(** What an option sets, and when it is accepted. *)
Definition apply_option (o : options) (i : option_item) : options :=
  match i with
  | ODebug => MkOptions true (opt_udp o) (opt_tcp o) (opt_test_case o) (opt_executable_path o)
  | OTest name =>
      MkOptions (opt_debug o) (opt_udp o) (opt_tcp o) (Some name) (opt_executable_path o)
  | OProtocol spelling =>
      MkOptions (opt_debug o) (opt_udp o && negb (names_tcp spelling))
        (opt_tcp o && negb (names_udp spelling)) (opt_test_case o) (opt_executable_path o)
  | OPath path => MkOptions (opt_debug o) (opt_udp o) (opt_tcp o) (opt_test_case o) (Some path)
  end.

Definition accepted (o : options) (i : option_item) : bool :=
  match i with
  | ODebug => true
  | OTest name => known_test (X := X) name
  | OProtocol spelling => names_udp spelling || names_tcp spelling
  | OPath path => negb (is_flag path) && bool_decide (opt_executable_path o = None)
  end.

Fixpoint all_accepted (o : options) (items : list option_item) : bool :=
  match items with
  | [] => true
  | i :: items' => accepted o i && all_accepted (apply_option o i) items'
  end.

Lemma names_exclusive spelling : names_udp spelling = true -> names_tcp spelling = false.
Proof. unfold names_udp, names_tcp. by intros ->%chars_eqb_true. Qed.

(** One option at the head of the arguments. *)
Lemma parse_written i rest o (s : session X) :
  accepted o i = true -> parse_options (written i ++ rest) o s = parse_options rest (apply_option o i) s.
Proof.
  destruct o as [d u t c p], i as [|name|spelling|path]; intros Ha; cbn [accepted apply_option] in *.
  - done.
  - cbn [written app parse_options]. change (lit "-t" =s? lit "-d") with false.
    change (lit "-t" =s? lit "-t") with true. cbv iota. by rewrite Ha.
  - cbn [written app parse_options]. change (lit "-p" =s? lit "-d") with false.
    change (lit "-p" =s? lit "-t") with false. change (lit "-p" =s? lit "-p") with true. cbv iota.
    fold (names_udp spelling) (names_tcp spelling). cbn [opt_udp opt_tcp].
    destruct (names_udp spelling) eqn:E.
    + rewrite (names_exclusive _ E). by rewrite andb_true_r, andb_false_r.
    + cbn [orb] in Ha. rewrite Ha. by rewrite andb_true_r, andb_false_r.
  - apply andb_true_iff in Ha as [Hf Hp]. apply negb_true_iff in Hf. unfold is_flag in Hf.
    apply orb_false_iff in Hf as [[Hd Ht]%orb_false_iff Hq]. apply bool_decide_eq_true in Hp.
    cbn in Hp. subst p. cbn [written app parse_options]. by rewrite Hd, Ht, Hq.
Qed.

(** The error of a command line: one text, and exit status 1. *)
Definition refused (s : session X) (r : session X * result quit options) : Prop :=
  exists text, r = (MkSession (the_tester s) (printed s ++ [lit "Error: " ++ text]),
                    Err (SystemExit 1)).

Lemma exit_refused text (s : session X) :
  refused s (exit_with_error (lit "Error: " ++ text) s).
Proof. by exists text. Qed.

Lemma parse_items items o s :
  all_accepted o items = true ->
  parse_options (concat (map written items)) o s = (s, Ok (fold_left apply_option items o)).
Proof.
  revert o. induction items as [|i items IH]; intros o; [done|]. cbn [all_accepted map concat].
  intros [Ha Hi]%andb_true_iff. rewrite parse_written by done. by apply IH.
Qed.

Lemma parse_or_refused n args o s :
  (length args <= n)%nat ->
  (exists items, args = concat (map written items) /\ all_accepted o items = true)
  \/ refused s (parse_options args o s).
Proof.
  revert args o. induction n as [|n IH]; intros args o Hn.
  { destruct args; [|cbn in Hn; lia]. left. by exists []. }
  assert (forall i rest, args = written i ++ rest -> accepted o i = true ->
    (exists items, args = concat (map written items) /\ all_accepted o items = true)
    \/ refused s (parse_options args o s)) as Hstep.
  { intros i rest -> Ha. rewrite parse_written by done.
    destruct (IH rest (apply_option o i)) as [(items & -> & Hi)|Hr]; [|left|by right].
    - rewrite length_app in Hn. destruct i; cbn in Hn; lia.
    - exists (i :: items). cbn. by rewrite Ha, Hi. }
  destruct args as [|arg rest]; [left; by exists []|].
  destruct (arg =s? lit "-d") eqn:Ed.
  { apply chars_eqb_true in Ed as ->. by apply (Hstep ODebug rest). }
  destruct (arg =s? lit "-t") eqn:Et.
  { apply chars_eqb_true in Et as ->. destruct rest as [|name rest]; [right; by eexists|].
    destruct (known_test (X := X) name) eqn:Ek; [by apply (Hstep (OTest name) rest)|].
    right. cbn. rewrite Ek. by eexists. }
  destruct (arg =s? lit "-p") eqn:Ep.
  { apply chars_eqb_true in Ep as ->. destruct rest as [|name rest]; [right; by eexists|].
    destruct (names_udp name || names_tcp name)%bool eqn:En;
      [by apply (Hstep (OProtocol name) rest)|].
    right. apply orb_false_iff in En as [Eu Ev]. unfold names_udp, names_tcp in *. cbn [parse_options].
    change (lit "-p" =s? lit "-d") with false. change (lit "-p" =s? lit "-t") with false.
    change (lit "-p" =s? lit "-p") with true. cbv iota zeta. rewrite Eu, Ev. by eexists. }
  destruct (opt_executable_path o) as [path|] eqn:Eo.
  - right. cbn [parse_options]. rewrite Ed, Et, Ep, Eo. by eexists.
  - apply (Hstep (OPath arg) rest); [done|]. cbn. unfold is_flag. rewrite Ed, Et, Ep.
    by rewrite bool_decide_true.
Qed.

(** C33. The command line is read as its options: arguments that are a list of accepted options, each
    [-t] with the name of a test, each [-p] with a protocol in any case and at most one path, give
    the options applied one after the other; any other arguments print one line that starts with
    "Error: " and end the program with status 1. *)
Theorem parse_options_spec args o s :
  (exists items, args = concat (map written items) /\ all_accepted o items = true
     /\ parse_options args o s = (s, Ok (fold_left apply_option items o)))
  \/ (forall items, args = concat (map written items) -> all_accepted o items = false)
     /\ refused s (parse_options args o s).
Proof.
  destruct (parse_or_refused (length args) args o s) as [(items & -> & Hi)|Hr]; [done|left|right].
  - exists items. split; [done|]. split; [done|]. by apply parse_items.
  - split; [|done]. intros items ->. destruct (all_accepted o items) eqn:Hi; [|done].
    rewrite parse_items in Hr by done. destruct Hr as [text [=]].
Qed.

(** What a list of options sets. *)
Definition spares_udp (i : option_item) : bool :=
  match i with OProtocol spelling => negb (names_tcp spelling) | _ => true end.
Definition spares_tcp (i : option_item) : bool :=
  match i with OProtocol spelling => negb (names_udp spelling) | _ => true end.

Lemma options_applied items o :
  opt_udp (fold_left apply_option items o) = opt_udp o && forallb spares_udp items
  /\ opt_tcp (fold_left apply_option items o) = opt_tcp o && forallb spares_tcp items.
Proof.
  revert o. induction items as [|i items IH]; intros o; cbn [fold_left forallb].
  - by rewrite !andb_true_r.
  - destruct (IH (apply_option o i)) as [-> ->]. rewrite !andb_assoc.
    destruct i; cbn; by rewrite ?andb_true_r.
Qed.

Lemma no_test_option items o :
  (forall name, OTest name ∉ items) ->
  opt_test_case (fold_left apply_option items o) = opt_test_case o.
Proof.
  revert o. induction items as [|i items IH]; intros o Hi; [done|]. cbn [fold_left]. rewrite IH.
  - destruct i as [|name| |]; [done| |done|done]. destruct (Hi name). by left.
  - intros name Hn. apply (Hi name). by right.
Qed.

Lemma path_option items o path :
  all_accepted o items = true -> OPath path ∈ items \/ opt_executable_path o = Some path ->
  opt_executable_path (fold_left apply_option items o) = Some path.
Proof.
  revert o. induction items as [|i items IH]; intros o; [by intros _ [?%elem_of_nil|?]|].
  cbn [all_accepted fold_left]. intros [Ha Hi]%andb_true_iff Hp. apply IH; [done|].
  rewrite elem_of_cons in Hp. destruct Hp as [[<-|Hp]|Hp]; [by right|by left|].
  right. destruct i; try done. cbn in Ha. rewrite Hp in Ha.
  by rewrite bool_decide_false, andb_false_r in Ha.
Qed.

Lemma forallb_spares p (items : list option_item) i :
  i ∈ items -> p i = false -> forallb p items = false.
Proof.
  intros Hi Hp. destruct (forallb p items) eqn:E; [|done].
  rewrite forallb_forall in E. rewrite (E i) in Hp; [done|]. by apply list_elem_of_In.
Qed.

Context (colored : chars -> colour -> chars) (message_of : py_exn -> chars).

(** Asking for both protocols runs nothing: each [-p] switches the other protocol off, so a
    command line that names both, in any order and any place, ends with the green summary of 0
    passed out of 0 tests. *)
Theorem both_protocols_run_nothing columns script items path s :
  existsb (fun a => a =s? lit "-h") (script :: concat (map written items)) = false ->
  all_accepted default_options items = true ->
  (exists u, OProtocol u ∈ items /\ names_udp u = true) ->
  (exists t, OProtocol t ∈ items /\ names_tcp t = true) ->
  (forall name, OTest name ∉ items) ->
  OPath path ∈ items ->
  main colored message_of columns (script :: concat (map written items)) s
  = (MkSession (tester_init (now (the_tester s)))
       (printed s ++ [colored ([LF] ++ tick_mark ++ lit " 0/0 test cases passed") Green]), Ok tt).
Proof.
  intros Hh Hi (u & Hu & Eu) (t & Ht & Et) Hn Hp. unfold main. rewrite Hh. cbn [tail].
  rewrite (bind_ok _ _ _ _ _ (parse_items items default_options s Hi)).
  destruct (options_applied items default_options) as [-> ->].
  rewrite (no_test_option items _ Hn), (path_option items _ path Hi) by by left.
  rewrite (forallb_spares spares_udp items _ Ht) by (cbn; by rewrite Et).
  rewrite (forallb_spares spares_tcp items _ Hu) by (cbn; by rewrite Eu).
  reflexivity.
Qed.

End OPTIONS.

(** * The tests of testo.py *)

Section TESTO.

Context {X : Type} `{Executable X}.

Definition named (part : string) (t : testcase_func X) : bool := py_in (lit part) (test_name t).

(** The runner's lists: of the 80 test cases of the file it runs 31 over UDP and 45 over TCP, in
    the order of the file, no test in both; the four tests of the command-line arguments are in
    neither list and are never run, and one name is registered twice. *)
Theorem registered_tests :
  udp_test_cases = List.filter (named "udp") declared
  /\ tcp_test_cases = List.filter (fun t => negb (named "udp" t) && named "tcp" t) declared
  /\ (length (udp_test_cases (X := X)), length (tcp_test_cases (X := X)),
      length (declared (X := X))) = (31, 45, 80)%nat
  /\ map test_name (List.filter (fun t => negb (known_test (X := X) (test_name t)))
                      (declared (X := X)))
     = [lit "no_args"; lit "no_type_arg"; lit "no_hostname"; lit "all_args"]
  /\ length (List.filter (fun t => test_name t =s? lit "tcp_auth_ok") (tcp_test_cases (X := X))) = 2%nat.
Proof.
  unfold udp_test_cases, tcp_test_cases, registered. rewrite register_filter. cbn [fst snd app].
  split; [done|]. split; [done|]. split; [by vm_compute|]. split; by vm_compute.
Qed.

End TESTO.

(** * Sample runs, of the program that does nothing *)

#[local] Existing Instance mute.

Definition plain_text (text : chars) (_ : colour) : chars := text.
Definition no_message (_ : py_exn) : chars := [].
Definition sample_session : session unit := MkSession (tester_init 0) [].

Lemma wrapper_verdict_witness :
  wrapped plain_text (lit "no_args") true sample_session
    (wrapper plain_text no_message (Ok 80) (MkTest (lit "no_args") no_args) sample_session).
Proof.
  apply (wrapper_verdict plain_text no_message 80 (MkTest (lit "no_args") no_args) sample_session
    (fst (no_args (tester_init 0))) (Ok tt)); [vm_compute; reflexivity|done].
Defined.

(** No test blocks for ever on it, whenever it is run. *)
Definition hangs (r : result halt unit) : bool :=
  match r with Err Hang => true | _ => false end.

Lemma mute_ends : Forall ends (udp_test_cases (X := unit) ++ tcp_test_cases).
Proof.
  assert (forall time, forallb (fun t => negb (hangs (snd (test_func t (tester_init time)))))
    (udp_test_cases (X := unit) ++ tcp_test_cases) = true) as Ht
    by (intros time; vm_compute; reflexivity).
  apply Forall_forall. intros t Hin time E. specialize (Ht time).
  rewrite forallb_forall in Ht. specialize (Ht t (proj1 (list_elem_of_In _ _) Hin)).
  by rewrite E in Ht.
Qed.

Lemma run_tests_summary_witness :
  exists times s' texts,
    run_tests plain_text no_message (Ok 80) true true None sample_session = (s', Ok tt)
    /\ length times = 76%nat
    /\ printed s' = texts ++ [summary plain_text (count_passed (selected true true) times) 76].
Proof.
  destruct (run_tests_summary plain_text no_message 80 true true sample_session mute_ends)
    as (times & s' & texts & E & Hl & Hp).
  exists times, s', texts. split; [exact E|]. split; [exact Hl|exact Hp].
Defined.

Lemma parse_options_spec_witness :
  refused sample_session (parse_options [lit "-p"; lit "sctp"] default_options sample_session).
Proof.
  destruct (parse_options_spec [lit "-p"; lit "sctp"] default_options sample_session)
    as [(items & _ & _ & E)|[_ Hr]]; [vm_compute in E; discriminate E|exact Hr].
Defined.

Lemma both_protocols_run_nothing_witness :
  main plain_text no_message (Ok 80)
    [lit "testo.py"; lit "-p"; lit "udp"; lit "./client"; lit "-p"; lit "TCP"] sample_session
  = (MkSession (tester_init 0) [[LF] ++ tick_mark ++ lit " 0/0 test cases passed"], Ok tt).
Proof.
  apply (both_protocols_run_nothing plain_text no_message (Ok 80) (lit "testo.py")
    [OProtocol (lit "udp"); OPath (lit "./client"); OProtocol (lit "TCP")] (lit "./client"));
    [vm_compute; reflexivity..| | | |].
  - exists (lit "udp"). split; [by left|reflexivity].
  - exists (lit "TCP"). split; [by right; right; left|reflexivity].
  - intros name H. repeat (apply elem_of_cons in H as [H|H]; [discriminate H|]).
    by apply elem_of_nil in H.
  - by right; left.
Defined.

Lemma no_terminal_no_test_witness :
  run_tests plain_text no_message (Err OSError) true false None sample_session
  = (sample_session, Err (Uncaught OSError)).
Proof. apply (no_terminal_no_test plain_text no_message OSError true false sample_session). discriminate. Defined.
