(* ===== verification/EndToEnd.v ===== *)
(** The harness, the machine, the client and the codec together: what a user types reaches the server
    as the harness reads it, and what the server says reaches the user's screen. *)
From S2P Require Import Prelude PyRuntime UDPMessages UDPTranslator Args Kernel Regex Client ClientSpec.
From S2P Require Import UdpClient Executable Process KernelSpec ProcessSpec Tester TesterSpec TestCasesUdp.
From S2P Require Import UserInput UdpSpec Interrupt.

(** * Lines of standard input *)

(** A line that has arrived, in the buffer or still in the pipe, is read. *)
Lemma getline_arrived fuel k l r :
  (length (pipe k) < fuel)%nat -> split_line (filebuf k ++ pipe k) = Some (l, r) ->
  exists k', getline_loop fuel k = Some (Line l, k').
Proof.
  revert k. induction fuel as [|fuel IH]; intros k Hf Hl; [lia|]. cbn [getline_loop].
  destruct (split_line (filebuf k)) as [[l' r']|] eqn:E.
  { rewrite (split_line_app _ _ _ _ E) in Hl. injection Hl as -> _. by eexists. }
  destruct (pipe k) as [|x p] eqn:Ep; [rewrite app_nil_r, E in Hl; done|]. rewrite <- Ep in *.
  apply IH; cbn [pipe filebuf set_filebuf set_pipe].
  - rewrite length_drop. unfold BUFSIZE. rewrite Ep in *. cbn [length] in *. lia.
  - by rewrite <- app_assoc, take_drop.
Qed.

Lemma getline_typed_line k line :
  pipe k = line ++ [LF] -> filebuf k = [] -> LF ∉ line -> exists k', getline k = Some (Line line, k').
Proof.
  intros Hp Hf Hl. apply (getline_arrived _ _ _ []); [lia|]. rewrite Hf, Hp. by apply split_line_one.
Qed.

(** The commands that are sent are ASCII lines. *)
Lemma ascii_by_computation s : forallb (fun c => (0 <=? c) && (c <? 128))%bool s = true -> ascii_text s.
Proof.
  intros Hs. apply Forall_forall. intros x Hx. rewrite forallb_forall in Hs.
  specialize (Hs x (proj1 (list_elem_of_In _ _) Hx)). bool_to_prop. lia.
Qed.

Lemma command_line_ascii st cmd msg id name :
  allowed st cmd -> udp_typed_message id name cmd = Some msg -> ascii_text (line_of cmd).
Proof.
  intros Hc Hm. pose proof (allowed_plain _ _ Hc) as Hp.
  assert (forall w, forallb (fun c => (0 <=? c) && (c <? 128))%bool w = true -> ascii_text w) as Hw
    by apply ascii_by_computation.
  destruct cmd as [u s d|ch| | |text]; try done; cbn [fields line_of] in *;
    repeat match goal with H : Forall plain (_ :: _) |- _ => apply Forall_cons in H as [[? _] H] end;
    unfold ascii_text in *; rewrite ?Forall_app; repeat split; done || (by apply Hw).
Qed.

(** Their messages are ones the codec gives back. *)
Lemma typed_well_formed st cmd msg id name :
  allowed st cmd -> 0 <= id < 65536 -> plain name -> udp_typed_message id name cmd = Some msg ->
  well_formed msg.
Proof.
  intros Hc Hid Hn Hm. pose proof (allowed_plain _ _ Hc) as Hp.
  assert (Forall plain (strings msg)) as Hs.
  { destruct cmd as [u s d|ch| | |text]; try done; injection Hm as <-; cbn [fields strings] in *;
      repeat match goal with H : Forall plain (_ :: _) |- _ => apply Forall_cons in H as [? H] end;
      repeat (apply Forall_cons_2 || apply Forall_nil_2); assumption. }
  assert (id_ok msg /\ result_ok msg /\ ref_ok msg) as (? & ? & ?)
    by (destruct cmd; try done; by injection Hm as <-).
  do 2 (split; try done); [split; [done|]|]; eapply Forall_impl; try exact Hs; intros x [? ?]; try done.
  by apply ascii_encodable.
Qed.

Lemma translate_built msg bs :
  well_formed msg -> build msg = Ok bs -> translateMessage bs = Ok (Some (render msg)).
Proof.
  intros Hw Hb. destruct (build_well_formed msg Hw) as (tail & Ht & Hb'). rewrite Hb in Hb'.
  injection Hb' as ->. destruct Hw as (_ & Href & Hn). by apply translate_layout.
Qed.

(** A turn of the loop. *)
Lemma turns_step {D} `{Handlers D} fuel i c e i' c' :
  next_event i c = Some (e, i') -> dispatch e c = Continue c' -> turns (S fuel) i c = turns fuel i' c'.
Proof. intros He Hd. cbn. by rewrite He, Hd. Qed.

(** * Lines of standard output *)

(** The bytes are whole lines, and text. *)
Definition whole_lines (s : chars) (ls : list chars) : Prop :=
  raw_lines s [] = (ls, []) /\ length (decode_lines ls) = length ls.

(** A line as it is printed. *)
Definition plain_line (l : chars) : Prop := ascii_text l /\ ~ (LF ∈ l) /\ ~ (CR ∈ l).

Lemma raw_lines_line l r acc :
  LF ∉ l -> CR ∉ l ->
  raw_lines (l ++ LF :: r) acc = ((acc ++ l ++ [LF]) :: fst (raw_lines r []), snd (raw_lines r [])).
Proof.
  revert acc. induction l as [|x l IH]; intros acc Hl Hc; cbn [app raw_lines].
  - change (LF =? LF) with true. cbv iota. by destruct (raw_lines r []).
  - apply not_elem_of_cons in Hl as [Hx Hl], Hc as [Hx' Hc].
    rewrite (proj2 (Z.eqb_neq x LF)), (proj2 (Z.eqb_neq x CR)) by congruence.
    by rewrite IH, <- app_assoc.
Qed.

Lemma raw_lines_whole a b acc ls :
  raw_lines a acc = (ls, []) -> raw_lines (a ++ b) acc = (ls ++ fst (raw_lines b []), snd (raw_lines b [])).
Proof.
  revert acc ls. induction a as [a IH] using (induction_ltof1 _ (@length Z)). unfold ltof in IH.
  intros acc ls. destruct a as [|x a]; cbn [app raw_lines].
  { intros [= <- ->]. by destruct (raw_lines b []). }
  assert (forall a' acc' ls' l, (length a' < length (x :: a))%nat ->
    (let (ks, r) := raw_lines a' acc' in (l :: ks, r)) = (ls', []) ->
    (let (ks, r) := raw_lines (a' ++ b) acc' in (l :: ks, r))
    = (ls' ++ fst (raw_lines b []), snd (raw_lines b []))) as Hnext.
  { intros a' acc' ls' l Hlt. destruct (raw_lines a' acc') as [ks r] eqn:E. intros [= <- ->].
    by rewrite (IH a' Hlt acc' ks E). }
  destruct (x =? LF); [apply Hnext; cbn; lia|].
  destruct (x =? CR); [|apply IH; cbn; lia]. destruct a as [|y a]; [by intros [= _ E]; destruct acc|].
  cbn [app]. destruct (y =? LF); [apply (Hnext a)|apply (Hnext (y :: a))]; cbn; lia.
Qed.

Lemma decode_lines_whole a b :
  length (decode_lines a) = length a -> decode_lines (a ++ b) = decode_lines a ++ decode_lines b.
Proof.
  induction a as [|l a IH]; [done|]. cbn. destruct (py_decode l); [|done]. cbn. intros [= E].
  by rewrite IH.
Qed.

(** Once more has been printed: the new line comes first after what was read. *)
Lemma text_lines_more eof a ls l more :
  whole_lines a ls -> plain_line l ->
  exists rest, drop (length ls) (text_lines eof (a ++ l ++ LF :: more)) = (l ++ [LF]) :: rest.
Proof.
  intros [Ha Hd] (Hl & H1 & H2). unfold text_lines.
  rewrite (raw_lines_whole _ _ _ _ Ha), (raw_lines_line l more []) by done. cbn [fst snd app].
  assert (py_decode (l ++ [LF]) = Ok (l ++ [LF])) as El.
  { apply py_decode_encode, py_encode_ascii, Forall_app. split; [done|].
    by apply ascii_by_computation. }
  assert (forall k, exists rest,
    drop (length ls) (decode_lines (ls ++ (l ++ [LF]) :: k)) = (l ++ [LF]) :: rest) as Hk.
  { intros k. rewrite decode_lines_whole by done. cbn [decode_lines]. rewrite El, <- Hd, drop_app_length.
    by eexists. }
  destruct eof; [|apply Hk]. destruct (snd (raw_lines more [])); [apply Hk|].
  rewrite <- app_assoc. apply Hk.
Qed.

Lemma split_lf_line l r : LF ∉ l -> py_split_lf (l ++ LF :: r) = l :: py_split_lf r.
Proof.
  induction l as [|x l IH]; intros Hl; cbn [app py_split_lf].
  - by change (LF =? LF) with true.
  - apply not_elem_of_cons in Hl as [Hx Hl].
    rewrite (proj2 (Z.eqb_neq x LF)) by congruence. by rewrite IH.
Qed.

(** It is one of the lines the harness sees. *)
Lemma line_seen l rest : LF ∉ l -> any_line_is l (py_join [] ((l ++ [LF]) :: rest)) = true.
Proof.
  intros Hl. unfold any_line_is.
  assert (exists r, py_join [] ((l ++ [LF]) :: rest) = l ++ LF :: r) as [r ->].
  { destruct rest; cbn [py_join]; [by exists []|]. eexists. by rewrite <- app_assoc. }
  rewrite split_lf_line by done. cbn [existsb]. by rewrite chars_eqb_refl.
Qed.

(** * The harness *)

Section HARNESS.

Context {X : Type} `{Executable X} `{!Executable_laws X}.

(** [execute], up to its 200 ms. *)
Lemma execute_writes text p s :
  process s = Some p -> exited p = None -> stdin s = Open -> ascii_text text ->
  execute text s
  = (ticks 20 (set_process (Some (arrive (Input (text ++ [LF])) p))
       (set_history (history s ++ lit "stdin:" ++ text ++ [LF]) s)), Ok tt).
Proof.
  intros Hp He Hs Ha. unfold execute, of_py, alive, sleep, modify, get, mbind, M_bind, set_history.
  cbn [process stdin]. rewrite Hp, Hs, py_encode_ascii; cbn [mret M_ret].
  - by rewrite He.
  - apply Forall_app. split; [done|]. by apply ascii_by_computation.
Qed.

(** The first of the datagrams that are new is the first in the inbox. *)
Lemma first_mail port s p q a b data :
  process s = Some p -> inboxes s !! port = Some [] -> routed s = length a ->
  q = elapse (now s + QUANTUM) p -> (a ++ [(MkAddr LOCALHOST port, data)]) `prefix_of` datagrams q ->
  exists rest, waiting port (ticks (S (S b)) s) = (client_addr s, data) :: rest.
Proof.
  intros Hp Hb Hr -> [more Hpre].
  destruct (tick_process s p Hp) as (p1 & Hp1 & He & Hr1 & Hi1).
  set (q := elapse (now s + QUANTUM) p) in *.
  assert (datagrams p1 = datagrams q) as Ed.
  { destruct He as [-> | [ok ->]]; [done|]. apply arrive_outputs. }
  pose proof (deliver_all port (client_addr s) (drop (routed s) (datagrams q)) (inboxes s) [] Hb) as Hb1.
  rewrite <- Hi1 in Hb1.
  assert (routed (tick s) <= length (datagrams p1))%nat as Hle
    by (rewrite Hr1, Ed, length_drop, Hr, Hpre, !length_app; lia).
  destruct (ticks_mail b (tick s) p1 port _ Hp1 Hle Hb1) as (p2 & _ & _ & _ & Hin).
  eexists. unfold waiting. change (ticks (S (S b)) s) with (ticks (S b) (tick s)). rewrite Hin. cbn.
  rewrite Hr, Hpre, <- app_assoc, drop_app_length. cbn [app].
  unfold mail at 1. unfold to_port at 1. cbn. rewrite Z.eqb_refl. cbn. reflexivity.
Qed.

(** A datagram that waits is received at once. *)
Lemma first_received port s from bs rest :
  server_socket s = Some (UDP, port) -> connection_socket s = None -> bs <> [] ->
  (length bs <= 1024)%nat -> waiting port s = (from, bs) :: rest ->
  exists s', receive_message s = (s', Ok (VBytes bs)).
Proof.
  intros Hs Hc Hne Hl Hw. unfold receive_message.
  pose proof (receive_received 5000 port s Hs Hc) as Hr.
  assert (waiting port (ticks 0 s) <> []) as Hz by (cbn; by rewrite Hw).
  destruct Hr as [Hno|k from' rest' Hk Hno Hk'|k from' x data rest' Hk Hno Hk'].
  - by destruct Hz; apply Hno; lia.
  - destruct k as [|k]; [|by destruct Hz; apply Hno; lia]. cbn in Hk'. rewrite Hw in Hk'.
    injection Hk' as _ -> _. done.
  - destruct k as [|k]; [|by destruct Hz; apply Hno; lia]. cbn in Hk'. rewrite Hw in Hk'.
    injection Hk' as _ -> _. rewrite firstn_all2 by done. by eexists.
Qed.

Lemma waiting_same port (s s' : tester X) : inboxes s' = inboxes s -> waiting port s' = waiting port s.
Proof. unfold waiting. by intros ->. Qed.

Lemma sleep_200 s : sleep 200 s = (ticks 20 s, Ok tt).
Proof. done. Qed.

(** [send_message] of a datagram to the client. *)
Lemma send_to_client port bs p s :
  process s = Some p -> server_socket s = Some (UDP, port) -> connection_socket s = None ->
  client_address s = Some (client_addr s) ->
  send_message (VBytes bs) s
  = (set_process (Some (arrive (Datagram (MkAddr LOCALHOST port) bs) p)) s, Ok tt).
Proof.
  intros Hp Hs Hc Ha. unfold send_message. rewrite bind_get, Hc, Hs, Ha.
  unfold send_datagram, bytes_of. rewrite bind_ret, bind_get, Hp. by rewrite bool_decide_true.
Qed.

(** The line the process prints next is in what [get_stdout] returns, whatever it prints after. *)
Lemma line_read n l ls a p s :
  process s = Some p -> whole_lines a ls -> plain_line l -> stdout_queue s = [] ->
  stdout_pulled s = length ls -> a ++ l ++ [LF] `prefix_of` out_bytes (elapse (now s + QUANTUM) p) ->
  exists s' stdout, get_stdout (ticks (S n) s) = (s', Ok stdout)
    /\ server_socket s' = server_socket s
    /\ connection_socket s' = connection_socket (ticks (S n) s)
    /\ inboxes s' = inboxes (ticks (S n) s) /\ any_line_is l stdout = true.
Proof.
  intros Hp Ha Hl Hq Hpull Hpre. destruct (tick_process s p Hp) as (p1 & Hp1 & He & _).
  assert (out_bytes p1 = out_bytes (elapse (now s + QUANTUM) p)) as Eo.
  { destruct He as [-> | [ok ->]]; [done|]. apply arrive_outputs. }
  destruct (ticks_output n (tick s) p1 Hp1) as (p2 & Hp2 & Hout & _).
  change (ticks n (tick s)) with (ticks (S n) s) in Hp2. rewrite Eo in Hout.
  destruct (transitivity Hpre Hout) as [more Hmore]. rewrite <- !app_assoc in Hmore.
  rewrite (get_stdout_process _ p2 Hp2). cbv zeta. do 2 eexists. split; [reflexivity|].
  split; [exact (un_server _ _ (ticks_untouched (S n) s))|]. split; [done|]. split; [done|].
  destruct (un_out _ _ (ticks_untouched (S n) s)) as [-> ->]. rewrite Hq, Hpull, Hmore.
  destruct (text_lines_more (negb (alive p2)) a ls l more Ha Hl) as [rest E].
  cbn [app] in E |- *. rewrite E. apply line_seen, Hl.
Qed.

(** A datagram is sent to the process, which prints a line and sends one back. *)
Lemma tell_and_hear r bs answer l a ls sent port p0 s :
  process s = Some p0 -> server_socket s = Some (UDP, port) -> connection_socket s = None ->
  client_address s = Some (client_addr s) -> inboxes s !! port = Some [] ->
  routed s = length sent -> stdout_queue s = [] -> stdout_pulled s = length ls ->
  whole_lines a ls -> plain_line l -> r = Ok bs -> answer <> [] -> (length answer <= 1024)%nat ->
  let p := elapse (now s + QUANTUM) (arrive (Datagram (MkAddr LOCALHOST port) bs) p0) in
  a ++ l ++ [LF] `prefix_of` out_bytes p ->
  sent ++ [(MkAddr LOCALHOST port, answer)] `prefix_of` datagrams p ->
  exists s' stdout,
    (_ ← send_built r; _ ← sleep 200;
     stdout ← get_stdout; message ← receive_message; mret (stdout, message)) s
    = (s', Ok (stdout, VBytes answer)) /\ any_line_is l stdout = true.
Proof.
  intros Hp Hs Hc Ha Hb Hr Hq Hpull Hls Hl -> Hne Hlen p Hout Hsent.
  set (s1 := set_process (Some (arrive (Datagram (MkAddr LOCALHOST port) bs) p0)) s).
  assert (send_built (Ok bs) s = (s1, Ok tt)) as Esend.
  { unfold send_built, of_py. rewrite bind_ret. by apply send_to_client. }
  rewrite (bind_ok _ _ _ _ _ Esend), (bind_ok _ _ _ _ _ (sleep_200 s1)).
  destruct (line_read 19 l ls a _ s1 eq_refl Hls Hl Hq Hpull Hout)
    as (s2 & stdout & Eout & Es & Ec & Ei & Hline).
  rewrite (bind_ok _ _ _ _ _ Eout).
  destruct (first_mail port s1 _ _ _ 18 _ eq_refl Hb Hr eq_refl Hsent) as [rest Hw].
  destruct (first_received port s2 (client_addr s1) answer rest) as [s3 E3]; try done.
  - by rewrite Es.
  - rewrite Ec. by apply (ticks_no_connection 20 port).
  - rewrite (waiting_same port _ _ Ei). exact Hw.
  - rewrite (bind_ok _ _ _ _ _ E3). by exists s3, stdout.
Qed.

(** A line is written to the process, which sends a datagram. *)
Lemma write_and_hear text bs sent port p0 s :
  process s = Some p0 -> exited p0 = None -> stdin s = Open -> ascii_text text ->
  server_socket s = Some (UDP, port) -> connection_socket s = None -> inboxes s !! port = Some [] ->
  routed s = length sent -> bs <> [] -> (length bs <= 1024)%nat ->
  sent ++ [(MkAddr LOCALHOST port, bs)]
    `prefix_of` datagrams (elapse (now s + QUANTUM) (arrive (Input (text ++ [LF])) p0)) ->
  exists s', (_ ← execute text; receive_message) s = (s', Ok (VBytes bs)).
Proof.
  intros Hp He Hi Ha Hs Hc Hb Hr Hne Hlen Hsent.
  rewrite (bind_ok _ _ _ _ _ (execute_writes text p0 s Hp He Hi Ha)). set (s1 := set_process _ _).
  destruct (first_mail port s1 _ _ _ 18 _ eq_refl Hb Hr eq_refl Hsent) as [rest Hw].
  apply (first_received port (ticks 20 s1) (client_addr s1) bs rest); try done.
  - by rewrite (un_server _ _ (ticks_untouched 20 s1)).
  - by apply (ticks_no_connection 20 port).
Qed.

End HARNESS.

Section END_TO_END.

Context (inet_pton getaddrinfo : chars -> option Z) (undefined_status : Z).

#[local] Instance client_under_test : Executable Process.process :=
  client_process inet_pton getaddrinfo undefined_status.
#[local] Instance client_under_test_laws : Executable_laws Process.process :=
  client_laws inet_pton getaddrinfo undefined_status.

(** * The client *)

(** A client that waits for the user: nothing is pending, and its input is open and watched. *)
Record idle_client (i : io) (c : udp_client) : Prop := {
  idle_io : quiet i;
  idle_pipe : pipe (kernel c) = [] /\ filebuf (kernel c) = [];
  idle_stdin : pipe_closed (kernel c) = false /\ stdin_events (kernel c) = true;
  idle_timer : timer (kernel c) = None;
  idle_sends : send_fails (kernel c) = false;
  idle_id : 0 <= m_msg_to_server_id (ext c) < 65536;
  idle_name : plain (m_user_display_name c)
}.

(** A line is typed: the next time the client runs, its message is sent, whatever else it does. *)
Lemma typed_line_sent cmd msg i c t :
  idle_client i c -> allowed (m_current_state c) cmd -> LF ∉ line_of cmd ->
  udp_typed_message (m_msg_to_server_id (ext c)) (m_user_display_name c) cmd = Some msg ->
  exists bs, build msg = Ok bs
    /\ sent (kernel c) ++ [(m_server_addr (m_args c), bs)]
       `prefix_of` datagrams (elapse t (arrive (Input (line_of cmd ++ [LF])) (MkProcess i (Udp c)))).
Proof.
  intros [(Hi & Hb & Hx) [Hp Hf] [Hpc He] Ht Hs Hid Hn] Hcmd Hl Hm.
  set (c0 := on_kernel (set_clock t) (on_kernel (fun k => set_pipe (pipe k ++ line_of cmd ++ [LF]) k) c)).
  destruct (getline_typed_line (kernel c0) (line_of cmd)) as [k' Hk]; [by cbn; rewrite Hp|done|done|].
  destruct (udp_stdin_typed_command cmd c0 k' Hcmd Hk Hs Hid Hn) as (c' & E & [_ _ _ _ Hsent]).
  cbn [c0 ext on_kernel m_user_display_name set_kernel] in Hsent. rewrite Hm in Hsent.
  destruct Hsent as (Hbuild & Hsent & _). exists (m_msg_to_server c'). split; [done|].
  change (sent (kernel c) ++ [(m_server_addr (m_args c), m_msg_to_server c')])
    with (sent (kernel c0) ++ [(m_server_addr (m_args c0), m_msg_to_server c')]). rewrite <- Hsent.
  assert (next_event i c0 = Some (Stdin false, i)) as Hnext.
  { unfold next_event. cbn [receive udp_handlers]. unfold udp_receive, timer_ready, stdin_ready. cbn.
    rewrite Hi, Hb, Hx, Ht, Hpc, He, Hp. cbn. by destruct (line_of cmd). }
  assert (dispatch (Stdin false) c0 = Continue c') as Hturn
    by (cbn [dispatch processStdinEvent udp_handlers]; by rewrite E).
  pose proof (turns_step 7 i c0 (Stdin false) i c' Hnext Hturn) as Et.
  pose proof (turns_grow 7 i c') as [_ Hg]. rewrite <- Et in Hg.
  change (turns 8 i c0) with (turns BURST i c0) in Hg.
  change (sent (kernel c') `prefix_of` process_datagrams (after_turns false Udp (turns BURST i c0))).
  unfold process_datagrams. revert Hg.
  destruct (turns BURST i c0) as [j [c1|c1|code k1]]; intros Hg; exact Hg.
Qed.

(** * The harness beside it *)

(** The harness serves the client's port over UDP, has fetched all it was sent, and tests the client
    [c]. *)
Record facing (port : Z) (i : io) (c : udp_client) (s : tester Process.process) : Prop := {
  fa_process : process s = Some (MkProcess i (Udp c));
  fa_server : server_socket s = Some (UDP, port);
  fa_connection : connection_socket s = None;
  fa_stdin : stdin s = Open;
  fa_inbox : inboxes s !! port = Some [];
  fa_routed : routed s = length (sent (kernel c));
  fa_address : m_server_addr (m_args c) = MkAddr LOCALHOST port
}.


(** * What the server says *)

Lemma shown_plain_line name text :
  shown name text -> LF ∉ text -> plain_line (name ++ lit ": " ++ text).
Proof.
  intros (Hn & Ht & _) Hl. pose proof (printable_ascii name Hn) as [An _].
  pose proof (text_ascii text Ht) as [At _]. destruct Hn as [_ Hn], Ht as [_ Ht].
  unfold all_chars in *. rewrite Forall_forall in Hn, Ht. split; [|split].
  - apply Forall_app. split; [done|]. apply Forall_app. split; [by apply ascii_by_computation|done].
  - rewrite !not_elem_of_app. split; [|split; [|done]]; [by intros ?%Hn|].
    by apply (bool_decide_unpack _).
  - rewrite !not_elem_of_app. split; [|split]; [by intros ?%Hn|by apply (bool_decide_unpack _)|].
    by intros ?%Ht.
Qed.

(** A datagram of the server: the next time the client runs the line is printed and the CONFIRM sent,
    whatever else it does. *)
Lemma server_message_taken id name text bs port i c t :
  idle_client i c -> m_server_addr (m_args c) = MkAddr LOCALHOST port ->
  m_current_state c = S_OPEN \/ m_current_state c = S_JOIN ->
  msg id name text = Ok bs -> shown name text -> id ∉ m_confirmed_server_messages (ext c) ->
  let p := elapse t (arrive (Datagram (MkAddr LOCALHOST port) bs) (MkProcess i (Udp c))) in
  console (kernel c) ++ (name ++ lit ": " ++ text) ++ [LF] `prefix_of` out_bytes p
  /\ sent (kernel c) ++ [(MkAddr LOCALHOST port, [0; id / 256; id mod 256])] `prefix_of` datagrams p.
Proof.
  intros [(Hi & Hb & Hx) _ _ _ Hs _ _] Ha Hst Hm Hsh Hnew.
  set (c0 := on_kernel (set_clock t) c). set (from := MkAddr LOCALHOST port).
  pose proof (udp_msg_datagram id name text from bs c0 Hm Hsh Hs Hst) as E.
  set (i0 := set_inbox (inbox i ++ [(from, bs)]) i). set (i1 := set_inbox [] i0).
  assert (next_event i0 c0 = Some (Socket (Some (from, bs)), i1)) as Hnext.
  { unfold next_event, i0. cbn [interrupted blocked set_inbox]. rewrite Hi, Hb.
    cbn [receive udp_handlers]. unfold udp_receive. cbn [inbox set_inbox]. by rewrite Hx. }
  assert (dispatch (Socket (Some (from, bs))) c0 = Continue (received_msg id name text c0)) as Hturn
    by (cbn [dispatch processSocketEvent udp_handlers]; by rewrite E).
  pose proof (turns_step 7 i0 c0 _ i1 _ Hnext Hturn) as Et.
  pose proof (turns_grow 7 i1 (received_msg id name text c0)) as [Hc Hg]. rewrite <- Et in Hc, Hg.
  change (turns 8 i0 c0) with (turns BURST i0 c0) in Hc, Hg.
  assert (console (kernel (received_msg id name text c0))
      = console (kernel c) ++ name ++ lit ": " ++ text ++ [LF]
    /\ sent (kernel (received_msg id name text c0))
      = sent (kernel c) ++ [(from, [0; id / 256; id mod 256])]) as [Ec Eg].
  { unfold received_msg. rewrite bool_decide_false by done. cbn. by rewrite Ha. }
  rewrite Ec in Hc. rewrite Eg in Hg.
  change (console (kernel c) ++ (name ++ lit ": " ++ text) ++ [LF]
      `prefix_of` console (life_kernel (the_life (after_turns false Udp (turns BURST i0 c0))))
    /\ sent (kernel c) ++ [(from, [0; id / 256; id mod 256])]
      `prefix_of` process_datagrams (after_turns false Udp (turns BURST i0 c0))).
  unfold process_datagrams. rewrite <- !app_assoc. revert Hc Hg.
  destruct (turns BURST i0 c0) as [j [c1|c1|code k1]]; intros Hc Hg; by split.
Qed.


End END_TO_END.

(** * Witnesses *)

Section WITNESSES.

(** The client at the loopback address, authenticated by the harness. *)
Definition at_home (_ : chars) : option Z := Some LOCALHOST.

Definition home_process : Executable Process.process := client_process at_home at_home 0.

Definition authenticated : tester Process.process :=
  fst (@auth_and_reply Process.process home_process (tester_init 0)).

Definition sample_io : io :=
  match process authenticated with Some p => the_io p | None => io_start end.
Definition sample_client : udp_client :=
  match process authenticated with
  | Some (MkProcess _ (Udp c)) => c
  | _ => Udp_client_init sample_args (os_start 0)
  end.

Lemma sample_facing :
  facing 4567 sample_io sample_client authenticated.
Proof. split; vm_compute; reflexivity. Qed.

Lemma sample_idle : idle_client sample_io sample_client.
Proof.
  split; [vm_compute; auto|vm_compute; auto|vm_compute; auto|reflexivity|reflexivity|split; [by vm_compute|reflexivity]|].
  change (plain (lit "c")). split; repeat constructor; vm_compute; congruence.
Qed.



End WITNESSES.
