(* ===== verification/Suite.v ===== *)
(** The test suite of testo.py on the model of the client: the runner, its 76 test cases, the
    harness, the executable interface and the client put together and run. *)
From S2P Require Import Prelude PyRuntime Args Kernel Client Executable Process Tester TestCasesUdp.
From S2P Require Import TestCasesTcp Runner.

(** * The machine of the run

    [localhost] is the only host name that resolves, and no argument is a numeric address. *)

Definition no_address (_ : chars) : option Z := None.
Definition localhost_only (host : chars) : option Z :=
  if host =s? lit "localhost" then Some LOCALHOST else None.

(** The status of a process that ends without a definite one: killed by a fault. *)
Definition fault : Z := -11.

#[local] Instance client_under_test : Executable Process.process :=
  client_executable no_address localhost_only fault.

Definition uncoloured (text : chars) (_ : colour) : chars := text.
Definition no_message (_ : py_exn) : chars := [].

(** A terminal of 80 columns. *)
Definition run (argv : list chars) : session Process.process * result quit unit :=
  Runner.main uncoloured no_message (Ok 80) argv (MkSession (tester_init 0) []).

Definition all_passed (n : Z) : chars :=
  [LF] ++ tick_mark ++ lit " " ++ py_str_of_int n ++ lit "/" ++ py_str_of_int n
  ++ lit " test cases passed".

