(* ===== verification/ArgsSpec.v ===== *)
(** What the constructor of [Args] makes of a command line: the options are applied one after the
    other, numbers at the width of their member, the last server wins. *)
From Stdlib Require Import DecimalString DecimalZ.
From S2P Require Import Prelude PyRuntime Args.

(** * Numbers *)

(** An integer that fits [int]. *)
Definition int_ok (n : Z) : Prop := -2147483648 <= n <= 2147483647.

Lemma digits_acc d acc :
  digits (Z.pos acc) (lit (NilEmpty.string_of_uint d)) = Z.pos (Pos.of_uint_acc d acc).
Proof.
  revert acc. induction d as [|d IH|d IH|d IH|d IH|d IH|d IH|d IH|d IH|d IH|d IH]; intros acc;
    [done|..]; cbn [NilEmpty.string_of_uint Pos.of_uint_acc]; rewrite lit_cons, <- IH;
    cbn [digits]; match goal with |- (if ?b then _ else _) = _ => change b with true end; cbv iota;
    f_equal; cbn; lia.
Qed.

Lemma digits_uint d : digits 0 (lit (NilEmpty.string_of_uint d)) = Z.of_uint d.
Proof.
  unfold Z.of_uint. induction d as [|d IH|d IH|d IH|d IH|d IH|d IH|d IH|d IH|d IH|d IH]; [done|..];
    cbn [NilEmpty.string_of_uint]; rewrite lit_cons; [exact IH|..]; apply digits_acc.
Qed.

(** The text of a non-negative number starts with a digit. *)
Lemma uint_first n :
  exists c s, lit (NilZero.string_of_uint (N.to_uint n)) = c :: s /\ is_digit c = true
    /\ digits 0 (c :: s) = Z.of_N n.
Proof.
  assert (digits 0 (lit (NilZero.string_of_uint (N.to_uint n))) = Z.of_N n) as E.
  { replace (Z.of_N n) with (Z.of_uint (N.to_uint n)).
    - rewrite <- digits_uint. by destruct (N.to_uint n).
    - unfold Z.of_uint. f_equal. apply DecimalN.Unsigned.of_to. }
  destruct (N.to_uint n) as [|d|d|d|d|d|d|d|d|d|d]; cbn [NilZero.string_of_uint
    NilEmpty.string_of_uint] in *; rewrite lit_cons in E |- *; by repeat eexists.
Qed.

Lemma stoi_digits_int (negative : bool) c s :
  is_digit c = true -> int_ok (if negative then - digits 0 (c :: s) else digits 0 (c :: s)) ->
  stoi_digits negative (c :: s)
  = Constructed (if negative then - digits 0 (c :: s) else digits 0 (c :: s)).
Proof. intros Hc Hn. unfold stoi_digits. rewrite Hc. unfold int_ok in Hn. by solve_tests. Qed.

Lemma digit_first c s : is_digit c = true -> stoi (Some (c :: s)) = stoi_digits false (c :: s).
Proof.
  unfold is_digit. intros Hc. bool_to_prop. unfold stoi, skip_space, is_space. solve_tests.
  destruct c as [|c|c]; try lia. do 6 (destruct c as [c|c|]; try lia; try done).
Qed.

(** [stoi] reads back every [int] written in decimal. *)
Lemma stoi_decimal n : int_ok n -> stoi (Some (py_str_of_int n)) = Constructed n.
Proof.
  intros Hn. unfold py_str_of_int. destruct n as [|p|p]; [done| |].
  - destruct (uint_first (N.pos p)) as (c & s & E & Hc & Hd).
    change (Z.to_int (Z.pos p)) with (Decimal.Pos (N.to_uint (N.pos p))).
    cbn [NilZero.string_of_int]. rewrite E, digit_first by done. rewrite stoi_digits_int; by rewrite ?Hd.
  - destruct (uint_first (N.pos p)) as (c & s & E & Hc & Hd).
    change (Z.to_int (Z.neg p)) with (Decimal.Neg (N.to_uint (N.pos p))).
    cbn [NilZero.string_of_int]. rewrite lit_cons, E.
    change (stoi_digits true (c :: s) = Constructed (Z.neg p)).
    rewrite stoi_digits_int; by rewrite ?Hd.
Qed.

(** * Options *)

(** What a user can write: two words per option. *)
Inductive arg_option : Type :=
| OTransport (tcp : bool)
| OServer (host : chars)
| OPort (n : Z)
| OTimeout (n : Z)
| ORetries (n : Z)
| OUnknown (word value : chars).

Definition arg_words (o : arg_option) : list chars :=
  match o with
  | OTransport tcp => [lit "-t"; if tcp then lit "tcp" else lit "udp"]
  | OServer host => [lit "-s"; host]
  | OPort n => [lit "-p"; py_str_of_int n]
  | OTimeout n => [lit "-d"; py_str_of_int n]
  | ORetries n => [lit "-r"; py_str_of_int n]
  | OUnknown word value => [word; value]
  end.

Definition known_flags : list chars :=
  [lit "-t"; lit "-s"; lit "-p"; lit "-d"; lit "-r"; lit "-h"].

Definition arg_ok (o : arg_option) : Prop :=
  match o with
  | OTransport _ | OServer _ => True
  | OPort n | OTimeout n | ORetries n => int_ok n
  | OUnknown word _ => word ∉ known_flags
  end.

(** An option sets its member, cut to the member's width, or the server. *)
Definition apply_arg (a : Args) (o : arg_option) : Args :=
  match o with
  | OTransport tcp => set_is_tcp tcp a
  | OPort n => set_server_port n a
  | OTimeout n => set_udp_confirm_timeout n a
  | ORetries n => set_udp_max_retrans_count n a
  | OServer _ | OUnknown _ _ => a
  end.

Definition apply_host (host : option chars) (o : arg_option) : option chars :=
  match o with OServer h => Some h | _ => host end.

Section CTOR.

Context (inet_pton getaddrinfo : chars -> option Z).

Abbreviation loop := (args_loop inet_pton getaddrinfo).

Lemma unknown_word word value rest host a :
  word ∉ known_flags -> loop (word :: value :: rest) host a = loop rest host a.
Proof.
  intros Hw. destruct word as [|x word]; [done|]. destruct (decide (x = 45)) as [->|Hx].
  - destruct word as [|f [|]]; try done. cbn [args_loop].
    repeat (case_test; [subst; destruct Hw; by apply (bool_decide_unpack _)|]). done.
  - destruct x as [|x|x]; try done. cbn [args_loop]. do 6 (destruct x as [x|x|]; try done).
Qed.

Lemma arg_step o rest host a :
  arg_ok o -> loop (arg_words o ++ rest) host a = loop rest (apply_host host o) (apply_arg a o).
Proof.
  destruct o as [[]|h|n|n|n|word value]; intros Ho; cbn [arg_words app]; try done.
  1-3: cbn -[stoi py_str_of_int set_server_port set_udp_confirm_timeout set_udp_max_retrans_count];
    by rewrite stoi_decimal.
  by apply unknown_word.
Qed.

Lemma arg_steps os rest host a :
  Forall arg_ok os ->
  loop (concat (map arg_words os) ++ rest) host a
  = loop rest (fold_left apply_host os host) (fold_left apply_arg os a).
Proof.
  intros Hos. revert host a. induction Hos as [|o os Ho Hos IH]; intros host a; [done|].
  cbn [map concat fold_left]. by rewrite <- app_assoc, arg_step, IH.
Qed.

(** The address a host resolves to: as a dotted quad if it is one, else by name. *)
Definition resolve (host : chars) : option Z :=
  match inet_pton host with Some ip => Some ip | None => getaddrinfo host end.

(** What the constructor is left with after its options. *)
Definition built (host : option chars) (a : Args) : ctor Args :=
  match host with
  | None => Undefined
  | Some host =>
      match resolve host with
      | Some ip => Constructed (set_server_addr (MkAddr ip (m_server_port a)) a)
      | None => Threw (lit "couldn't convert a hostname to IP address.")
      end
  end.

Lemma loop_end host a : loop [] host a = built host a.
Proof.
  cbn [args_loop]. unfold processServerAddress, built, resolve, hostnameToIpAddress.
  destruct host as [host|]; [|done]. destruct (inet_pton host); [done|].
  by destruct (getaddrinfo host).
Qed.

(** C20. The constructor reads the command line as its options, however many and in any order: each
    sets its member, a number out of range wraps at the member's width (16 bits for the port and
    the timeout, 8 for the retransmissions), later ones override earlier ones, unknown words are
    skipped with the word after them; then the last server is resolved and gets the last port,
    wherever the two stood, and without a server the C library is given a null pointer.  [-h] ends
    the reading at once, needs no server, and makes an object with the help flag. *)
Theorem args_ctor_spec os rest :
  Forall arg_ok os ->
  Args_ctor inet_pton getaddrinfo (concat (map arg_words os))
  = built (fold_left apply_host os None) (fold_left apply_arg os Args_default)
  /\ Args_ctor inet_pton getaddrinfo (concat (map arg_words os) ++ lit "-h" :: rest)
     = Constructed (set_is_help_used true (fold_left apply_arg os Args_default)).
Proof.
  intros Hos. unfold Args_ctor. split.
  - rewrite <- (app_nil_r (concat _)), arg_steps by done. apply loop_end.
  - by rewrite arg_steps by done.
Qed.

(** The flags that take a number. *)
Definition number_flags : list chars := [lit "-p"; lit "-d"; lit "-r"].

(** C34. The constructor fails at the first option it cannot read, whatever follows: a transport that is
    neither tcp nor udp throws the message for it, a number that [std::stoi] refuses throws its
    exception, and a flag without its value, at the end of the command line, hands a null pointer
    to the C library. *)
Theorem args_ctor_errors os rest value what flag :
  Forall arg_ok os ->
  (value ∉ [lit "tcp"; lit "udp"] ->
   Args_ctor inet_pton getaddrinfo (concat (map arg_words os) ++ lit "-t" :: value :: rest)
   = Threw (lit "invalid value for -t flag: expected tcp or udp."))
  /\ (flag ∈ number_flags -> stoi (Some value) = Threw what ->
      Args_ctor inet_pton getaddrinfo (concat (map arg_words os) ++ flag :: value :: rest) = Threw what)
  /\ (flag ∈ lit "-t" :: lit "-s" :: number_flags ->
      Args_ctor inet_pton getaddrinfo (concat (map arg_words os) ++ [flag]) = Undefined).
Proof.
  intros Hos. unfold Args_ctor. split; [|split].
  - intros Hv. rewrite arg_steps by done. cbn [args_loop]. cbn -[chars_eqb].
    assert (forall t, t ∈ [lit "tcp"; lit "udp"] -> (value =s? t) = false) as Hf
      by (intros t Ht; apply chars_eqb_false; intros ->; done).
    rewrite !Hf; [done|by right; left|by left].
  - intros Hf Hv. rewrite arg_steps by done.
    repeat (apply elem_of_cons in Hf as [->|Hf]; [cbn -[stoi]; by rewrite Hv|]).
    by apply elem_of_nil in Hf.
  - intros Hf. rewrite arg_steps by done.
    repeat (apply elem_of_cons in Hf as [->|Hf]; [done|]). by apply elem_of_nil in Hf.
Qed.

End CTOR.

(** * Sample command lines *)

Definition no_address (_ : chars) : option Z := None.
Definition one_host (host : chars) : option Z :=
  if host =s? lit "localhost" then Some 2130706433 else None.

Definition sample_args : list arg_option :=
  [OServer (lit "example.org"); OUnknown (lit "-x") (lit "1"); OPort 70000;
   OServer (lit "localhost"); OTransport true; ORetries (-1)].

Lemma sample_args_ok : Forall arg_ok sample_args.
Proof.
  repeat (apply Forall_cons; split); try done; try (unfold arg_ok, int_ok; lia).
  by apply (bool_decide_unpack _).
Qed.

(** Port 70000 is 4464, and -1 retransmissions are 255. *)
Lemma args_ctor_spec_witness :
  Args_ctor no_address one_host
    [lit "-s"; lit "example.org"; lit "-x"; lit "1"; lit "-p"; lit "70000"; lit "-s";
     lit "localhost"; lit "-t"; lit "tcp"; lit "-r"; lit "-1"]
  = Constructed (MkArgs 4464 250 255 false true (MkAddr 2130706433 4464)).
Proof. exact (proj1 (args_ctor_spec no_address one_host sample_args [] sample_args_ok)). Defined.

Lemma args_ctor_errors_witness :
  Args_ctor no_address one_host [lit "-p"; lit "+-1"; lit "-s"; lit "localhost"]
  = Threw (lit "stoi").
Proof.
  apply (args_ctor_errors no_address one_host [] [lit "-s"; lit "localhost"] (lit "+-1")
    (lit "stoi") (lit "-p")); [done|by left|reflexivity].
Defined.
