(* ===== verification/HobzaCodec.v ===== *)
(** The UDP modules of the earlier harness, [hobza-tests/UDPMessages.py] and
    [hobza-tests/UDPTranslator.py], for the protocol of the year before: a BYE carries nothing but
    its id, and there is no PING.  The other builders and the readers of the two files are, word
    for word, those of [UDPMessages] and [UDPTranslator], and are defined as those in [Shared]. *)
From S2P Require Import Prelude PyRuntime UDPMessages UDPTranslator.

Module Shared.

Definition confirm (ref_message_id : chars) : py chars := UDPMessages.confirm ref_message_id.
Definition reply (message_id result : Z) (ref_message_id message_contents : chars) : py chars :=
  UDPMessages.reply message_id result ref_message_id message_contents.
Definition auth (message_id : Z) (username display_name secret : chars) : py chars :=
  UDPMessages.auth message_id username display_name secret.
Definition join (message_id : Z) (channel_id display_name : chars) : py chars :=
  UDPMessages.join message_id channel_id display_name.
Definition msg (message_id : Z) (display_name message_contents : chars) : py chars :=
  UDPMessages.msg message_id display_name message_contents.
Definition err (message_id : Z) (display_name message_contents : chars) : py chars :=
  UDPMessages.err message_id display_name message_contents.

Definition MESSAGE_TYPES : gmap Z chars := UDPTranslator.MESSAGE_TYPES.
Definition getMessageId (data : chars) : chars := UDPTranslator.getMessageId data.
Definition read_byte (data : chars) (pointer : nat) : py (Z * nat) :=
  UDPTranslator.read_byte data pointer.
Definition read_bytes (data : chars) (pointer num_bytes : nat) : chars * nat :=
  UDPTranslator.read_bytes data pointer num_bytes.
Definition read_variable_length_string (data : chars) (pointer : nat) : py (chars * nat) :=
  UDPTranslator.read_variable_length_string data pointer.

(** They are the later ones. *)
Ltac as_later :=
  cbv delta [confirm reply auth join msg err MESSAGE_TYPES getMessageId read_byte read_bytes
    read_variable_length_string]; cbv beta.

End Shared.

Section EARLIER.

Import Shared.

Definition bye (message_id : Z) : py chars :=
  t ← py_bytes1 255;
  message_id_bytes ← py_to_bytes2 message_id;
  mret (t ++ message_id_bytes).

(** The result is [None] where the function falls off its end. *)
Definition translateMessage (data : chars) : py (option chars) :=
  '(message_type, pointer) ← read_byte data 0;
  match MESSAGE_TYPES !! message_type with
  | None => mret (Some (lit "Unknown message type"))
  | Some _ =>
      let '(message_id, pointer) := read_bytes data pointer 2 in
      if message_type =? 0 then
        let '(ref_message_id, pointer) := read_bytes data pointer 2 in
        mret (Some (lit "REPLY IS " ++ py_str_of_int (py_from_bytes ref_message_id) ++ CRLF))
      else if message_type =? 1 then
        '(result, pointer) ← read_byte data pointer;
        let '(ref_message_id, pointer) := read_bytes data pointer 2 in
        '(message_contents, pointer) ← read_variable_length_string data pointer;
        mret (Some (lit "REPLY " ++ lit (if result =? 1 then "OK" else "NOK") ++ lit " IS "
          ++ py_str_of_int (py_from_bytes ref_message_id) ++ lit " AS " ++ message_contents
          ++ CRLF))
      else if message_type =? 2 then
        '(username, pointer) ← read_variable_length_string data pointer;
        '(display_name, pointer) ← read_variable_length_string data pointer;
        '(secret, pointer) ← read_variable_length_string data pointer;
        mret (Some (lit "AUTH IS " ++ username ++ lit " AS " ++ display_name ++ lit " USING "
          ++ secret ++ CRLF))
      else if message_type =? 3 then
        '(channel_id, pointer) ← read_variable_length_string data pointer;
        '(display_name, pointer) ← read_variable_length_string data pointer;
        mret (Some (lit "JOIN IS " ++ channel_id ++ lit " AS " ++ display_name ++ CRLF))
      else if message_type =? 4 then
        '(display_name, pointer) ← read_variable_length_string data pointer;
        '(message_contents, pointer) ← read_variable_length_string data pointer;
        mret (Some (lit "MSG FROM " ++ display_name ++ lit " IS " ++ message_contents ++ CRLF))
      else if message_type =? 254 then
        '(display_name, pointer) ← read_variable_length_string data pointer;
        '(message_contents, pointer) ← read_variable_length_string data pointer;
        mret (Some (lit "ERR FROM " ++ display_name ++ lit " IS " ++ message_contents ++ CRLF))
      else if message_type =? 255 then mret (Some (lit "BYE" ++ CRLF))
      else mret None
  end.

End EARLIER.

(** * Properties *)

(** The dictionary has every type the two translators branch on. *)
Lemma MESSAGE_TYPES_bye : MESSAGE_TYPES !! 255 = Some (lit "BYE").
Proof. reflexivity. Qed.

Lemma translate_bye data :
  translateMessage (255 :: data) = Ok (Some (lit "BYE" ++ CRLF)).
Proof.
  unfold translateMessage. Shared.as_later. rewrite read_byte_0. cbn [mbind result_bind].
  by rewrite MESSAGE_TYPES_bye.
Qed.

Lemma translate_same t data :
  t <> 255 -> translateMessage (t :: data) = UDPTranslator.translateMessage (t :: data).
Proof.
  intros Ht%Z.eqb_neq. unfold translateMessage, UDPTranslator.translateMessage. Shared.as_later.
  rewrite read_byte_0. cbn [mbind result_bind]. rewrite Ht. by destruct (MESSAGE_TYPES !! t).
Qed.

(** Only a BYE is translated to a text that starts with a B. *)
Lemma translate_first t data r :
  UDPTranslator.translateMessage (t :: data) = Ok r ->
  if t =? 255 then exists text, r = Some (lit "BYE FROM " ++ text)
  else forall text, r = Some text -> head text <> Some 66.
Proof.
  unfold UDPTranslator.translateMessage. rewrite read_byte_0. cbn [mbind result_bind].
  destruct (MESSAGE_TYPES !! t) eqn:Et.
  - repeat (case_test; [subst; cbn [Z.eqb Pos.eqb] in *|]).
    all: cbn [read_bytes]; intros Hr;
      repeat match type of Hr with
      | mbind _ _ = Ok _ => apply result_bind_ok in Hr as ([? ?] & _ & Hr)
      end; try congruence; injection Hr as <-; try (by eexists);
      intros text [= <-] Hh; vm_compute in Hh; discriminate Hh.
  - intros [= <-]. assert ((t =? 255) = false) as ->.
    { apply Z.eqb_neq. intros ->. by rewrite MESSAGE_TYPES_bye in Et. }
    intros text [= <-] Hh. vm_compute in Hh. discriminate Hh.
Qed.

(** The earlier translator gives the same text, or raises the same exception, as the one it
    became, on every datagram but a BYE; every datagram of type 255, cut short or not, is the line
    BYE, where the later one needs a display name. *)
Theorem hobza_translation data :
  translateMessage data
  = if bool_decide (head data = Some 255) then Ok (Some (lit "BYE" ++ CRLF))
    else UDPTranslator.translateMessage data.
Proof.
  destruct data as [|t data]; [done|]. cbn [head].
  destruct (bool_decide_reflect (Some t = Some 255)) as [[= ->]|Ht]; [apply translate_bye|].
  apply translate_same. congruence.
Qed.
