(* ===== verification/Pty.v ===== *)
(** The harness on darwin, where the program's standard output is a pseudo-terminal: the thread
    [buffer_stdout_fd] of testo.py, which moves what the program prints into the queue, beside the
    program, the main thread that empties the queue ([get_stdout]) and ends the program
    ([teardown]).  The threads' steps interleave in any order. *)
From S2P Require Import Prelude PyRuntime.

(** * The thread *)

(** Where the thread is: before [self.process] is read, between that and the call of [poll], at
    [os.read], or ended. *)
Inductive point : Type := Checking | Polling | Reading | Stopped.

#[export] Instance point_eq_dec : EqDecision point.
Proof. solve_decision. Defined.

(** What the threads share: [handle] says [self.process] is not [None], [running] that the program
    has not ended, [pending] is what the terminal holds for the next read.  [taken] is what the main
    thread has taken out of the queue, [output] everything that came out of the terminal's program,
    and [complaints] counts the errors the thread printed. *)
Record pty : Type := MkPty {
  at_point : point;
  handle : bool;
  running : bool;
  pending : chars;
  queue : list chars;
  taken : list chars;
  output : chars;
  complaints : nat
}.

Definition set_point (v : point) (r : pty) : pty :=
  MkPty v (handle r) (running r) (pending r) (queue r) (taken r) (output r) (complaints r).
Definition set_pending (v : chars) (r : pty) : pty :=
  MkPty (at_point r) (handle r) (running r) v (queue r) (taken r) (output r) (complaints r).
Definition put_line (line : chars) (r : pty) : pty :=
  MkPty (at_point r) (handle r) (running r) (pending r) (queue r ++ [line]) (taken r) (output r)
    (complaints r).

(** [except Exception as e]: the error is printed and the loop left. *)
Definition complain (r : pty) : pty :=
  MkPty Stopped (handle r) (running r) (pending r) (queue r) (taken r) (output r) (S (complaints r)).

(** One [os.read] gives at most this many bytes. *)
Definition READ_SIZE : nat := 1024.

(** The terminal once the program has ended and everything was read: [os.read] raises, or returns no
    bytes, by the system. *)
Definition at_end (end_raises : bool) (r : pty) : pty :=
  if end_raises then complain r else set_point Checking r.

(** One step of the thread; none when it waits in [os.read] or has ended.  The descriptor of the
    terminal is not 0.  [poll] on [None] raises outside the [try] and ends the thread. *)
Definition buffer_stdout_fd (end_raises : bool) (r : pty) : option pty :=
  match at_point r with
  | Checking => Some (set_point (if handle r then Polling else Reading) r)
  | Polling => Some (set_point (if handle r && running r then Reading else Stopped) r)
  | Reading =>
      match pending r with
      | [] => if running r then None else Some (at_end end_raises r)
      | bytes =>
          let r' := set_pending (drop READ_SIZE bytes) r in
          Some (match py_decode (take READ_SIZE bytes) with
                | Ok line => set_point Checking (put_line line r')
                | Err _ => complain r'
                end)
      end
  | Stopped => None
  end.

(** [setup] on darwin starts the thread beside a new program.  (The second thread it starts raises at
    once: the program has no pipe for its standard output.) *)
Definition setup_pty : pty := MkPty Checking true true [] [] [] [] 0.

Section THREADS.

Context (end_raises : bool).

Inductive step : pty -> pty -> Prop :=
| step_thread r r' : buffer_stdout_fd end_raises r = Some r' -> step r r'
| step_prints bytes p h u q t o e :
    step (MkPty p h true u q t o e) (MkPty p h true (u ++ bytes) q t (o ++ bytes) e)
| step_ends p h u q t o e : step (MkPty p h true u q t o e) (MkPty p h false u q t o e)
| step_drops p h u q t o e : step (MkPty p h false u q t o e) (MkPty p false false u q t o e)
| step_takes p h b u line q t o e :
    step (MkPty p h b u (line :: q) t o e) (MkPty p h b u q (t ++ [line]) o e).

Definition reachable (r : pty) : Prop := rtc step setup_pty r.

(** * What is read *)

(** The chunks that were read, each decoded, then a chunk that could not be decoded, at which the
    thread stopped, then what is pending: together they are the output. *)
Record in_order (r : pty) (chunks : list chars) (lost : chars) : Prop := {
  order_output : output r = concat chunks ++ lost ++ pending r;
  order_lines : Forall2 (fun bytes line => py_decode bytes = Ok line) chunks (taken r ++ queue r);
  order_lost : lost = [] \/ at_point r = Stopped /\ is_ok (py_decode lost) = false
}.

Definition ordered (r : pty) : Prop := exists chunks lost, in_order r chunks lost.

(** The thread reads a part of what is there, and the text it makes of it. *)
Lemma thread_reads r :
  at_point r = Reading -> pending r <> [] ->
  exists bytes rest, pending r = bytes ++ rest
    /\ buffer_stdout_fd end_raises r
       = Some (match py_decode bytes with
               | Ok line => set_point Checking (put_line line (set_pending rest r))
               | Err _ => complain (set_pending rest r)
               end).
Proof.
  intros Hp Hb. exists (take READ_SIZE (pending r)), (drop READ_SIZE (pending r)).
  split; [by rewrite take_drop|]. unfold buffer_stdout_fd. rewrite Hp. by destruct (pending r).
Qed.

(** Its other steps only move it. *)
Lemma thread_moves r r' :
  buffer_stdout_fd end_raises r = Some r' -> at_point r <> Reading \/ pending r = [] ->
  at_point r <> Stopped /\ output r' = output r /\ pending r' = pending r
  /\ taken r' = taken r /\ queue r' = queue r.
Proof.
  unfold buffer_stdout_fd. destruct (at_point r); try done; try by intros [= <-].
  intros E [?|Hb]; [done|]. rewrite Hb in E. destruct (running r); [done|].
  by destruct end_raises; injection E as <-.
Qed.

Lemma thread_ordered r r' : buffer_stdout_fd end_raises r = Some r' -> ordered r -> ordered r'.
Proof.
  intros E (chunks & lost & [Ho Hl Hx]).
  assert ((at_point r = Reading /\ pending r <> []) \/ (at_point r <> Reading \/ pending r = []))
    as [[Hp Hb]|Hm] by (destruct (at_point r), (pending r); auto).
  - destruct Hx as [->|[Hx _]]; [|by rewrite Hp in Hx].
    destruct (thread_reads r Hp Hb) as (bytes & rest & Eb & Er). rewrite Er in E. injection E as <-.
    rewrite Eb in Ho. cbn in Ho. destruct (py_decode bytes) as [line|err] eqn:Ed.
    + exists (chunks ++ [bytes]), []. split; cbn; [| |by left].
      * rewrite Ho, concat_app. cbn. by rewrite app_nil_r, <- app_assoc.
      * rewrite app_assoc. apply Forall2_app; [done|]. by repeat constructor.
    + exists chunks, bytes. split; cbn; [done..|]. right. by rewrite Ed.
  - destruct (thread_moves r r' E Hm) as (Hs & Eo & Ep & Et & Eq).
    destruct Hx as [->|[Hx _]]; [|done]. exists chunks, [].
    split; [by rewrite Eo, Ep|by rewrite Et, Eq|by left].
Qed.

Lemma step_ordered r r' : step r r' -> ordered r -> ordered r'.
Proof.
  intros []; [by apply thread_ordered| | | |]; intros (chunks & lost & [Ho Hl Hx]);
    exists chunks, lost; split; cbn in *; try done.
  - by rewrite Ho, !app_assoc.
  - by rewrite <- app_assoc.
Qed.


(** * What is lost at the end *)

(** The program has ended, and the thread is about to learn it or has stopped. *)
Definition leaving (r : pty) : Prop :=
  running r = false /\ (at_point r = Polling \/ at_point r = Stopped).

(** What is left of the output is not read any more. *)
Definition same_reading (r r' : pty) : Prop :=
  output r' = output r /\ pending r' = pending r /\ taken r' ++ queue r' = taken r ++ queue r.

#[local] Instance same_reading_preorder : PreOrder same_reading.
Proof. split; [done|]. unfold same_reading. intros a b c. intuition congruence. Qed.

(** A property that every step keeps, with an order every such step is in. *)
Lemma steps_keep (P : pty -> Prop) (R : relation pty) `{!PreOrder R} r r' :
  (forall r r', step r r' -> P r -> P r' /\ R r r') -> rtc step r r' -> P r -> P r' /\ R r r'.
Proof.
  intros Hstep. induction 1 as [r|a b c Hs _ IH]; intros Hp; [done|].
  destruct (Hstep a b Hs Hp) as [Hb Hab]. destruct (IH Hb). split; [done|]. by etrans.
Qed.

Lemma leaving_step r r' : step r r' -> leaving r -> leaving r' /\ same_reading r r'.
Proof.
  intros [r1 r2 E| | | |p h b u line q t o e] [Hr Hp]; [|done..|].
  - unfold buffer_stdout_fd in E. destruct Hp as [Hp|Hp]; rewrite Hp in E; [|done].
    injection E as <-. rewrite Hr, andb_false_r. split; [by split; [|right]|done].
  - split; [done|]. split; [done|]. split; [done|]. cbn. by rewrite <- app_assoc.
Qed.

(** C37. The last output can be lost.  The thread asks whether the program has ended before it reads: of a
    program that prints and ends between a read of the thread and its next question, what it
    printed last is never read, whatever happens then, and the harness does not see it.  (On Linux
    the thread reads lines up to the end of the pipe.) *)
Theorem pty_last_output_lost r r' :
  at_point r = Polling -> running r = false -> rtc step r r' ->
  concat (taken r') ++ concat (queue r') = concat (taken r) ++ concat (queue r)
  /\ output r' = output r /\ pending r' = pending r.
Proof.
  intros Hp Hr Hs.
  destruct (steps_keep leaving same_reading r r' leaving_step Hs) as [_ (Ho & Hu & Hq)];
    [split; [done|by left]|]. by rewrite <- !concat_app, Hq.
Qed.

(** * After the teardown *)

(** The program has ended, [self.process] is [None] and all was read, where the system gives no bytes
    at the end. *)
Definition over (r : pty) : Prop :=
  running r = false /\ handle r = false /\ pending r = []
  /\ (at_point r = Checking \/ at_point r = Reading).

Lemma over_step r r' : end_raises = false -> step r r' -> over r -> over r' /\ same_reading r r'.
Proof.
  intros He [r1 r2 E| | | |p h b u line q t o e] (Hr & Hh & Hu & Hp); try done.
  - unfold buffer_stdout_fd in E. rewrite Hh, Hu, Hr, He in E.
    destruct Hp as [Hp|Hp]; rewrite Hp in E; injection E as <-; (split; [|done]);
      (split; [done|split; [done|split; [done|]]]); [by right|by left].
  - split; [done|]. split; [done|]. split; [done|]. cbn. by rewrite <- app_assoc.
Qed.

(** After the teardown the thread spins.  Where a read of a terminal whose program has ended gives no
    bytes instead of an error, a thread that was at its read or before its question when
    [self.process] became [None] never ends and never waits again: it can always make another step,
    and it hands nothing on.  The loop leaves only through [self.process]. *)
Theorem pty_thread_spins r r' :
  end_raises = false -> over r -> rtc step r r' ->
  (exists r2, buffer_stdout_fd end_raises r' = Some r2 /\ at_point r2 <> Stopped)
  /\ taken r' ++ queue r' = taken r ++ queue r.
Proof.
  intros He Hr Hs.
  destruct (steps_keep over same_reading r r' (fun r r' => over_step r r' He) Hs Hr)
    as [(Hrun & Hh & Hu & Hp) (_ & _ & Hq)].
  split; [|done]. unfold buffer_stdout_fd. rewrite Hh, Hu, Hrun, He.
  by destruct Hp as [-> | ->]; eexists.
Qed.

End THREADS.

(** * Runs *)

(** The thread's steps while nothing else happens. *)
Fixpoint thread_steps (end_raises : bool) (n : nat) (r : pty) : pty :=
  match n with
  | O => r
  | S n' => match buffer_stdout_fd end_raises r with
            | Some r' => thread_steps end_raises n' r'
            | None => r
            end
  end.

Lemma thread_steps_rtc end_raises n r : rtc (step end_raises) r (thread_steps end_raises n r).
Proof.
  revert r. induction n as [|n IH]; intros r; cbn; [done|].
  destruct (buffer_stdout_fd end_raises r) as [r'|] eqn:E; [|done].
  eapply rtc_l; [by apply step_thread|apply IH].
Qed.

Definition prints (bytes : chars) (r : pty) : pty :=
  MkPty (at_point r) (handle r) (running r) (pending r ++ bytes) (queue r) (taken r)
    (output r ++ bytes) (complaints r).
Definition ends (r : pty) : pty :=
  MkPty (at_point r) (handle r) false (pending r) (queue r) (taken r) (output r) (complaints r).
Definition drops (r : pty) : pty :=
  MkPty (at_point r) false (running r) (pending r) (queue r) (taken r) (output r) (complaints r).

Lemma prints_step end_raises bytes r : running r = true -> step end_raises r (prints bytes r).
Proof. destruct r; cbn. intros ->. apply step_prints. Qed.

Lemma ends_step end_raises r : running r = true -> step end_raises r (ends r).
Proof. destruct r; cbn. intros ->. apply step_ends. Qed.

Lemma drops_step end_raises r : running r = false -> step end_raises r (drops r).
Proof. destruct r; cbn. intros ->. apply step_drops. Qed.

(** A character whose bytes lie on both sides of a read's limit stops the thread, with what follows
    unread: here an accented letter after 1023 others. *)
Lemma pty_split_character_stops :
  let text := replicate 1023 97 ++ [233] in
  exists bytes, py_encode text = Ok bytes
    /\ at_point (thread_steps false 10 (prints bytes setup_pty)) = Stopped
    /\ complaints (thread_steps false 10 (prints bytes setup_pty)) = 1%nat
    /\ queue (thread_steps false 10 (prints bytes setup_pty)) = [].
Proof. eexists. split; [vm_compute; reflexivity|]. repeat split; vm_compute; reflexivity. Qed.

(** A program that prints a line, and another just before it ends. *)
Definition sample_leaving : pty :=
  ends (prints (lit "bye") (thread_steps false 4 (prints (lit "hi") setup_pty))).

Lemma sample_leaving_reachable : reachable false sample_leaving.
Proof.
  unfold reachable, sample_leaving.
  eapply rtc_r; [|by apply ends_step]. eapply rtc_r; [|by apply prints_step].
  etrans; [|apply thread_steps_rtc]. apply rtc_once. by apply prints_step.
Qed.


Lemma pty_last_output_lost_witness :
  reachable false sample_leaving
  /\ concat (taken (thread_steps false 9 sample_leaving))
       ++ concat (queue (thread_steps false 9 sample_leaving)) = lit "hi"
  /\ output (thread_steps false 9 sample_leaving) = lit "hibye"
  /\ pending (thread_steps false 9 sample_leaving) = lit "bye".
Proof.
  split; [exact sample_leaving_reachable|].
  apply (pty_last_output_lost false sample_leaving); [reflexivity|reflexivity|apply thread_steps_rtc].
Defined.

Lemma pty_thread_spins_witness :
  reachable false (drops (ends (thread_steps false 2 setup_pty)))
  /\ exists r2, buffer_stdout_fd false
       (thread_steps false 100 (drops (ends (thread_steps false 2 setup_pty)))) = Some r2
       /\ at_point r2 <> Stopped.
Proof.
  split.
  - eapply rtc_r; [|by apply drops_step]. eapply rtc_r; [|by apply ends_step]. apply thread_steps_rtc.
  - eapply (pty_thread_spins false (drops (ends (thread_steps false 2 setup_pty))));
      [reflexivity| |apply thread_steps_rtc].
    split; [done|]. split; [done|]. split; [done|]. by right.
Defined.
