(* ===== verification/HobzaTester.v ===== *)
(** The test harness's handle on one executable in the earlier harness, class [ExecutableTester] of
    [hobza-tests/hobza.py], where it differs from [Tester]: every message is confirmed, what was
    read from standard error goes to the history, [dump] reads standard output once, and datagrams
    are translated by [HobzaCodec].  Its other methods are, word for word, those of
    [Tester], under their names in [Module ExecutableTester]. *)
From S2P Require Import Prelude PyRuntime UDPTranslator HobzaCodec Args Executable Tester.
From S2P Require Import Pty.

Section TESTER.

Context {X : Type} `{Executable X}.

Definition translate (v : pyval) : H X pyval :=
  match v with
  | VNone => raise TypeError
  | VStr [] => raise IndexError
  | VStr _ => mret (VStr (lit "Unknown message type"))
  | VBytes b =>
      r ← of_py (translateMessage b);
      mret (match r with Some text => VStr text | None => VNone end)
  end.

(** A timeout in milliseconds; the default of the source is 5 seconds. *)
Definition receive_message_within (timeout : Z) : H X pyval :=
  s ← get;
  match server_socket s with
  | None => mret VNone
  | Some (proto, port) =>
      match connection_socket s with
      | Some _ =>
          data ← recv PATIENCE;
          text ← of_py (py_decode data);
          mret (VStr text)
      | None =>
          match proto with
          | TCP => raise OSError
          | UDP =>
              received ← recvfrom (quanta timeout) port;
              match received with
              | None => raise (TimeoutError (lit "Socket timed out."))
              | Some (address, message) =>
                  _ ← modify (set_client_address (Some address));
                  first ← of_py (py_index message 0);
                  _ ← when (negb (first =? 0)) (tester_confirm (VBytes message));
                  mret (VBytes message)
              end
          end
      end
  end.

Definition receive_message : H X pyval := receive_message_within 5000.

(** [history] gets the lines with the separator between them. *)
Definition get_stderr : H X chars :=
  _ ← modify (fun s => read_stderr (ended s) s);
  s ← get;
  let output := stderr_queue s in
  _ ← modify (set_stderr_queue []);
  _ ← modify (set_history (history s ++ py_join (lit "stderr:") output));
  mret (py_join [] output).

(** The headings and texts [dump] prints. *)
Definition dump : H X (list (chars * chars)) :=
  stdout_now ← get_stdout;
  stderr ← get_stderr;
  s ← get;
  mret [(lit "stdout now", stdout_now); (lit "stderr", stderr); (lit "History", history s)].

End TESTER.

(** * The methods that are, word for word, those of testo.py *)

Module ExecutableTester.
Section METHODS.

Context {X : Type} `{Executable X}.

(** The flag [send_confirm] is not in this class: it stays set. *)
Definition init (t : Z) : tester X := Tester.tester_init t.
Definition start_server (proto : chars) (port : Z) : H X unit := Tester.start_server proto port.
Definition accept_connection (s : tester X) : tester X := Tester.accept_connection s.
Definition stop_server : H X unit := Tester.stop_server.
Definition send_message (message : pyval) : H X unit := Tester.send_message message.
Definition setup (args : list chars) : H X unit := Tester.setup args.
Definition buffer_stdout_fd (end_raises : bool) (r : pty) : option pty :=
  Pty.buffer_stdout_fd end_raises r.
Definition read_stdout (eof : bool) (s : tester X) : tester X := Tester.read_stdout eof s.
Definition read_stderr (eof : bool) (s : tester X) : tester X := Tester.read_stderr eof s.
Definition execute (input_data : chars) : H X unit := Tester.execute input_data.
Definition get_stdout : H X chars := Tester.get_stdout.
Definition teardown : H X unit := Tester.teardown.
Definition confirm (message : pyval) : H X unit := Tester.tester_confirm message.
Definition get_return_code : H X (option Z) := Tester.get_return_code.
Definition send_sigint : H X unit := Tester.send_sigint.
Definition send_eof : H X unit := Tester.send_eof.
Definition setClientAddress (address : sockaddr_in) : H X unit := Tester.setClientAddress address.

End METHODS.

(** They run as the later ones. *)
Ltac as_later :=
  cbv delta [start_server stop_server send_message setup execute get_stdout teardown
    get_return_code send_sigint send_eof setClientAddress]; cbv beta; Shared.as_later.
End ExecutableTester.
