(* ===== verification/HobzaTests.v ===== *)
(** The test cases of [hobza-tests/hobza.py], each a program on the harness's state.
    [auth_and_reply] and [tcp_auth_and_reply] are their common helpers; the file declares
    [tcp_auth_ok] twice, and the first one is [tcp_auth_ok_first] here. *)
From S2P Require Import Prelude PyRuntime Regex UDPMessages Args Executable Tester TestCasesUdp.
From S2P Require Import TestCasesTcp HobzaCodec HobzaTester.
Import HobzaCodec.Shared HobzaTester.ExecutableTester.

Section TESTS.

Context {X : Type} `{Executable X}.

(** [re.match] on what a receive gave. *)
Definition re_match_value (r : regex) (v : pyval) : H X bool :=
  match v with VStr s => mret (re_match r s) | _ => raise TypeError end.

(** Test that the program exits with a non-zero exit code when no arguments are provided *)
Definition no_args : H X unit :=
  _ ← setup [];
  code1 ← get_return_code;
  py_assert (bool_decide (code1 <> Some 0)) (lit "Expected non-zero exit code.").

(** Test that the program exits with a non-zero exit code when the -t argument is not provided. *)
Definition no_type_arg : H X unit :=
  _ ← setup [lit "-s"; lit "localhost"];
  code1 ← get_return_code;
  py_assert (bool_decide (code1 <> Some 0)) (lit "Expected non-zero exit code.").

(** Test that the program exits with a non-zero exit code when the -s argument is not provided. *)
Definition no_hostname : H X unit :=
  _ ← setup [lit "-t"; lit "udp"];
  code1 ← get_return_code;
  py_assert (bool_decide (code1 <> Some 0)) (lit "Expected non-zero exit code.").

(** Test that the program exits with a non-zero exit code when the -s argument is not provided. *)
Definition all_args : H X unit :=
  _ ← setup [lit "-t"; lit "udp"; lit "-s"; lit "localhost"; lit "-p"; lit "4567"];
  _ ← send_eof;
  code1 ← get_return_code;
  py_assert (bool_decide (code1 = None)) (lit "Expected zero exit code.").

(** Helper function to test the AUTH command followed by a successful reply. *)
Definition auth_and_reply : H X unit :=
  _ ← start_server (lit "udp") 4567;
  _ ← setup [lit "-t"; lit "udp"; lit "-s"; lit "localhost"; lit "-p"; lit "4567"];
  _ ← execute (lit "/auth a b c");
  message ← receive_message;
  tMessage ← translate message;
  _ ← py_assert (eq_str tMessage (lit "AUTH IS a AS c USING b" ++ CRLF))
    (lit "Incoming message does not match expected AUTH message.");
  ref1 ← getMessageId_of message;
  _ ← send_reply 0 true ref1 (lit "jojo");
  _ ← sleep 200;
  stdout ← get_stdout;
  _ ← py_assert (any_line_has (lit "Action Success: jojo") stdout)
    (lit "Output does not match expected 'Success: jojo' output.");
  message ← receive_message;
  py_assert (eq_bytes message [0; 0; 0])
    (lit "Incoming message does not match expected CONFIRM message.").

(** Test that the program does not accept any message commands before the user is authenticated.
  *)
Definition udp_hello : H X unit :=
  _ ← setup [lit "-t"; lit "udp"; lit "-s"; lit "localhost"; lit "-p"; lit "4567"];
  _ ← execute (lit "Hello");
  stdout ← get_stdout;
  py_assert (py_in (lit "ERROR:") stdout) (lit "Output does not match expected output.").

(** Test that the program does not accept any join commands before the user is authenticated. *)
Definition udp_not_auth : H X unit :=
  _ ← start_server (lit "udp") 4567;
  _ ← setup [lit "-t"; lit "udp"; lit "-s"; lit "localhost"; lit "-p"; lit "4567"];
  _ ← execute (lit "/join");
  stdout ← get_stdout;
  py_assert (any_line_has (lit "ERROR:") stdout)
    (lit "Output does not match expected error message.").

(** Test that the program does not accept invalid commands. *)
Definition udp_invalid_command : H X unit :=
  _ ← setup [lit "-t"; lit "udp"; lit "-s"; lit "localhost"; lit "-p"; lit "4567"];
  _ ← execute (lit "/pepe");
  stdout ← get_stdout;
  py_assert (py_in (lit "ERROR:") stdout) (lit "Output does not match expected output.").

(** Test that the program sends the correct AUTH message. *)
Definition udp_auth : H X unit :=
  _ ← start_server (lit "udp") 4567;
  _ ← setup [lit "-t"; lit "udp"; lit "-s"; lit "localhost"; lit "-p"; lit "4567"];
  _ ← execute (lit "/auth a b c");
  message ← receive_message;
  tMessage ← translate message;
  py_assert (eq_str tMessage (lit "AUTH IS a AS c USING b" ++ CRLF))
    (lit "Incoming message does not match expected message.").

(** Test that the program sends the correct AUTH message when the port is non-default. *)
Definition udp_auth_port : H X unit :=
  _ ← start_server (lit "udp") 1234;
  _ ← setup [lit "-t"; lit "udp"; lit "-s"; lit "localhost"; lit "-p"; lit "1234"];
  _ ← execute (lit "/auth a b c");
  message ← receive_message;
  tMessage ← translate message;
  py_assert (eq_str tMessage (lit "AUTH IS a AS c USING b" ++ CRLF))
    (lit "Incoming message does not match expected message.").

(** Test that the program handles a NOK reply to AUTH correctly. *)
Definition udp_auth_nok : H X unit :=
  _ ← start_server (lit "udp") 4567;
  _ ← setup [lit "-t"; lit "udp"; lit "-s"; lit "localhost"; lit "-p"; lit "4567"];
  _ ← execute (lit "/auth a b c");
  message ← receive_message;
  tMessage ← translate message;
  _ ← py_assert (eq_str tMessage (lit "AUTH IS a AS c USING b" ++ CRLF))
    (lit "Incoming message does not match expected AUTH message.");
  ref1 ← getMessageId_of message;
  _ ← send_reply 0 false ref1 (lit "nene");
  _ ← sleep 200;
  stdout ← get_stdout;
  _ ← py_assert (any_line_has (lit "Action Failure: nene") stdout)
    (lit "Output does not match expected 'Failure: nene' output.");
  message ← receive_message;
  py_assert (eq_bytes message [0; 0; 0])
    (lit "Incoming message does not match expected CONFIRM message.").

(** Test that the program handles a NOK reply to AUTH followed by a successful AUTH correctly. *)
Definition udp_auth_nok_ok : H X unit :=
  _ ← start_server (lit "udp") 4567;
  _ ← setup [lit "-t"; lit "udp"; lit "-s"; lit "localhost"; lit "-p"; lit "4567"];
  _ ← execute (lit "/auth a b c");
  message ← receive_message;
  tMessage ← translate message;
  _ ← py_assert (eq_str tMessage (lit "AUTH IS a AS c USING b" ++ CRLF))
    (lit "Incoming message does not match expected AUTH message.");
  ref1 ← getMessageId_of message;
  _ ← send_reply 0 false ref1 (lit "nene");
  _ ← sleep 200;
  stdout ← get_stdout;
  _ ← py_assert (any_line_has (lit "Action Failure: nene") stdout)
    (lit "Output does not match expected 'Failure: nene' output.");
  message ← receive_message;
  _ ← py_assert (eq_bytes message [0; 0; 0])
    (lit "Incoming message does not match expected CONFIRM message.");
  _ ← execute (lit "/auth a b c");
  message ← receive_message;
  tMessage ← translate message;
  _ ← py_assert (eq_str tMessage (lit "AUTH IS a AS c USING b" ++ CRLF))
    (lit "Incoming message does not match expected AUTH message.");
  ref2 ← getMessageId_of message;
  _ ← send_reply 1 true ref2 (lit "yes");
  _ ← sleep 200;
  stdout ← get_stdout;
  _ ← py_assert (any_line_has (lit "Success: yes") stdout)
    (lit "Output does not match expected 'Success: yes' output.");
  message ← receive_message;
  py_assert (eq_bytes message [0; 0; 1])
    (lit "Incoming message does not match expected CONFIRM message.").

(** Test that the program switches to the new port after receiving an OK reply to AUTH. *)
Definition udp_auth_port_change : H X unit :=
  with_udp_socket 1234
    (_ ← start_server (lit "udp") 4567;
     _ ← setup [lit "-t"; lit "udp"; lit "-s"; lit "localhost"; lit "-p"; lit "1234"];
     _ ← execute (lit "/auth a b c");
     received ← recvfrom (quanta 10000) 1234;
     match received with
     | None => raise OSError
     | Some (client_address, data) =>
         let message := VBytes data in
         id ← getMessageId_of message;
         id_bytes ← bytes_of id;
         _ ← send_datagram 1234 (VBytes ([NUL] ++ id_bytes)) client_address;
         tMessage ← translate message;
         _ ← py_assert (eq_str tMessage (lit "AUTH IS a AS c USING b" ++ CRLF))
               (lit "Incoming message does not match expected AUTH message.");
         _ ← setClientAddress client_address;
         ref ← getMessageId_of message;
         _ ← send_reply 0 true ref (lit "jojo");
         _ ← sleep 200;
         stdout ← get_stdout;
         _ ← py_assert (any_line_has (lit "Action Success: jojo") stdout)
               (lit "Output does not match expected 'Success: jojo' output.");
         message ← receive_message;
         py_assert (eq_bytes message [0; 0; 0])
           (lit "Incoming message does not match expected CONFIRM message.")
     end).

(** Test that the program handles a successful reply to AUTH correctly. *)
Definition udp_auth_ok : H X unit :=
  auth_and_reply.

(** Test that the program sends the correct MSG message. *)
Definition udp_msg : H X unit :=
  _ ← auth_and_reply;
  _ ← execute (lit "ahojky");
  message ← receive_message;
  tMessage ← translate message;
  py_assert (eq_str tMessage (lit "MSG FROM c IS ahojky" ++ CRLF))
    (lit "Incoming message does not match expected MSG message.").

(** Test that the program handles a MSG message from the server correctly. *)
Definition udp_svr_msg : H X unit :=
  _ ← auth_and_reply;
  _ ← send_built (msg 1 (lit "smrt") (lit "ahojky"));
  _ ← sleep 200;
  stdout ← get_stdout;
  _ ← py_assert (any_line_has (lit "smrt: ahojky") stdout)
    (lit "Output does not match expected output.");
  message ← receive_message;
  py_assert (eq_bytes message [0; 0; 1])
    (lit "Incoming message does not match expected CONFIRM message.").

(** Test that the program handles SIGINT correctly. *)
Definition udp_bye1 : H X unit :=
  _ ← auth_and_reply;
  _ ← send_sigint;
  message ← receive_message;
  tMessage ← translate message;
  py_assert (eq_str tMessage (lit "BYE" ++ CRLF))
    (lit "Incoming message does not match expected BYE message.").

(** Test that the program handles a C-d (stdin closed) correctly. *)
Definition udp_bye2 : H X unit :=
  _ ← auth_and_reply;
  _ ← send_eof;
  message ← receive_message;
  tMessage ← translate message;
  py_assert (eq_str tMessage (lit "BYE" ++ CRLF))
    (lit "Incoming message does not match expected BYE message.").

(** Test that the program handles an ERR message from the server correctly while waiting for
  REPLY. *)
Definition udp_server_err1 : H X unit :=
  _ ← start_server (lit "udp") 4567;
  _ ← setup [lit "-t"; lit "udp"; lit "-s"; lit "localhost"; lit "-p"; lit "4567"];
  _ ← execute (lit "/auth a b c");
  message ← receive_message;
  tMessage ← translate message;
  _ ← py_assert (eq_str tMessage (lit "AUTH IS a AS c USING b" ++ CRLF))
    (lit "Incoming message does not match expected AUTH message.");
  _ ← sleep 200;
  _ ← send_built (err 0 (lit "server") (lit "chyba"));
  _ ← sleep 200;
  stdout ← get_stdout;
  _ ← py_assert (any_line_has (lit "ERROR FROM server: chyba") stdout)
    (lit "Output does not match expected error message.");
  message ← receive_message;
  py_assert (eq_bytes message [0; 0; 0])
    (lit "Incoming message does not match expected CONFIRM message.").

(** Test that the program handles an ERR message from the server correctly. *)
Definition udp_server_err2 : H X unit :=
  _ ← auth_and_reply;
  _ ← send_built (err 1 (lit "server") (lit "chyba"));
  _ ← sleep 200;
  stdout ← get_stdout;
  _ ← py_assert (any_line_has (lit "ERROR FROM server: chyba") stdout)
    (lit "Output does not match expected error message.");
  message ← receive_message;
  py_assert (eq_bytes message [0; 0; 1])
    (lit "Incoming message does not match expected CONFIRM message.").

(** Test that the program sends the correct JOIN message and hadles REPLY correctly. *)
Definition udp_join_ok : H X unit :=
  _ ← auth_and_reply;
  _ ← execute (lit "/rename user");
  _ ← execute (lit "/join channel");
  message ← receive_message;
  tMessage ← translate message;
  _ ← py_assert (eq_str tMessage (lit "JOIN IS channel AS user" ++ CRLF))
    (lit "Incoming message does not match expected JOIN message.");
  ref1 ← getMessageId_of message;
  _ ← send_reply 1 true ref1 (lit "jojo");
  _ ← sleep 200;
  stdout ← get_stdout;
  _ ← py_assert (any_line_has (lit "Action Success: jojo") stdout)
    (lit "Output does not match expected 'Success: jojo' output.");
  message ← receive_message;
  py_assert (eq_bytes message [0; 0; 1])
    (lit "Incoming message does not match expected CONFIRM message.").

(** Test that the program sends the correct JOIN message and handles a NOK reply correctly. *)
Definition udp_join_nok : H X unit :=
  _ ← auth_and_reply;
  _ ← execute (lit "/rename user");
  _ ← execute (lit "/join channel");
  message ← receive_message;
  tMessage ← translate message;
  _ ← py_assert (eq_str tMessage (lit "JOIN IS channel AS user" ++ CRLF))
    (lit "Incoming message does not match expected JOIN message.");
  ref1 ← getMessageId_of message;
  _ ← send_reply 1 false ref1 (lit "nene");
  _ ← sleep 200;
  stdout ← get_stdout;
  _ ← py_assert (any_line_has (lit "Action Failure: nene") stdout)
    (lit "Output does not match expected 'Failure: nene' output.");
  message ← receive_message;
  py_assert (eq_bytes message [0; 0; 1])
    (lit "Incoming message does not match expected CONFIRM message.").

(** Test that the program does not allow multiple AUTH commands. *)
Definition udp_multiple_auth : H X unit :=
  _ ← auth_and_reply;
  _ ← execute (lit "/auth d e f");
  _ ← sleep 200;
  stdout ← get_stdout;
  py_assert (any_line_has (lit "ERROR: ") stdout)
    (lit "Output does not match expected 'ERR: ' output.").

(** Test that the program handles an invalid message correctly. *)
Definition udp_invalid_msg : H X unit :=
  _ ← auth_and_reply;
  _ ← send_message (VBytes [6; 0; 1]);
  _ ← sleep 200;
  stdout ← get_stdout;
  _ ← py_assert (any_line_has (lit "ERROR: ") stdout)
    (lit "Output does not match expected 'ERR: ' output.");
  message ← receive_message;
  tMessage ← translate message;
  found1 ← in_value (lit "ERR FROM c IS") tMessage;
  py_assert (found1) (lit "Incoming message does not match expected ERR message.").

(** Test that the program handles an ERR message from the server correctly. *)
Definition udp_auth_err : H X unit :=
  _ ← start_server (lit "udp") 4567;
  _ ← setup [lit "-t"; lit "udp"; lit "-s"; lit "localhost"; lit "-p"; lit "4567"];
  _ ← execute (lit "/auth a b c");
  message ← receive_message;
  tMessage ← translate message;
  _ ← py_assert (eq_str tMessage (lit "AUTH IS a AS c USING b" ++ CRLF))
    (lit "Incoming message does not match expected AUTH message.");
  _ ← send_built (err 1 (lit "server") (lit "ajaj"));
  _ ← sleep 200;
  stdout ← get_stdout;
  _ ← py_assert (any_line_has (lit "ERROR FROM server: ajaj") stdout)
    (lit "Output does not match expected error message.");
  message ← receive_message;
  py_assert (eq_bytes message [0; 0; 1])
    (lit "Incoming message does not match expected CONFIRM message.").

(** Helper function to test the AUTH command followed by a successful reply. *)
Definition tcp_auth_and_reply : H X unit :=
  _ ← start_server (lit "tcp") 4567;
  _ ← setup [lit "-t"; lit "tcp"; lit "-s"; lit "localhost"; lit "-p"; lit "4567"];
  _ ← execute (lit "/auth a b c");
  message ← receive_message;
  _ ← py_assert (eq_str message (lit "AUTH a AS c USING b" ++ CRLF))
    (lit "Incoming message does not match expected AUTH message.");
  _ ← send_message (VStr (lit "REPLY OK IS vsechno cajk" ++ CRLF));
  _ ← sleep 200;
  stdout ← get_stdout;
  py_assert (any_line_is (lit "Action Success: vsechno cajk") stdout)
    (lit "Output does not match expected error message.").

(** Test that the program does not accept any message commands before the user is authenticated.
  *)
Definition tcp_hello : H X unit :=
  _ ← start_server (lit "tcp") 4567;
  _ ← setup [lit "-t"; lit "tcp"; lit "-s"; lit "localhost"; lit "-p"; lit "4567"];
  _ ← execute (lit "Hello");
  stdout ← get_stdout;
  stderr ← get_stderr;
  py_assert (py_in (lit "ERROR:") stdout) (lit "Output does not match expected output.").

(** Test that the program does not accept any join commands before the user is authenticated. *)
Definition tcp_not_auth : H X unit :=
  _ ← start_server (lit "tcp") 4567;
  _ ← setup [lit "-t"; lit "tcp"; lit "-s"; lit "localhost"; lit "-p"; lit "4567"];
  _ ← execute (lit "/join");
  stdout ← get_stdout;
  py_assert (any_line_has (lit "ERROR:") stdout)
    (lit "Output does not match expected error message.").

(** Test that the program does not accept invalid commands. *)
Definition tcp_invalid_command : H X unit :=
  _ ← start_server (lit "tcp") 4567;
  _ ← setup [lit "-t"; lit "tcp"; lit "-s"; lit "localhost"; lit "-p"; lit "4567"];
  _ ← execute (lit "/pepe");
  stdout ← get_stdout;
  stderr ← get_stderr;
  py_assert (py_in (lit "ERROR:") stdout) (lit "Output does not match expected output.").

(** Test that the program sends the correct AUTH message. *)
Definition tcp_auth : H X unit :=
  _ ← start_server (lit "tcp") 4567;
  _ ← setup [lit "-t"; lit "tcp"; lit "-s"; lit "localhost"; lit "-p"; lit "4567"];
  _ ← execute (lit "/auth a b c");
  message ← receive_message;
  py_assert (eq_str message (lit "AUTH a AS c USING b" ++ CRLF))
    (lit "Incoming message does not match expected AUTH message.").

(** Test that the program handles a successful reply to AUTH correctly. *)
Definition tcp_auth_ok_first : H X unit :=
  _ ← start_server (lit "tcp") 4567;
  _ ← setup [lit "-t"; lit "tcp"; lit "-s"; lit "localhost"; lit "-p"; lit "4567"];
  _ ← execute (lit "/auth a b c");
  message ← receive_message;
  _ ← py_assert (eq_str message (lit "AUTH a AS c USING b" ++ CRLF))
    (lit "Incoming message does not match expected AUTH message.");
  _ ← send_message (VStr (lit "REPLY OK IS vsechno cajk" ++ CRLF));
  _ ← sleep 200;
  stdout ← get_stdout;
  py_assert (any_line_is (lit "Action Success: vsechno cajk") stdout)
    (lit "Output does not match expected error message.").

(** Test that the program handles a NOK reply to AUTH correctly. *)
Definition tcp_auth_nok : H X unit :=
  _ ← start_server (lit "tcp") 4567;
  _ ← setup [lit "-t"; lit "tcp"; lit "-s"; lit "localhost"; lit "-p"; lit "4567"];
  _ ← execute (lit "/auth a b c");
  message ← receive_message;
  _ ← py_assert (eq_str message (lit "AUTH a AS c USING b" ++ CRLF))
    (lit "Incoming message does not match expected AUTH message.");
  _ ← send_message (VStr (lit "REPLY NOK IS nic cajk" ++ CRLF));
  _ ← sleep 200;
  stdout ← get_stdout;
  py_assert (any_line_is (lit "Action Failure: nic cajk") stdout)
    (lit "Output does not match expected error message.").

(** Test that the program sends the correct AUTH message when the port is non-default. *)
Definition tcp_auth_port : H X unit :=
  _ ← start_server (lit "tcp") 4321;
  _ ← setup [lit "-t"; lit "tcp"; lit "-s"; lit "localhost"; lit "-p"; lit "4321"];
  _ ← execute (lit "/auth a b c");
  message ← receive_message;
  py_assert (eq_str message (lit "AUTH a AS c USING b" ++ CRLF))
    (lit "Incoming message does not match expected message.").

(** Test that the program handles a NOK reply to AUTH followed by a successful AUTH correctly. *)
Definition tcp_auth_nok_ok : H X unit :=
  _ ← start_server (lit "tcp") 4567;
  _ ← setup [lit "-t"; lit "tcp"; lit "-s"; lit "localhost"; lit "-p"; lit "4567"];
  _ ← execute (lit "/auth a b c");
  message ← receive_message;
  _ ← py_assert (eq_str message (lit "AUTH a AS c USING b" ++ CRLF))
    (lit "Incoming message does not match expected AUTH message.");
  _ ← send_message (VStr (lit "REPLY NOK IS nic cajk" ++ CRLF));
  _ ← sleep 200;
  stdout ← get_stdout;
  _ ← py_assert (any_line_is (lit "Action Failure: nic cajk") stdout)
    (lit "Output does not match expected error message.");
  _ ← execute (lit "/auth d e f");
  message ← receive_message;
  _ ← py_assert (eq_str message (lit "AUTH d AS f USING e" ++ CRLF))
    (lit "Incoming message does not match expected AUTH message.");
  _ ← send_message (VStr (lit "REPLY OK IS vsechno cajk" ++ CRLF));
  _ ← sleep 200;
  stdout ← get_stdout;
  py_assert (any_line_is (lit "Action Success: vsechno cajk") stdout)
    (lit "Output does not match expected error message.").

(** Test that the program handles a successful reply to AUTH correctly. *)
Definition tcp_auth_ok : H X unit :=
  tcp_auth_and_reply.

(** Test that the program sends the correct MSG message. *)
Definition tcp_msg : H X unit :=
  _ ← tcp_auth_and_reply;
  _ ← execute (lit "ahojky");
  message ← receive_message;
  py_assert (eq_str message (lit "MSG FROM c IS ahojky" ++ CRLF))
    (lit "Incoming message does not match expected MSG message.").

(** Test that the program handles a MSG message from the server correctly. *)
Definition tcp_svr_msg : H X unit :=
  _ ← tcp_auth_and_reply;
  _ ← send_message (VStr (lit "MSG FROM SeverusSnape IS ahojky" ++ CRLF));
  _ ← sleep 200;
  stdout ← get_stdout;
  py_assert (any_line_has (lit "SeverusSnape: ahojky") stdout)
    (lit "Output does not match expected output.").

(** Test that the program handles a C-d (stdin closed) correctly. *)
Definition tcp_bye : H X unit :=
  _ ← tcp_auth_and_reply;
  _ ← send_eof;
  message ← receive_message;
  py_assert (eq_str message (lit "BYE FROM c" ++ CRLF))
    (lit "Incoming message does not match expected BYE message.").

(** Test that the program handles an ERR message from the server correctly while waiting for
  REPLY. *)
Definition tcp_server_err1 : H X unit :=
  _ ← start_server (lit "tcp") 4567;
  _ ← setup [lit "-t"; lit "tcp"; lit "-s"; lit "localhost"; lit "-p"; lit "4567"];
  _ ← execute (lit "/auth a b c");
  _ ← send_message (VStr (lit "ERR FROM jetovp IS rdeli" ++ CRLF));
  _ ← sleep 400;
  stdout ← get_stdout;
  py_assert (any_line_has (lit "ERROR FROM jetovp: rdeli") stdout)
    (lit "Output does not match expected error message.").

(** Test that the program handles an ERR message from the server correctly. *)
Definition tcp_server_err2 : H X unit :=
  _ ← tcp_auth_and_reply;
  _ ← send_message (VStr (lit "ERR FROM jetovp IS rdeli" ++ CRLF));
  _ ← sleep 400;
  stdout ← get_stdout;
  py_assert (any_line_has (lit "ERROR FROM jetovp: rdeli") stdout)
    (lit "Output does not match expected error message.").

(** Test that the program sends the correct JOIN message and handles REPLY correctly. *)
Definition tcp_join_ok : H X unit :=
  _ ← tcp_auth_and_reply;
  _ ← execute (lit "/rename user");
  _ ← execute (lit "/join channel");
  message ← receive_message;
  _ ← py_assert (eq_str message (lit "JOIN channel AS user" ++ CRLF))
    (lit "Incoming message does not match expected JOIN message.");
  _ ← send_message (VStr (lit "REPLY OK IS takjo brasko ale bud hodnej" ++ CRLF));
  _ ← sleep 200;
  stdout ← get_stdout;
  py_assert (any_line_has (lit "Action Success: takjo brasko ale bud hodnej") stdout)
    (lit "Output does not match expected 'Success: jojo' output.").

(** Test that the program sends the correct JOIN message and handles a NOK reply correctly. *)
Definition tcp_join_nok : H X unit :=
  _ ← tcp_auth_and_reply;
  _ ← execute (lit "/rename user");
  _ ← execute (lit "/join channel");
  message ← receive_message;
  _ ← py_assert (eq_str message (lit "JOIN channel AS user" ++ CRLF))
    (lit "Incoming message does not match expected JOIN message.");
  _ ← send_message (VStr (lit "REPLY NOK IS minus boiiii" ++ CRLF));
  _ ← sleep 200;
  stdout ← get_stdout;
  py_assert (any_line_has (lit "Action Failure: minus boiiii") stdout)
    (lit "Output does not match expected 'Success: jojo' output.").

(** Test that the program does not allow multiple AUTH commands. *)
Definition tcp_multiple_auth : H X unit :=
  _ ← tcp_auth_and_reply;
  _ ← execute (lit "/auth d e f");
  _ ← sleep 200;
  stdout ← get_stdout;
  py_assert (any_line_has (lit "ERROR: ") stdout)
    (lit "Output does not match expected 'ERR: ' output.").

(** Test that the program handles an invalid message correctly. *)
Definition tcp_invalid_msg : H X unit :=
  _ ← tcp_auth_and_reply;
  _ ← send_message (VStr (lit "TVOJE MAMINKA" ++ CRLF));
  _ ← sleep 200;
  stdout ← get_stdout;
  _ ← py_assert (any_line_has (lit "ERROR: ") stdout)
    (lit "Output does not match expected 'ERR: ' output.");
  message ← receive_message;
  matched ← re_match_value err_regex message;
  py_assert matched (lit "Incoming message does not match expected ERR message.").

(** Test that the program handles an ERR message from the server correctly. *)
Definition tcp_auth_err : H X unit :=
  _ ← start_server (lit "tcp") 4567;
  _ ← setup [lit "-t"; lit "tcp"; lit "-s"; lit "localhost"; lit "-p"; lit "4567"];
  _ ← execute (lit "/auth a b c");
  message ← receive_message;
  _ ← py_assert (eq_str message (lit "AUTH a AS c USING b" ++ CRLF))
    (lit "Incoming message does not match expected AUTH message.");
  _ ← send_message (VStr (lit "ERR FROM server IS ajaj" ++ CRLF));
  _ ← sleep 200;
  stdout ← get_stdout;
  py_assert (any_line_has (lit "ERROR FROM server: ajaj") stdout)
    (lit "Output does not match expected error message.").

End TESTS.
