(* ===== verification/HobzaRunner.v ===== *)
(** The script hobza.py: its decorated test cases and its [dump], run by the code of [Runner],
    which the two scripts share. *)
From S2P Require Import Prelude PyRuntime Executable Tester Runner RunnerSpec TesterSpec HobzaTester.
From S2P Require Import HobzaTests.

Section HOBZA.

Context {X : Type} `{Executable X}.

(** The decorated functions of the file. *)
Definition hobza_tests : list (testcase_func X) := [
  MkTest (lit "no_args") no_args;
  MkTest (lit "no_type_arg") no_type_arg;
  MkTest (lit "no_hostname") no_hostname;
  MkTest (lit "all_args") all_args;
  MkTest (lit "udp_hello") udp_hello;
  MkTest (lit "udp_not_auth") udp_not_auth;
  MkTest (lit "udp_invalid_command") udp_invalid_command;
  MkTest (lit "udp_auth") udp_auth;
  MkTest (lit "udp_auth_port") udp_auth_port;
  MkTest (lit "udp_auth_nok") udp_auth_nok;
  MkTest (lit "udp_auth_nok_ok") udp_auth_nok_ok;
  MkTest (lit "udp_auth_port_change") udp_auth_port_change;
  MkTest (lit "udp_auth_ok") udp_auth_ok;
  MkTest (lit "udp_msg") udp_msg;
  MkTest (lit "udp_svr_msg") udp_svr_msg;
  MkTest (lit "udp_bye1") udp_bye1;
  MkTest (lit "udp_bye2") udp_bye2;
  MkTest (lit "udp_server_err1") udp_server_err1;
  MkTest (lit "udp_server_err2") udp_server_err2;
  MkTest (lit "udp_join_ok") udp_join_ok;
  MkTest (lit "udp_join_nok") udp_join_nok;
  MkTest (lit "udp_multiple_auth") udp_multiple_auth;
  MkTest (lit "udp_invalid_msg") udp_invalid_msg;
  MkTest (lit "udp_auth_err") udp_auth_err;
  MkTest (lit "tcp_hello") tcp_hello;
  MkTest (lit "tcp_not_auth") tcp_not_auth;
  MkTest (lit "tcp_invalid_command") tcp_invalid_command;
  MkTest (lit "tcp_auth") tcp_auth;
  MkTest (lit "tcp_auth_ok") tcp_auth_ok_first;
  MkTest (lit "tcp_auth_nok") tcp_auth_nok;
  MkTest (lit "tcp_auth_port") tcp_auth_port;
  MkTest (lit "tcp_auth_nok_ok") tcp_auth_nok_ok;
  MkTest (lit "tcp_auth_ok") tcp_auth_ok;
  MkTest (lit "tcp_msg") tcp_msg;
  MkTest (lit "tcp_svr_msg") tcp_svr_msg;
  MkTest (lit "tcp_bye") tcp_bye;
  MkTest (lit "tcp_server_err1") tcp_server_err1;
  MkTest (lit "tcp_server_err2") tcp_server_err2;
  MkTest (lit "tcp_join_ok") tcp_join_ok;
  MkTest (lit "tcp_join_nok") tcp_join_nok;
  MkTest (lit "tcp_multiple_auth") tcp_multiple_auth;
  MkTest (lit "tcp_invalid_msg") tcp_invalid_msg;
  MkTest (lit "tcp_auth_err") tcp_auth_err
].

Definition hobza_suite : Suite X := {| declared := hobza_tests; suite_dump := dump |}.

(** * The script *)

Section SCRIPT.

Context (colored : chars -> colour -> chars) (message_of : py_exn -> chars) (columns : py Z).

(** [testcase]: what it makes of a function, and the two lists it fills. *)
Definition hobza_wrapper (t : testcase_func X) : R X bool :=
  @wrapper X _ hobza_suite colored message_of columns t.
Definition hobza_registered : list (testcase_func X) * list (testcase_func X) :=
  @registered X hobza_suite.

Definition hobza_run_tests (udp tcp : bool) (test_case : option chars) : R X unit :=
  @run_tests X _ hobza_suite colored message_of columns udp tcp test_case.

(** The command line. *)
Definition hobza_main (argv : list chars) : R X unit :=
  @main X _ hobza_suite colored message_of columns argv.

End SCRIPT.

End HOBZA.
