(* ===== verification/HobzaSpec.v ===== *)
(** The two suites compared: on every program, a test case that passes in testo.py passes in
    hobza.py, with three exceptions; and the runner's laws for hobza.py.

    The comparison is a refinement between two harness programs, [follows], proved by walking
    through both at once. *)
From S2P Require Import Prelude PyRuntime UDPTranslator HobzaCodec Executable Tester TestCasesUdp.
From S2P Require Import TestCasesTcp TesterSpec Runner RunnerSpec HobzaTester HobzaTests HobzaRunner.

Create HintDb follows.

Section FOLLOWS.

Context {X : Type} `{Executable X}.

(** * Confirming stays on *)

Definition same_confirm (s s' : tester X) : Prop := send_confirm s' = send_confirm s.

#[export] Instance same_confirm_preorder : PreOrder same_confirm.
Proof. split; [done|]. unfold same_confirm. congruence. Qed.

(** A computation that leaves the flag alone. *)
Abbreviation keeps := (respects same_confirm).

Lemma same_ticks n s : same_confirm s (ticks n s).
Proof. apply un_confirm, ticks_untouched. Qed.

Lemma same_tick s : same_confirm s (tick s).
Proof. apply (same_ticks 1). Qed.

Lemma same_read_stdout eof s : same_confirm s (read_stdout eof s).
Proof. unfold read_stdout. by destruct (process s). Qed.

Lemma same_read_stderr eof s : same_confirm s (read_stderr eof s).
Proof. unfold read_stderr. by destruct (process s). Qed.

Lemma same_close s : same_confirm s (close_server_socket s).
Proof. unfold close_server_socket. by destruct (server_socket s) as [[[] ?]|]. Qed.

Hint Resolve same_ticks same_tick same_read_stdout same_read_stderr same_close : respects.
Hint Extern 5 (same_confirm _ _) => reflexivity : respects.

Lemma keeps_raise {A} e : keeps (raise e : H X A).
Proof. apply respects_throw, _. Qed.

Hint Resolve keeps_raise : respects.

Lemma keeps_of_py {A} (r : py A) : keeps (of_py r : H X A).
Proof. unfold of_py. tac_respects. Qed.

Lemma keeps_bytes_of v : keeps (bytes_of v : H X chars).
Proof. unfold bytes_of. tac_respects. Qed.

Hint Resolve keeps_of_py keeps_bytes_of : respects.

(** The pieces of a harness program, one by one. *)
Ltac keep := tac_respects; eauto with respects.

Lemma keeps_sleep ms : keeps (sleep ms : H X unit).
Proof. unfold sleep. keep. Qed.

Lemma keeps_bind_udp port : keeps (bind_udp port : H X unit).
Proof. unfold bind_udp. keep. Qed.

Lemma keeps_getMessageId_of v : keeps (getMessageId_of v : H X pyval).
Proof. unfold getMessageId_of. keep. Qed.

Lemma keeps_send_stream c v : keeps (send_stream c v : H X unit).
Proof. unfold send_stream. keep. Qed.

Lemma keeps_send_datagram port v address : keeps (send_datagram port v address : H X unit).
Proof. unfold send_datagram. keep. Qed.

Hint Resolve keeps_sleep keeps_bind_udp keeps_getMessageId_of keeps_send_stream
  keeps_send_datagram : respects.

Lemma keeps_send_message v : keeps (send_message v : H X unit).
Proof. unfold send_message. keep. Qed.

Lemma keeps_recv fuel : keeps (recv fuel : H X chars).
Proof. induction fuel as [|fuel IH]; cbn [recv]; keep. Qed.

Lemma keeps_recvfrom fuel port : keeps (recvfrom fuel port : H X _).
Proof. induction fuel as [|fuel IH]; cbn [recvfrom]; keep. Qed.

Hint Resolve keeps_send_message keeps_recv keeps_recvfrom : respects.

Lemma keeps_tester_confirm v : keeps (tester_confirm v : H X unit).
Proof. unfold tester_confirm. keep. Qed.

Lemma keeps_kill : keeps (kill : H X unit).
Proof.
  apply respects_modify. intros s. destruct (process s); [|done].
  unfold read_stderr, read_stdout. destruct (process s) eqn:E; cbn; by rewrite ?E.
Qed.

Hint Resolve keeps_tester_confirm keeps_kill : respects.

Lemma keeps_teardown : keeps (teardown : H X unit).
Proof. unfold teardown, stop_server. keep. Qed.

Hint Resolve keeps_teardown : respects.

Lemma keeps_setup args : keeps (setup args : H X unit).
Proof. unfold setup. keep. Qed.

Lemma keeps_start_server proto port : keeps (start_server proto port : H X unit).
Proof. unfold start_server. keep. Qed.

Lemma keeps_execute text : keeps (execute text : H X unit).
Proof. unfold execute. keep. Qed.

Lemma keeps_get_stdout : keeps (get_stdout : H X chars).
Proof. unfold get_stdout. keep. Qed.

Lemma keeps_get_return_code : keeps (get_return_code : H X (option Z)).
Proof. unfold get_return_code. keep. Qed.

Lemma keeps_setClientAddress address : keeps (setClientAddress address : H X unit).
Proof. unfold setClientAddress. keep. Qed.

Lemma keeps_send_sigint : keeps (send_sigint : H X unit).
Proof. unfold send_sigint. keep. Qed.

Lemma keeps_send_eof : keeps (send_eof : H X unit).
Proof. unfold send_eof. keep. Qed.

Lemma keeps_send_built r : keeps (send_built r : H X unit).
Proof. unfold send_built. keep. Qed.

Hint Resolve keeps_send_built : respects.

Lemma keeps_send_reply id r ref text : keeps (send_reply id r ref text : H X unit).
Proof. unfold send_reply. keep. Qed.

Hint Resolve keeps_setup keeps_start_server keeps_execute keeps_get_stdout
  keeps_get_return_code keeps_setClientAddress keeps_send_sigint keeps_send_eof keeps_send_reply : respects.

(** * Following *)

(** From a state where confirming is on, when the first program returns, so does the second, in
    the same state and with a related value. *)
Definition follows {A B} (R : A -> B -> Prop) (m : H X A) (m' : H X B) : Prop :=
  forall s s' a, send_confirm s = true -> m s = (s', Ok a) ->
    send_confirm s' = true /\ exists b, m' s = (s', Ok b) /\ R a b.

(** The same for the verdicts alone. *)
Definition passes (m : H X unit) (s : tester X) : Prop := snd (m s) = Ok tt.
Definition passes_too (m m' : H X unit) : Prop :=
  forall s, send_confirm s = true -> passes m s -> passes m' s.

Lemma follows_same {A} (m : H X A) : keeps m -> follows eq m m.
Proof.
  intros Hm s s' a Hs E. specialize (Hm s). rewrite E in Hm. cbn in Hm.
  split; [by rewrite Hm|]. by exists a.
Qed.

Lemma follows_bind {A A' B B'} (R : A -> A' -> Prop) (S : B -> B' -> Prop) m m' k k' :
  follows R m m' -> (forall a a', R a a' -> follows S (k a) (k' a')) ->
  follows S (m ≫= k) (m' ≫= k').
Proof.
  intros Hm Hk s s2 b Hs E. unfold mbind, M_bind in *. destruct (m s) as [s1 [a|e]] eqn:E1; [|done].
  destruct (Hm s s1 a Hs E1) as (Hs1 & a' & -> & Ha). by apply (Hk a a' Ha s1).
Qed.

Lemma passes_bind {A A'} (R : A -> A' -> Prop) (m : H X A) (m' : H X A') k k' :
  follows R m m' -> (forall a a', R a a' -> passes_too (k a) (k' a')) ->
  passes_too (m ≫= k) (m' ≫= k').
Proof.
  intros Hm Hk s Hs. unfold passes, mbind, M_bind. destruct (m s) as [s1 [a|e]] eqn:E1; [|done].
  destruct (Hm s s1 a Hs E1) as (Hs1 & a' & -> & Ha). by apply (Hk a a' Ha s1).
Qed.

Lemma passes_follows R (m m' : H X unit) : follows R m m' -> passes_too m m'.
Proof.
  intros Hm s Hs. unfold passes. destruct (m s) as [s1 [[]|e]] eqn:E1; [|done].
  by destruct (Hm s s1 tt Hs E1) as (_ & [] & -> & _).
Qed.

Lemma follows_assert (c c' : bool) e e' :
  (c = true -> c' = true) -> follows eq (py_assert c e : H X unit) (py_assert c' e').
Proof.
  intros Hc s s' a Hs E. destruct c; [|done]. rewrite Hc by done. injection E as <- <-.
  split; [done|]. by exists tt.
Qed.

(** A last assertion, with standard error read before it. *)
Lemma passes_get_stderr (c c' : bool) e e' :
  (c = true -> c' = true) ->
  passes_too (py_assert c e) (_ ← HobzaTester.get_stderr; py_assert c' e').
Proof. intros Hc s Hs Hp. destruct c; [|done]. rewrite Hc by done. done. Qed.

(** [receive_message]: with confirming on the two are the same. *)
Lemma follows_receive timeout :
  follows eq (Tester.receive_message_within timeout : H X pyval)
    (HobzaTester.receive_message_within timeout).
Proof.
  intros s s' a Hs E.
  assert (keeps (Tester.receive_message_within timeout : H X pyval)) as Hk
    by (unfold Tester.receive_message_within; keep).
  split. { specialize (Hk s). rewrite E in Hk. cbn in Hk. by rewrite Hk. }
  exists a. split; [|done]. rewrite <- E. unfold Tester.receive_message_within, receive_message_within.
  rewrite !bind_get. destruct (server_socket s) as [[proto port]|]; [|done].
  destruct (connection_socket s); [done|]. destruct proto; [|done].
  pose proof (keeps_recvfrom (quanta timeout) port s) as Hr. unfold mbind, M_bind.
  destruct (recvfrom (quanta timeout) port s) as [s1 [[[from data]|]|e]]; [|reflexivity..].
  cbn in Hr. cbn. destruct (py_index data 0) as [x|e]; [|done]. cbn.
  by rewrite Hr, Hs, andb_true_r.
Qed.

Lemma follows_receive_message :
  follows eq (Tester.receive_message : H X pyval) HobzaTester.receive_message.
Proof. apply follows_receive. Qed.

(** What the earlier translator makes of a value the later one gave. *)
Definition earlier (v : pyval) : pyval :=
  match v with
  | VStr text => if bool_decide (head text = Some 66) then VStr (lit "BYE" ++ CRLF) else v
  | _ => v
  end.

Lemma follows_translate v :
  follows (fun a b => b = earlier a) (Tester.translate v : H X pyval) (HobzaTester.translate v).
Proof.
  intros s s' a Hs E. destruct v as [|[|x text]|[|t data]]; try done.
  - injection E as <- <-. split; [done|]. by eexists.
  - unfold Tester.translate, translate, of_py, mbind, M_bind in *.
    destruct (UDPTranslator.translateMessage (t :: data)) as [r|e] eqn:Et; [|done].
    injection E as <- <-. split; [done|]. pose proof (translate_first t data r Et) as Hr.
    destruct (Z.eqb_spec t 255) as [->|Ht].
    + destruct Hr as [text ->]. rewrite translate_bye. by eexists.
    + rewrite translate_same, Et by done. eexists. split; [done|].
      destruct r as [text|]; [|done]. cbn. by rewrite bool_decide_false by by apply Hr.
Qed.

Lemma earlier_eq_str v text text' :
  earlier (VStr text) = VStr text' -> eq_str v text = true -> eq_str (earlier v) text' = true.
Proof.
  intros He Hv%bool_decide_eq_true. subst v. by apply bool_decide_eq_true.
Qed.

(** The texts searched for in the output. *)
Lemma py_startswith_app s a b : py_startswith s (a ++ b) = true -> py_startswith s a = true.
Proof.
  revert s. induction a as [|x a IH]; intros s; [by destruct s|]. destruct s as [|y s]; [done|].
  cbn. intros [-> Hs]%andb_true_iff. by apply IH.
Qed.

Lemma py_in_app_l s a b : py_in (a ++ b) s = true -> py_in a s = true.
Proof.
  induction s as [|x s IH]; cbn [py_in]; intros Hs; apply orb_true_iff in Hs as [Hs|Hs]; try done;
    apply orb_true_iff; [left|left|right; by apply IH]; by eapply py_startswith_app.
Qed.

Lemma py_in_cons x a s : py_in (x :: a) s = true -> py_in a s = true.
Proof.
  induction s as [|y s IH]; cbn [py_in]; intros Hs; apply orb_true_iff in Hs as [Hs|Hs]; try done.
  - cbn in Hs. apply andb_true_iff in Hs as [_ Hs]. apply orb_true_iff. right.
    destruct s; cbn [py_in]; by rewrite Hs.
  - apply orb_true_iff. right. by apply IH.
Qed.

Lemma py_in_app_r s a b : py_in (a ++ b) s = true -> py_in b s = true.
Proof. induction a as [|x a IH]; [done|]. intros Hs%py_in_cons. by apply IH. Qed.

Lemma any_line_weaker text text' stdout :
  (forall s, py_in text s = true -> py_in text' s = true) ->
  any_line_has text stdout = true -> any_line_has text' stdout = true.
Proof.
  unfold any_line_has. rewrite !existsb_exists. intros Hw (line & ? & Hl). eauto.
Qed.

Lemma follows_with_udp_socket port (m m' : H X unit) :
  follows eq m m' -> follows eq (with_udp_socket port m) (with_udp_socket port m').
Proof.
  intros Hm s s' a Hs. unfold with_udp_socket. pose proof (keeps_bind_udp port s) as Hk.
  destruct (bind_udp port s) as [s1 [[]|e]]; [|done]. cbn in Hk.
  destruct (m s1) as [s2 [b|e]] eqn:Em; [|done]. intros [= <- <-].
  destruct (Hm s1 s2 b ltac:(congruence) Em) as (Hs2 & b' & -> & <-).
  split; [done|]. by exists b.
Qed.

(** * The test cases *)

(** Walk through two programs at once; [rest] are the calls the programs make that are related
    already. *)
Ltac weaker :=
  first
    [ done
    | apply earlier_eq_str; reflexivity
    | apply (py_in_app_l _ (lit "ERROR:") (lit " "))
    | apply any_line_weaker; intros ?; apply (py_in_app_r _ (lit "Action ")) ].

Ltac step :=
  first
    [ apply follows_assert; weaker
    | apply follows_receive_message
    | apply follows_translate
    | solve [eauto 2 with follows]
    | apply follows_same; solve [eauto 2 with respects | tac_respects] ].

Ltac follow :=
  repeat match goal with
  | |- passes_too (mbind _ _) (mbind _ _) => eapply passes_bind; [step|intros ? ? ->]
  | |- follows _ (mbind _ _) (mbind _ _) => eapply follows_bind; [step|intros ? ? ->]
  | |- passes_too (py_assert _ _) (_ ← _; _) => apply passes_get_stderr; weaker
  | |- passes_too _ _ => eapply passes_follows
  | |- follows _ (with_udp_socket _ _) _ => apply follows_with_udp_socket
  | |- follows _ (match ?x with _ => _ end) _ => destruct x as [[? ?]|]
  | |- follows _ _ _ => step
  end.

Lemma follows_auth_and_reply : follows eq TestCasesUdp.auth_and_reply (auth_and_reply : H X unit).
Proof. unfold TestCasesUdp.auth_and_reply, auth_and_reply. ExecutableTester.as_later. follow. Qed.

Lemma follows_tcp_auth_and_reply :
  follows eq TestCasesTcp.tcp_auth_and_reply (tcp_auth_and_reply : H X unit).
Proof.
  unfold TestCasesTcp.tcp_auth_and_reply, tcp_auth_and_reply. ExecutableTester.as_later. follow.
Qed.

Hint Resolve follows_auth_and_reply follows_tcp_auth_and_reply : follows.

(** The test cases of hobza.py beside those of testo.py that they became, by their names. *)
Definition counterparts : list (chars * H X unit * H X unit) := [
  (lit "no_args", TestCasesUdp.no_args, HobzaTests.no_args);
  (lit "no_type_arg", TestCasesUdp.no_type_arg, HobzaTests.no_type_arg);
  (lit "no_hostname", TestCasesUdp.no_hostname, HobzaTests.no_hostname);
  (lit "all_args", TestCasesUdp.all_args, HobzaTests.all_args);
  (lit "udp_hello", TestCasesUdp.udp_hello, HobzaTests.udp_hello);
  (lit "udp_not_auth", TestCasesUdp.udp_not_auth, HobzaTests.udp_not_auth);
  (lit "udp_invalid_command", TestCasesUdp.udp_invalid_command, HobzaTests.udp_invalid_command);
  (lit "udp_auth", TestCasesUdp.udp_auth, HobzaTests.udp_auth);
  (lit "udp_auth_port", TestCasesUdp.udp_auth_port, HobzaTests.udp_auth_port);
  (lit "udp_auth_nok", TestCasesUdp.udp_auth_nok, HobzaTests.udp_auth_nok);
  (lit "udp_auth_nok_ok", TestCasesUdp.udp_auth_nok_ok, HobzaTests.udp_auth_nok_ok);
  (lit "udp_auth_port_change", TestCasesUdp.udp_auth_port_change, HobzaTests.udp_auth_port_change);
  (lit "udp_auth_ok", TestCasesUdp.udp_auth_ok, HobzaTests.udp_auth_ok);
  (lit "udp_msg", TestCasesUdp.udp_msg, HobzaTests.udp_msg);
  (lit "udp_svr_msg", TestCasesUdp.udp_svr_msg, HobzaTests.udp_svr_msg);
  (lit "udp_bye1", TestCasesUdp.udp_bye1, HobzaTests.udp_bye1);
  (lit "udp_bye2", TestCasesUdp.udp_bye2, HobzaTests.udp_bye2);
  (lit "udp_server_err1", TestCasesUdp.udp_server_err1, HobzaTests.udp_server_err1);
  (lit "udp_server_err2", TestCasesUdp.udp_server_err2, HobzaTests.udp_server_err2);
  (lit "udp_join_ok", TestCasesUdp.udp_join_ok, HobzaTests.udp_join_ok);
  (lit "udp_join_nok", TestCasesUdp.udp_join_nok, HobzaTests.udp_join_nok);
  (lit "udp_multiple_auth", TestCasesUdp.udp_multiple_auth, HobzaTests.udp_multiple_auth);
  (lit "udp_auth_err", TestCasesUdp.udp_auth_err, HobzaTests.udp_auth_err);
  (lit "tcp_hello", TestCasesTcp.tcp_hello, HobzaTests.tcp_hello);
  (lit "tcp_not_auth", TestCasesTcp.tcp_not_auth, HobzaTests.tcp_not_auth);
  (lit "tcp_invalid_command", TestCasesTcp.tcp_invalid_command, HobzaTests.tcp_invalid_command);
  (lit "tcp_auth", TestCasesTcp.tcp_auth, HobzaTests.tcp_auth);
  (lit "tcp_auth_ok", TestCasesTcp.tcp_auth_ok_first, HobzaTests.tcp_auth_ok_first);
  (lit "tcp_auth_nok", TestCasesTcp.tcp_auth_nok, HobzaTests.tcp_auth_nok);
  (lit "tcp_auth_port", TestCasesTcp.tcp_auth_port, HobzaTests.tcp_auth_port);
  (lit "tcp_auth_nok_ok", TestCasesTcp.tcp_auth_nok_ok, HobzaTests.tcp_auth_nok_ok);
  (lit "tcp_auth_ok", TestCasesTcp.tcp_auth_ok, HobzaTests.tcp_auth_ok);
  (lit "tcp_msg", TestCasesTcp.tcp_msg, HobzaTests.tcp_msg);
  (lit "tcp_svr_msg", TestCasesTcp.tcp_svr_msg, HobzaTests.tcp_svr_msg);
  (lit "tcp_bye", TestCasesTcp.tcp_bye, HobzaTests.tcp_bye);
  (lit "tcp_server_err1", TestCasesTcp.tcp_server_err1, HobzaTests.tcp_server_err1);
  (lit "tcp_join_ok", TestCasesTcp.tcp_join_ok, HobzaTests.tcp_join_ok);
  (lit "tcp_join_nok", TestCasesTcp.tcp_join_nok, HobzaTests.tcp_join_nok);
  (lit "tcp_multiple_auth", TestCasesTcp.tcp_multiple_auth, HobzaTests.tcp_multiple_auth);
  (lit "tcp_auth_err", TestCasesTcp.tcp_auth_err, HobzaTests.tcp_auth_err)
].

Lemma counterparts_follow : Forall (fun p => passes_too (p.1.2) (p.2)) counterparts.
Proof.
  unfold counterparts. repeat (apply Forall_cons; split); [..|by apply Forall_nil]; cbn [fst snd].
  all: match goal with |- passes_too (?f _ _) (?g _ _) => unfold f, g end.
  all: ExecutableTester.as_later; follow.
Qed.

(** The tests left out: [udp_invalid_msg] searches a translated message, and the translators differ
    on a BYE; [tcp_server_err2] has other texts; [tcp_invalid_msg] reads the client's ERR with one
    receive, where the later test collects two and searches both. *)
Definition differing : list chars :=
  [lit "udp_invalid_msg"; lit "tcp_server_err2"; lit "tcp_invalid_msg"].

Lemma counterparts_tests :
  map (fun p => MkTest (p.1.1) (p.2)) counterparts
  = List.filter (fun t => negb (bool_decide (test_name t ∈ differing))) hobza_tests.
Proof. reflexivity. Qed.

(** Where the later tests are in their file. *)
Definition later_positions : list nat :=
  [0; 1; 2; 3; 5; 6; 7; 8; 9; 10; 12; 13; 14; 15; 16; 18; 19; 25; 26; 27; 28; 29; 31; 46;
   47; 48; 49; 50; 51; 52; 53; 54; 55; 56; 57; 59; 61; 62; 63; 65]%nat.

Lemma counterparts_later p :
  p ∈ counterparts -> MkTest (p.1.1) (p.1.2) ∈ testo_tests.
Proof.
  assert (map (fun p => MkTest (p.1.1) (p.1.2)) counterparts
          = omap (fun i => testo_tests !! i) later_positions) as E by reflexivity.
  intros Hp. eapply (list_elem_of_fmap_2 (fun p => MkTest (p.1.1) (p.1.2))) in Hp.
  change (?f <$> ?l) with (map f l) in Hp. rewrite E in Hp.
  apply list_elem_of_omap in Hp as (i & _ & Hi). by eapply list_elem_of_lookup_2.
Qed.

(** C19. The tests kept from hobza.py were only made stricter: for every program, whatever its
    behaviour, and in every state of the harness in which received messages are confirmed (as in a
    new one), each test case of hobza.py but three has one of the same name in testo.py, and passes
    whenever that one does. *)
Theorem later_tests_stricter t :
  t ∈ hobza_tests -> test_name t ∉ differing ->
  exists t', t' ∈ testo_tests /\ test_name t' = test_name t
    /\ forall s, send_confirm s = true -> passes (test_func t') s -> passes (test_func t) s.
Proof.
  intros Ht Hn.
  assert (t ∈ map (fun p => MkTest (p.1.1) (p.2)) counterparts) as Hc.
  { rewrite counterparts_tests. apply list_elem_of_In, filter_In.
    split; [by apply list_elem_of_In|]. by rewrite bool_decide_false. }
  apply list_elem_of_fmap in Hc as (p & -> & Hp). exists (MkTest (p.1.1) (p.1.2)).
  split; [by apply counterparts_later|]. split; [done|].
  pose proof counterparts_follow as Hf. rewrite Forall_forall in Hf. by apply Hf.
Qed.

#[export] Instance hobza_suite_laws : @Suite_laws X hobza_suite.
Proof.
  split. intros s. do 2 eexists. split; [reflexivity|].
  cbn. unfold read_stdout, read_stderr. destruct (process s); cbn; by repeat case_match.
Qed.

End FOLLOWS.

#[local] Existing Instance mute.

Lemma later_tests_stricter_witness :
  exists t', t' ∈ testo_tests /\ test_name t' = lit "udp_hello"
    /\ forall s, send_confirm s = true -> passes (test_func t') s -> passes (X := unit) udp_hello s.
Proof.
  apply (later_tests_stricter (MkTest (lit "udp_hello") udp_hello)).
  - do 4 apply list_elem_of_further. apply list_elem_of_here.
  - apply (bool_decide_unpack _). vm_compute. exact I.
Defined.
