(* ===== verification/TesterTime.v ===== *)
(** How long the harness takes: a logic of costs for harness programs, [within], and with it the
    termination of every UDP test case of both suites, whatever the program under test does, with
    a bound on its time; hence of a whole run over UDP. *)
From S2P Require Import Prelude PyRuntime UDPTranslator Args Executable Tester TestCasesUdp.
From S2P Require Import TesterSpec Runner RunnerSpec HobzaTester HobzaTests HobzaRunner HobzaSpec.

Create HintDb timely discriminated.
#[export] Hint Constants Opaque : timely.

Ltac quanta := unfold QUANTUM in *; cbn in *; lia.

Section TIME.

Context {X : Type} `{Executable X}.

(** * Costs *)

(** The tester serves no TCP connection, and none can be accepted. *)
Definition no_tcp (s : tester X) : Prop :=
  connection_socket s = None
  /\ match server_socket s with Some (TCP, _) => False | _ => True end.

(** What a call that takes at most [n] quanta leaves. *)
Record timely {A} (n : nat) (s : tester X) (o : tester X * result halt A) : Prop := {
  ti_udp : no_tcp (fst o);
  ti_now : now s <= now (fst o) <= now s + QUANTUM * Z.of_nat n;
  ti_ends : snd o <> Err Hang
}.

(** [m] ends within [n] quanta when there is no TCP in the tester, and brings none in. *)
Definition within {A} (n : nat) (m : H X A) : Prop := forall s, no_tcp s -> timely n s (m s).

Lemma within_weaken {A} n n' (m : H X A) : within n m -> (n <= n')%nat -> within n' m.
Proof. intros Hm Hn s Hs. destruct (Hm s Hs) as [H1 H2 H3]. split; [done|quanta|done]. Qed.

Lemma within_bind {A B} n k (m : H X A) (f : A -> H X B) :
  within n m -> (forall a, within k (f a)) -> within (n + k) (m ≫= f).
Proof.
  intros Hm Hf s Hs. unfold mbind, M_bind. destruct (Hm s Hs) as [H1 H2 H3].
  destruct (m s) as [s1 [a|e]]; cbn in *.
  - destruct (Hf a s1 H1) as [K1 K2 K3]. split; [done|quanta|done].
  - split; [done|quanta|]. cbn. congruence.
Qed.

Lemma within_get {A} n (k : tester X -> H X A) :
  (forall s, no_tcp s -> within n (k s)) -> within n (get ≫= k).
Proof. intros Hk s Hs. by apply Hk. Qed.

Lemma within_gets {A} (f : tester X -> A) : within 0 (gets f).
Proof. intros s Hs. split; [done|quanta|done]. Qed.

Lemma within_ret {A} (a : A) n : within n (mret a : H X A).
Proof. intros s Hs. split; [done|quanta|done]. Qed.

Lemma within_raise {A} e n : within n (raise e : H X A).
Proof. intros s Hs. split; [done|quanta|done]. Qed.

Lemma within_when (b : bool) n (m : H X unit) : within n m -> within n (when b m).
Proof. intros Hm. destruct b; [done|apply within_ret]. Qed.

(** The changes of the state that take no time. *)
Definition idle (f : tester X -> tester X) : Prop :=
  forall s, no_tcp s -> no_tcp (f s) /\ now (f s) = now s.

Lemma within_modify f : idle f -> within 0 (modify f : H X unit).
Proof. intros Hf s Hs. destruct (Hf s Hs). split; [done|quanta|done]. Qed.

Lemma within_match_option {A B} n (x : option A) (f : A -> H X B) (m : H X B) :
  (forall a, within n (f a)) -> within n m ->
  within n (match x with Some a => f a | None => m end).
Proof. by destruct x. Qed.

Lemma within_except_timeout {A} n k (m h : H X A) :
  within n m -> within k h -> within (n + k) (except_timeout m h).
Proof.
  intros Hm Hh s Hs. unfold except_timeout. destruct (Hm s Hs) as [H1 H2 H3].
  destruct (m s) as [s1 [a|[[]|]]]; cbn in *; try (split; cbn; [done|quanta|done]).
  destruct (Hh s1 H1) as [K1 K2 K3]. split; [done|quanta|done].
Qed.

Hint Resolve within_gets within_modify : timely.
(* A cost that is still open is none. *)
Hint Extern 0 (within _ (mret _)) => (apply (within_ret _ 0) || apply within_ret) : timely.
Hint Extern 0 (within _ (raise _)) => (apply (within_raise _ 0) || apply within_raise) : timely.
Hint Extern 3 (idle _) => (intros ? [? ?]; by split) : timely.

(** * The harness *)

Lemma no_tcp_untouched s s' :
  server_socket s' = server_socket s -> connection_socket s' = connection_socket s ->
  no_tcp s -> no_tcp s'.
Proof. intros Es Ec [Hc Hs]. unfold no_tcp. by rewrite Es, Ec. Qed.

Lemma tick_no_tcp s : no_tcp s -> no_tcp (tick s).
Proof.
  intros Hn. apply (no_tcp_untouched s); [apply un_server, tick_untouched| |done].
  destruct Hn as [Hc Hs]. unfold tick, accept_connection, route. cbn.
  destruct (process s) as [p|]; [|done]. cbn. destruct (connecting _) as [to|]; [|done].
  unfold listening. cbn. rewrite (bool_decide_false (server_socket s = Some (TCP, _)));
    [done|]. intros E. by rewrite E in Hs.
Qed.

Lemma ticks_no_tcp n s : no_tcp s -> no_tcp (ticks n s).
Proof. revert s. induction n as [|n IH]; intros s Hs; [done|]. by apply IH, tick_no_tcp. Qed.

Lemma within_ticks n : within n (modify (ticks n) : H X unit).
Proof.
  intros s Hs. split; [by apply ticks_no_tcp|cbn; rewrite ticks_now; quanta|done].
Qed.

Lemma within_sleep ms : within (quanta ms) (sleep ms : H X unit).
Proof. apply within_ticks. Qed.

Lemma within_tick : within 1 (modify tick : H X unit).
Proof. apply (within_ticks 1). Qed.

Lemma idle_read_stdout eof : idle (read_stdout eof).
Proof. intros s. unfold read_stdout. by destruct (process s). Qed.

Lemma idle_read_stderr eof : idle (read_stderr eof).
Proof. intros s. unfold read_stderr. by destruct (process s). Qed.

Lemma idle_close : idle close_server_socket.
Proof.
  intros s [Hc Hs]. unfold close_server_socket, no_tcp.
  by destruct (server_socket s) as [[[] ?]|] eqn:E; cbn; rewrite ?E.
Qed.

Hint Resolve within_sleep within_tick idle_close : timely.
Hint Extern 0 (within 20 (sleep 200)) => exact (within_sleep 200) : timely.
Hint Extern 1 (idle (fun s => read_stdout _ s)) => (intros s; apply idle_read_stdout) : timely.
Hint Extern 1 (idle (fun s => read_stderr _ s)) => (intros s; apply idle_read_stderr) : timely.

(** A call that takes no time: each branch of its body. *)
Ltac instant :=
  repeat match goal with
  | |- forall _, _ => intro
  | |- within _ (get ≫= _) => apply within_get
  | |- within 0 (mbind _ _) => apply (within_bind 0 0)
  | |- within _ (when _ _) => apply within_when
  | |- within _ (match ?x with _ => _ end) => destruct x
  | |- within _ _ => solve [eauto 3 with timely]
  end.

Lemma within_with_udp_socket port n (m : H X unit) :
  within n m -> within n (with_udp_socket port m).
Proof.
  intros Hm s Hs. unfold with_udp_socket.
  assert (within 0 (bind_udp port : H X unit)) as Hb by (unfold bind_udp; instant).
  destruct (Hb s Hs) as [B1 B2 B3]. destruct (bind_udp port s) as [s1 [[]|e]]; cbn in *.
  - destruct (Hm s1 B1) as [M1 M2 M3]. destruct (m s1) as [s2 r]. cbn in *. split; [done|quanta|done].
  - split; [done|quanta|]. cbn. congruence.
Qed.

(** The pieces of a program, one by one, each with its own cost. *)
Ltac timely :=
  repeat match goal with
  | |- forall _, _ => intro
  | |- within _ (get ≫= _) => apply within_get
  | |- within _ (mbind _ _) => eapply within_bind
  | |- within _ (when _ _) => apply within_when
  | |- within _ (except_timeout _ _) => eapply within_except_timeout
  | |- within _ (with_udp_socket _ _) => apply within_with_udp_socket
  | |- within _ (match ?x with Some _ => _ | None => raise _ end) => apply within_match_option
  | |- within _ (let (_, _) := ?x in _) => destruct x
  | |- within _ _ => solve [eauto 3 with timely]
  end.

Lemma within_of_py {A} (r : py A) : within 0 (of_py r : H X A).
Proof. unfold of_py. instant. Qed.

Lemma within_bytes_of v : within 0 (bytes_of v : H X chars).
Proof. unfold bytes_of. instant. Qed.

Hint Resolve within_of_py within_bytes_of : timely.

Lemma within_getMessageId_of v : within 0 (getMessageId_of v : H X pyval).
Proof. unfold getMessageId_of. instant. Qed.

Lemma within_translate v : within 0 (Tester.translate v : H X pyval).
Proof. unfold Tester.translate. instant. Qed.

Lemma within_in_value text v : within 0 (in_value text v : H X bool).
Proof. unfold in_value. instant. Qed.

Lemma within_assert b e : within 0 (py_assert b e : H X unit).
Proof. unfold py_assert. instant. Qed.

Lemma within_send_datagram port v address : within 0 (send_datagram port v address : H X unit).
Proof. unfold send_datagram. instant. Qed.

Hint Resolve within_getMessageId_of within_translate within_in_value within_assert
  within_send_datagram : timely.

Lemma within_send_message v : within 0 (send_message v : H X unit).
Proof.
  unfold send_message. apply within_get. intros s [-> _]. instant.
Qed.

Hint Resolve within_send_message : timely.

Lemma within_tester_confirm v : within 0 (tester_confirm v : H X unit).
Proof. unfold tester_confirm. instant. Qed.

Lemma within_send_built r : within 0 (send_built r : H X unit).
Proof. unfold send_built. instant. Qed.

Hint Resolve within_tester_confirm within_send_built : timely.

Lemma within_send_reply id r ref text : within 0 (send_reply id r ref text : H X unit).
Proof. unfold send_reply. instant. Qed.

Lemma within_recvfrom fuel port : within fuel (recvfrom fuel port : H X _).
Proof.
  induction fuel as [|fuel IH]; cbn [recvfrom]; apply within_get; intros s Hs.
  - instant.
  - destruct (inboxes s !! port) as [[|[from data] rest]|]; [by apply (within_bind 1 fuel); timely| |
      by apply (within_bind 1 fuel); timely].
    eapply within_weaken; [timely|lia].
Qed.

Hint Resolve within_send_reply within_recvfrom : timely.

(** A receive waits at most its timeout. *)
Lemma within_receive timeout :
  within (quanta timeout) (Tester.receive_message_within timeout : H X pyval).
Proof.
  unfold Tester.receive_message_within. apply within_get. intros s [-> Hs].
  destruct (server_socket s) as [[[] port]|]; [|done|instant].
  eapply within_weaken; [timely|lia].
Qed.

Lemma within_receive_message : within 500 (Tester.receive_message : H X pyval).
Proof. exact (within_receive 5000). Qed.

Lemma within_kill : within 0 (kill : H X unit).
Proof.
  apply within_modify. intros s Hs. destruct (process s); [|done].
  destruct (idle_read_stdout true s Hs) as [Ho Eo].
  destruct (idle_read_stderr true _ Ho) as [He Ee]. split; [done|]. cbn. congruence.
Qed.

Hint Resolve within_receive within_receive_message within_kill : timely.

Lemma within_teardown : within 0 (teardown : H X unit).
Proof. unfold teardown, stop_server. instant. Qed.

Hint Resolve within_teardown : timely.

Lemma within_setup args : within 20 (setup args : H X unit).
Proof.
  unfold setup. apply within_get. intros s Hs.
  repeat (apply (within_bind 0 20); [timely|intros ?]). timely.
Qed.

Lemma within_start_udp port : within 0 (start_server (lit "udp") port : H X unit).
Proof.
  unfold start_server. change (py_lower (lit "udp") =s? lit "tcp") with false.
  change (py_lower (lit "udp") =s? lit "udp") with true. cbv iota. unfold bind_udp. instant.
Qed.

Lemma within_execute text : within 20 (execute text : H X unit).
Proof.
  unfold execute. apply (within_bind 0 20); [timely|intros _]. apply within_get. intros s Hs.
  destruct (process s) as [p|]; [|timely]. destruct (stdin s); [| |timely].
  all: apply (within_bind 0 20); [timely|intros text'].
  all: by destruct (alive p); [apply (within_bind 0 20)|apply (within_weaken 0); [instant|lia]]; timely.
Qed.

Lemma within_get_stdout : within 0 (get_stdout : H X chars).
Proof. unfold get_stdout. instant. Qed.

Lemma within_setClientAddress address : within 0 (setClientAddress address : H X unit).
Proof. unfold setClientAddress. instant. Qed.

Lemma within_send_sigint : within 0 (send_sigint : H X unit).
Proof. unfold send_sigint. instant. Qed.

Lemma within_send_eof : within 0 (send_eof : H X unit).
Proof. unfold send_eof. instant. Qed.

Lemma within_poll : within 0 (poll : H X (option Z)).
Proof. unfold poll. instant. Qed.

Hint Resolve within_setup within_start_udp within_execute within_get_stdout
  within_setClientAddress within_send_sigint within_send_eof within_poll
  within_with_udp_socket : timely.

Lemma within_hobza_translate v : within 0 (HobzaTester.translate v : H X pyval).
Proof. unfold HobzaTester.translate. instant. Qed.

Lemma within_hobza_receive :
  within 500 (HobzaTester.receive_message : H X pyval).
Proof.
  unfold HobzaTester.receive_message, receive_message_within. apply within_get. intros s [-> Hs].
  destruct (server_socket s) as [[[] port]|]; [|done|instant].
  change (quanta 5000) with 500%nat. eapply within_weaken; [timely|lia].
Qed.

Lemma within_hobza_get_stderr : within 0 (HobzaTester.get_stderr : H X chars).
Proof. unfold get_stderr. instant. Qed.

Hint Resolve within_hobza_translate within_hobza_receive within_hobza_get_stderr : timely.

(** * The test cases *)

Lemma within_auth_and_reply : within 1060 (TestCasesUdp.auth_and_reply : H X unit).
Proof.
  unfold TestCasesUdp.auth_and_reply. eapply within_weaken; [timely|by apply Nat.leb_le].
Qed.

Lemma within_hobza_auth_and_reply : within 1060 (auth_and_reply : H X unit).
Proof.
  unfold auth_and_reply. ExecutableTester.as_later. eapply within_weaken; [timely|by apply Nat.leb_le].
Qed.

Hint Resolve within_auth_and_reply within_hobza_auth_and_reply : timely.

(** Each program's statements, walked through, and their costs added up. *)
Ltac test_by_test :=
  repeat (apply Forall2_cons; split); [..|by apply Forall2_nil]; cbn [test_func];
  match goal with |- within _ (?f _ _) => unfold f end; ExecutableTester.as_later;
  (eapply within_weaken; [timely|by apply Nat.leb_le]).

(** The UDP test cases are a part of each file. *)
Lemma testo_udp : udp_test_cases (X := X) = take 31 (drop 4 testo_tests).
Proof. reflexivity. Qed.

Lemma hobza_udp : @udp_test_cases X hobza_suite = take 20 (drop 4 hobza_tests).
Proof. reflexivity. Qed.

(** What each of them takes at most, in hundredths of a second. *)
Definition testo_costs : list nat := [
  1100; 40; 40; 40; 540; 540; 1060; 1660; 2100; 1560; 1060; 1580; 1580; 1560; 1560; 1560; 1580;
  3140; 1480; 440; 2100; 1080; 1580; 2120; 2120; 1100; 1580; 1060; 1280; 1550; 2590]%nat.

Definition hobza_costs : list nat := [
  40; 40; 40; 540; 540; 1060; 2100; 1560; 1060; 1580; 1580; 1560; 1560; 1080; 1580; 2120; 2120;
  1100; 1580; 1060]%nat.

Lemma testo_within :
  Forall2 (fun n t => within n (test_func t)) testo_costs (udp_test_cases (X := X)).
Proof. rewrite testo_udp. cbv [drop take testo_tests testo_costs]. test_by_test. Qed.

Lemma hobza_within :
  Forall2 (fun n t => within n (test_func t)) hobza_costs (@udp_test_cases X hobza_suite).
Proof. rewrite hobza_udp. cbv [drop take hobza_tests hobza_costs]. test_by_test. Qed.

End TIME.

(** * A run over UDP *)

Section RUN.

Context {X : Type} `{Executable X} `{!Suite X} `{!Suite_laws X}.
Context (colored : chars -> colour -> chars) (message_of : py_exn -> chars).

Abbreviation clock_of := (fun s : session X => now (the_tester s)).

(** What the runner does between the tests takes no time. *)
Definition same_clock (s s' : session X) : Prop := clock_of s' = clock_of s.

#[export] Instance same_clock_preorder : PreOrder same_clock.
Proof. split; [done|]. unfold same_clock. congruence. Qed.

Lemma clock_print text : respects same_clock (print text : R X unit).
Proof. apply respects_modify. by intros s. Qed.

Hint Resolve clock_print : respects.

Lemma clock_print_texts texts : respects same_clock (print_texts colored texts : R X unit).
Proof. induction texts as [|[heading text] texts IH]; cbn [print_texts]; tac_respects. Qed.

Hint Resolve clock_print_texts : respects.

Lemma clock_print_dump : respects same_clock (print_dump colored : R X unit).
Proof.
  intros s. destruct (dump_returns (the_tester s)) as (t' & texts & E & Hn).
  unfold print_dump, or_uncaught, on_tester, mbind, M_bind. rewrite E. cbn.
  unfold same_clock. rewrite (clock_print_texts texts (MkSession t' (printed s))). exact Hn.
Qed.

Hint Resolve clock_print_dump : respects.

Lemma clock_report name r : respects same_clock (report colored message_of name r : R X bool).
Proof. unfold report. destruct r as [[]|[]]; tac_respects. Qed.

Lemma clock_teardown : respects same_clock (or_uncaught (on_tester teardown) : R X unit).
Proof.
  intros s. destruct (teardown_torn_down (the_tester s)) as (t' & E & Ht).
  unfold or_uncaught, on_tester, mbind, M_bind. rewrite E. apply Ht.
Qed.

Lemma clock_print_title width name : respects same_clock (print_title colored (Ok width) name : R X unit).
Proof. unfold print_title. cbv zeta. tac_respects. Qed.

Hint Resolve clock_report clock_teardown clock_print_title : respects.

(** A test case that ends in time does so in its wrapper. *)
Lemma wrapper_within width n t s :
  within n (test_func t) -> no_tcp (the_tester s) ->
  clock_of (fst (wrapper colored message_of (Ok width) t s))
    <= clock_of s + QUANTUM * Z.of_nat n.
Proof.
  intros Ht Hs. unfold wrapper.
  destruct (print_title_prints colored width (test_name t) s) as [title E].
  rewrite (bind_ok _ _ _ _ _ E). set (s1 := MkSession (the_tester s) _).
  destruct (Ht (the_tester s) Hs) as [_ Hn He].
  assert (exists t' r, on_tester (test_func t) s1 = (MkSession t' (printed s1), Ok r)
    /\ now t' <= clock_of s + QUANTUM * Z.of_nat n) as (t' & r & E1 & Hn').
  { unfold on_tester. cbn [the_tester s1]. revert Hn He.
    destruct (test_func t (the_tester s)) as [t' [r|[e|]]]; intros [_ Hn] He; [..|by cbn in He];
      do 2 eexists; (split; [reflexivity|exact Hn]). }
  rewrite (bind_ok _ _ _ _ _ E1).
  assert (respects same_clock (passed ← report colored message_of (test_name t) r;
    _ ← print (colored (lit "Test " ++ quoted (test_name t) ++ lit " finished") Yellow);
    _ ← or_uncaught (on_tester teardown); mret passed : R X bool)) as Hr by tac_respects.
  rewrite (Hr (MkSession t' (printed s1))). exact Hn'.
Qed.

Lemma no_tcp_init time : no_tcp (X := X) (tester_init time).
Proof. done. Qed.

Lemma within_ends n (t : testcase_func X) : within n (test_func t) -> ends t.
Proof. intros Ht time. apply (Ht _ (no_tcp_init time)). Qed.

(** The tests of a list one after the other: each in a new tester. *)
Lemma run_all_within width costs ts passed s :
  Forall2 (fun n t => within n (test_func t)) costs ts ->
  clock_of (fst (run_all colored message_of (Ok width) ts passed s))
    <= clock_of s + QUANTUM * Z.of_nat (sum_list costs).
Proof.
  intros Hc. revert passed s. induction Hc as [|n t costs ts Ht Hc IH]; intros passed s.
  { quanta. }
  cbn [run_all]. rewrite (bind_ok _ _ s (MkSession (tester_init (clock_of s)) (printed s)) tt) by done.
  set (s1 := MkSession _ _).
  pose proof (wrapper_within width n t s1 Ht (no_tcp_init _)) as Hw.
  destruct (test_func t (the_tester s1)) as [t' r] eqn:E.
  assert (r <> Err Hang) as Hr.
  { destruct (Ht _ (no_tcp_init (clock_of s))) as [_ _ He]. cbn in E. by rewrite E in He. }
  pose proof (wr_result _ _ _ _ _ (wrapper_wrapped colored message_of width t s1 t' r E Hr)) as Hv.
  destruct (wrapper _ _ _ t s1) as [s2 v] eqn:Ew. cbn in Hv. subst v. cbn [fst] in Hw.
  rewrite (bind_ok _ _ _ _ _ Ew).
  specialize (IH (passed + if returned r then 1 else 0) s2).
  unfold s1 in Hw. quanta.
Qed.

(** How a run over UDP ends: with a summary, on time. *)
Definition run_ends (costs : list nat) (s : session X) (o : session X * result quit unit) : Prop :=
  snd o = Ok tt
  /\ clock_of (fst o) <= clock_of s + QUANTUM * Z.of_nat (sum_list costs)
  /\ exists times texts, length times = length costs
     /\ printed (fst o) = printed s ++ texts
          ++ [summary colored (count_passed udp_test_cases times) (Z.of_nat (length costs))].

Lemma udp_run_within width costs s :
  Forall2 (fun n t => within n (test_func t)) costs udp_test_cases ->
  run_ends costs s (run_tests colored message_of (Ok width) true false None s).
Proof.
  intros Hc. pose proof (Forall2_length _ _ _ Hc) as Hl. unfold run_tests.
  rewrite (bind_ok _ _ s (MkSession (tester_init (clock_of s)) (printed s)) tt) by done.
  set (s1 := MkSession _ _).
  assert (Forall ends udp_test_cases) as He.
  { eapply Forall2_Forall_r; [exact Hc|]. apply Forall_true. intros n t. apply within_ends. }
  destruct (run_all_counts colored message_of width udp_test_cases 0 s1 He)
    as (times & s2 & L & E & [texts P]).
  pose proof (run_all_within width costs udp_test_cases 0 s1 Hc) as Hw. rewrite E in Hw.
  rewrite (bind_ok _ _ _ _ _ E), (bind_ok _ _ s2 s2 (0 + count_passed udp_test_cases times)) by done.
  split; [done|]. split; [exact Hw|]. exists times, texts. split; [by rewrite L|].
  cbn [print_summary print modify fst printed]. rewrite P, <- app_assoc, Hl, Z.add_0_r. done.
Qed.

End RUN.

