(* ===== verification/HobzaSuite.v ===== *)
(** The test suite of hobza.py on the model of the client: the code of [Runner] and [Tester] with the
    test cases and the methods of the earlier script. *)
From S2P Require Import Prelude PyRuntime UDPMessages Args Kernel Client UdpClient Executable.
From S2P Require Import Process Tester Runner HobzaCodec HobzaTester HobzaTests HobzaRunner Suite.

#[local] Existing Instance client_under_test.
#[local] Existing Instance hobza_suite.

Definition run_hobza (argv : list chars) : session Process.process * result quit unit :=
  hobza_main uncoloured no_message (Ok 80) argv (MkSession (tester_init 0) []).

