(* ===== verification/StreamScript.v ===== *)
(** The script [python-scripts/test-tcp-stream.py]: a server for one TCP client, which sends fixed
    segments, each when the user presses Enter, over the machine of [Tester]. *)
From S2P Require Import Prelude PyRuntime Executable Tester Runner.

Section SCRIPT.

Context {X : Type} `{Executable X}.

(** What happens on the machine while the script waits: for a connection, and for Enter at a
    prompt. *)
Context (at_accept : H X unit) (at_prompt : chars -> H X unit).

Definition ADDRESS : Z := LOCALHOST.
Definition PORT : Z := 4567.

(** [print(text, end=ending)] *)
Definition print_end (text ending : chars) : R X unit := print (text ++ ending).

(** [s.replace(c, "\\" + d)] for one character *)
Definition replace_char (c d : Z) (s : chars) : chars :=
  concat (map (fun x => if x =? c then [92; d] else [x]) s).

(** [s.encode("ascii")] *)
Definition encode_ascii (s : chars) : py chars :=
  if forallb (fun c => (0 <=? c) && (c <? 128)) s then Ok s else Err UnicodeEncodeError.

(** [input()], at the prompt. *)
Definition input (prompt : chars) : R X unit := or_uncaught (on_tester (at_prompt prompt)).

(** [csock.send]; the segments are short enough to be taken whole. *)
Definition csock_send (data : chars) : H X unit :=
  s ← get;
  match connection_socket s with
  | None => raise OSError
  | Some c => send_stream c (VStr data)
  end.

Definition test (s : chars) : R X unit :=
  let escaped := replace_char CR 114 (replace_char LF 110 s) in
  let prompt := lit "Press enter to send " ++ [34] ++ escaped ++ [34] ++ lit ": " in
  _ ← print_end prompt [];
  _ ← input prompt;
  _ ← or_uncaught (on_tester (data ← of_py (encode_ascii s); csock_send data));
  print_end (lit "sent") [LF].

(** [sock.accept()] blocks until the client connects. *)
Fixpoint accept (fuel : nat) : H X unit :=
  s ← get;
  match connection_socket s with
  | Some _ => mret tt
  | None =>
      match fuel with
      | O => throw Hang
      | S fuel' => _ ← modify tick; accept fuel'
      end
  end.

(** [shutdown] of a connection the client has reset is an error; of the listening socket it is
    none. *)
Definition csock_shutdown : H X unit :=
  s ← get;
  match connection_socket s, process s with
  | Some _, Some p => if negb (alive p) && unread p then raise OSError else mret tt
  | _, _ => mret tt
  end.

Definition script : R X unit :=
  _ ← or_uncaught (on_tester (modify (set_server_socket (Some (TCP, PORT)))));
  _ ← print_end (lit "socket is bound and listening") [LF];
  _ ← or_uncaught (on_tester (_ ← at_accept; accept PATIENCE));
  _ ← print_end (lit "connected") [LF];
  _ ← test (lit "RePLy Ok ");
  _ ← test (lit "iS oK" ++ CRLF);
  _ ← test (lit "MSg FROM 2 is 2" ++ CRLF ++ lit "msg from 3 is 3" ++ CRLF
            ++ lit "msg from 4 is 4" ++ CRLF);
  _ ← test (lit "msg fROm 5 is 5" ++ CRLF ++ lit "msg from 6 is 6" ++ CRLF ++ lit "msg from 7 is");
  _ ← test (lit " 7" ++ CRLF);
  _ ← test (lit "msg from");
  _ ← test (lit " 8 is 8" ++ CRLF);
  _ ← test (lit "bYE from xd" ++ CRLF);
  let prompt := lit "Pres enter to shutdown the socket: " in
  _ ← print_end prompt [];
  _ ← input prompt;
  _ ← or_uncaught (on_tester csock_shutdown);
  _ ← or_uncaught (on_tester (modify (set_connection_socket None)));
  _ ← or_uncaught (on_tester (modify (set_server_socket None)));
  print_end [] [LF].

End SCRIPT.
