(* ===== verification/StreamSuite.v ===== *)
(** The stream script on the model of the client: the run the README reports. *)
From S2P Require Import Prelude PyRuntime Args Kernel Client Executable Process Tester Runner.
From S2P Require Import StreamScript Suite.

#[local] Existing Instance client_under_test.

(** The user: starts the client once the server listens, authenticates in the client at the first
    prompt, and presses Enter [n] quanta after every prompt. *)
Definition launch : H Process.process unit :=
  setup [lit "-t"; lit "tcp"; lit "-s"; lit "localhost"].

Definition first_prompt : chars :=
  lit "Press enter to send " ++ [34] ++ lit "RePLy Ok " ++ [34] ++ lit ": ".

Definition press_enter (n : nat) (prompt : chars) : H Process.process unit :=
  _ ← when (prompt =s? first_prompt) (execute (lit "/auth a b c"));
  sleep (QUANTUM * Z.of_nat n).

Definition run_stream (n : nat) : session Process.process * result quit unit :=
  script launch (press_enter n) (MkSession (tester_init 0) []).

(** What the client has printed, has sent and has exited with. *)
Definition observed (s : session Process.process) : option (chars * chars * option Z) :=
  (fun p => (out_bytes p, stream p, exited p)) <$> process (the_tester s).

Definition stream_output : chars :=
  lit "Action Success: oK" ++ [LF] ++ lit "2: 2" ++ [LF] ++ lit "3: 3" ++ [LF] ++ lit "4: 4" ++ [LF]
  ++ lit "5: 5" ++ [LF] ++ lit "6: 6" ++ [LF] ++ lit "7: 7" ++ [LF] ++ lit "8: 8" ++ [LF].

(** The run the README reports. *)
Definition as_reported (r : session Process.process * result quit unit) : Prop :=
  snd r = Ok tt
  /\ observed (fst r) = Some (stream_output, lit "AUTH a AS c USING b" ++ CRLF, Some 0).

Definition is_reported (r : session Process.process * result quit unit) : bool :=
  match snd r with
  | Ok _ => bool_decide (observed (fst r)
              = Some (stream_output, lit "AUTH a AS c USING b" ++ CRLF, Some 0))
  | Err _ => false
  end.

Lemma is_reported_spec r : is_reported r = true -> as_reported r.
Proof.
  unfold is_reported. destruct r as [s [[]|e]]; [|done]. intros Hr%bool_decide_eq_true. done.
Qed.

